(** * agent_orchestrator.py: the tool-calling turn loop and its tools

    A shallow embedding of [agent_orchestrator.py].  Python values that
    travel between the model and the tools are [pyval]s; the module-level
    globals, the filesystem, the process table, the console and the
    language model form one explicit [world]; every function of the source
    is a state transformer that either returns or raises.

    Conventions of the embedding:
    - text is a [string] of 8-bit characters, read as code points 0..255;
    - paths follow [posixpath]; the filesystem is a tree without links;
    - what the operating system, the operator and the language model
      answer is scripted in the [world] and consumed in order. *)

From Stdlib Require Import String Ascii List ZArith Bool Arith Lia.
From Stdlib Require Import DecimalString.
Import ListNotations.
Local Open Scope list_scope.
Local Open Scope string_scope.

(* ===================================================================== *)
(** ** Python values *)
(* ===================================================================== *)

#[warnings="-register-all"]
Inductive pyval : Type :=
| VNone
| VBool (b : bool)
| VInt (z : Z)
| VStr (s : string)
| VList (items : list pyval)
| VDict (entries : list (string * pyval)).

(** A [dict] with string keys, in insertion order. *)
Definition dict : Type := list (string * pyval).

(** [bool(v)] *)
Definition py_truthy (v : pyval) : bool :=
  match v with
  | VNone => false
  | VBool b => b
  | VInt z => negb (z =? 0)%Z
  | VStr s => negb (s =? "")
  | VList l => match l with [] => false | _ => true end
  | VDict d => match d with [] => false | _ => true end
  end.

(** [a == b]; [True == 1] as in Python, a dict compares without order. *)
Fixpoint py_eq (a b : pyval) {struct a} : bool :=
  match a, b with
  | VNone, VNone => true
  | VBool x, VBool y => Bool.eqb x y
  | VBool x, VInt y => (Z.b2z x =? y)%Z
  | VInt x, VBool y => (x =? Z.b2z y)%Z
  | VInt x, VInt y => (x =? y)%Z
  | VStr x, VStr y => (x =? y)
  | VList xs, VList ys =>
      (fix go (xs ys : list pyval) : bool :=
         match xs, ys with
         | [], [] => true
         | x :: xs', y :: ys' => py_eq x y && go xs' ys'
         | _, _ => false
         end) xs ys
  | VDict xs, VDict ys =>
      Nat.eqb (length xs) (length ys) &&
      (fix go (xs : list (string * pyval)) : bool :=
         match xs with
         | [] => true
         | (k, v) :: xs' =>
             (fix find (ys : list (string * pyval)) : bool :=
                match ys with
                | [] => false
                | (k', v') :: ys' =>
                    if (k =? k') then py_eq v v' else find ys'
                end) ys && go xs'
         end) xs
  | _, _ => false
  end.

(** [d.get(k)] as an option, [d.get(k, default)], [k in d], [d[k] = v]. *)
Fixpoint dict_find (d : dict) (k : string) : option pyval :=
  match d with
  | [] => None
  | (k', v) :: d' => if (k =? k') then Some v else dict_find d' k
  end.

Definition dict_get (d : dict) (k : string) (default : pyval) : pyval :=
  match dict_find d k with Some v => v | None => default end.

Definition dict_has (d : dict) (k : string) : bool :=
  match dict_find d k with Some _ => true | None => false end.

Fixpoint dict_set (d : dict) (k : string) (v : pyval) : dict :=
  match d with
  | [] => [(k, v)]
  | (k', v') :: d' =>
      if (k =? k') then (k', v) :: d' else (k', v') :: dict_set d' k v
  end.

(** [r.get(k, default)] on a tool result.  The loop reads a result this
    way only for [execute_shell_command],
    [start_angular_serve_and_get_initial_output] and
    [delete_file_or_directory], which return a dict on every path. *)
Definition result_get (r : pyval) (k : string) (default : pyval) : pyval :=
  match r with
  | VDict d => dict_get d k default
  | _ => default
  end.

(* ===================================================================== *)
(** ** String methods used by the source *)
(* ===================================================================== *)

(** [needle in s] *)
Fixpoint contains (needle s : string) : bool :=
  prefix needle s ||
  match s with
  | EmptyString => false
  | String _ s' => contains needle s'
  end.

(** [s.startswith(p)] is [prefix p s]. *)
Definition startswith (s p : string) : bool := prefix p s.

Fixpoint rev_string_onto (acc s : string) : string :=
  match s with
  | EmptyString => acc
  | String c s' => rev_string_onto (String c acc) s'
  end.

Definition rev_string (s : string) : string := rev_string_onto "" s.

(** [s.endswith(p)]: some suffix of [s] is [p]. *)
Fixpoint endswith (s p : string) : bool :=
  (s =? p) ||
  match s with
  | EmptyString => false
  | String _ s' => endswith s' p
  end.

(** [s.split(sep)] for a non-empty separator: [skip] counts the characters
    of a separator just matched that are still to be passed over, [cur]
    holds the piece being read, reversed. *)
Fixpoint split_on (sep : string) (skip : nat) (cur : string) (s : string)
  : list string :=
  match s with
  | EmptyString => [rev_string cur]
  | String c s' =>
      match skip with
      | S k => split_on sep k cur s'
      | O =>
          if prefix sep s
          then rev_string cur :: split_on sep (String.length sep - 1) "" s'
          else split_on sep 0 (String c cur) s'
      end
  end.

Definition py_split (s sep : string) : list string := split_on sep 0 "" s.

(** The characters below code point 256 for which [str.isspace] holds. *)
Definition is_space (c : ascii) : bool :=
  let n := nat_of_ascii c in
  ((9 <=? n) && (n <=? 13) || (28 <=? n) && (n <=? 32)
   || (n =? 133) || (n =? 160))%nat.

Fixpoint lstrip (s : string) : string :=
  match s with
  | String c s' => if is_space c then lstrip s' else s
  | EmptyString => EmptyString
  end.

(** [s.strip()] *)
Definition strip (s : string) : string :=
  rev_string (lstrip (rev_string (lstrip s))).

(** [s.split()]: the maximal runs of non-space characters. *)
Fixpoint split_ws (cur : string) (s : string) : list string :=
  match s with
  | EmptyString => if (cur =? "") then [] else [rev_string cur]
  | String c s' =>
      if is_space c
      then (if (cur =? "") then split_ws "" s'
            else rev_string cur :: split_ws "" s')
      else split_ws (String c cur) s'
  end.

Definition py_split_ws (s : string) : list string := split_ws "" s.

(** [s.lower()] on code points below 256. *)
Definition lower_char (c : ascii) : ascii :=
  let n := nat_of_ascii c in
  if ((65 <=? n) && (n <=? 90)
      || (192 <=? n) && (n <=? 222) && negb (n =? 215))%nat
  then ascii_of_nat (n + 32) else c.

Fixpoint lower (s : string) : string :=
  match s with
  | EmptyString => EmptyString
  | String c s' => String (lower_char c) (lower s')
  end.

(** [s.replace(old, new)] for a non-empty [old]. *)
Definition replace (s old new : string) : string :=
  String.concat new (py_split s old).

(** [str(n)] for an integer. *)
Definition str_of_Z (z : Z) : string := NilEmpty.string_of_int (Z.to_int z).

(** [parts.index(x)] as an option ([ValueError] is [None]). *)
Fixpoint list_index (x : string) (l : list string) : option nat :=
  match l with
  | [] => None
  | y :: l' =>
      if (x =? y) then Some 0
      else match list_index x l' with Some i => Some (S i) | None => None end
  end.

(** [any(keyword in s for keyword in keywords)] *)
Definition any_keyword_in (keywords : list string) (s : string) : bool :=
  existsb (fun k => contains k s) keywords.

(** [needle in v]: a substring test on a str, membership on a list, a key
    test on a dict; [None] stands for the [TypeError] of the other types. *)
Definition py_contains (needle : string) (v : pyval) : option bool :=
  match v with
  | VStr s => Some (contains needle s)
  | VList l => Some (existsb (py_eq (VStr needle)) l)
  | VDict d => Some (dict_has d needle)
  | _ => None
  end.

(** [str(v)], as an f-string shows a value (a str inside a container is
    quoted without escapes). *)
Fixpoint py_str_in (quoted : bool) (v : pyval) {struct v} : string :=
  match v with
  | VNone => "None"
  | VBool true => "True"
  | VBool false => "False"
  | VInt z => str_of_Z z
  | VStr s => if quoted then "'" ++ s ++ "'" else s
  | VList l =>
      "[" ++ String.concat ", " (map (py_str_in true) l) ++ "]"
  | VDict d =>
      "{" ++ String.concat ", "
               (map (fun kv => "'" ++ fst kv ++ "': " ++ py_str_in true (snd kv)) d)
          ++ "}"
  end.

Definition py_str (v : pyval) : string := py_str_in false v.

(* ===================================================================== *)
(** ** The filesystem *)
(* ===================================================================== *)

(** A file holds the text its bytes decode to as UTF-8, or [None] when
    they do not decode; a directory holds its entries in listing order. *)
#[warnings="-register-all"]
Inductive node : Type :=
| File (text : option string)
| Dir (entries : list (string * node)).

Fixpoint entry_find (es : list (string * node)) (name : string) : option node :=
  match es with
  | [] => None
  | (k, n) :: es' => if (name =? k) then Some n else entry_find es' name
  end.

Fixpoint entry_put (es : list (string * node)) (name : string) (n : node)
  : list (string * node) :=
  match es with
  | [] => [(name, n)]
  | (k, m) :: es' =>
      if (name =? k) then (k, n) :: es' else (k, m) :: entry_put es' name n
  end.

Fixpoint entry_del (es : list (string * node)) (name : string)
  : list (string * node) :=
  match es with
  | [] => []
  | (k, m) :: es' =>
      if (name =? k) then es' else (k, m) :: entry_del es' name
  end.

(** The node at an absolute, normalised list of components. *)
Fixpoint tree_lookup (t : node) (key : list string) : option node :=
  match key with
  | [] => Some t
  | c :: key' =>
      match t with
      | Dir es =>
          match entry_find es c with
          | Some m => tree_lookup m key'
          | None => None
          end
      | File _ => None
      end
  end.

(** Put [n] at [key]; the parent of [key] has to be a directory. *)
Fixpoint tree_put (t : node) (key : list string) (n : node) : option node :=
  match key with
  | [] => None
  | c :: key' =>
      match t with
      | Dir es =>
          match key' with
          | [] => Some (Dir (entry_put es c n))
          | _ :: _ =>
              match entry_find es c with
              | Some m =>
                  match tree_put m key' n with
                  | Some m' => Some (Dir (entry_put es c m'))
                  | None => None
                  end
              | None => None
              end
          end
      | File _ => None
      end
  end.

(** Remove the entry at [key], with everything below it. *)
Fixpoint tree_remove (t : node) (key : list string) : option node :=
  match key with
  | [] => None
  | c :: key' =>
      match t with
      | Dir es =>
          match entry_find es c with
          | Some m =>
              match key' with
              | [] => Some (Dir (entry_del es c))
              | _ :: _ =>
                  match tree_remove m key' with
                  | Some m' => Some (Dir (entry_put es c m'))
                  | None => None
                  end
              end
          | None => None
          end
      | File _ => None
      end
  end.

(** Where a path leads: a location (which may not exist yet), or the walk
    fails on a missing or non-directory component. *)
Inductive located : Type :=
| Target (key : list string)
| NoEnt
| NotDir.

(** Follow the components of a path from the directory [cur]. *)
Fixpoint walk (root : node) (cur : list string) (comps : list string) : located :=
  match comps with
  | [] => Target cur
  | c :: cs =>
      if (c =? "") || (c =? ".") then walk root cur cs
      else if (c =? "..") then walk root (removelast cur) cs
      else
        match cs with
        | [] => Target (cur ++ [c])%list
        | _ :: _ =>
            match tree_lookup root (cur ++ [c])%list with
            | Some (Dir _) => walk root (cur ++ [c])%list cs
            | Some (File _) => NotDir
            | None => NoEnt
            end
        end
  end.

Definition resolve (root : node) (cwd : list string) (p : string) : located :=
  if (p =? "") then NoEnt
  else walk root (if startswith p "/" then [] else cwd) (py_split p "/").

(** [posixpath.join] of two paths, and [posixpath.dirname]. *)
Definition os_path_join (a b : string) : string :=
  if startswith b "/" then b
  else if (a =? "") || endswith a "/" then a ++ b
  else a ++ "/" ++ b.

Fixpoint drop_to_slash (r : string) : string :=
  match r with
  | EmptyString => ""
  | String c r' => if (c =? "/")%char then r else drop_to_slash r'
  end.

Fixpoint lstrip_slash (r : string) : string :=
  match r with
  | String c r' => if (c =? "/")%char then lstrip_slash r' else r
  | EmptyString => ""
  end.

Definition os_path_dirname (p : string) : string :=
  let rhead := drop_to_slash (rev_string p) in
  let stripped := lstrip_slash rhead in
  if (stripped =? "") then rev_string rhead else rev_string stripped.

(** What Python raises: the class of the exception and its text. *)
Record exn : Type := Exn { exn_class : string; exn_text : string }.

Definition is_FileNotFoundError (e : exn) : bool :=
  (exn_class e =? "FileNotFoundError").

Inductive io_result (A : Type) : Type :=
| IoOk (a : A)
| IoRaise (e : exn).
Arguments IoOk {A} a.
Arguments IoRaise {A} e.

Definition enoent (p : string) : exn :=
  Exn "FileNotFoundError" ("[Errno 2] No such file or directory: '" ++ p ++ "'").
Definition enotdir (p : string) : exn :=
  Exn "NotADirectoryError" ("[Errno 20] Not a directory: '" ++ p ++ "'").
Definition eisdir (p : string) : exn :=
  Exn "IsADirectoryError" ("[Errno 21] Is a directory: '" ++ p ++ "'").
Definition eexist (p : string) : exn :=
  Exn "FileExistsError" ("[Errno 17] File exists: '" ++ p ++ "'").
Definition ebusy (p : string) : exn :=
  Exn "OSError" ("[Errno 16] Device or resource busy: '" ++ p ++ "'").
Definition edecode (p : string) : exn :=
  Exn "UnicodeDecodeError" "'utf-8' codec can't decode bytes".

Definition os_path_exists (root : node) (cwd : list string) (p : string) : bool :=
  match resolve root cwd p with
  | Target k => match tree_lookup root k with Some _ => true | None => false end
  | _ => false
  end.

Definition os_path_isdir (root : node) (cwd : list string) (p : string) : bool :=
  match resolve root cwd p with
  | Target k => match tree_lookup root k with Some (Dir _) => true | _ => false end
  | _ => false
  end.

Definition os_path_isfile (root : node) (cwd : list string) (p : string) : bool :=
  match resolve root cwd p with
  | Target k => match tree_lookup root k with Some (File _) => true | _ => false end
  | _ => false
  end.

(** Reading in text mode with the default [newline=None]: every [\r\n]
    and every lone [\r] comes back as [\n]. *)
Definition CR : ascii := ascii_of_nat 13.
Definition LF : ascii := ascii_of_nat 10.

Fixpoint universal_newlines (s : string) : string :=
  match s with
  | EmptyString => EmptyString
  | String c s' =>
      if (c =? CR)%char then
        match s' with
        | String d s'' =>
            if (d =? LF)%char then String LF (universal_newlines s'')
            else String LF (universal_newlines s')
        | EmptyString => String LF EmptyString
        end
      else String c (universal_newlines s')
  end.

(** [open(p, 'r', encoding='utf-8').read()] *)
Definition io_read_text (root : node) (cwd : list string) (p : string)
  : io_result string :=
  match resolve root cwd p with
  | NoEnt => IoRaise (enoent p)
  | NotDir => IoRaise (enotdir p)
  | Target k =>
      match tree_lookup root k with
      | None => IoRaise (enoent p)
      | Some (Dir _) => IoRaise (eisdir p)
      | Some (File None) => IoRaise (edecode p)
      | Some (File (Some t)) => IoOk (universal_newlines t)
      end
  end.

(** [open(p, 'w', encoding='utf-8')] followed by [write(text)] and the
    close: the file is created or replaced and holds [text] ([os.linesep]
    is [\n], so nothing is translated on the way out). *)
Definition io_write_text (root : node) (cwd : list string) (p text : string)
  : io_result node :=
  match resolve root cwd p with
  | NoEnt => IoRaise (enoent p)
  | NotDir => IoRaise (enotdir p)
  | Target k =>
      match tree_lookup root k with
      | Some (Dir _) => IoRaise (eisdir p)
      | _ =>
          match tree_put root k (File (Some text)) with
          | Some root' => IoOk root'
          | None => IoRaise (enoent p)
          end
      end
  end.

(** [os.makedirs(p, exist_ok=True)]: every missing directory on the way
    is created; a file on the way is an error. *)
Fixpoint mkdir_walk (p : string) (root : node) (cur : list string)
  (comps : list string) : io_result node :=
  match comps with
  | [] => IoOk root
  | c :: cs =>
      if (c =? "") || (c =? ".") then mkdir_walk p root cur cs
      else if (c =? "..") then mkdir_walk p root (removelast cur) cs
      else
        match tree_lookup root (cur ++ [c])%list with
        | Some (Dir _) => mkdir_walk p root (cur ++ [c])%list cs
        | Some (File _) =>
            match cs with
            | [] => IoRaise (eexist p)
            | _ :: _ => IoRaise (enotdir p)
            end
        | None =>
            match tree_put root (cur ++ [c])%list (Dir []) with
            | Some root' => mkdir_walk p root' (cur ++ [c])%list cs
            | None => IoRaise (enoent p)
            end
        end
  end.

Definition io_makedirs (root : node) (cwd : list string) (p : string)
  : io_result node :=
  if (p =? "") then IoRaise (enoent p)
  else mkdir_walk p root (if startswith p "/" then [] else cwd) (py_split p "/").

(** [os.listdir(p)] *)
Definition io_listdir (root : node) (cwd : list string) (p : string)
  : io_result (list string) :=
  match resolve root cwd p with
  | NoEnt => IoRaise (enoent p)
  | NotDir => IoRaise (enotdir p)
  | Target k =>
      match tree_lookup root k with
      | None => IoRaise (enoent p)
      | Some (File _) => IoRaise (enotdir p)
      | Some (Dir es) => IoOk (map fst es)
      end
  end.

(** [os.remove(p)] *)
Definition io_remove (root : node) (cwd : list string) (p : string)
  : io_result node :=
  match resolve root cwd p with
  | NoEnt => IoRaise (enoent p)
  | NotDir => IoRaise (enotdir p)
  | Target k =>
      match tree_lookup root k with
      | None => IoRaise (enoent p)
      | Some (Dir _) => IoRaise (eisdir p)
      | Some (File _) =>
          match tree_remove root k with
          | Some root' => IoOk root'
          | None => IoRaise (ebusy p)
          end
      end
  end.

Definition einval (p : string) : exn :=
  Exn "OSError" ("[Errno 22] Invalid argument: '" ++ p ++ "'").
Definition enotempty (p : string) : exn :=
  Exn "OSError" ("[Errno 39] Directory not empty: '" ++ p ++ "'").

(** The last component of a path, slashes at its end apart. *)
Definition last_component (p : string) : string :=
  last (filter (fun c => negb (c =? "")) (py_split p "/")) "".

(** [os.rmdir(p)]: the path is followed first; then a path that ends in
    [.] or in [..] is refused, and so are a directory that is not empty
    and the root. *)
Definition io_rmdir (root : node) (cwd : list string) (p : string)
  : io_result node :=
  match resolve root cwd p with
  | NoEnt => IoRaise (enoent p)
  | NotDir => IoRaise (enotdir p)
  | Target k =>
      if (last_component p =? ".") then IoRaise (einval p)
      else if (last_component p =? "..") then IoRaise (enotempty p)
      else
        match tree_lookup root k with
        | None => IoRaise (enoent p)
        | Some (File _) => IoRaise (enotdir p)
        | Some (Dir (_ :: _)) => IoRaise (enotempty p)
        | Some (Dir []) =>
            match tree_remove root k with
            | Some root' => IoOk root'
            | None => IoRaise (ebusy p)
            end
        end
  end.

(** The directory at [key] without its entries. *)
Definition tree_clear (t : node) (key : list string) : option node :=
  match key with
  | [] => match t with Dir _ => Some (Dir []) | File _ => None end
  | _ :: _ => tree_put t key (Dir [])
  end.

(** [shutil.rmtree(p)]: what the directory holds is removed first, then
    the directory itself by [os.rmdir(p)], on the path as it was given.
    Nothing in this filesystem refuses the removal of an entry, but
    [os.rmdir] may refuse the path; the directory is then left without
    its entries.  The result is the filesystem that is left and the
    exception, if there is one. *)
Definition io_rmtree (root : node) (cwd : list string) (p : string)
  : node * option exn :=
  match resolve root cwd p with
  | NoEnt => (root, Some (enoent p))
  | NotDir => (root, Some (enotdir p))
  | Target k =>
      match tree_lookup root k with
      | None => (root, Some (enoent p))
      | Some (File _) => (root, Some (enotdir p))
      | Some (Dir _) =>
          match tree_clear root k with
          | Some cleared =>
              match io_rmdir cleared cwd p with
              | IoOk root' => (root', None)
              | IoRaise e => (cleared, Some e)
              end
          | None => (root, Some (ebusy p))
          end
      end
  end.

(* ===================================================================== *)
(** ** Processes, console and language model *)
(* ===================================================================== *)

(** A [subprocess.Popen] handle with what [poll()] sees. *)
Record popen : Type := Popen { pid : Z; exited : bool }.

(** One pass of the monitoring loop: whether the process has exited when
    it is polled, and the lines the two pipes have delivered since the
    previous pass. *)
Record snapshot : Type := Snapshot {
  snap_exited : bool;
  snap_stdout : list string;
  snap_stderr : list string
}.

(** What [subprocess.run] does: the decoded output, the return code and
    the filesystem the command leaves behind, or an exception. *)
Inductive run_outcome : Type :=
| RunCompleted (stdout stderr : string) (returncode : Z) (fs_after : node)
| RunRaises (e : exn).

(** What [subprocess.Popen] does: a process, the passes the monitoring
    window leaves time for, and the lines the two pipes deliver between
    the moment [stop_event] is set and the moment the queues are emptied
    for the last time. *)
Inductive popen_outcome : Type :=
| Spawned (new_pid : Z) (window : list snapshot)
    (late_stdout late_stderr : list string)
| PopenRaises (e : exn).

(** What [wait(timeout=5)] does after [terminate()]. *)
Inductive wait_outcome : Type :=
| WaitExits
| WaitTimeoutExpired
| WaitRaises (e : exn).

(** A part of a model response. *)
Record response_part : Type := ResponsePart {
  rp_text : option string;
  rp_function_call : option (string * dict)
}.

Inductive llm_reply : Type :=
| LlmResponse (parts : list response_part)
| LlmRaises (e : exn).

(** The transcript. *)
Inductive role : Type := role_user | role_model | role_tool.

Inductive part : Type :=
| part_text (s : string)
| part_function_call (name : string) (args : dict)
| part_function_response (name : string) (result : pyval).

Record turn : Type := Turn { turn_role : role; parts : list part }.

(** What the program does to its surroundings, in order. *)
Inductive event : Type :=
| EvRequested (tool_name : string) (args : dict)
| EvExecuted (tool_name : string) (result : pyval)
| EvPrint (line : string)
| EvPrompt (line : string)
| EvRun (command cwd : pyval)
| EvPopen (command cwd : pyval)
| EvTerminate (p : Z)
| EvKill (p : Z)
| EvSleep (seconds : Z)
| EvSend (message : list part)
| EvStartChat (history : list turn)
| EvTopLevelError (e : exn).

Record world : Type := World {
  (* the module's globals *)
  CURRENT_PROJECT_PATH : option string;
  NG_SERVE_PROCESS : option popen;
  conversation_history_for_this_run : list turn;
  chat_session : option (list turn);
  (* the filesystem and the directory the script runs in *)
  fs : node;
  cwd : list string;
  (* what the surroundings will answer *)
  stdin : list string;
  run_script : list run_outcome;
  popen_script : list popen_outcome;
  wait_script : list wait_outcome;
  llm_script : list llm_reply;
  (* what has happened so far *)
  trace : list event
}.

Definition set_CURRENT_PROJECT_PATH (v : option string) (w : world) : world :=
  World v (NG_SERVE_PROCESS w) (conversation_history_for_this_run w)
    (chat_session w) (fs w) (cwd w) (stdin w) (run_script w) (popen_script w)
    (wait_script w) (llm_script w) (trace w).

Definition set_NG_SERVE_PROCESS (v : option popen) (w : world) : world :=
  World (CURRENT_PROJECT_PATH w) v (conversation_history_for_this_run w)
    (chat_session w) (fs w) (cwd w) (stdin w) (run_script w) (popen_script w)
    (wait_script w) (llm_script w) (trace w).

Definition set_history (v : list turn) (w : world) : world :=
  World (CURRENT_PROJECT_PATH w) (NG_SERVE_PROCESS w) v
    (chat_session w) (fs w) (cwd w) (stdin w) (run_script w) (popen_script w)
    (wait_script w) (llm_script w) (trace w).

Definition set_chat_session (v : option (list turn)) (w : world) : world :=
  World (CURRENT_PROJECT_PATH w) (NG_SERVE_PROCESS w)
    (conversation_history_for_this_run w)
    v (fs w) (cwd w) (stdin w) (run_script w) (popen_script w)
    (wait_script w) (llm_script w) (trace w).

Definition set_fs (v : node) (w : world) : world :=
  World (CURRENT_PROJECT_PATH w) (NG_SERVE_PROCESS w)
    (conversation_history_for_this_run w)
    (chat_session w) v (cwd w) (stdin w) (run_script w) (popen_script w)
    (wait_script w) (llm_script w) (trace w).

Definition set_stdin (v : list string) (w : world) : world :=
  World (CURRENT_PROJECT_PATH w) (NG_SERVE_PROCESS w)
    (conversation_history_for_this_run w)
    (chat_session w) (fs w) (cwd w) v (run_script w) (popen_script w)
    (wait_script w) (llm_script w) (trace w).

Definition set_run_script (v : list run_outcome) (w : world) : world :=
  World (CURRENT_PROJECT_PATH w) (NG_SERVE_PROCESS w)
    (conversation_history_for_this_run w)
    (chat_session w) (fs w) (cwd w) (stdin w) v (popen_script w)
    (wait_script w) (llm_script w) (trace w).

Definition set_popen_script (v : list popen_outcome) (w : world) : world :=
  World (CURRENT_PROJECT_PATH w) (NG_SERVE_PROCESS w)
    (conversation_history_for_this_run w)
    (chat_session w) (fs w) (cwd w) (stdin w) (run_script w) v
    (wait_script w) (llm_script w) (trace w).

Definition set_wait_script (v : list wait_outcome) (w : world) : world :=
  World (CURRENT_PROJECT_PATH w) (NG_SERVE_PROCESS w)
    (conversation_history_for_this_run w)
    (chat_session w) (fs w) (cwd w) (stdin w) (run_script w) (popen_script w)
    v (llm_script w) (trace w).

Definition set_llm_script (v : list llm_reply) (w : world) : world :=
  World (CURRENT_PROJECT_PATH w) (NG_SERVE_PROCESS w)
    (conversation_history_for_this_run w)
    (chat_session w) (fs w) (cwd w) (stdin w) (run_script w) (popen_script w)
    (wait_script w) v (trace w).

Definition set_trace (v : list event) (w : world) : world :=
  World (CURRENT_PROJECT_PATH w) (NG_SERVE_PROCESS w)
    (conversation_history_for_this_run w)
    (chat_session w) (fs w) (cwd w) (stdin w) (run_script w) (popen_script w)
    (wait_script w) (llm_script w) v.

(* ===================================================================== *)
(** ** Computations that change the world and may raise *)
(* ===================================================================== *)

Inductive outcome (A : Type) : Type :=
| Returns (a : A) (w : world)
| Raises (e : exn) (w : world).
Arguments Returns {A} a w.
Arguments Raises {A} e w.

Definition M (A : Type) : Type := world -> outcome A.

Definition ret {A : Type} (a : A) : M A := fun w => Returns a w.

Definition bind {A B : Type} (c : M A) (k : A -> M B) : M B :=
  fun w =>
    match c w with
    | Returns a w' => k a w'
    | Raises e w' => Raises e w'
    end.

Definition raise {A : Type} (e : exn) : M A := fun w => Raises e w.

(** [try: c  except Exception as e: h e] *)
Definition try_except {A : Type} (c : M A) (h : exn -> M A) : M A :=
  fun w =>
    match c w with
    | Returns a w' => Returns a w'
    | Raises e w' => h e w'
    end.

Definition get {A : Type} (f : world -> A) : M A := fun w => Returns (f w) w.

Definition modify (f : world -> world) : M unit := fun w => Returns tt (f w).

Notation "x <- c1 ;; c2" := (bind c1 (fun x => c2))
  (at level 61, c1 at next level, right associativity).
Notation "c1 ;; c2" := (bind c1 (fun _ => c2))
  (at level 61, right associativity).

Definition world_of {A : Type} (o : outcome A) : world :=
  match o with
  | Returns _ w => w
  | Raises _ w => w
  end.

Definition emit (e : event) : M unit :=
  modify (fun w => set_trace (trace w ++ [e])%list w).

Definition print (line : string) : M unit := emit (EvPrint line).

Definition of_io {A : Type} (r : io_result A) : M A :=
  match r with
  | IoOk a => ret a
  | IoRaise e => raise e
  end.

(** [input(prompt)]: the next line the operator types; end of input
    raises [EOFError]. *)
Definition input (prompt : string) : M string :=
  emit (EvPrompt prompt) ;;
  lines <- get stdin ;;
  match lines with
  | [] => raise (Exn "EOFError" "EOF when reading a line")
  | l :: rest => modify (set_stdin rest) ;; ret l
  end.

(* ===================================================================== *)
(** ** Configuration *)
(* ===================================================================== *)

Definition MAX_ERROR_FIX_ATTEMPTS : nat := 3.
Definition TOOL_RESPONSE_DELAY_SECONDS : Z := 1.

(* ===================================================================== *)
(** ** The toolset *)
(* ===================================================================== *)

Definition nl : string := String LF "".

Definition path_value (p : option string) : pyval :=
  match p with
  | Some s => VStr s
  | None => VNone
  end.

Definition py_type_name (v : pyval) : string :=
  match v with
  | VNone => "NoneType"
  | VBool _ => "bool"
  | VInt _ => "int"
  | VStr _ => "str"
  | VList _ => "list"
  | VDict _ => "dict"
  end.

(** [needle in v] as a statement of the program. *)
Definition py_in (needle : string) (v : pyval) : M bool :=
  match py_contains needle v with
  | Some b => ret b
  | None =>
      raise (Exn "TypeError"
               ("argument of type '" ++ py_type_name v ++ "' is not iterable"))
  end.

(** [os.path.join(a, b)] where [b] comes from the model. *)
Definition py_path_join (a : string) (b : pyval) : M string :=
  match b with
  | VStr s => ret (os_path_join a s)
  | _ =>
      raise (Exn "TypeError"
               ("expected str, bytes or os.PathLike object, not "
                  ++ py_type_name b))
  end.

Definition upper_char (c : ascii) : ascii :=
  let n := nat_of_ascii c in
  if ((97 <=? n) && (n <=? 122))%nat then ascii_of_nat (n - 32) else c.

Fixpoint upper (s : string) : string :=
  match s with
  | EmptyString => EmptyString
  | String c s' => String (upper_char c) (upper s')
  end.

(** The reader thread of one pipe, on the lines the pipe delivers from
    some moment on: [output_queue] is the queue as the reader finds it,
    [stop_event] tells whether the event is set by then, and the result
    is the queue as the reader leaves it.  Every line is stripped and,
    unless empty, queued behind the name of its stream; once the event is
    set, a line that finds the queue empty ends the reading, and neither
    that line nor a later one is queued.  (The copy of the line on the
    console is not recorded.  The pipe is given by the lines it delivers:
    no read of it raises, so the [except] branch is not entered, and the
    [close] at the end of the loop changes nothing that is looked at.) *)
Fixpoint _read_stream_to_queue_and_print (stream : list string)
  (stream_name : string) (output_queue : list string) (stop_event : bool)
  : list string :=
  match stream with
  | [] => output_queue
  | line_bytes :: stream' =>
      if stop_event && match output_queue with [] => true | _ :: _ => false end
      then output_queue
      else
        let line := strip line_bytes in
        let queued := "[" ++ upper stream_name ++ "] " ++ line in
        _read_stream_to_queue_and_print stream' stream_name
          (if negb (line =? "") then (output_queue ++ [queued])%list
           else output_queue)
          stop_event
  end.

(** [subprocess.run(command, shell=True, cwd=cwd, capture_output=True)]:
    a command that is a str or a sequence and a directory that is a str
    or [None] reach the operating system, whose answer is scripted;
    anything else raises before. *)
Definition subprocess_run (command cwd : pyval) : M (string * string * Z) :=
  match command, cwd with
  | (VStr _ | VList _ | VDict _), (VNone | VStr _) =>
      emit (EvRun command cwd) ;;
      script <- get run_script ;;
      match script with
      | RunCompleted out err code fs' :: rest =>
          modify (fun w => set_fs fs' (set_run_script rest w)) ;;
          ret (out, err, code)
      | RunRaises e :: rest => modify (set_run_script rest) ;; raise e
      | [] => raise (Exn "OSError" "[Errno 11] Resource temporarily unavailable")
      end
  | _, _ =>
      raise (Exn "TypeError" "expected str, bytes or os.PathLike object")
  end.

Definition ng_new_project_name (parts : list string) : option string :=
  match list_index "new" parts with
  | Some ng_new_index =>
      match nth_error parts (ng_new_index + 1) with
      | Some project_name =>
          if startswith project_name "--" then None else Some project_name
      | None => None
      end
  | None => None
  end.

(** [command.split()] *)
Definition py_split_method (v : pyval) : M (list string) :=
  match v with
  | VStr s => ret (py_split_ws s)
  | _ =>
      raise (Exn "AttributeError"
               ("'" ++ py_type_name v ++ "' object has no attribute 'split'"))
  end.

Definition execute_shell_command (command working_directory : pyval) : M pyval :=
  cpp <- get CURRENT_PROJECT_PATH ;;
  early <-
    match working_directory with
    | VNone =>
        if py_truthy (path_value cpp) then ret (inr (path_value cpp))
        else
          is_new <- py_in "ng new" command ;;
          if negb is_new then
            print "Error: No working directory specified for execute_shell_command and CURRENT_PROJECT_PATH is not set." ;;
            ret (inl (VDict [("stdout", VStr "");
                             ("stderr", VStr "Error: Working directory not set.");
                             ("exit_code", VInt 1)]))
          else ret (inr VNone)
    | _ => ret (inr working_directory)
    end ;;
  match early with
  | inl result_dict => ret result_dict
  | inr resolved_working_directory =>
      print ("Executing command (will wait for completion): '"
               ++ py_str command ++ "' in '"
               ++ (if py_truthy resolved_working_directory
                   then py_str resolved_working_directory
                   else "parent dir for ng new") ++ "'") ;;
      is_ng_new_command <- py_in "ng new" command ;;
      let original_project_path_for_ng_new := resolved_working_directory in
      try_except
        (process <- subprocess_run command resolved_working_directory ;;
         let '(stdout_str, stderr_str, returncode) := process in
         print ("STDOUT:" ++ nl ++ stdout_str) ;;
         (if negb (stderr_str =? "") then print ("STDERR:" ++ nl ++ stderr_str)
          else ret tt) ;;
         let result_dict :=
           [("stdout", VStr stdout_str); ("stderr", VStr stderr_str);
            ("exit_code", VInt returncode)] in
         if is_ng_new_command && (returncode =? 0)%Z then
           parts <- py_split_method command ;;
           match ng_new_project_name parts with
           | Some project_name =>
               if py_truthy original_project_path_for_ng_new then
                 new_project_full_path <-
                   match original_project_path_for_ng_new with
                   | VStr dir => ret (os_path_join dir project_name)
                   | _ => raise (Exn "TypeError" "expected str, bytes or os.PathLike object")
                   end ;;
                 root <- get fs ;;
                 here <- get cwd ;;
                 if os_path_isdir root here new_project_full_path then
                   modify (set_CURRENT_PROJECT_PATH (Some new_project_full_path)) ;;
                   print ("[AGENT] 'ng new' successful. CURRENT_PROJECT_PATH updated to: "
                            ++ new_project_full_path) ;;
                   ret (VDict (dict_set
                                 (dict_set result_dict "new_project_path_set"
                                    (VStr new_project_full_path))
                                 "context_changed_project_path" (VBool true)))
                 else
                   print ("[AGENT] 'ng new' reported success, but project directory '"
                            ++ new_project_full_path
                            ++ "' not found. CURRENT_PROJECT_PATH not updated.") ;;
                   ret (VDict (dict_set result_dict "stderr"
                                 (VStr (strip (stderr_str ++
                                    " Warning: Project directory not found post-execution.")))))
               else ret (VDict result_dict)
           | None => ret (VDict result_dict)
           end
         else ret (VDict result_dict))
        (fun e =>
           if is_FileNotFoundError e then
             let err_msg :=
               "Error: Command or path incorrect. Could not execute in '"
                 ++ py_str resolved_working_directory ++ "'." in
             print err_msg ;;
             ret (VDict [("stdout", VStr ""); ("stderr", VStr err_msg);
                         ("exit_code", VInt 127)])
           else
             let err_msg :=
               "An error occurred while executing command '"
                 ++ py_str command ++ "': " ++ exn_text e in
             print err_msg ;;
             ret (VDict [("stdout", VStr ""); ("stderr", VStr err_msg);
                         ("exit_code", VInt 1)]))
  end.

(** [subprocess.Popen(command, shell=True, cwd=cwd, ...)], stored in
    [NG_SERVE_PROCESS] when it succeeds.  The result is what the
    monitoring that follows will observe. *)
Definition subprocess_Popen (command cwd : pyval)
  : M (Z * list snapshot * list string * list string) :=
  match command, cwd with
  | (VStr _ | VList _ | VDict _), (VNone | VStr _) =>
      emit (EvPopen command cwd) ;;
      script <- get popen_script ;;
      match script with
      | Spawned new_pid window late_out late_err :: rest =>
          modify (fun w =>
                    set_NG_SERVE_PROCESS (Some (Popen new_pid false))
                      (set_popen_script rest w)) ;;
          ret (new_pid, window, late_out, late_err)
      | PopenRaises e :: rest => modify (set_popen_script rest) ;; raise e
      | [] => raise (Exn "OSError" "[Errno 11] Resource temporarily unavailable")
      end
  | _, _ =>
      raise (Exn "TypeError" "expected str, bytes or os.PathLike object")
  end.

(** The inner loop over [stdout_queue]: it stops at the first line that
    carries a success marker and leaves the rest in the queue. *)
Fixpoint drain_stdout (queue : list string) (status : string)
  (collected_stdout : list string) : list string * string * list string :=
  match queue with
  | [] => ([], status, collected_stdout)
  | line :: queue' =>
      let collected := (collected_stdout ++ [line])%list in
      if contains "Compiled successfully" line
         || contains "successfully built" (lower line)
      then (queue', "compiled_successfully", collected)
      else drain_stdout queue' status collected
  end.

(** The inner loop over [stderr_queue]. *)
Fixpoint drain_stderr (queue : list string) (status : string)
  (collected_stderr : list string) : string * list string :=
  match queue with
  | [] => (status, collected_stderr)
  | line :: queue' =>
      drain_stderr queue'
        (if contains "ERROR" line || contains "Error" line
         then "error_during_startup" else status)
        (collected_stderr ++ [line])%list
  end.

Record monitoring : Type := Monitoring {
  status : string;
  stdout_queue : list string;
  stderr_queue : list string;
  collected_stdout : list string;
  collected_stderr : list string;
  polled_exit : bool
}.

(** The [while time.time() - start_time < monitor_duration_seconds] loop,
    one [snapshot] per pass. *)
Fixpoint monitor (window : list snapshot) (m : monitoring) : monitoring :=
  match window with
  | [] => m
  | s :: window' =>
      let out_q :=
        _read_stream_to_queue_and_print (snap_stdout s) "stdout"
          (stdout_queue m) false in
      let err_q :=
        _read_stream_to_queue_and_print (snap_stderr s) "stderr"
          (stderr_queue m) false in
      if snap_exited s then
        Monitoring "error_during_startup" out_q err_q
          (collected_stdout m) (collected_stderr m) true
      else
        let '(out_q', status1, out) :=
          drain_stdout out_q (status m) (collected_stdout m) in
        let '(status2, err) :=
          drain_stderr err_q status1 (collected_stderr m) in
        let m' := Monitoring status2 out_q' [] out err false in
        if (status2 =? "compiled_successfully") then m'
        else monitor window' m'
  end.

(** The passes the window leaves time for: none when the duration is not
    positive; comparing a number with anything else raises. *)
Definition passes_of_window (monitor_duration_seconds : pyval)
  (window : list snapshot) : option (list snapshot) :=
  match monitor_duration_seconds with
  | VInt n => Some (if (n <=? 0)%Z then [] else window)
  | VBool b => Some (if b then window else [])
  | _ => None
  end.

Definition monitoring_window (monitor_duration_seconds : pyval)
  (window : list snapshot) : M (list snapshot) :=
  match passes_of_window monitor_duration_seconds window with
  | Some passes => ret passes
  | None =>
      raise (Exn "TypeError"
               ("'<' not supported between instances of 'float' and '"
                  ++ py_type_name monitor_duration_seconds ++ "'"))
  end.

(** [NG_SERVE_PROCESS and NG_SERVE_PROCESS.poll() is None], with the pid
    of the process when it holds. *)
Definition alive_pid (process : option popen) : option Z :=
  match process with
  | Some (Popen running_pid false) => Some running_pid
  | _ => None
  end.

Definition start_angular_serve_and_get_initial_output
  (command working_directory monitor_duration_seconds : pyval) : M pyval :=
  cpp <- get CURRENT_PROJECT_PATH ;;
  match (match working_directory with
         | VNone =>
             if py_truthy (path_value cpp) then Some (path_value cpp) else None
         | _ => Some working_directory
         end) with
  | None =>
      ret (VDict [("status", VStr "error");
                  ("message", VStr "Working directory not set.");
                  ("pid", VNone);
                  ("initial_stdout_log", VStr "");
                  ("initial_stderr_log", VStr "")])
  | Some resolved_working_directory =>
      proc <- get NG_SERVE_PROCESS ;;
      match alive_pid proc with
      | Some running_pid =>
          let msg :=
            "'ng serve' (PID: " ++ str_of_Z running_pid
              ++ ") seems to be already running. Please use 'stop server' first if you want to restart." in
          print ("[AGENT] " ++ msg) ;;
          ret (VDict [("status", VStr "already_running");
                      ("command", VStr "ng serve");
                      ("pid", VInt running_pid);
                      ("message", VStr msg);
                      ("initial_stdout_log", VStr "");
                      ("initial_stderr_log", VStr "")])
      | None =>
          print ("Starting Angular serve: '" ++ py_str command ++ "' in '"
                   ++ py_str resolved_working_directory ++ "'") ;;
          print ("Monitoring initial output for ~"
                   ++ py_str monitor_duration_seconds ++ " seconds...") ;;
          try_except
            (spawned <- subprocess_Popen command resolved_working_directory ;;
             let '(new_pid, window, late_out, late_err) := spawned in
             print ("Process '" ++ py_str command ++ "' started with PID: "
                      ++ str_of_Z new_pid ++ ".") ;;
             passes <- monitoring_window monitor_duration_seconds window ;;
             let m := monitor passes (Monitoring "compiling" [] [] [] [] false) in
             modify (set_NG_SERVE_PROCESS (Some (Popen new_pid (polled_exit m)))) ;;
             let all_stdout :=
               (collected_stdout m
                  ++ _read_stream_to_queue_and_print late_out "stdout"
                       (stdout_queue m) true)%list in
             let all_stderr :=
               (collected_stderr m
                  ++ _read_stream_to_queue_and_print late_err "stderr"
                       (stderr_queue m) true)%list in
             let final_message :=
               "Angular serve command '" ++ py_str command ++ "' initiated. " in
             let '(final_status, final_message) :=
               if (status m =? "compiled_successfully") then
                 (status m,
                  final_message ++ "Initial compilation reported as successful. Monitor terminal for ongoing logs. App should be at http://localhost:4200.")
               else if (status m =? "error_during_startup") then
                 (status m,
                  final_message ++ "Errors detected during initial startup. See logs. Monitor terminal for ongoing logs.")
               else
                 ("compiling_or_timeout",
                  final_message ++ "Initial monitoring period of "
                    ++ py_str monitor_duration_seconds
                    ++ "s ended. Status is 'compiling_or_timeout'. Monitor terminal for ongoing logs and report any errors. App may be at http://localhost:4200 if compilation completes.") in
             ret (VDict [("status", VStr final_status);
                         ("command", command);
                         ("pid", VInt new_pid);
                         ("message", VStr final_message);
                         ("initial_stdout_log", VStr (String.concat nl all_stdout));
                         ("initial_stderr_log", VStr (String.concat nl all_stderr))]))
            (fun e =>
               if is_FileNotFoundError e then
                 let err_msg :=
                   "Error: Command or path incorrect. Could not execute in '"
                     ++ py_str resolved_working_directory ++ "'." in
                 print err_msg ;;
                 ret (VDict [("status", VStr "error"); ("message", VStr err_msg);
                             ("pid", VNone); ("initial_stdout_log", VStr "");
                             ("initial_stderr_log", VStr err_msg)])
               else
                 let err_msg :=
                   "An error occurred while starting command '"
                     ++ py_str command ++ "': " ++ exn_text e in
                 print err_msg ;;
                 ret (VDict [("status", VStr "error"); ("message", VStr err_msg);
                             ("pid", VNone); ("initial_stdout_log", VStr "");
                             ("initial_stderr_log", VStr (exn_text e))]))
      end
  end.

(** [NG_SERVE_PROCESS.wait(timeout=5)] *)
Definition wait_for_exit : M wait_outcome :=
  script <- get wait_script ;;
  match script with
  | o :: rest => modify (set_wait_script rest) ;; ret o
  | [] => ret WaitExits
  end.

Definition stop_angular_server : M pyval :=
  proc <- get NG_SERVE_PROCESS ;;
  match alive_pid proc with
  | Some running_pid =>
      print ("[AGENT] Attempting to terminate 'ng serve' process (PID: "
               ++ str_of_Z running_pid ++ ")...") ;;
      emit (EvTerminate running_pid) ;;
      o <- wait_for_exit ;;
      match o with
      | WaitExits =>
          print "[AGENT] 'ng serve' process terminated." ;;
          modify (set_NG_SERVE_PROCESS None) ;;
          ret (VDict [("status", VStr "stopped");
                      ("message", VStr "'ng serve' process terminated successfully.")])
      | WaitTimeoutExpired =>
          print "[AGENT] 'ng serve' process did not terminate gracefully, attempting to kill." ;;
          emit (EvKill running_pid) ;;
          modify (set_NG_SERVE_PROCESS None) ;;
          print "[AGENT] 'ng serve' process killed." ;;
          ret (VDict [("status", VStr "killed");
                      ("message", VStr "'ng serve' process killed.")])
      | WaitRaises e =>
          print ("[AGENT] Error stopping 'ng serve': " ++ exn_text e) ;;
          ret (VDict [("status", VStr "error");
                      ("message", VStr ("Error stopping 'ng serve': " ++ exn_text e))])
      end
  | None =>
      print "[AGENT] 'ng serve' process not found or not running." ;;
      ret (VDict [("status", VStr "not_running");
                  ("message", VStr "'ng serve' process not found or not running.")])
  end.

Definition read_file (relative_filepath : pyval) : M pyval :=
  cpp <- get CURRENT_PROJECT_PATH ;;
  if py_truthy (path_value cpp) then
    full_path <- py_path_join
                   (match cpp with Some p => p | None => "" end)
                   relative_filepath ;;
    print ("Reading file: " ++ full_path) ;;
    try_except
      (root <- get fs ;;
       here <- get cwd ;;
       content <- of_io (io_read_text root here full_path) ;;
       ret (VStr content))
      (fun e =>
         if is_FileNotFoundError e
         then ret (VStr ("Error: File not found at " ++ full_path))
         else ret (VStr ("Error reading file " ++ full_path ++ ": "
                           ++ exn_text e)))
  else ret (VStr "Error: CURRENT_PROJECT_PATH is not set. Cannot read file.").

(** [f.write(content)] on the file just opened for writing: a value that
    is not a str raises after the file has been created or emptied. *)
Definition write_opened (full_path : string) (content : pyval) : M unit :=
  root <- get fs ;;
  here <- get cwd ;;
  match content with
  | VStr s =>
      root' <- of_io (io_write_text root here full_path s) ;;
      modify (set_fs root')
  | _ =>
      root' <- of_io (io_write_text root here full_path "") ;;
      modify (set_fs root') ;;
      raise (Exn "TypeError"
               ("write() argument must be str, not " ++ py_type_name content))
  end.

Definition write_file (relative_filepath content : pyval) : M pyval :=
  cpp <- get CURRENT_PROJECT_PATH ;;
  if py_truthy (path_value cpp) then
    full_path <- py_path_join
                   (match cpp with Some p => p | None => "" end)
                   relative_filepath ;;
    print ("Writing to file: " ++ full_path) ;;
    try_except
      (root <- get fs ;;
       here <- get cwd ;;
       root' <- of_io (io_makedirs root here (os_path_dirname full_path)) ;;
       modify (set_fs root') ;;
       write_opened full_path content ;;
       print ("Successfully wrote to " ++ full_path) ;;
       ret (VBool true))
      (fun e =>
         print ("Error writing file " ++ full_path ++ ": " ++ exn_text e) ;;
         ret (VBool false))
  else
    print "Error: CURRENT_PROJECT_PATH is not set. Cannot write file." ;;
    ret (VBool false).

(** [input(...)] until the answer is yes or no.  Each pass reads the next
    line of the console, as [input] does. *)
Fixpoint ask_until_answered (prompt : string) (lines : list string) : M pyval :=
  emit (EvPrompt prompt) ;;
  match lines with
  | [] => raise (Exn "EOFError" "EOF when reading a line")
  | l :: rest =>
      modify (set_stdin rest) ;;
      let response := strip (lower l) in
      if (response =? "yes") then ret (VBool true)
      else if (response =? "no") then ret (VBool false)
      else
        print "Invalid input. Please enter 'yes' or 'no'." ;;
        ask_until_answered prompt rest
  end.

Definition ask_user_confirmation (prompt_message : pyval) : M pyval :=
  lines <- get stdin ;;
  ask_until_answered
    ("CONFIRMATION REQUIRED BY AGENT: " ++ py_str prompt_message
       ++ " (yes/no): ")
    lines.

Definition list_directory_contents (relative_path : pyval) : M pyval :=
  cpp <- get CURRENT_PROJECT_PATH ;;
  if py_truthy (path_value cpp) then
    full_path <- py_path_join
                   (match cpp with Some p => p | None => "" end)
                   relative_path ;;
    print ("Listing directory: " ++ full_path) ;;
    try_except
      (root <- get fs ;;
       here <- get cwd ;;
       items <- of_io (io_listdir root here full_path) ;;
       let contents :=
         map (fun item =>
                let item_path := os_path_join full_path item in
                let item_type :=
                  if os_path_isdir root here item_path
                  then "directory" else "file" in
                VDict [("name", VStr item); ("type", VStr item_type)])
             items in
       ret (VDict [("success", VBool true); ("path", VStr full_path);
                   ("contents", VList contents)]))
      (fun e =>
         if is_FileNotFoundError e
         then ret (VDict [("error", VStr ("Directory not found at " ++ full_path));
                          ("contents", VList [])])
         else ret (VDict [("error", VStr ("Error listing directory " ++ full_path
                                            ++ ": " ++ exn_text e));
                          ("contents", VList [])]))
  else
    ret (VDict [("error", VStr "CURRENT_PROJECT_PATH is not set.");
                ("contents", VList [])]).

Definition delete_file_or_directory (relative_path : pyval) : M pyval :=
  cpp <- get CURRENT_PROJECT_PATH ;;
  if py_truthy (path_value cpp) then
    full_path <- py_path_join
                   (match cpp with Some p => p | None => "" end)
                   relative_path ;;
    print ("[DANGER] Attempting to delete: " ++ full_path) ;;
    root <- get fs ;;
    here <- get cwd ;;
    if negb (os_path_exists root here full_path) then
      ret (VDict [("status", VStr "error");
                  ("message", VStr ("Path not found: " ++ full_path))])
    else
      try_except
        (if os_path_isfile root here full_path then
           root' <- of_io (io_remove root here full_path) ;;
           modify (set_fs root') ;;
           let message := "Successfully deleted file: " ++ full_path in
           print ("[AGENT] " ++ message) ;;
           ret (VDict [("status", VStr "success"); ("message", VStr message)])
         else if os_path_isdir root here full_path then
           let '(root', failure) := io_rmtree root here full_path in
           modify (set_fs root') ;;
           match failure with
           | Some e => raise e
           | None => ret tt
           end ;;
           let message :=
             "Successfully deleted directory (and its contents): " ++ full_path in
           print ("[AGENT] " ++ message) ;;
           ret (VDict [("status", VStr "success"); ("message", VStr message)])
         else
           ret (VDict [("status", VStr "error");
                       ("message", VStr ("Path is not a file or directory: "
                                           ++ full_path))]))
        (fun e =>
           let error_message :=
             "Error deleting " ++ full_path ++ ": " ++ exn_text e in
           print ("[AGENT] " ++ error_message) ;;
           ret (VDict [("status", VStr "error");
                       ("message", VStr error_message)]))
  else
    ret (VDict [("status", VStr "error");
                ("message", VStr "CURRENT_PROJECT_PATH is not set.")]).

(** A tool as Python sees it: its parameters, each with its default when
    it has one, and its body on the values bound to them. *)
Record tool_function : Type := ToolFunction {
  parameters : list (string * option pyval);
  body : list pyval -> M pyval
}.

Definition arg (i : nat) (values : list pyval) : pyval := nth i values VNone.

(** [execute_shell_command] as a value of the registry. *)
Definition registered_execute_shell_command : tool_function :=
  ToolFunction [("command", None); ("working_directory", Some VNone)]
    (fun a => execute_shell_command (arg 0 a) (arg 1 a)).

Definition available_tools_python_functions : list (string * tool_function) :=
  [ ("execute_shell_command", registered_execute_shell_command);
    ("start_angular_serve_and_get_initial_output",
     ToolFunction [("command", None); ("working_directory", Some VNone);
                   ("monitor_duration_seconds", Some (VInt 20))]
       (fun a => start_angular_serve_and_get_initial_output
                   (arg 0 a) (arg 1 a) (arg 2 a)));
    ("stop_angular_server",
     ToolFunction [] (fun _ => stop_angular_server));
    ("write_file",
     ToolFunction [("relative_filepath", None); ("content", None)]
       (fun a => write_file (arg 0 a) (arg 1 a)));
    ("read_file",
     ToolFunction [("relative_filepath", None)]
       (fun a => read_file (arg 0 a)));
    ("list_directory_contents",
     ToolFunction [("relative_path", Some (VStr "."))]
       (fun a => list_directory_contents (arg 0 a)));
    ("delete_file_or_directory",
     ToolFunction [("relative_path", None)]
       (fun a => delete_file_or_directory (arg 0 a)));
    ("ask_user_confirmation",
     ToolFunction [("prompt_message", None)]
       (fun a => ask_user_confirmation (arg 0 a))) ].

Fixpoint registry_find (tools : list (string * tool_function)) (name : string)
  : option tool_function :=
  match tools with
  | [] => None
  | (k, f) :: tools' => if (name =? k) then Some f else registry_find tools' name
  end.

(** A call that unpacks a dict into keyword arguments, as the loop calls
    a tool: a keyword that names no parameter, or a parameter
    without default that gets no value, raises [TypeError] before the body
    runs. *)
Fixpoint unexpected_keyword (params : list (string * option pyval))
  (kwargs : dict) : option string :=
  match kwargs with
  | [] => None
  | (k, _) :: kwargs' =>
      if existsb (fun p => (k =? fst p)) params
      then unexpected_keyword params kwargs'
      else Some k
  end.

Fixpoint bind_parameters (fname : string)
  (params : list (string * option pyval)) (kwargs : dict)
  : exn + list pyval :=
  match params with
  | [] => inr []
  | (name, default) :: params' =>
      match
        match dict_find kwargs name with
        | Some v => Some v
        | None => default
        end
      with
      | Some v =>
          match bind_parameters fname params' kwargs with
          | inr values => inr (v :: values)
          | inl e => inl e
          end
      | None =>
          inl (Exn "TypeError"
                 (fname ++ "() missing 1 required positional argument: '"
                    ++ name ++ "'"))
      end
  end.

Definition call_with_kwargs (fname : string) (f : tool_function)
  (kwargs : dict) : M pyval :=
  match unexpected_keyword (parameters f) kwargs with
  | Some k =>
      raise (Exn "TypeError"
               (fname ++ "() got an unexpected keyword argument '" ++ k ++ "'"))
  | None =>
      match bind_parameters fname (parameters f) kwargs with
      | inr values => body f values
      | inl e => raise e
      end
  end.

(* ===================================================================== *)
(** ** The chat session *)
(* ===================================================================== *)

(** The standing instructions, with a placeholder for the project path. *)
Definition system_prompt_text_template : string :=
  "You are an expert Angular development assistant AI. Your primary f"
  ++ "unction is to understand user tasks related to Angular development"
  ++ " and break them down into a sequence of available tool calls to ac"
  ++ "hieve the user's goal. You have full access to the user's project "
  ++ "files and folders *through the tools provided*. Available tools: `"
  ++ "execute_shell_command`, `start_angular_serve_and_get_initial_outpu"
  ++ "t`, `stop_angular_server`, `read_file`, `write_file`, `list_direct"
  ++ "ory_contents`, `delete_file_or_directory`, `ask_user_confirmation`"
  ++ ". The current Angular project path you should operate on is: '{cur"
  ++ "rent_project_path_placeholder}'. If this is 'Not set' and a comman"
  ++ "d requires a project path (like reading a file or 'ng generate' no"
  ++ "t via 'ng new'), you MUST first inform the user that the path is n"
  ++ "ot set and ask them to provide it. Do not attempt tool calls that "
  ++ "require a project path if it's not set. Do not guess the project p"
  ++ "ath. CORE PRINCIPLE OF TOOL USAGE: To perform ANY action or gather"
  ++ " ANY information related to the user's project (e.g., reading file"
  ++ "s, writing files, creating components, running CLI commands, listi"
  ++ "ng directories, deleting files), you MUST use the appropriate tool"
  ++ " by requesting a function call. Do not state that you *would* do s"
  ++ "omething, or that you *cannot* do something because you don't have"
  ++ " direct access; instead, formulate a plan to use your available to"
  ++ "ols to achieve the task. If a user asks you to 'modify file X', yo"
  ++ "ur first step is to use the 'read_file' tool for file X, then prop"
  ++ "ose changes, then (after confirmation) use 'write_file'. Strive to"
  ++ " minimize back-and-forth. If a task clearly requires multiple piec"
  ++ "es of information (e.g., reading several files to understand an er"
  ++ "ror), try to request all necessary `read_file` operations in one t"
  ++ "urn if your plan requires it. Similarly, after gathering informati"
  ++ "on, try to formulate a complete solution or next major action (lik"
  ++ "e a full code fix to be written) rather than many small interrogat"
  ++ "ive steps, unless clarification is genuinely needed.YOUR GENERAL W"
  ++ "ORKFLOW FOR ANY USER TASK: 1.  ANALYZE THE TASK: Understand the us"
  ++ "er's specific goal. 2.  GATHER INFORMATION (Proactively use tools)"
  ++ ": If the task requires understanding existing file content, projec"
  ++ "t structure, or current state, your FIRST step is to request the '"
  ++ "read_file' or 'list_directory_contents' tools. For example, if ask"
  ++ "ed to 'modify a component', first use 'read_file' to get its curre"
  ++ "nt content. If asked to 'remove unnecessary files', first use 'lis"
  ++ "t_directory_contents'. Do NOT ask the user to provide file content"
  ++ "s or paths if you can reasonably infer them or discover them with "
  ++ "'list_directory_contents' and then read them with 'read_file'.    "
  ++ " - FILE PATH INFERENCE: For common Angular files (e.g., 'app.compo"
  ++ "nent.ts', 'angular.json', 'app.routes.ts', 'main.ts', 'styles.scss"
  ++ "'), try to infer their standard relative paths (e.g., 'src/app/app"
  ++ ".component.ts', 'angular.json'). Use 'read_file' with these inferr"
  ++ "ed paths. If CURRENT_PROJECT_PATH is set, all relative paths are f"
  ++ "rom there.     - If a file path is ambiguous or you cannot confide"
  ++ "ntly infer it, use 'list_directory_contents' on likely parent dire"
  ++ "ctories (e.g., 'src/app') to help locate it, or then ask the user "
  ++ "for the specific relative filepath if listing doesn't clarify. 3. "
  ++ " PLAN THE STEPS: Briefly outline the sequence of tool calls needed"
  ++ ". For simple, direct commands (e.g., 'ng generate component X'), y"
  ++ "ou can often proceed directly to requesting the tool execution aft"
  ++ "er ensuring pre-conditions like project path are met. 4.  REQUEST "
  ++ "TOOL EXECUTION (via Function Calls):     - COMMAND EXECUTION POLIC"
  ++ "Y: For standard CLI actions (e.g., 'ng generate component MyCompon"
  ++ "ent', 'ng build', 'npm install some-package' WITHOUT risky flags, "
  ++ "'ng serve', 'stop_angular_server'), if the user's intent is clear "
  ++ "and pre-conditions (like project path) are met, directly request t"
  ++ "he appropriate execution tool. You generally DO NOT need to use 'a"
  ++ "sk_user_confirmation' for these standard commands unless the user'"
  ++ "s request is ambiguous, implies an unusually large/risky operation"
  ++ ", or 'MANDATORY CONFIRMATIONS' applies. The user's direct instruct"
  ++ "ion is the primary confirmation for these.     - MANDATORY CONFIRM"
  ++ "ATIONS: You MUST request 'ask_user_confirmation' BEFORE requesting"
  ++ ": 'write_file' (always!), 'execute_shell_command' for 'ng new', 'e"
  ++ "xecute_shell_command' for 'npm install' or 'ng add' WITH risky fla"
  ++ "gs (e.g., '--force', '--legacy-peer-deps', '-g'), 'delete_file_or_"
  ++ "directory'. The confirmation message MUST be specific and state th"
  ++ "e exact action and path.     - HANDLING USER INSISTENCE ON RISKY A"
  ++ "CTIONS: If you've warned about a risky action and suggested a safe"
  ++ "r alternative, and the user EXPLICITLY insists on the risky action"
  ++ ", then you MUST first use 'ask_user_confirmation' detailing the EX"
  ++ "ACT risky command/action. If confirmed, then request the tool call"
  ++ ". 5.  PROCESS TOOL RESULTS: Analyze the result from the executed t"
  ++ "ool. 6.  CONTINUE OR COMPLETE: Based on the tool result, decide th"
  ++ "e next step: request another tool call, generate more code to be w"
  ++ "ritten (and then plan to write it), or provide a final response. I"
  ++ "NTERACTIVE CLI COMMANDS (like 'ng add @angular/material'): 1. When"
  ++ " the user asks to use a command like 'ng add @angular/material' wh"
  ++ "ich is known to require interactive prompts (like choosing a theme"
  ++ ", setting up typography, browser animations), you should first att"
  ++ "empt to construct the command with common non-interactive defaults"
  ++ " if possible. For example, for 'ng add @angular/material', you mig"
  ++ "ht assume a default theme (e.g., indigo-pink) and typography setup"
  ++ ". 2. Before executing, you MUST inform the user of the defaults yo"
  ++ "u are assuming (e.g., 'I will attempt to install Angular Material "
  ++ "with the indigo-pink theme and default typography settings.'). 3. "
  ++ "Then, you MUST use the 'ask_user_confirmation' tool to confirm if "
  ++ "the user is okay with these defaults and with running the command."
  ++ " 4. If the user confirms, then request 'execute_shell_command' wit"
  ++ "h the fully constructed command including any non-interactive flag"
  ++ "s you've determined. 5. If such non-interactive flags are unknown "
  ++ "or insufficient, or if the command still fails with a 'No terminal"
  ++ " detected' error, then inform the user that the command requires m"
  ++ "anual interaction and they should run it in their own terminal. As"
  ++ "k them to report back when they have completed it. Do not repeated"
  ++ "ly try the command if it fails due to interactivity. SPECIFIC TOOL"
  ++ " NOTES: 'start_angular_serve_and_get_initial_output': After this t"
  ++ "ool returns 'status: started' or 'compiled_successfully', inform t"
  ++ "he user 'ng serve' is running, they should monitor their terminal "
  ++ "for output and report any subsequent errors back to you. Your task"
  ++ " of *starting* the server is then complete for that specific reque"
  ++ "st. 'delete_file_or_directory': If user asks to 'remove unnecessar"
  ++ "y files', first use 'list_directory_contents', then present candid"
  ++ "ates to the user, ask if they want to delete any *specific path*, "
  ++ "then use 'ask_user_confirmation' for that specific path, then call"
  ++ " 'delete_file_or_directory'. ERROR HANDLING & FIXING WORKFLOW (if "
  ++ "a command via 'execute_shell_command' or 'start_angular_serve_and_"
  ++ "get_initial_output' fails): 1. Inform user. Analyze 'stderr'. Iden"
  ++ "tify problematic file(s). 2. Use 'read_file' to get content of sus"
  ++ "pected file(s). 3. Generate a specific code fix. 4. MUST use 'ask_"
  ++ "user_confirmation' to confirm applying the fix to specific file(s)"
  ++ ", detailing changes. 5. If confirmed, use 'write_file'. 6. Request"
  ++ " re-run of the original failed command. 7. If successful, inform u"
  ++ "ser. If fails again, inform, present new error, suggest another ap"
  ++ "proach or ask user for guidance. Limit automated fix attempts (e.g"
  ++ "., 1-2) per original error. ".

(** The model turn that opens every session. *)
Definition initial_model_acknowledgement : string :=
  "Understood. I am an expert Angular development assistant. I will p"
  ++ "roactively use my tools to gather information like file contents o"
  ++ "r directory listings when needed to fulfill the user's request. I "
  ++ "will follow all specified policies regarding command execution, co"
  ++ "nfirmations, and error handling, including attempting to use non-i"
  ++ "nteractive flags for commands like 'ng add' after informing and co"
  ++ "nfirming with the user. I'm ready for your command.".

(** [llm_model.start_chat(history=...)]: the session is known by the
    history it was started with. *)
Definition initialize_global_chat_session : M unit :=
  cpp <- get CURRENT_PROJECT_PATH ;;
  let effective_system_prompt :=
    replace system_prompt_text_template "{current_project_path_placeholder}"
      (if py_truthy (path_value cpp)
       then match cpp with Some p => p | None => "" end
       else "Not set (User needs to provide if task requires it)") in
  let initial_history_for_session :=
    [ Turn role_user [part_text effective_system_prompt];
      Turn role_model [part_text initial_model_acknowledgement] ] in
  emit (EvStartChat initial_history_for_session) ;;
  modify (set_chat_session (Some initial_history_for_session)) ;;
  modify (set_history initial_history_for_session) ;;
  print "[AGENT] New chat session initialized with system prompt." ;;
  if py_truthy (path_value cpp)
  then print ("[AGENT] System prompt initialized with project path: "
                ++ match cpp with Some p => p | None => "" end)
  else print "[AGENT] System prompt initialized. Project path is currently not set.".

(** [chat_session.send_message(message, tools=[tools_schema])] *)
Definition send_message (message : list part) : M (list response_part) :=
  emit (EvSend message) ;;
  script <- get llm_script ;;
  match script with
  | LlmResponse response_parts :: rest =>
      modify (set_llm_script rest) ;; ret response_parts
  | LlmRaises e :: rest => modify (set_llm_script rest) ;; raise e
  | [] => raise (Exn "ConnectionError" "the model service cannot be reached")
  end.

(** The parts of a response that go into the transcript: a non-empty
    text, else a function call, else nothing. *)
Definition logged_part (part_obj : response_part) : list part :=
  let as_call :=
    match rp_function_call part_obj with
    | Some (name, args) => [part_function_call name args]
    | None => []
    end in
  match rp_text part_obj with
  | Some t => if negb (t =? "") then [part_text t] else as_call
  | None => as_call
  end.

Definition model_response_to_log (response_parts : list response_part) : turn :=
  Turn role_model (flat_map logged_part response_parts).

(* ===================================================================== *)
(** ** The error-recovery tracker *)
(* ===================================================================== *)

Record failed_command : Type := FailedCommand {
  failed_command_string : pyval;
  failed_args : dict;
  failed_tool_name : string
}.

(** The two locals of [process_user_command] that follow a failing
    command through one user turn. *)
Record recovery : Type := Recovery {
  original_failed_command_details : option failed_command;
  current_fix_attempt : nat
}.

Definition no_recovery : recovery := Recovery None 0.

(** [is_error] and [command_that_failed] for one executed call. *)
Definition classify (tool_name : string) (tool_args_dict : dict)
  (function_result_dict : pyval) : bool * pyval :=
  if (tool_name =? "execute_shell_command")
     && negb (py_eq (result_get function_result_dict "exit_code" (VInt 0))
                (VInt 0))
  then (true, dict_get tool_args_dict "command" VNone)
  else if (tool_name =? "start_angular_serve_and_get_initial_output")
          && py_eq (result_get function_result_dict "status" VNone)
               (VStr "error_during_startup")
  then (true, dict_get tool_args_dict "command" VNone)
  else if (tool_name =? "delete_file_or_directory")
          && py_eq (result_get function_result_dict "status" VNone)
               (VStr "error")
  then (true, VNone)
  else (false, VNone).

Definition tracks (r : recovery) (command : pyval) : bool :=
  match original_failed_command_details r with
  | Some d => py_eq (failed_command_string d) command
  | None => false
  end.

(** The update of the tracker after one executed call. *)
Definition track (tool_name : string) (tool_args_dict : dict)
  (function_result_dict : pyval) (r : recovery) : recovery :=
  let '(is_error, command_that_failed) :=
    classify tool_name tool_args_dict function_result_dict in
  if is_error && py_truthy command_that_failed then
    let r1 :=
      if negb (tracks r command_that_failed)
      then Recovery
             (Some (FailedCommand command_that_failed tool_args_dict tool_name))
             0
      else r in
    if (current_fix_attempt r1 <? MAX_ERROR_FIX_ATTEMPTS)%nat
    then Recovery (original_failed_command_details r1)
           (current_fix_attempt r1 + 1)
    else Recovery None (current_fix_attempt r1)
  else if negb is_error
          && match original_failed_command_details r with
             | Some d =>
                 py_eq (dict_get tool_args_dict "command" VNone)
                   (failed_command_string d)
             | None => false
             end
  then Recovery None 0
  else r.

(** What the tracker prints on the way. *)
Definition track_message (tool_name : string) (tool_args_dict : dict)
  (function_result_dict : pyval) (r : recovery) : option string :=
  let '(is_error, command_that_failed) :=
    classify tool_name tool_args_dict function_result_dict in
  let r' := track tool_name tool_args_dict function_result_dict r in
  if is_error && py_truthy command_that_failed then
    match original_failed_command_details r' with
    | Some _ =>
        Some ("[AGENT] Error detected. Will send to Gemini for analysis (Attempt "
                ++ str_of_Z (Z.of_nat (current_fix_attempt r')) ++ "/"
                ++ str_of_Z (Z.of_nat MAX_ERROR_FIX_ATTEMPTS)
                ++ " for this command).")
    | None =>
        Some ("[AGENT] Maximum error fix attempts ("
                ++ str_of_Z (Z.of_nat MAX_ERROR_FIX_ATTEMPTS)
                ++ ") reached for command '" ++ py_str command_that_failed
                ++ "'. Aborting.")
    end
  else if negb is_error
          && match original_failed_command_details r with
             | Some d =>
                 py_eq (dict_get tool_args_dict "command" VNone)
                   (failed_command_string d)
             | None => false
             end
  then
    match original_failed_command_details r with
    | Some d =>
        Some ("[AGENT] Previously failed command '"
                ++ py_str (failed_command_string d) ++ "' seems fixed!")
    | None => None
    end
  else None.

(* ===================================================================== *)
(** ** The turn loop *)
(* ===================================================================== *)

(** The function calls of the last turn of the transcript, when that is a
    model turn. *)
Definition call_of_part (p : part) : list (string * dict) :=
  match p with
  | part_function_call name args => [(name, args)]
  | _ => []
  end.

Definition function_calls_from_last_model_turn (history : list turn)
  : list (string * dict) :=
  match last history (Turn role_user []) with
  | Turn role_model ps => flat_map call_of_part ps
  | _ => []
  end.

(** [tool_args_dict] is the very dict that sits in the transcript: an
    assignment to one of its keys shows in the [index]-th function call of
    the last turn, as long as that turn is still in the transcript. *)
Fixpoint set_call_args (index : nat) (args : dict) (ps : list part) : list part :=
  match ps with
  | [] => []
  | part_function_call name old :: ps' =>
      match index with
      | O => part_function_call name args :: ps'
      | S i => part_function_call name old :: set_call_args i args ps'
      end
  | p :: ps' => p :: set_call_args index args ps'
  end.

Definition set_last_turn_call_args (index : nat) (args : dict)
  (history : list turn) : list turn :=
  match rev history with
  | Turn r ps :: earlier => (rev earlier ++ [Turn r (set_call_args index args ps)])%list
  | [] => []
  end.

(** The state of the [for] loop over the calls of one model turn. *)
Record dispatching : Type := Dispatching {
  tool_response_parts_for_api : list part;
  tracker : recovery;
  index : nat;
  turn_in_transcript : bool
}.

(** [os.path.join(a, b)] where [a] comes from the model or the operator. *)
Definition py_path_join_any (a : pyval) (b : string) : M string :=
  match a with
  | VStr s => ret (os_path_join s b)
  | _ =>
      raise (Exn "TypeError"
               ("expected str, bytes or os.PathLike object, not "
                  ++ py_type_name a))
  end.

(** [r[k] = v] on a tool result. *)
Definition result_set (r : pyval) (k : string) (v : pyval) : pyval :=
  match r with
  | VDict d => VDict (dict_set d k v)
  | _ => r
  end.

(** What the execution of one requested call leaves: the result, the
    arguments as they are afterwards, and whether the model turn is still
    in the transcript. *)
Record execution : Type := Execution {
  call_result : pyval;
  call_args : dict;
  call_in_transcript : bool
}.

(** The end of the [ng new] branch: after a successful run the project
    directory, when it is there, becomes the project path, and a changed
    path starts a new session. *)
Definition adopt_new_project (project_name : string)
  (function_result_dict actual_exec_dir : pyval) (d : dispatching)
  : M (pyval * bool) :=
  if py_eq (result_get function_result_dict "exit_code" VNone) (VInt 0)
     && negb (project_name =? "") && py_truthy actual_exec_dir
  then
    new_project_full_path <- py_path_join_any actual_exec_dir project_name ;;
    root <- get fs ;;
    here <- get cwd ;;
    if os_path_isdir root here new_project_full_path then
      old_project_path <- get CURRENT_PROJECT_PATH ;;
      modify (set_CURRENT_PROJECT_PATH (Some new_project_full_path)) ;;
      print ("[AGENT] 'ng new' successful. CURRENT_PROJECT_PATH updated to: "
               ++ new_project_full_path) ;;
      let function_result_dict' :=
        result_set function_result_dict "new_project_path_set"
          (VStr new_project_full_path) in
      if negb (py_eq (path_value old_project_path) (VStr new_project_full_path))
      then
        print "[AGENT] Project path changed. Re-initializing chat session with updated system prompt for next user command." ;;
        initialize_global_chat_session ;;
        ret (function_result_dict', false)
      else ret (function_result_dict', turn_in_transcript d)
    else
      print ("[AGENT] 'ng new' reported success, but project directory '"
               ++ new_project_full_path
               ++ "' not found. CURRENT_PROJECT_PATH not updated.") ;;
      if negb (py_truthy (result_get function_result_dict "stderr" VNone)) then
        ret (result_set function_result_dict "stderr"
               (VStr (strip (py_str (result_get function_result_dict "stderr"
                                       (VStr ""))
                               ++ " Warning: Project directory not found post-execution."))),
             turn_in_transcript d)
      else ret (function_result_dict, turn_in_transcript d)
  else ret (function_result_dict, turn_in_transcript d).

(** The branch of the loop for [execute_shell_command] with a command
    that contains [ng new]. *)
Definition dispatch_ng_new (tool_function : tool_function)
  (tool_args_dict : dict) (d : dispatching) : M execution :=
  cmd_to_run <-
    match dict_get tool_args_dict "command" VNone with
    | VStr s => ret s
    | v => raise (Exn "AttributeError"
                    ("'" ++ py_type_name v
                       ++ "' object has no attribute 'split'"))
    end ;;
  let project_name_parts := py_split cmd_to_run "ng new" in
  let project_name :=
    match project_name_parts with
    | _ :: second :: _ => hd "" (py_split (strip second) " ")
    | _ => ""
    end in
  let working_dir_from_llm := dict_get tool_args_dict "working_directory" VNone in
  ran <-
    (if negb (py_truthy working_dir_from_llm) then
       answer <- input ("Gemini wants to create a new project '" ++ project_name
                          ++ "'. In which parent directory should it be created? (Enter absolute path, or '.' for current script dir): ") ;;
       let parent_dir_for_new_project := strip answer in
       root <- get fs ;;
       here <- get cwd ;;
       if negb (os_path_isdir root here parent_dir_for_new_project) then
         print ("Error: '" ++ parent_dir_for_new_project
                  ++ "' is not a valid directory. Aborting 'ng new'.") ;;
         ret (VDict [("error", VStr ("Invalid parent directory for 'ng new': "
                                       ++ parent_dir_for_new_project));
                     ("exit_code", VInt 1)],
              working_dir_from_llm, tool_args_dict)
       else
         let tool_args_dict' :=
           dict_set tool_args_dict "working_directory"
             (VStr parent_dir_for_new_project) in
         (if turn_in_transcript d
          then modify (fun w =>
                 set_history
                   (set_last_turn_call_args (index d) tool_args_dict'
                      (conversation_history_for_this_run w)) w)
          else ret tt) ;;
         print ("[INFO] 'ng new' will be executed in: "
                  ++ parent_dir_for_new_project) ;;
         r <- call_with_kwargs "execute_shell_command" tool_function
                tool_args_dict' ;;
         ret (r, VStr parent_dir_for_new_project, tool_args_dict')
     else
       print ("[INFO] 'ng new' will be executed in directory specified by LLM: "
                ++ py_str working_dir_from_llm) ;;
       r <- call_with_kwargs "execute_shell_command" tool_function
              tool_args_dict ;;
       ret (r, working_dir_from_llm, tool_args_dict)) ;;
  adopted <- adopt_new_project project_name (fst (fst ran)) (snd (fst ran)) d ;;
  ret (Execution (fst adopted) (snd ran) (snd adopted)).

(** The execution of one requested call. *)
Definition execute_call (tool_name : string) (tool_args_dict : dict)
  (d : dispatching) : M execution :=
  match registry_find available_tools_python_functions tool_name with
  | None =>
      print ("Error: LLM requested unknown tool '" ++ tool_name ++ "'.") ;;
      ret (Execution (VDict [("error", VStr ("Unknown tool: " ++ tool_name))])
             tool_args_dict (turn_in_transcript d))
  | Some tool_function =>
      is_ng_new <-
        (if (tool_name =? "execute_shell_command")
         then py_in "ng new" (dict_get tool_args_dict "command" (VStr ""))
         else ret false) ;;
      if is_ng_new then dispatch_ng_new tool_function tool_args_dict d
      else
        r <- call_with_kwargs tool_name tool_function tool_args_dict ;;
        ret (Execution r tool_args_dict (turn_in_transcript d))
  end.

(** One pass of [for fc_data in function_calls_from_last_model_turn].
    The tracker sees the arguments as the execution has left them. *)
Definition dispatch (fc_data : string * dict) (d : dispatching) : M dispatching :=
  let '(tool_name, tool_args_dict) := fc_data in
  emit (EvRequested tool_name tool_args_dict) ;;
  executed <- execute_call tool_name tool_args_dict d ;;
  let function_result_dict := call_result executed in
  emit (EvExecuted tool_name function_result_dict) ;;
  match track_message tool_name (call_args executed) function_result_dict
          (tracker d) with
  | Some line => print line
  | None => ret tt
  end ;;
  ret (Dispatching
         (tool_response_parts_for_api d
            ++ [part_function_response tool_name function_result_dict])%list
         (track tool_name (call_args executed) function_result_dict (tracker d))
         (index d + 1)
         (call_in_transcript executed)).

Fixpoint dispatch_all (calls : list (string * dict)) (d : dispatching)
  : M dispatching :=
  match calls with
  | [] => ret d
  | fc_data :: calls' => d' <- dispatch fc_data d ;; dispatch_all calls' d'
  end.

Definition append_turn (t : turn) : M unit :=
  modify (fun w => set_history (conversation_history_for_this_run w ++ [t])%list w).

(** What follows the [for] loop in one pass of the [while] loop: with no
    result part the loop ends; otherwise the parts become one tool turn of
    the transcript. *)
Definition answer_calls (calls : list (string * dict)) (r : recovery)
  : M (option dispatching) :=
  d <- dispatch_all calls (Dispatching [] r 0 true) ;;
  match tool_response_parts_for_api d with
  | [] => ret None
  | _ :: _ =>
      append_turn (Turn role_tool (tool_response_parts_for_api d)) ;;
      ret (Some d)
  end.

Inductive loop_end : Type :=
| NoMoreToolCalls
| OutOfFuel.

(** The end of a pass of the [while] loop: after the delay the result
    parts go to the model, and its response, unless empty, becomes a turn
    of the transcript. *)
Definition send_tool_results (d : dispatching) : M unit :=
  (if (0 <? TOOL_RESPONSE_DELAY_SECONDS)%Z
   then
     print ("[AGENT] Delaying for "
              ++ str_of_Z TOOL_RESPONSE_DELAY_SECONDS
              ++ "s before sending tool result to API...") ;;
     emit (EvSleep TOOL_RESPONSE_DELAY_SECONDS)
   else ret tt) ;;
  print (nl ++ "[AGENT] Sending "
           ++ str_of_Z (Z.of_nat (length (tool_response_parts_for_api d)))
           ++ " tool result(s) back to Gemini...") ;;
  response <- send_message (tool_response_parts_for_api d) ;;
  let logged := model_response_to_log response in
  match parts logged with
  | [] => print "[AGENT] Model sent an empty response after tool execution."
  | _ :: _ => append_turn logged
  end.

(** The [while True] loop.  Every pass but the last takes one reply of
    the model, so [fuel] above the number of replies left never runs out. *)
Fixpoint tool_loop (fuel : nat) (r : recovery) : M loop_end :=
  match fuel with
  | O => ret OutOfFuel
  | S fuel' =>
      history <- get conversation_history_for_this_run ;;
      let calls := function_calls_from_last_model_turn history in
      match calls with
      | [] => ret NoMoreToolCalls
      | _ :: _ =>
          answered <- answer_calls calls r ;;
          match answered with
          | None => ret NoMoreToolCalls
          | Some d =>
              send_tool_results d ;;
              tool_loop fuel' (tracker d)
          end
      end
  end.

Definition serve_keywords : list string :=
  ["run the app"; "serve the app"; "start the app"; "start server";
   "launch the app"; "run app"; "serve app"].
Definition stop_keywords : list string :=
  ["stop server"; "kill server"; "terminate server"; "stop the dev server"].
Definition restart_keywords : list string :=
  ["restart server"; "stop and start server"; "bounce server";
   "stop and restart the server"].

(** The intent the keywords of an utterance give away, if any. *)
Definition recognized_intent (user_input : string) : option string :=
  let lower_user_input := lower user_input in
  if any_keyword_in restart_keywords lower_user_input then Some "restart"
  else if any_keyword_in stop_keywords lower_user_input then Some "stop"
  else if any_keyword_in serve_keywords lower_user_input then Some "serve"
  else None.

(** The rewriting of the utterance before the model sees it. *)
Definition processed_user_input (user_input : string) : string :=
  let lower_user_input := lower user_input in
  if any_keyword_in restart_keywords lower_user_input then
    "The user's command is: '" ++ user_input
      ++ "'. This implies they want to restart the Angular development server. "
      ++ "Your plan should be: "
      ++ "1. Request the 'ask_user_confirmation' tool to confirm stopping the server (e.g., 'Confirm stopping the current dev server?'). "
      ++ "2. If confirmed, request the 'stop_angular_server' tool. "
      ++ "3. After the 'stop_angular_server' tool result is processed (indicating it's stopped or wasn't running), request the 'ask_user_confirmation' tool to confirm starting the server (e.g., 'Confirm starting the dev server?'). "
      ++ "4. If confirmed, request the 'start_angular_serve_and_get_initial_output' tool with the command 'ng serve' and appropriate working_directory."
  else if any_keyword_in stop_keywords lower_user_input then
    "The user's command is: '" ++ user_input
      ++ "'. This implies they want to stop the Angular development server. "
      ++ "Please plan to first use the 'ask_user_confirmation' tool (e.g., 'Confirm stopping the dev server?'), and if confirmed, then request the 'stop_angular_server' tool."
  else if any_keyword_in serve_keywords lower_user_input then
    "The user's command is: '" ++ user_input
      ++ "'. This implies they want to start the Angular development server. "
      ++ "Please plan to use the 'start_angular_serve_and_get_initial_output' tool with the command 'ng serve' "
      ++ "(or 'ng serve --open' if implied or beneficial). "
      ++ "Adhere to the COMMAND EXECUTION POLICY regarding user confirmations for this action. Check if CURRENT_PROJECT_PATH is set. If not, ask the user for it before attempting to start the server."
  else user_input.

Definition final_text_response (history : list turn) : string :=
  match last history (Turn role_user []) with
  | Turn role_model ps =>
      String.concat ""
        (flat_map (fun p => match p with part_text t => [t] | _ => [] end) ps)
  | _ => ""
  end.

(** How a user turn ended: the loop came to its end, or an exception
    reached the handler of [process_user_command]. *)
Inductive turn_end : Type :=
| TurnCompleted (e : loop_end)
| TurnAbandoned (e : exn).

(** The body of the [try] of [process_user_command]. *)
Definition converse (current_user_message_content_parts : list part)
  : M loop_end :=
  print (nl ++ "[AGENT] Thinking...") ;;
  response <- send_message current_user_message_content_parts ;;
  let logged := model_response_to_log response in
  (match parts logged with
   | [] => ret tt
   | _ :: _ => append_turn logged
   end) ;;
  replies <- get llm_script ;;
  e <- tool_loop (S (length replies)) no_recovery ;;
  history <- get conversation_history_for_this_run ;;
  (if negb (final_text_response history =? "")
   then print (nl ++ "[GEMINI] Final response: " ++ final_text_response history)
   else print (nl ++ "[AGENT] Task finished, or Gemini did not provide a final text response.")) ;;
  ret e.

(** What [process_user_command] does before its [try]: the utterance,
    rewritten, becomes a user turn of the transcript. *)
Definition open_turn (user_input : string) : M (list part) :=
  session <- get chat_session ;;
  (match session with
   | None =>
       print "[AGENT CRITICAL ERROR] Chat session is None in process_user_command. This indicates an issue with initial setup." ;;
       initialize_global_chat_session
   | Some _ => ret tt
   end) ;;
  print (nl ++ "User: " ++ user_input) ;;
  (match recognized_intent user_input with
   | Some intent =>
       print ("[AGENT DEBUG] Augmented input for LLM (" ++ intent ++ "): "
                ++ processed_user_input user_input)
   | None => ret tt
   end) ;;
  let current_user_message_content_parts :=
    [part_text (processed_user_input user_input)] in
  append_turn (Turn role_user current_user_message_content_parts) ;;
  ret current_user_message_content_parts.

(** The [except Exception as e] of [process_user_command]. *)
Definition top_level_handler (e : exn) : M turn_end :=
  print ("Error during Gemini interaction or tool processing: "
           ++ exn_text e) ;;
  emit (EvTopLevelError e) ;;
  ret (TurnAbandoned e).

Definition process_user_command (user_input : string) : M turn_end :=
  current_user_message_content_parts <- open_turn user_input ;;
  try_except
    (e <- converse current_user_message_content_parts ;; ret (TurnCompleted e))
    top_level_handler.

(* ===================================================================== *)
(** ** The declarations of the tools *)
(* ===================================================================== *)

(** What [tools_schema] tells the model about each tool: its name, what
    it is for, the arguments it takes with their types, and which of them
    have to be given. *)
Inductive schema_type : Type := STRING | INTEGER.

Record property : Type := Property {
  property_name : string;
  property_type : schema_type;
  property_description : option string
}.

Record function_declaration : Type := FunctionDeclaration {
  decl_name : string;
  decl_description : string;
  decl_properties : list property;
  decl_required : list string
}.

Definition tools_schema : list function_declaration :=
  [
    FunctionDeclaration "execute_shell_command"
      ("Executes a shell command that is expected to finish and return out"
       ++ "put (like 'ng generate', 'npm install', 'ng build'). Returns stdou"
       ++ "t, stderr, and exit_code. For 'ng add' commands, be aware they mig"
       ++ "ht fail if they require interactive input that cannot be provided;"
       ++ " if so, the stderr will indicate this.")
      [Property "command" STRING None;
       Property "working_directory" STRING None]
      ["command"];
    FunctionDeclaration "start_angular_serve_and_get_initial_output"
      ("Starts 'ng serve'. Monitors initial output for a short period (e.g"
       ++ "., 20-30s) and returns this initial stdout/stderr log along with a"
       ++ " status ('compiling_or_timeout', 'compiled_successfully', 'error_d"
       ++ "uring_startup'). The 'ng serve' process continues running in the b"
       ++ "ackground, and its full output is printed to the agent's terminal "
       ++ "for user observation.")
      [Property "command" STRING
          (Some ("The command to run, should typically be 'ng serve' or 'ng serve --"
                 ++ "open'."));
       Property "working_directory" STRING
          (Some "The Angular project directory.");
       Property "monitor_duration_seconds" INTEGER
          (Some ("Optional. How many seconds to monitor initial output. Default is 2"
                 ++ "0."))]
      ["command"];
    FunctionDeclaration "stop_angular_server"
      ("Stops the currently running 'ng serve' development server if it wa"
       ++ "s started by this agent. Returns a status message.")
      []
      [];
    FunctionDeclaration "write_file"
      ("Writes content to a file. Use 'ask_user_confirmation' tool before "
       ++ "calling this if overwriting or creating important files.")
      [Property "relative_filepath" STRING None;
       Property "content" STRING None]
      ["relative_filepath"; "content"];
    FunctionDeclaration "read_file"
      "Reads content from a file."
      [Property "relative_filepath" STRING None]
      ["relative_filepath"];
    FunctionDeclaration "ask_user_confirmation"
      ("Asks user for yes/no confirmation. Use this BEFORE 'write_file', '"
       ++ "ng new', 'npm install --force', 'delete_file_or_directory', or oth"
       ++ "er potentially destructive/irreversible or costly operations. For "
       ++ "standard 'ng generate' or 'ng build', this is usually not needed u"
       ++ "nless the user's request is ambiguous or the COMMAND EXECUTION POL"
       ++ "ICY section on MANDATORY CONFIRMATIONS applies.")
      [Property "prompt_message" STRING None]
      ["prompt_message"];
    FunctionDeclaration "list_directory_contents"
      ("Lists all files and subdirectories within a given relative path in"
       ++ "side the current project. Use '.' for the project root. Returns a "
       ++ "list of items with their names and types ('file' or 'directory').")
      [Property "relative_path" STRING
          (Some ("The relative path from the project root to list. Use '.' for the p"
                 ++ "roject root itself. E.g., 'src/app' or '.'."))]
      ["relative_path"];
    FunctionDeclaration "delete_file_or_directory"
      ("Deletes a specified file or an entire directory (and its contents "
       ++ "if it's a directory) relative to the project root. This is a DESTR"
       ++ "UCTIVE and IRREVERSIBLE operation. MUST be preceded by 'ask_user_c"
       ++ "onfirmation' with a very clear warning detailing the exact path an"
       ++ "d type of item being deleted.")
      [Property "relative_path" STRING
          (Some ("The relative path from the project root of the file or directory t"
                 ++ "o be deleted."))]
      ["relative_path"] ].

(* ===================================================================== *)
(** ** The command line *)
(* ===================================================================== *)

(** [try: c  finally: f]: [f] runs however [c] ends, and an exception of
    [f] replaces what [c] has left. *)
Definition try_finally {A : Type} (c : M A) (f : M unit) : M A :=
  fun w =>
    match c w with
    | Returns a w' =>
        match f w' with
        | Returns _ w'' => Returns a w''
        | Raises e w'' => Raises e w''
        end
    | Raises e w' =>
        match f w' with
        | Returns _ w'' => Raises e w''
        | Raises e' w'' => Raises e' w''
        end
    end.

(** The globals as the module leaves them when it is loaded. *)
Definition globals_at_import (w : world) : world :=
  set_chat_session None
    (set_history []
       (set_NG_SERVE_PROCESS None (set_CURRENT_PROJECT_PATH None w))).

(** The opening of the script: the operator is asked for the project,
    and a path that is a directory becomes the project path. *)
Definition ask_initial_project_path : M unit :=
  print "--- AI Angular Agent (v2.20 - Refined Prompt for Proactivity & Confirmations) ---" ;;
  print "Type 'exit' to quit. If 'ng serve' is running, you'll need to Ctrl+C to stop both." ;;
  answer <- input "Enter the absolute path to your Angular project to work on (or press Enter if you plan to use 'ng new' or set it later): " ;;
  let initial_project_path := strip answer in
  if negb (initial_project_path =? "") then
    root <- get fs ;;
    here <- get cwd ;;
    if os_path_isdir root here initial_project_path then
      modify (set_CURRENT_PROJECT_PATH (Some initial_project_path)) ;;
      print ("Set working project directory to: " ++ initial_project_path)
    else
      print ("Warning: Provided path '" ++ initial_project_path
               ++ "' is not a valid directory. File operations may fail or prompt for path.")
  else ret tt.

Inductive session_end : Type :=
| UserExit
| NoMoreFuel.

(** The prompt of the command line. *)
Definition command_prompt (cpp : option string) : string :=
  nl ++ "Angular Agent (Project: "
     ++ (if py_truthy (path_value cpp)
         then match cpp with Some p => p | None => "" end
         else "Not Set")
     ++ ")> ".

(** The [while True] loop of the script.  Every pass reads one line of
    the console, so [fuel] above the number of lines left never runs
    out. *)
Fixpoint command_loop (fuel : nat) : M session_end :=
  match fuel with
  | O => ret NoMoreFuel
  | S fuel' =>
      cpp <- get CURRENT_PROJECT_PATH ;;
      user_query <- input (command_prompt cpp) ;;
      if (lower user_query =? "exit") then ret UserExit
      else if (strip user_query =? "") then command_loop fuel'
      else process_user_command user_query ;; command_loop fuel'
  end.

(** The [finally] of the script: a server that is still alive is
    terminated, and killed when it does not end in time. *)
Definition terminate_at_exit : M unit :=
  proc <- get NG_SERVE_PROCESS ;;
  match alive_pid proc with
  | Some running_pid =>
      print (nl ++ "[AGENT] Attempting to terminate 'ng serve' process...") ;;
      emit (EvTerminate running_pid) ;;
      o <- wait_for_exit ;;
      match o with
      | WaitExits => print "[AGENT] 'ng serve' process terminated."
      | WaitTimeoutExpired =>
          print "[AGENT] 'ng serve' process did not terminate gracefully, attempting to kill." ;;
          emit (EvKill running_pid) ;;
          print "[AGENT] 'ng serve' process killed."
      | WaitRaises e => raise e
      end
  | None => ret tt
  end ;;
  print "[AGENT] Exiting.".

(** The script up to its command line: the operator is asked for the
    project, and the session is started. *)
Definition startup : M unit :=
  ask_initial_project_path ;;
  initialize_global_chat_session.

(** The script from its first line on the console to its end. *)
Definition main : M session_end :=
  startup ;;
  lines <- get stdin ;;
  try_finally (command_loop (S (length lines))) terminate_at_exit.

(** The module is loaded and run as a script (with the key of the model
    service in its environment). *)
Definition script : M session_end :=
  modify globals_at_import ;;
  main.

(* ===================================================================== *)
(** ** Notions used to state the properties *)
(* ===================================================================== *)

(** A call the loop has executed, with its result. *)
Definition executed_call : Type := (string * dict * pyval)%type.

Definition track_call (e : executed_call) (r : recovery) : recovery :=
  let '(tool_name, tool_args_dict, function_result_dict) := e in
  track tool_name tool_args_dict function_result_dict r.

(** The tracker after the calls of a user turn so far, in order. *)
Definition track_all (calls : list executed_call) : recovery :=
  fold_left (fun r e => track_call e r) calls no_recovery.

Definition tracked_command (r : recovery) : option pyval :=
  match original_failed_command_details r with
  | Some d => Some (failed_command_string d)
  | None => None
  end.

(** The call is classified as an error of the command string [c]. *)
Definition fails_command (e : executed_call) (c : string) : Prop :=
  let '(tool_name, tool_args_dict, function_result_dict) := e in
  classify tool_name tool_args_dict function_result_dict = (true, VStr c).

(** The call ran the command string [c] and is not classified as an error. *)
Definition succeeds_command (e : executed_call) (c : string) : Prop :=
  let '(tool_name, tool_args_dict, function_result_dict) := e in
  fst (classify tool_name tool_args_dict function_result_dict) = false
  /\ dict_get tool_args_dict "command" VNone = VStr c.

(** The behaviour of the attempt counter for the command string [c],
    after any calls whatsoever earlier in the turn:
    - a failure of [c] while [c] is tracked below the ceiling adds one;
    - a failure of [c] while something else, or nothing, is tracked
      starts over at 1;
    - a failure of [c] while [c] is tracked at the ceiling leaves the
      counter as it is and drops the tracker, and the failure of [c] after
      that starts at 1;
    - a success of [c] while [c] is tracked clears the tracker;
    - the counter never exceeds the ceiling. *)
Definition counter_follows (c : string) : Prop :=
  forall (past : list executed_call) (e : executed_call),
    let r := track_all past in
    let r' := track_call e r in
    (fails_command e c ->
       (tracked_command r = Some (VStr c) ->
        current_fix_attempt r < MAX_ERROR_FIX_ATTEMPTS ->
        tracked_command r' = Some (VStr c)
        /\ current_fix_attempt r' = S (current_fix_attempt r))
       /\ (tracked_command r <> Some (VStr c) ->
           tracked_command r' = Some (VStr c) /\ current_fix_attempt r' = 1)
       /\ (tracked_command r = Some (VStr c) ->
           current_fix_attempt r = MAX_ERROR_FIX_ATTEMPTS ->
           tracked_command r' = None
           /\ current_fix_attempt r' = MAX_ERROR_FIX_ATTEMPTS
           /\ forall e2, fails_command e2 c ->
                tracked_command (track_call e2 r') = Some (VStr c)
                /\ current_fix_attempt (track_call e2 r') = 1))
    /\ (succeeds_command e c ->
        tracked_command r = Some (VStr c) ->
        r' = no_recovery)
    /\ current_fix_attempt r <= MAX_ERROR_FIX_ATTEMPTS.

(** The two console lines the loop writes around every call. *)
Definition is_loop_event (e : event) : bool :=
  match e with
  | EvRequested _ _ | EvExecuted _ _ => true
  | _ => false
  end.

Definition loop_events (t : list event) : list event := filter is_loop_event t.

(** What no tool touches: the replies the model has in store, the
    transcript, the session, and the loop's own lines on the console. *)
Record tool_frame (w w' : world) : Prop := ToolFrame {
  frame_llm_script : llm_script w' = llm_script w;
  frame_history :
    conversation_history_for_this_run w' = conversation_history_for_this_run w;
  frame_chat_session : chat_session w' = chat_session w;
  frame_loop_events : loop_events (trace w') = loop_events (trace w)
}.

Definition is_tool_turn (t : turn) : bool :=
  match turn_role t with
  | role_tool => true
  | _ => false
  end.

Definition tool_turns (history : list turn) : nat :=
  length (filter is_tool_turn history).

(** What the execution of a call leaves alone even when it starts a new
    session: the replies in store and the loop's lines; and it adds no
    tool turn to the transcript. *)
Record session_frame (w w' : world) : Prop := SessionFrame {
  session_llm_script : llm_script w' = llm_script w;
  session_loop_events : loop_events (trace w') = loop_events (trace w);
  session_tool_turns :
    tool_turns (conversation_history_for_this_run w')
    <= tool_turns (conversation_history_for_this_run w)
}.

Definition preserves (R : world -> world -> Prop) {A : Type} (c : M A) : Prop :=
  forall w, R w (world_of (c w)).

Class frame_relation (R : world -> world -> Prop) : Prop := FrameRelation {
  frame_refl : forall w, R w w;
  frame_trans : forall w1 w2 w3, R w1 w2 -> R w2 w3 -> R w1 w3
}.

(** The result parts and the loop's console lines that belong to a list
    of requested calls and their results. *)
Definition responses (calls : list (string * dict)) (results : list pyval)
  : list part :=
  map (fun cr => part_function_response (fst (fst cr)) (snd cr))
      (combine calls results).

Definition call_events (calls : list (string * dict)) (results : list pyval)
  : list event :=
  flat_map (fun cr => [EvRequested (fst (fst cr)) (snd (fst cr));
                       EvExecuted (fst (fst cr)) (snd cr)])
           (combine calls results).

Definition unknown_tool_payload (tool_name : string) : pyval :=
  VDict [("error", VStr ("Unknown tool: " ++ tool_name))].

Definition unregistered (tool_name : string) : Prop :=
  registry_find available_tools_python_functions tool_name = None.

(** A small world to run the program in: a project at [/proj] with one
    file, a file outside it, a session that has been started, and nobody
    at the console. *)
Definition example_fs : node :=
  Dir [("proj", Dir [("a.txt", File (Some "hello"))]);
       ("etc", Dir [("passwd", File (Some "root:x:0:0"))])].

Definition example_world : world :=
  World (Some "/proj") None [] (Some []) example_fs [] [] [] [] [] [] [].

(** The same without a project path. *)
Definition pathless_world : world := set_CURRENT_PROJECT_PATH None example_world.

Definition two_calls : list (string * dict) :=
  [("nope", [("x", VInt 1)]);
   ("read_file", [("relative_filepath", VStr "a.txt")])].

Definition two_calls_outcome : outcome (option dispatching) :=
  Eval vm_compute in answer_calls two_calls no_recovery example_world.

Definition two_calls_answered : option dispatching :=
  match two_calls_outcome with
  | Returns a _ => a
  | Raises _ _ => None
  end.

(** A computation that returns in the world [w], and one that returns in
    every world. *)
Definition returns_at {A : Type} (c : M A) (w : world) : Prop :=
  exists (a : A) (w' : world), c w = Returns a w'.

Definition total {A : Type} (c : M A) : Prop := forall w, returns_at c w.

Definition is_str (v : pyval) : bool :=
  match v with
  | VStr _ => true
  | _ => false
  end.

(** The operator's answers that end [ask_user_confirmation]. *)
Definition is_answer (line : string) : bool :=
  (strip (lower line) =? "yes") || (strip (lower line) =? "no").

Definition console_has_line (w : world) : bool :=
  match stdin w with
  | [] => false
  | _ :: _ => true
  end.

(** The calls all of whose failures fall inside a [try] of the tool: the
    keyword arguments bind to the parameters of the tool, a command or a
    path is a str and a working directory a str or [None], and where the
    operator is asked, an answer is there to be read. *)
Definition within_guards (tool_name : string) (kwargs : dict) (w : world) : bool :=
  match registry_find available_tools_python_functions tool_name with
  | None => true
  | Some f =>
      match unexpected_keyword (parameters f) kwargs,
            bind_parameters tool_name (parameters f) kwargs with
      | None, inr values =>
          if (tool_name =? "execute_shell_command") then
            match arg 0 values, arg 1 values with
            | VStr command, VNone =>
                if contains "ng new" command then console_has_line w else true
            | VStr command, VStr dir =>
                if contains "ng new" command && (dir =? "")
                then console_has_line w else true
            | _, _ => false
            end
          else if (tool_name =? "read_file") || (tool_name =? "write_file")
                  || (tool_name =? "list_directory_contents")
                  || (tool_name =? "delete_file_or_directory")
          then is_str (arg 0 values)
          else if (tool_name =? "ask_user_confirmation")
          then existsb is_answer (stdin w)
          else true
      | _, _ => false
      end
  end.

(** What the handler of [process_user_command] leaves behind: the world
    as it was when the exception was raised, with two more lines on the
    console. *)
Definition abandoned_at (e : exn) (w : world) : world :=
  set_trace
    ((trace w
        ++ [EvPrint ("Error during Gemini interaction or tool processing: "
                       ++ exn_text e)])
       ++ [EvTopLevelError e])%list
    w.

(** A model that asks for [read_file] without saying which file, and
    would then conclude. *)
Definition careless_model : list llm_reply :=
  [LlmResponse [ResponsePart None (Some ("read_file", []))];
   LlmResponse [ResponsePart (Some "Done.") None]].

Definition careless_turn : outcome turn_end :=
  Eval vm_compute in
    process_user_command "show me a.txt"
      (set_llm_script careless_model example_world).

(** What holds of the value a computation returns, when it returns. *)
Definition post {A : Type} (P : A -> Prop) (c : M A) : Prop :=
  forall w, match c w with
            | Returns a _ => P a
            | Raises _ _ => True
            end.

(** A working directory is given, or the project path stands in for it. *)
Definition working_directory_known (working_directory : pyval) (w : world) : bool :=
  match working_directory with
  | VNone => py_truthy (path_value (CURRENT_PROJECT_PATH w))
  | _ => true
  end.

(** The statuses of [start_angular_serve_and_get_initial_output]: a
    result without pid reports an error; a result with a pid is that of
    a monitored start, or names the server already running. *)
Definition known_start_status (r : pyval) : bool :=
  match result_get r "status" VNone, result_get r "pid" VNone with
  | VStr s, VNone => (s =? "error")
  | VStr s, VInt _ =>
      (s =? "compiling_or_timeout") || (s =? "compiled_successfully")
      || (s =? "error_during_startup") || (s =? "already_running")
  | _, _ => false
  end.

(** A pass of the monitoring loop in which the process is alive and no
    line carries a marker. *)
Definition has_success_marker (line : string) : bool :=
  contains "Compiled successfully" line
  || contains "successfully built" (lower line).

Definition has_error_marker (line : string) : bool :=
  contains "ERROR" line || contains "Error" line.

Definition quiet (s : snapshot) : bool :=
  negb (snap_exited s)
  && forallb (fun line => negb (has_success_marker line))
       (_read_stream_to_queue_and_print (snap_stdout s) "stdout" [] false)
  && forallb (fun line => negb (has_error_marker line))
       (_read_stream_to_queue_and_print (snap_stderr s) "stderr" [] false).

Definition server_running (w : world) : bool :=
  match alive_pid (NG_SERVE_PROCESS w) with
  | Some _ => true
  | None => false
  end.

Definition is_process_event (e : event) : bool :=
  match e with
  | EvPopen _ _ | EvTerminate _ | EvKill _ | EvRun _ _ => true
  | _ => false
  end.

(** A world in which a server is running although no project path is
    set: it was started with an explicit working directory. *)
Definition serving_pathless_world : world :=
  set_NG_SERVE_PROCESS (Some (Popen 4242 false)) pathless_world.

(** A world in which a server is running in the project. *)
Definition serving_world : world :=
  set_NG_SERVE_PROCESS (Some (Popen 4242 false)) example_world.

(** A world in which [ng serve] will start and stay silent about its
    compilation for the two passes the window leaves time for. *)
Definition slow_build_world : world :=
  set_popen_script
    [Spawned 5151
       [Snapshot false ["- Generating browser application bundles (phase: setup)..."] [];
        Snapshot false [] []]
       ["Browser application bundle generation complete."] []]
    example_world.

(** What [read_file] finds under a relative path: the text of the file,
    or nothing when the project path is not set or the file cannot be
    opened and decoded. *)
Definition file_read_at (w : world) (relative_filepath : string) : option string :=
  match CURRENT_PROJECT_PATH w with
  | Some project_path =>
      if negb (project_path =? "") then
        match io_read_text (fs w) (cwd w)
                (os_path_join project_path relative_filepath) with
        | IoOk content => Some content
        | IoRaise _ => None
        end
      else None
  | None => None
  end.

(** A project in which a file holds, word for word, what [read_file]
    says of a missing file. *)
Definition misleading_world : world :=
  set_fs
    (Dir [("proj",
           Dir [("missing.txt",
                 File (Some "Error: File not found at /proj/missing.txt"))])])
    example_world.

(** A world without project path in which [ng new shop] will succeed and
    leave the new project in the directory the script runs in. *)
Definition ng_new_world : world :=
  set_run_script
    [RunCompleted "CREATE shop/angular.json" "" 0
       (Dir [("proj", Dir [("a.txt", File (Some "hello"))]);
             ("etc", Dir [("passwd", File (Some "root:x:0:0"))]);
             ("shop", Dir [("angular.json", File (Some "{}"))])])]
    pathless_world.

(** Where a tool that takes a relative path acts, and where the project
    root is. *)
Definition tool_target (w : world) (relative_path : string) : located :=
  match CURRENT_PROJECT_PATH w with
  | Some project_path =>
      resolve (fs w) (cwd w) (os_path_join project_path relative_path)
  | None => NoEnt
  end.

Definition project_root (w : world) : located :=
  match CURRENT_PROJECT_PATH w with
  | Some project_path => resolve (fs w) (cwd w) project_path
  | None => NoEnt
  end.

Fixpoint is_prefix (a b : list string) : bool :=
  match a, b with
  | [], _ => true
  | x :: a', y :: b' => (x =? y) && is_prefix a' b'
  | _ :: _, [] => false
  end.

(** The tool acts at or below the project root. *)
Definition inside_root (w : world) (relative_path : string) : bool :=
  match project_root w, tool_target w relative_path with
  | Target root_key, Target key => is_prefix root_key key
  | _, _ => false
  end.

Definition has_dotdot (relative_path : string) : bool :=
  existsb (fun c => (c =? "..")) (py_split relative_path "/").

Definition is_dir_node (n : option node) : bool :=
  match n with
  | Some (Dir _) => true
  | _ => false
  end.

(** What a place of the filesystem holds, as whoever looks there finds
    it: a file with its text, a directory, or nothing. *)
Inductive held : Type :=
| HoldsFile (text : option string)
| HoldsDirectory
| HoldsNothing.

Definition held_at (root : node) (key : list string) : held :=
  match tree_lookup root key with
  | Some (File text) => HoldsFile text
  | Some (Dir _) => HoldsDirectory
  | None => HoldsNothing
  end.

(** Two filesystems that hold the same at every place that is neither
    the place [root_key] nor below it. *)
Definition same_outside (root_key : list string) (before after : node) : Prop :=
  forall key : list string,
    is_prefix root_key key = false -> held_at after key = held_at before key.

(** A component of a path that is not empty, and a run of slashes. *)
Definition nonempty (c : string) : bool := negb (c =? "").

Fixpoint slashes (k : nat) : string :=
  match k with
  | O => ""
  | S k' => String "/" (slashes k')
  end.

(** What a computation of an [io_result] leaves when it succeeds. *)
Definition ok_tree (r : io_result node) : option node :=
  match r with
  | IoOk root' => Some root'
  | IoRaise _ => None
  end.

(** The path a tool makes of a relative path. *)
Definition full_path_of (w : world) (relative_path : string) : string :=
  match CURRENT_PROJECT_PATH w with
  | Some project_path => os_path_join project_path relative_path
  | None => relative_path
  end.

Fixpoint has_carriage_return (s : string) : bool :=
  match s with
  | EmptyString => false
  | String c s' => (c =? CR)%char || has_carriage_return s'
  end.

(** A line, a carriage return, a line. *)
Definition text_with_carriage_return : string :=
  "a" ++ String CR "b".

(** Two lines of text, and the world after they have been written to
    [src/notes.txt]. *)
Definition two_lines : string := "first line" ++ nl ++ "second line".

Definition notes_written : outcome pyval :=
  Eval vm_compute in
    write_file (VStr "src/notes.txt") (VStr two_lines) example_world.

(** Executed calls used as examples for the tracker. *)
Definition ng_build_fails : executed_call :=
  ("execute_shell_command", [("command", VStr "ng build")],
   VDict [("stdout", VStr ""); ("stderr", VStr "error TS2304");
          ("exit_code", VInt 1)]).

Definition ng_build_succeeds : executed_call :=
  ("execute_shell_command", [("command", VStr "ng build")],
   VDict [("stdout", VStr "Build complete."); ("stderr", VStr "");
          ("exit_code", VInt 0)]).

Definition ng_test_fails : executed_call :=
  ("execute_shell_command", [("command", VStr "ng test")],
   VDict [("stdout", VStr ""); ("stderr", VStr "1 FAILED");
          ("exit_code", VInt 1)]).

(** What holds of the tracker at every moment of a user turn: the
    counter is within the ceiling, and a command that is tracked counts
    as true and has at least one attempt. *)
Definition tracker_invariant (r : recovery) : Prop :=
  current_fix_attempt r <= MAX_ERROR_FIX_ATTEMPTS
  /\ forall v : pyval,
       tracked_command r = Some v ->
       py_truthy v = true /\ 1 <= current_fix_attempt r.

(** A failed deletion, as the loop sees it. *)
Definition delete_fails : executed_call :=
  ("delete_file_or_directory", [("relative_path", VStr "dist")],
   VDict [("status", VStr "error");
          ("message", VStr "Path not found: /proj/dist")]).

(** What the system prompt shows for the project path. *)
Definition shown_project_path (w : world) : string :=
  match CURRENT_PROJECT_PATH w with
  | Some p => if (p =? "") then "Not set (User needs to provide if task requires it)" else p
  | None => "Not set (User needs to provide if task requires it)"
  end.

(** A model that asks for [a.txt] and concludes when it has it, and the
    user turn it takes part in. *)
Definition helpful_model : list llm_reply :=
  [LlmResponse
     [ResponsePart None
        (Some ("read_file", [("relative_filepath", VStr "a.txt")]))];
   LlmResponse [ResponsePart (Some "The file says hello.") None]].

Definition helpful_turn : outcome turn_end :=
  Eval vm_compute in
    process_user_command "show me a.txt"
      (set_llm_script helpful_model example_world).

(** The world after the server of [serving_world] has been stopped. *)
Definition server_stopped : outcome pyval :=
  Eval vm_compute in stop_angular_server serving_world.

(** What [ask_user_confirmation] writes on the console while the operator
    types the lines [invalid], none of them an answer, and then an
    answer: the question once for every line, and after every line that
    is no answer the reminder. *)
Definition confirmation_prompt (prompt_message : pyval) : string :=
  "CONFIRMATION REQUIRED BY AGENT: " ++ py_str prompt_message ++ " (yes/no): ".

Definition asked_until_answered (prompt : string) (invalid : list string)
  : list event :=
  (flat_map (fun _ : string =>
               [EvPrompt prompt;
                EvPrint "Invalid input. Please enter 'yes' or 'no'."])
            invalid
     ++ [EvPrompt prompt])%list.

(** The project at [/proj] with an operator who first types something
    else, then agrees in capital letters, then goes on typing. *)
Definition hesitant_operator : world :=
  set_stdin ["maybe"; "  YES "; "exit"] example_world.

(** What [list_directory_contents] finds under a relative path: the
    names in the directory, or nothing when the project path is not set
    or the directory cannot be listed. *)
Definition names_listed_at (w : world) (relative_path : string)
  : option (list string) :=
  match CURRENT_PROJECT_PATH w with
  | Some project_path =>
      if negb (project_path =? "") then
        match io_listdir (fs w) (cwd w)
                (os_path_join project_path relative_path) with
        | IoOk names => Some names
        | IoRaise _ => None
        end
      else None
  | None => None
  end.

(** The entries of the directory a relative path leads to. *)
Definition directory_at (w : world) (relative_path : string)
  : option (list (string * node)) :=
  match CURRENT_PROJECT_PATH w with
  | Some project_path =>
      if negb (project_path =? "") then
        match resolve (fs w) (cwd w)
                (os_path_join project_path relative_path) with
        | Target key =>
            match tree_lookup (fs w) key with
            | Some (Dir es) => Some es
            | _ => None
            end
        | _ => None
        end
      else None
  | None => None
  end.

(** A name as a filesystem gives it to an entry: not empty, without a
    slash, and neither [.] nor [..]. *)
Definition plain_name (name : string) : bool :=
  negb (name =? "") && negb (contains "/" name)
  && negb (name =? ".") && negb (name =? "..").

Fixpoint distinct (names : list string) : bool :=
  match names with
  | [] => true
  | name :: names' =>
      negb (existsb (String.eqb name) names') && distinct names'
  end.

(** The item of a listing that tells what the entry is. *)
Definition entry_item (e : string * node) : pyval :=
  VDict [("name", VStr (fst e));
         ("type", VStr (match snd e with
                        | Dir _ => "directory"
                        | File _ => "file"
                        end))].

(** A project with a directory and a file at its root. *)
Definition mixed_project : world :=
  set_fs
    (Dir [("proj",
           Dir [("src", Dir [("main.ts", File (Some "bootstrap()"))]);
                ("angular.json", File (Some "{}"))])])
    example_world.

(** The world after the directory [src] of [mixed_project] has been
    deleted. *)
Definition src_deleted : outcome pyval :=
  Eval vm_compute in delete_file_or_directory (VStr "src") mixed_project.

(** The directory part of the path a relative path is joined to is a
    directory already. *)
Definition parent_directory_exists (w : world) (relative_filepath : string)
  : bool :=
  match CURRENT_PROJECT_PATH w with
  | Some project_path =>
      os_path_isdir (fs w) (cwd w)
        (os_path_dirname (os_path_join project_path relative_filepath))
  | None => false
  end.

(** What [f.write(content)] leaves in the file it has opened. *)
Definition text_written (content : pyval) : string :=
  match content with
  | VStr s => s
  | _ => ""
  end.

(** A part of the world that a computation leaves as it was. *)
Definition keeps {A : Type} (f : world -> A) (w w' : world) : Prop :=
  f w' = f w.

(** The call is the one the loop treats as the creation of a project:
    [execute_shell_command] with [ng new] in its command. *)
Definition asks_ng_new (tool_name : string) (tool_args_dict : dict) : bool :=
  (tool_name =? "execute_shell_command")
  && match py_contains "ng new" (dict_get tool_args_dict "command" (VStr "")) with
     | Some is_new => is_new
     | None => false
     end.

(** What is done to the development server, and what the program knows
    of it. *)
Definition is_server_event (e : event) : bool :=
  match e with
  | EvPopen _ _ | EvTerminate _ | EvKill _ => true
  | _ => false
  end.

Definition server_view (w : world) : option popen * list event :=
  (NG_SERVE_PROCESS w, filter is_server_event (trace w)).

(** The status the start tool reports for the status the monitoring
    loop has ended with. *)
Definition reported_status (status : string) : string :=
  if (status =? "compiled_successfully") then status
  else if (status =? "error_during_startup") then status
  else "compiling_or_timeout".

(** The lines of the passes as the reader threads queue them. *)
Definition queued_stdout (passes : list snapshot) : list string :=
  flat_map (fun s => _read_stream_to_queue_and_print (snap_stdout s) "stdout" [] false)
           passes.

Definition queued_stderr (passes : list snapshot) : list string :=
  flat_map (fun s => _read_stream_to_queue_and_print (snap_stderr s) "stderr" [] false)
           passes.

(** Whether the monitoring loop has come to its end by itself: the
    process has been found exited, or the status says that the
    compilation has succeeded. *)
Definition monitoring_over (m : monitoring) : bool :=
  polled_exit m || (status m =? "compiled_successfully").

(** The passes the monitoring loop makes, of those the window leaves
    time for: the passes up to the first that ends the loop. *)
Fixpoint passes_made (window : list snapshot) (m : monitoring)
  : list snapshot :=
  match window with
  | [] => []
  | s :: window' =>
      s :: (if monitoring_over (monitor [s] m) then []
            else passes_made window' (monitor [s] m))
  end.

(** The monitoring loop before its first pass. *)
Definition monitoring_begins : monitoring :=
  Monitoring "compiling" [] [] [] [] false.

(** A world in which [ng serve] will report its compilation in the
    second pass of the window, and one in which it will have exited by
    the second pass. *)
Definition quick_build_passes : list snapshot :=
  [Snapshot false ["- Generating browser application bundles (phase: setup)..."] [];
   Snapshot false
     ["Compiled successfully."; "** Angular Live Development Server is listening on localhost:4200 **"]
     [];
   Snapshot false ["- Generating browser application bundles (phase: building)..."] []].

Definition quick_build_world : world :=
  set_popen_script
    [Spawned 5151 quick_build_passes ["Build at: 2025-01-01T00:00:00.000Z"] []]
    example_world.

Definition failing_start_passes : list snapshot :=
  [Snapshot false [] [];
   Snapshot true [] ["Error: This command is not available when running the Angular CLI outside a workspace."]].

Definition failing_start_world : world :=
  set_popen_script [Spawned 6161 failing_start_passes [] []] example_world.

(** The property a declaration has under a name, and what it means for
    the arguments of a call to conform to the declaration: every argument
    is a declared property, and every required property is given.  For
    typed conformance the value of every argument has, besides, the type
    declared for it. *)
Definition declared_property (decl : function_declaration) (key : string)
  : option property :=
  find (fun p => (property_name p =? key)) (decl_properties decl).

Definition conforms (decl : function_declaration) (kwargs : dict) : bool :=
  forallb (fun kv => match declared_property decl (fst kv) with
                     | Some _ => true
                     | None => false
                     end) kwargs
  && forallb (dict_has kwargs) (decl_required decl).

Definition has_schema_type (t : schema_type) (v : pyval) : bool :=
  match t, v with
  | STRING, VStr _ => true
  | INTEGER, VInt _ => true
  | _, _ => false
  end.

Definition conforms_typed (decl : function_declaration) (kwargs : dict) : bool :=
  forallb (fun kv => match declared_property decl (fst kv) with
                     | Some p => has_schema_type (property_type p) (snd kv)
                     | None => false
                     end) kwargs
  && forallb (dict_has kwargs) (decl_required decl).

(** A declaration and a function go together: every declared property
    is a parameter of the function, and every parameter without a default
    is required by the declaration. *)
Definition compatible (decl : function_declaration) (f : tool_function) : bool :=
  forallb (fun p => existsb (fun q => (property_name p =? fst q)) (parameters f))
          (decl_properties decl)
  && forallb (fun q => match snd q with
                       | Some _ => true
                       | None => existsb (String.eqb (fst q)) (decl_required decl)
                       end)
             (parameters f).

(** The operator is there to answer where the call asks: with a yes or a
    no for [ask_user_confirmation], and with a line for the creation of
    a project whose parent directory the model has not given. *)
Definition operator_answers (tool_name : string) (kwargs : dict) (w : world)
  : bool :=
  if (tool_name =? "ask_user_confirmation") then existsb is_answer (stdin w)
  else if asks_ng_new tool_name kwargs
          && negb (py_truthy (dict_get kwargs "working_directory" VNone))
  then console_has_line w
  else true.

(** The console is only ever read: no computation of the program puts a
    line back. *)
Definition console_shrinks (w w' : world) : Prop :=
  length (stdin w') <= length (stdin w).

(** A session in which the operator has the model start the server and
    then leaves: the model asks for [ng serve] and reports. *)
Definition serving_model : list llm_reply :=
  [LlmResponse
     [ResponsePart None
        (Some ("start_angular_serve_and_get_initial_output",
               [("command", VStr "ng serve")]))];
   LlmResponse [ResponsePart (Some "The server is starting.") None]].

Definition serving_session : outcome session_end :=
  Eval vm_compute in
    script
      (set_stdin ["/proj"; "start server"; "exit"]
         (set_llm_script serving_model slow_build_world)).


(** The events that stay between the script, the console and the start
    of a chat: nothing is sent to the model, no tool is requested, no
    command is run and no process is touched. *)
Definition is_console_event (e : event) : bool :=
  match e with
  | EvPrint _ | EvPrompt _ | EvStartChat _ => true
  | _ => false
  end.

(** [not user_query.strip()] *)
Definition is_blank (user_query : string) : bool := strip user_query =? "".

(** An operator who gives the project, presses Enter twice and leaves. *)
Definition idle_operator : world :=
  set_stdin ["/proj"; ""; "   "; "Exit"; "never read"] example_world.

(** A world with a project and a session in which [ng new shop] will
    succeed and leave the new project at the root of the filesystem. *)
Definition shop_world : world :=
  set_run_script (run_script ng_new_world) example_world.

(** The files, and the commands that have been run. *)
Definition is_run_event (e : event) : bool :=
  match e with
  | EvRun _ _ => true
  | _ => false
  end.

Definition files_view (w : world) : node * list event :=
  (fs w, filter is_run_event (trace w)).

(** A pass of the monitoring loop that finds the process alive and no
    success marker in what it has written to its standard output; what it
    has written to its standard error is left open. *)
Definition still_compiling (s : snapshot) : bool :=
  negb (snap_exited s)
  && forallb (fun line => negb (has_success_marker line))
       (_read_stream_to_queue_and_print (snap_stdout s) "stdout" [] false).

(** A start in which a first compilation reports an error and the
    compilation after the file has been corrected succeeds. *)
Definition rebuilt_passes : list snapshot :=
  [Snapshot false ["- Generating browser application bundles (phase: setup)..."]
     ["Error: src/app/app.component.ts:7:3 - error TS2304: Cannot find name 'title'."];
   Snapshot false ["Compiled successfully."] []].

Definition rebuilt_world : world :=
  set_popen_script [Spawned 7171 rebuilt_passes [] []] example_world.
(* ===================================================================== *)
(** * Properties *)
(* ===================================================================== *)

(** ** The error-recovery tracker *)

Lemma py_eq_VStr (v : pyval) (c : string) :
  py_eq v (VStr c) = true <-> v = VStr c.
Proof.
  destruct v; simpl; split; intro H; try discriminate.
  - apply String.eqb_eq in H. now subst.
  - injection H as ->. apply String.eqb_refl.
Qed.

Lemma py_eq_VStr_false (v : pyval) (c : string) :
  v <> VStr c -> py_eq v (VStr c) = false.
Proof.
  intro H. destruct (py_eq v (VStr c)) eqn:E; [|reflexivity].
  apply py_eq_VStr in E. contradiction.
Qed.

Lemma py_eq_VStr_l (v : pyval) (c : string) :
  py_eq (VStr c) v = true <-> v = VStr c.
Proof.
  destruct v; simpl; split; intro H; try discriminate.
  - apply String.eqb_eq in H. now subst.
  - injection H as ->. apply String.eqb_refl.
Qed.

Lemma tracks_tracked (r : recovery) (c : string) :
  tracks r (VStr c) = true <-> tracked_command r = Some (VStr c).
Proof.
  unfold tracks, tracked_command.
  destruct (original_failed_command_details r) as [d|].
  - rewrite py_eq_VStr. split; [now intros -> | now intros [= ->]].
  - split; discriminate.
Qed.

Lemma truthy_command (c : string) : c <> "" -> py_truthy (VStr c) = true.
Proof.
  intro H. simpl. destruct (String.eqb_spec c ""); [contradiction|reflexivity].
Qed.

(** A failure of a non-empty command, step by step. *)
Lemma track_failure (tool_name : string) (a : dict) (res : pyval)
  (r : recovery) (c : string) :
  c <> "" ->
  classify tool_name a res = (true, VStr c) ->
  track tool_name a res r =
    let r1 := if negb (tracks r (VStr c))
              then Recovery (Some (FailedCommand (VStr c) a tool_name)) 0
              else r in
    if (current_fix_attempt r1 <? MAX_ERROR_FIX_ATTEMPTS)%nat
    then Recovery (original_failed_command_details r1)
           (current_fix_attempt r1 + 1)
    else Recovery None (current_fix_attempt r1).
Proof.
  intros Hc Hcl. unfold track. rewrite Hcl.
  rewrite (truthy_command c Hc). reflexivity.
Qed.

Lemma track_bounded (tool_name : string) (a : dict) (res : pyval)
  (r : recovery) :
  current_fix_attempt r <= MAX_ERROR_FIX_ATTEMPTS ->
  current_fix_attempt (track tool_name a res r) <= MAX_ERROR_FIX_ATTEMPTS.
Proof.
  intro H. unfold track.
  destruct (classify tool_name a res) as [is_error cmd].
  destruct (is_error && py_truthy cmd).
  - destruct (negb (tracks r cmd)); simpl.
    + unfold MAX_ERROR_FIX_ATTEMPTS. simpl. lia.
    + destruct (Nat.ltb_spec (current_fix_attempt r) MAX_ERROR_FIX_ATTEMPTS);
        simpl; lia.
  - destruct (negb is_error && _); simpl; [lia | exact H].
Qed.

Lemma track_all_snoc (past : list executed_call) (e : executed_call) :
  track_all (past ++ [e]) = track_call e (track_all past).
Proof. unfold track_all. now rewrite fold_left_app. Qed.

Lemma track_all_bounded (past : list executed_call) :
  current_fix_attempt (track_all past) <= MAX_ERROR_FIX_ATTEMPTS.
Proof.
  induction past as [|e past IH] using rev_ind.
  - unfold track_all, MAX_ERROR_FIX_ATTEMPTS. simpl. lia.
  - rewrite track_all_snoc. destruct e as [[n a] res]. now apply track_bounded.
Qed.

(** C1 (as amended).  Within one user turn, whatever calls came before:
    consecutive failures of the same non-empty command string add one to
    the attempt counter each, a failure of a different non-empty command
    starts over at 1, a success of the tracked command clears the tracker
    and sets the counter to zero, and at the ceiling of 3 a further
    failure of the command leaves the counter alone and drops the tracker,
    so that its next failure starts at 1 again. *)
Theorem counter_follows_nonempty_command (c : string) :
  c <> "" -> counter_follows c.
Proof.
  intros Hc past e r r'. subst r'.
  destruct e as [[n a] res]. unfold fails_command, succeeds_command.
  simpl track_call. split; [|split].
  - intro Hf. rewrite (track_failure n a res r c Hc Hf).
    split; [|split].
    + intros Ht Hlt. apply tracks_tracked in Ht. rewrite Ht. simpl.
      apply Nat.ltb_lt in Hlt. rewrite Hlt.
      apply tracks_tracked in Ht. unfold tracked_command in *. simpl.
      split; [exact Ht | lia].
    + intro Hn.
      assert (Ht : tracks r (VStr c) = false).
      { destruct (tracks r (VStr c)) eqn:E; [|reflexivity].
        apply tracks_tracked in E. contradiction. }
      rewrite Ht. simpl. split; reflexivity.
    + intros Ht Hmax. apply tracks_tracked in Ht. rewrite Ht. simpl.
      rewrite Hmax, Nat.ltb_irrefl. simpl.
      split; [reflexivity | split; [reflexivity|]].
      intros [[n2 a2] res2] Hf2. simpl in Hf2.
      simpl track_call. rewrite (track_failure n2 a2 res2 _ c Hc Hf2).
      split; reflexivity.
  - intros [Hok Hcmd] Ht. unfold track.
    destruct (classify n a res) as [is_error cmd]. simpl in Hok. subst is_error.
    simpl. unfold tracked_command in Ht.
    destruct (original_failed_command_details r) as [d|]; [|discriminate].
    injection Ht as Ht. rewrite Hcmd, Ht. simpl. now rewrite String.eqb_refl.
  - apply track_all_bounded.
Qed.

(** The tracker through five failures of [ng build] in a row, a success
    in between, and the failure of another command. *)
Example attempts_of_ng_build :
  map (fun calls => (tracked_command (track_all calls),
                     current_fix_attempt (track_all calls)))
      [ [ng_build_fails];
        [ng_build_fails; ng_build_fails];
        [ng_build_fails; ng_build_fails; ng_build_fails];
        [ng_build_fails; ng_build_fails; ng_build_fails; ng_build_fails];
        [ng_build_fails; ng_build_fails; ng_build_fails; ng_build_fails;
         ng_build_fails];
        [ng_build_fails; ng_build_fails; ng_build_succeeds];
        [ng_build_fails; ng_build_fails; ng_build_fails; ng_test_fails] ]
  = [ (Some (VStr "ng build"), 1);
      (Some (VStr "ng build"), 2);
      (Some (VStr "ng build"), 3);
      (None, 3);
      (Some (VStr "ng build"), 1);
      (None, 0);
      (Some (VStr "ng test"), 1) ].
Proof. reflexivity. Qed.

(** An instance of C1: the command [ng build]. *)
Lemma counter_follows_ng_build :
  "ng build" <> "" /\ counter_follows "ng build".
Proof.
  split; [discriminate|].
  apply (counter_follows_nonempty_command "ng build"). discriminate.
Defined.

(** C1 fails as stated for the empty command string: with no project
    path and no working directory, [execute_shell_command] reports the
    command [""] as failed with exit code 1, and the tracker neither
    counts that failure nor starts to track the command. *)
Lemma counter_ignores_empty_command :
  (exists w w',
      execute_shell_command (VStr "") VNone w
      = Returns (VDict [("stdout", VStr "");
                        ("stderr", VStr "Error: Working directory not set.");
                        ("exit_code", VInt 1)]) w')
  /\ ~ counter_follows "".
Proof.
  split.
  - exists (World None None [] None (Dir []) [] [] [] [] [] [] []).
    eexists. reflexivity.
  - intro H.
    specialize (H [] ("execute_shell_command", [("command", VStr "")],
                      VDict [("stdout", VStr "");
                             ("stderr", VStr "Error: Working directory not set.");
                             ("exit_code", VInt 1)])).
    simpl in H. destruct H as [H _].
    destruct (H eq_refl) as (_ & H1 & _).
    destruct H1 as [H1 _]; [discriminate|]. discriminate H1.
Qed.

(** ** What the tools leave alone *)

#[export] Instance tool_frame_relation : frame_relation tool_frame.
Proof.
  constructor.
  - now constructor.
  - intros w1 w2 w3 [a b c d] [a' b' c' d']. constructor; congruence.
Qed.

#[export] Instance session_frame_relation : frame_relation session_frame.
Proof.
  constructor.
  - now constructor.
  - intros w1 w2 w3 [a b c] [a' b' c']. constructor; try congruence. lia.
Qed.

Lemma tool_frame_session (w w' : world) : tool_frame w w' -> session_frame w w'.
Proof. intros [a b c d]. constructor; try assumption. now rewrite b. Qed.

Section Frames.

Variable R : world -> world -> Prop.
Context {HR : frame_relation R}.

Lemma preserves_ret {A : Type} (a : A) : preserves R (ret a).
Proof. intro w. apply frame_refl. Qed.

Lemma preserves_raise {A : Type} (e : exn) : preserves R (@raise A e).
Proof. intro w. apply frame_refl. Qed.

Lemma preserves_get {A : Type} (f : world -> A) : preserves R (get f).
Proof. intro w. apply frame_refl. Qed.

Lemma preserves_bind {A B : Type} (c : M A) (k : A -> M B) :
  preserves R c -> (forall a, preserves R (k a)) -> preserves R (bind c k).
Proof.
  intros Hc Hk w. unfold bind. specialize (Hc w).
  destruct (c w) as [a w'|e w']; simpl in *.
  - eapply frame_trans; [exact Hc | apply Hk].
  - exact Hc.
Qed.

Lemma preserves_try_except {A : Type} (c : M A) (h : exn -> M A) :
  preserves R c -> (forall e, preserves R (h e)) ->
  preserves R (try_except c h).
Proof.
  intros Hc Hh w. unfold try_except. specialize (Hc w).
  destruct (c w) as [a w'|e w']; simpl in *.
  - exact Hc.
  - eapply frame_trans; [exact Hc | apply Hh].
Qed.

Lemma preserves_modify (f : world -> world) :
  (forall w, R w (f w)) -> preserves R (modify f).
Proof. intros H w. apply H. Qed.

Lemma preserves_of_io {A : Type} (r : io_result A) : preserves R (of_io r).
Proof. destruct r; [apply preserves_ret | apply preserves_raise]. Qed.

End Frames.

Lemma loop_events_app (t u : list event) :
  loop_events (t ++ u) = (loop_events t ++ loop_events u)%list.
Proof. apply filter_app. Qed.

Lemma tool_frame_emit (e : event) (w : world) :
  is_loop_event e = false -> tool_frame w (set_trace (trace w ++ [e]) w).
Proof.
  intro H. constructor; try reflexivity.
  simpl. rewrite loop_events_app. simpl. rewrite H. apply app_nil_r.
Qed.

Lemma preserves_emit (R : world -> world -> Prop) (e : event) :
  (forall w w', tool_frame w w' -> R w w') ->
  is_loop_event e = false -> preserves R (emit e).
Proof. intros HR H w. apply HR. now apply tool_frame_emit. Qed.

Lemma preserves_weaken {A : Type} (c : M A) :
  preserves tool_frame c -> preserves session_frame c.
Proof. intros H w. apply tool_frame_session, H. Qed.

(** One step of a proof that a computation stays within a frame. *)
Ltac frame_step :=
  match goal with
  | |- frame_relation _ => exact _
  | |- preserves _ (bind _ _) => apply preserves_bind; [| |intro]
  | |- preserves _ (try_except _ _) => apply preserves_try_except; [| |intro]
  | |- preserves _ (ret _) => apply preserves_ret
  | |- preserves _ (raise _) => apply preserves_raise
  | |- preserves _ (get _) => apply preserves_get
  | |- preserves _ (print _) =>
      apply preserves_emit;
      [first [exact (fun w w' H => H) | exact tool_frame_session] | reflexivity]
  | |- preserves _ (emit _) =>
      apply preserves_emit;
      [first [exact (fun w w' H => H) | exact tool_frame_session] | reflexivity]
  | |- preserves _ (of_io _) => apply preserves_of_io
  | |- preserves tool_frame (modify _) =>
      apply preserves_modify; intro; constructor; reflexivity
  | |- preserves session_frame (modify _) =>
      apply preserves_modify; intro; apply tool_frame_session;
      constructor; reflexivity
  | |- preserves _ (match ?x with _ => _ end) => destruct x
  | |- preserves _ (let (_, _) := ?x in _) => destruct x
  end.

Ltac frame := repeat frame_step.

Lemma py_in_preserves (needle : string) (v : pyval) :
  preserves tool_frame (py_in needle v).
Proof. unfold py_in. frame. Qed.

Lemma py_path_join_preserves (a : string) (b : pyval) :
  preserves tool_frame (py_path_join a b).
Proof. unfold py_path_join. frame. Qed.

Lemma input_preserves (prompt : string) : preserves tool_frame (input prompt).
Proof. unfold input. frame. Qed.

Lemma subprocess_run_preserves (command cwd : pyval) :
  preserves tool_frame (subprocess_run command cwd).
Proof. unfold subprocess_run. frame. Qed.

Lemma subprocess_Popen_preserves (command cwd : pyval) :
  preserves tool_frame (subprocess_Popen command cwd).
Proof. unfold subprocess_Popen. frame. Qed.

Lemma execute_shell_command_preserves (command working_directory : pyval) :
  preserves tool_frame (execute_shell_command command working_directory).
Proof.
  unfold execute_shell_command, py_split_method.
  repeat first [ apply py_in_preserves | apply subprocess_run_preserves
               | frame_step ].
Qed.

Lemma start_angular_serve_preserves (command working_directory duration : pyval) :
  preserves tool_frame
    (start_angular_serve_and_get_initial_output command working_directory
       duration).
Proof.
  unfold start_angular_serve_and_get_initial_output, monitoring_window.
  repeat first [ apply subprocess_Popen_preserves | frame_step ].
Qed.

Lemma stop_angular_server_preserves : preserves tool_frame stop_angular_server.
Proof. unfold stop_angular_server, wait_for_exit. frame. Qed.

Lemma read_file_preserves (relative_filepath : pyval) :
  preserves tool_frame (read_file relative_filepath).
Proof.
  unfold read_file. repeat first [ apply py_path_join_preserves | frame_step ].
Qed.

Lemma write_file_preserves (relative_filepath content : pyval) :
  preserves tool_frame (write_file relative_filepath content).
Proof.
  unfold write_file, write_opened.
  repeat first [ apply py_path_join_preserves | frame_step ].
Qed.

Lemma list_directory_contents_preserves (relative_path : pyval) :
  preserves tool_frame (list_directory_contents relative_path).
Proof.
  unfold list_directory_contents.
  repeat first [ apply py_path_join_preserves | frame_step ].
Qed.

Lemma delete_file_or_directory_preserves (relative_path : pyval) :
  preserves tool_frame (delete_file_or_directory relative_path).
Proof.
  unfold delete_file_or_directory.
  repeat first [ apply py_path_join_preserves | frame_step ].
Qed.

Lemma ask_until_answered_preserves (prompt : string) (lines : list string) :
  preserves tool_frame (ask_until_answered prompt lines).
Proof.
  induction lines as [|l rest IH]; simpl.
  - frame.
  - repeat first [ exact IH | frame_step ].
Qed.

Lemma ask_user_confirmation_preserves (prompt_message : pyval) :
  preserves tool_frame (ask_user_confirmation prompt_message).
Proof.
  unfold ask_user_confirmation.
  repeat first [ apply ask_until_answered_preserves | frame_step ].
Qed.

(** Every function of the registry stays within the frame, whatever it is
    called with. *)
Lemma registered_tool_preserves (name called_as : string) (f : tool_function)
  (kwargs : dict) :
  registry_find available_tools_python_functions name = Some f ->
  preserves tool_frame (call_with_kwargs called_as f kwargs).
Proof.
  intro Hf. unfold call_with_kwargs.
  destruct (unexpected_keyword (parameters f) kwargs);
    [apply preserves_raise; exact _|].
  destruct (bind_parameters called_as (parameters f) kwargs) as [e|values];
    [apply preserves_raise; exact _|].
  unfold available_tools_python_functions in Hf. simpl in Hf.
  repeat match type of Hf with
         | (if ?b then _ else _) = _ =>
             destruct b; [injection Hf as <-; simpl|]
         end;
    try discriminate;
    auto using execute_shell_command_preserves, start_angular_serve_preserves,
      stop_angular_server_preserves, read_file_preserves, write_file_preserves,
      list_directory_contents_preserves, delete_file_or_directory_preserves,
      ask_user_confirmation_preserves.
Qed.

(** ** What the execution of a call leaves alone *)

Lemma tool_turns_app (h k : list turn) :
  tool_turns (h ++ k) = tool_turns h + tool_turns k.
Proof. unfold tool_turns. now rewrite filter_app, length_app. Qed.

Lemma tool_turns_set_last_turn_call_args (i : nat) (a : dict) (h : list turn) :
  tool_turns (set_last_turn_call_args i a h) = tool_turns h.
Proof.
  unfold set_last_turn_call_args.
  destruct (rev h) as [|[r ps] earlier] eqn:E.
  - apply (f_equal (@rev turn)) in E. rewrite rev_involutive in E. now subst.
  - apply (f_equal (@rev turn)) in E. rewrite rev_involutive in E. subst h.
    simpl. rewrite !tool_turns_app. f_equal.
    unfold tool_turns. simpl. unfold is_tool_turn. simpl.
    now destruct r.
Qed.

Lemma initialize_global_chat_session_preserves :
  preserves session_frame initialize_global_chat_session.
Proof.
  unfold initialize_global_chat_session.
  apply preserves_bind; [exact _ | apply preserves_get; exact _ | intro cpp].
  apply preserves_bind; [exact _ | frame | intros _].
  apply preserves_bind; [exact _ | | intros _].
  { apply preserves_modify. intro w. constructor; reflexivity. }
  apply preserves_bind; [exact _ | | intros _].
  { apply preserves_modify. intro w. constructor; try reflexivity.
    unfold tool_turns.
    cbn [conversation_history_for_this_run set_history filter is_tool_turn
           turn_role length]. lia. }
  frame.
Qed.

Lemma py_path_join_any_preserves (a : pyval) (b : string) :
  preserves session_frame (py_path_join_any a b).
Proof. unfold py_path_join_any. frame. Qed.

Lemma adopt_new_project_preserves (project_name : string)
  (result actual_exec_dir : pyval) (d : dispatching) :
  preserves session_frame
    (adopt_new_project project_name result actual_exec_dir d).
Proof.
  unfold adopt_new_project.
  repeat first
    [ apply initialize_global_chat_session_preserves
    | apply py_path_join_any_preserves
    | frame_step ].
Qed.

Lemma dispatch_ng_new_preserves (n : string) (f : tool_function) (a : dict)
  (d : dispatching) :
  registry_find available_tools_python_functions n = Some f ->
  preserves session_frame (dispatch_ng_new f a d).
Proof.
  intro Hf. unfold dispatch_ng_new.
  assert (Hcall : forall kwargs,
             preserves session_frame
               (call_with_kwargs "execute_shell_command" f kwargs)).
  { intro kwargs. apply preserves_weaken.
    now apply (registered_tool_preserves n). }
  assert (Hin : forall p, preserves session_frame (input p)).
  { intro p. apply preserves_weaken, input_preserves. }
  repeat first
    [ apply Hcall | apply Hin | apply adopt_new_project_preserves
    | match goal with
      | |- preserves session_frame (modify (fun w => set_history _ w)) =>
          apply preserves_modify; intro; constructor; try reflexivity;
          cbn [conversation_history_for_this_run set_history];
          rewrite tool_turns_set_last_turn_call_args; lia
      end
    | frame_step ].
Qed.

Lemma execute_call_preserves (n : string) (a : dict) (d : dispatching) :
  preserves session_frame (execute_call n a d).
Proof.
  unfold execute_call.
  destruct (registry_find available_tools_python_functions n) as [f|] eqn:Hf.
  - apply preserves_bind; [exact _ | | intro is_new].
    + destruct (n =? "execute_shell_command");
        [apply preserves_weaken, py_in_preserves | apply preserves_ret; exact _].
    + destruct is_new.
      * now apply (dispatch_ng_new_preserves n).
      * apply preserves_bind; [exact _ | | intro r; frame].
        apply preserves_weaken. now apply (registered_tool_preserves n).
  - frame.
Qed.

(** ** One call, and the calls of one model turn *)

Lemma execute_call_unregistered (n : string) (a : dict) (d : dispatching)
  (w : world) :
  unregistered n ->
  execute_call n a d w =
    Returns (Execution (unknown_tool_payload n) a (turn_in_transcript d))
      (set_trace
         (trace w ++ [EvPrint ("Error: LLM requested unknown tool '" ++ n ++ "'.")])
         w).
Proof. intro H. unfold execute_call. rewrite H. reflexivity. Qed.

(** What one pass of the [for] loop has done when it returns. *)
Lemma dispatch_returns (n : string) (a : dict) (d d' : dispatching)
  (w w' : world) :
  dispatch (n, a) d w = Returns d' w' ->
  exists (result : pyval) (args_after : dict),
    tool_response_parts_for_api d'
    = (tool_response_parts_for_api d ++ [part_function_response n result])%list
    /\ tracker d' = track n args_after result (tracker d)
    /\ index d' = index d + 1
    /\ llm_script w' = llm_script w
    /\ loop_events (trace w')
       = (loop_events (trace w) ++ [EvRequested n a; EvExecuted n result])%list
    /\ tool_turns (conversation_history_for_this_run w')
       <= tool_turns (conversation_history_for_this_run w)
    /\ (unregistered n -> result = unknown_tool_payload n /\ args_after = a).
Proof.
  unfold dispatch, bind. unfold emit at 1. unfold modify.
  set (w1 := set_trace (trace w ++ [EvRequested n a]) w).
  pose proof (execute_call_preserves n a d w1) as Hframe.
  destruct (execute_call n a d w1) as [[result args_after live] w2|e w2] eqn:E;
    [|discriminate].
  simpl in Hframe. destruct Hframe as [Hllm Hev Htt].
  unfold emit, modify. cbn [call_result call_args call_in_transcript].
  assert (Hw1 : loop_events (trace w1)
                = (loop_events (trace w) ++ [EvRequested n a])%list).
  { subst w1. simpl. now rewrite loop_events_app. }
  assert (Hun : unregistered n ->
                result = unknown_tool_payload n /\ args_after = a).
  { intro Hu. rewrite (execute_call_unregistered n a d w1 Hu) in E.
    now injection E as <- <- _ _. }
  destruct (track_message n args_after result (tracker d)) as [line|];
    simpl; intros [= <- <-]; exists result, args_after; simpl;
    rewrite ?loop_events_app, Hev, Hw1; simpl;
    rewrite <- ?app_assoc; simpl;
    (do 6 (split; [solve [reflexivity | assumption]|]); exact Hun).
Qed.

(** An exception in one pass leaves the replies of the model in store. *)
Lemma dispatch_raises (n : string) (a : dict) (d : dispatching) (e : exn)
  (w w' : world) :
  dispatch (n, a) d w = Raises e w' -> llm_script w' = llm_script w.
Proof.
  unfold dispatch, bind. unfold emit at 1. unfold modify.
  set (w1 := set_trace (trace w ++ [EvRequested n a]) w).
  pose proof (execute_call_preserves n a d w1) as Hframe.
  destruct (execute_call n a d w1) as [[result args_after live] w2|e' w2] eqn:E.
  - unfold emit, modify, print, emit, modify, ret.
    cbn [call_result call_args call_in_transcript].
    destruct (track_message n args_after result (tracker d)); simpl;
      intro H; discriminate H.
  - intros [= <- <-]. simpl in Hframe. now destruct Hframe.
Qed.

Lemma dispatch_all_cons (c : string * dict) (calls : list (string * dict))
  (d : dispatching) (w : world) :
  dispatch_all (c :: calls) d w =
    match dispatch c d w with
    | Returns d1 w1 => dispatch_all calls d1 w1
    | Raises e w1 => Raises e w1
    end.
Proof. reflexivity. Qed.

Lemma dispatch_all_returns (calls : list (string * dict)) :
  forall (d d' : dispatching) (w w' : world),
    dispatch_all calls d w = Returns d' w' ->
    exists results : list pyval,
      length results = length calls
      /\ tool_response_parts_for_api d'
         = (tool_response_parts_for_api d ++ responses calls results)%list
      /\ llm_script w' = llm_script w
      /\ loop_events (trace w')
         = (loop_events (trace w) ++ call_events calls results)%list
      /\ tool_turns (conversation_history_for_this_run w')
         <= tool_turns (conversation_history_for_this_run w)
      /\ Forall2 (fun c result => unregistered (fst c) ->
                                  result = unknown_tool_payload (fst c))
           calls results.
Proof.
  induction calls as [|[n a] calls IH]; intros d d' w w' H.
  - simpl in H. injection H as <- <-. exists []. simpl.
    rewrite !app_nil_r. repeat split; auto.
  - rewrite dispatch_all_cons in H.
    destruct (dispatch (n, a) d w) as [d1 w1|e w1] eqn:E; [|discriminate H].
    destruct (dispatch_returns _ _ _ _ _ _ E)
      as (result & args_after & Hp & _ & _ & Hl & Hev & Htt & Hu).
    destruct (IH _ _ _ _ H) as (results & Hlen & Hp' & Hl' & Hev' & Htt' & Hu').
    exists (result :: results). simpl.
    rewrite Hp', Hp, Hl', Hl, Hev', Hev, <- !app_assoc. simpl.
    repeat split; auto; try lia.
    constructor; [|exact Hu']. intro Hn. now destruct (Hu Hn).
Qed.

Lemma dispatch_all_raises (calls : list (string * dict)) :
  forall (d : dispatching) (e : exn) (w w' : world),
    dispatch_all calls d w = Raises e w' -> llm_script w' = llm_script w.
Proof.
  induction calls as [|[n a] calls IH]; intros d e w w' H.
  - discriminate.
  - rewrite dispatch_all_cons in H.
    destruct (dispatch (n, a) d w) as [d1 w1|e1 w1] eqn:E.
    + destruct (dispatch_returns _ _ _ _ _ _ E)
        as (result & args_after & _ & _ & _ & Hl & _).
      rewrite <- Hl. eapply IH; eauto.
    + injection H as <- <-. eapply dispatch_raises; eauto.
Qed.

Lemma responses_length (calls : list (string * dict)) (results : list pyval) :
  length results = length calls ->
  length (responses calls results) = length calls.
Proof.
  intro H. unfold responses. rewrite length_map, length_combine. lia.
Qed.

(** What [answer_calls] has done when it returns for a non-empty batch. *)
Lemma answer_calls_returns (calls : list (string * dict)) (r : recovery)
  (w : world) (answered : option dispatching) (w' : world) :
  calls <> [] ->
  answer_calls calls r w = Returns answered w' ->
  exists (d : dispatching) (results : list pyval) (earlier : list turn),
    answered = Some d
    /\ length results = length calls
    /\ tool_response_parts_for_api d = responses calls results
    /\ llm_script w' = llm_script w
    /\ loop_events (trace w')
       = (loop_events (trace w) ++ call_events calls results)%list
    /\ conversation_history_for_this_run w'
       = (earlier ++ [Turn role_tool (responses calls results)])%list
    /\ tool_turns earlier <= tool_turns (conversation_history_for_this_run w)
    /\ Forall2 (fun c result => unregistered (fst c) ->
                                result = unknown_tool_payload (fst c))
         calls results.
Proof.
  intros Hne H. unfold answer_calls, bind in H.
  destruct (dispatch_all calls (Dispatching [] r 0 true) w) as [d w1|e w1] eqn:E;
    [|discriminate H].
  destruct (dispatch_all_returns _ _ _ _ _ E)
    as (results & Hlen & Hp & Hl & Hev & Htt & Hu).
  simpl in Hp.
  destruct (tool_response_parts_for_api d) as [|p ps] eqn:Ed.
  - exfalso. symmetry in Hp. apply (f_equal (@length part)) in Hp.
    rewrite responses_length in Hp by assumption.
    destruct calls; [contradiction | discriminate Hp].
  - unfold append_turn, modify, ret in H. injection H as <- <-.
    exists d, results, (conversation_history_for_this_run w1).
    rewrite Ed. simpl. rewrite Hp. repeat split; auto.
Qed.

(** C2 (as amended).  For a model turn with [N >= 1] tool-call requests
    none of whose execution raises: the loop requests and executes the
    calls one after the other in the order of the model turn (its console
    shows request, result, request, result, ...), and appends to the
    transcript one tool turn with exactly [N] result parts, the part of
    each call at the position of the call; executing the calls adds no
    other tool turn. *)
Theorem calls_answered_in_order (calls : list (string * dict)) (r : recovery)
  (w : world) (answered : option dispatching) (w' : world) :
  calls <> [] ->
  answer_calls calls r w = Returns answered w' ->
  exists (d : dispatching) (results : list pyval) (earlier : list turn),
    answered = Some d
    /\ length results = length calls
    /\ tool_response_parts_for_api d = responses calls results
    /\ length (tool_response_parts_for_api d) = length calls
    /\ loop_events (trace w')
       = (loop_events (trace w) ++ call_events calls results)%list
    /\ conversation_history_for_this_run w'
       = (earlier ++ [Turn role_tool (responses calls results)])%list
    /\ tool_turns earlier <= tool_turns (conversation_history_for_this_run w).
Proof.
  intros Hne H.
  destruct (answer_calls_returns _ _ _ _ _ Hne H)
    as (d & results & earlier & Ha & Hlen & Hp & _ & Hev & Hh & Htt & _).
  exists d, results, earlier. repeat split; auto.
  rewrite Hp. now apply responses_length.
Qed.

(** An instance of C2: an unknown tool and [read_file] in one model turn. *)
Lemma two_calls_answered_in_order :
  two_calls <> []
  /\ answer_calls two_calls no_recovery example_world
     = Returns two_calls_answered (world_of two_calls_outcome)
  /\ exists (d : dispatching) (results : list pyval) (earlier : list turn),
       two_calls_answered = Some d
       /\ length results = length two_calls
       /\ tool_response_parts_for_api d = responses two_calls results
       /\ length (tool_response_parts_for_api d) = length two_calls
       /\ loop_events (trace (world_of two_calls_outcome))
          = (loop_events (trace example_world)
               ++ call_events two_calls results)%list
       /\ conversation_history_for_this_run (world_of two_calls_outcome)
          = (earlier ++ [Turn role_tool (responses two_calls results)])%list
       /\ tool_turns earlier
          <= tool_turns (conversation_history_for_this_run example_world).
Proof.
  split; [discriminate|].
  split; [vm_compute; reflexivity|].
  apply (calls_answered_in_order two_calls no_recovery example_world).
  - discriminate.
  - vm_compute. reflexivity.
Defined.

(** C2 fails as stated when the execution of a call raises: for a model
    turn that requests an unknown tool and then [write_file] without its
    [content], the first call is executed, the second raises, and no tool
    turn at all is appended. *)
Lemma calls_cut_short :
  let calls := [("nope", []);
                ("write_file", [("relative_filepath", VStr "a.txt")])] in
  let o := answer_calls calls no_recovery example_world in
  (forall answered w', o <> Returns answered w')
  /\ loop_events (trace (world_of o))
     = [EvRequested "nope" [];
        EvExecuted "nope" (unknown_tool_payload "nope");
        EvRequested "write_file" [("relative_filepath", VStr "a.txt")]]
  /\ conversation_history_for_this_run (world_of o)
     = conversation_history_for_this_run example_world.
Proof.
  vm_compute. repeat split; intros; discriminate.
Qed.

(** The end of a pass sends the result parts to the model, whatever the
    model then does. *)
Lemma send_tool_results_sends (d : dispatching) (w : world) :
  In (EvSend (tool_response_parts_for_api d))
     (trace (world_of (send_tool_results d w))).
Proof.
  unfold send_tool_results.
  cbn [Z.ltb Z.compare TOOL_RESPONSE_DELAY_SECONDS].
  unfold send_message, append_turn, print, emit, modify, get, ret, raise, bind.
  cbn [llm_script set_trace].
  destruct (llm_script w) as [|[response|e] rest];
    [| destruct (parts (model_response_to_log response)) |];
    cbn [world_of trace set_trace set_llm_script set_history];
    repeat rewrite in_app_iff; cbn [In]; intuition.
Qed.

(** C3.  A call to a name that is not in the registry never raises: its
    result is the unknown-tool payload, nothing but the console changes;
    in the tool turn that answers the model turn, the part at the
    position of the call carries that payload; and the parts of that turn
    are what the loop then sends to the model. *)
Theorem unknown_tool_is_answered (tool_name : string) (tool_args_dict : dict) :
  unregistered tool_name ->
  (forall (d : dispatching) (w : world),
      exists lines : list event,
        dispatch (tool_name, tool_args_dict) d w
        = Returns
            (Dispatching
               (tool_response_parts_for_api d
                  ++ [part_function_response tool_name
                        (unknown_tool_payload tool_name)])%list
               (track tool_name tool_args_dict
                  (unknown_tool_payload tool_name) (tracker d))
               (index d + 1)
               (turn_in_transcript d))
            (set_trace (trace w ++ lines) w))
  /\ (forall (before after : list (string * dict)) (r : recovery) (w : world)
        (answered : option dispatching) (w' : world),
        answer_calls (before ++ (tool_name, tool_args_dict) :: after) r w
        = Returns answered w' ->
        exists (d : dispatching) (earlier : list turn),
          answered = Some d
          /\ nth_error (tool_response_parts_for_api d) (length before)
             = Some (part_function_response tool_name
                       (unknown_tool_payload tool_name))
          /\ conversation_history_for_this_run w'
             = (earlier ++ [Turn role_tool (tool_response_parts_for_api d)])%list
          /\ In (EvSend (tool_response_parts_for_api d))
                (trace (world_of (send_tool_results d w')))).
Proof.
  intro Hu. split.
  - intros d w. unfold dispatch, bind. unfold emit at 1. unfold modify.
    rewrite (execute_call_unregistered _ _ _ _ Hu).
    unfold emit, print, emit, modify, ret.
    cbn [call_result call_args call_in_transcript].
    destruct (track_message tool_name tool_args_dict
                (unknown_tool_payload tool_name) (tracker d)) as [line|];
      simpl; rewrite <- ?app_assoc; simpl; eexists; reflexivity.
  - intros before after r w answered w' H.
    assert (Hne : (before ++ (tool_name, tool_args_dict) :: after)%list <> []).
    { destruct before; discriminate. }
    destruct (answer_calls_returns _ _ _ _ _ Hne H)
      as (d & results & earlier & Ha & Hlen & Hp & _ & _ & Hh & _ & Hall).
    exists d, earlier.
    split; [exact Ha|]. split; [|split].
    2:{ now rewrite Hp. }
    2:{ apply send_tool_results_sends. }
    rewrite Hp. clear - Hall Hu. revert results Hall.
    induction before as [|b before IH]; intros results Hall.
    + inversion Hall as [|c result cs rs Hc Hrest]; subst. simpl.
      now rewrite (Hc Hu).
    + inversion Hall as [|c result cs rs Hc Hrest]; subst. simpl.
      apply IH, Hrest.
Qed.

(** An instance of C3: the name [nope]. *)
Lemma nope_is_answered :
  unregistered "nope"
  /\ exists lines : list event,
       dispatch ("nope", [("x", VInt 1)]) (Dispatching [] no_recovery 0 true)
         example_world
       = Returns
           (Dispatching
              [part_function_response "nope" (unknown_tool_payload "nope")]
              (track "nope" [("x", VInt 1)] (unknown_tool_payload "nope")
                 no_recovery)
              1 true)
           (set_trace (trace example_world ++ lines) example_world).
Proof.
  split; [reflexivity|].
  exact (proj1 (unknown_tool_is_answered "nope" [("x", VInt 1)] eq_refl)
           (Dispatching [] no_recovery 0 true) example_world).
Defined.

(** ** Where exceptions stop *)

Lemma total_ret {A : Type} (a : A) : total (ret a).
Proof. intro w. now exists a, w. Qed.

Lemma total_get {A : Type} (f : world -> A) : total (get f).
Proof. intro w. now exists (f w), w. Qed.

Lemma total_modify (f : world -> world) : total (modify f).
Proof. intro w. now exists tt, (f w). Qed.

Lemma total_emit (e : event) : total (emit e).
Proof. apply total_modify. Qed.

Lemma total_print (line : string) : total (print line).
Proof. apply total_emit. Qed.

Lemma returns_at_bind {A B : Type} (c : M A) (k : A -> M B) (w : world) :
  returns_at c w ->
  (forall a w', c w = Returns a w' -> returns_at (k a) w') ->
  returns_at (bind c k) w.
Proof.
  intros (a & w' & Hc) Hk. unfold returns_at, bind. rewrite Hc.
  apply (Hk a w' Hc).
Qed.

Lemma total_bind {A B : Type} (c : M A) (k : A -> M B) :
  total c -> (forall a, total (k a)) -> total (bind c k).
Proof.
  intros Hc Hk w. apply returns_at_bind; [apply Hc|].
  intros a w' _. apply Hk.
Qed.

(** A [try] whose handler returns lets nothing out. *)
Lemma total_try_except {A : Type} (c : M A) (h : exn -> M A) :
  (forall e, total (h e)) -> total (try_except c h).
Proof.
  intros Hh w. unfold returns_at, try_except.
  destruct (c w) as [a w'|e w']; [now exists a, w' | apply Hh].
Qed.

Ltac total_step :=
  match goal with
  | |- total (try_except _ _) => apply total_try_except; intro
  | |- total (bind _ _) => apply total_bind; [|intro]
  | |- total (ret _) => apply total_ret
  | |- total (get _) => apply total_get
  | |- total (modify _) => apply total_modify
  | |- total (print _) => apply total_print
  | |- total (emit _) => apply total_emit
  | |- total (match ?x with _ => _ end) => destruct x
  | |- total (let (_, _) := ?x in _) => destruct x
  end.

Ltac totality := repeat total_step.

Lemma execute_shell_command_total (command : string) (working_directory : pyval) :
  total (execute_shell_command (VStr command) working_directory).
Proof. unfold execute_shell_command, py_in. simpl py_contains. totality. Qed.

Lemma start_angular_serve_total (command working_directory duration : pyval) :
  total (start_angular_serve_and_get_initial_output command working_directory
           duration).
Proof. unfold start_angular_serve_and_get_initial_output. totality. Qed.

Lemma stop_angular_server_total : total stop_angular_server.
Proof. unfold stop_angular_server, wait_for_exit. totality. Qed.

Lemma read_file_total (relative_filepath : string) :
  total (read_file (VStr relative_filepath)).
Proof. unfold read_file, py_path_join. totality. Qed.

Lemma write_file_total (relative_filepath : string) (content : pyval) :
  total (write_file (VStr relative_filepath) content).
Proof. unfold write_file, py_path_join. totality. Qed.

Lemma list_directory_contents_total (relative_path : string) :
  total (list_directory_contents (VStr relative_path)).
Proof. unfold list_directory_contents, py_path_join. totality. Qed.

Lemma delete_file_or_directory_total (relative_path : string) :
  total (delete_file_or_directory (VStr relative_path)).
Proof. unfold delete_file_or_directory, py_path_join. totality. Qed.

Lemma ask_until_answered_returns (prompt : string) (lines : list string)
  (w : world) :
  existsb is_answer lines = true ->
  returns_at (ask_until_answered prompt lines) w.
Proof.
  revert w. induction lines as [|l rest IH]; intros w H; [discriminate|].
  simpl in H. unfold is_answer in H at 1.
  unfold returns_at. simpl. unfold bind, emit, modify, print, emit, modify, ret.
  destruct (strip (lower l) =? "yes"); [now eexists; eexists|].
  destruct (strip (lower l) =? "no"); [now eexists; eexists|].
  simpl in H. apply (IH _ H).
Qed.

Lemma ask_user_confirmation_returns (prompt_message : pyval) (w : world) :
  existsb is_answer (stdin w) = true ->
  returns_at (ask_user_confirmation prompt_message) w.
Proof.
  intro H. unfold ask_user_confirmation.
  apply returns_at_bind; [apply total_get|].
  intros lines w' [= <- <-]. now apply ask_until_answered_returns.
Qed.

Lemma initialize_global_chat_session_total : total initialize_global_chat_session.
Proof. unfold initialize_global_chat_session. totality. Qed.

Lemma dict_find_set (d : dict) (k k' : string) (v : pyval) :
  dict_find (dict_set d k v) k' = if (k' =? k) then Some v else dict_find d k'.
Proof.
  induction d as [|[k0 v0] d IH]; simpl.
  - reflexivity.
  - destruct (String.eqb_spec k k0) as [->|Hk]; simpl.
    + destruct (String.eqb_spec k' k0); reflexivity.
    + rewrite IH. destruct (String.eqb_spec k' k0) as [->|Hk'];
        [|reflexivity].
      destruct (String.eqb_spec k0 k); [congruence | reflexivity].
Qed.

Lemma unexpected_keyword_set (params : list (string * option pyval))
  (d : dict) (k : string) (v : pyval) :
  existsb (fun p => (k =? fst p)) params = true ->
  unexpected_keyword params d = None ->
  unexpected_keyword params (dict_set d k v) = None.
Proof.
  intros Hk. induction d as [|[k0 v0] d IH]; simpl; intro H.
  - now rewrite Hk.
  - destruct (existsb (fun p => k0 =? fst p) params) eqn:E0; [|discriminate].
    destruct (String.eqb_spec k k0) as [->|Hne]; simpl; rewrite E0; auto.
Qed.

Lemma adopt_new_project_total (project_name : string)
  (result actual_exec_dir : pyval) (d : dispatching) :
  is_str actual_exec_dir = true \/ py_truthy actual_exec_dir = false ->
  total (adopt_new_project project_name result actual_exec_dir d).
Proof.
  intro H. unfold adopt_new_project.
  destruct (py_eq (result_get result "exit_code" VNone) (VInt 0)
            && negb (project_name =? "") && py_truthy actual_exec_dir) eqn:E;
    [|apply total_ret].
  destruct H as [H|H].
  - destruct actual_exec_dir; try discriminate H.
    unfold py_path_join_any.
    repeat first [apply initialize_global_chat_session_total | total_step].
  - rewrite H, andb_false_r in E. discriminate E.
Qed.

Lemma call_execute_shell_command_total (kwargs : dict) (c : string) :
  unexpected_keyword (parameters registered_execute_shell_command) kwargs = None ->
  dict_find kwargs "command" = Some (VStr c) ->
  total (call_with_kwargs "execute_shell_command"
           registered_execute_shell_command kwargs).
Proof.
  intros Hu Hc. unfold call_with_kwargs. rewrite Hu.
  cbn [bind_parameters parameters registered_execute_shell_command].
  rewrite Hc.
  destruct (dict_find kwargs "working_directory"); cbn [body arg nth];
    apply execute_shell_command_total.
Qed.

Lemma input_returns (prompt : string) (w : world) :
  console_has_line w = true -> returns_at (input prompt) w.
Proof.
  unfold console_has_line, returns_at, input, bind, emit, modify, get, ret.
  simpl. destruct (stdin w); [discriminate|]. intros _. now eexists; eexists.
Qed.

Lemma dispatch_ng_new_returns (kwargs : dict) (d : dispatching) (w : world)
  (c : string) :
  unexpected_keyword (parameters registered_execute_shell_command) kwargs = None ->
  dict_find kwargs "command" = Some (VStr c) ->
  is_str (dict_get kwargs "working_directory" VNone) = true
  \/ dict_get kwargs "working_directory" VNone = VNone ->
  (py_truthy (dict_get kwargs "working_directory" VNone) = false ->
   console_has_line w = true) ->
  returns_at (dispatch_ng_new registered_execute_shell_command kwargs d) w.
Proof.
  intros Hu Hc Hwd Hin. unfold dispatch_ng_new.
  unfold dict_get at 1. rewrite Hc.
  apply returns_at_bind; [apply total_ret|]. intros cmd w0 [= <- <-].
  assert (Hadopt : forall (name : string) (r actual : pyval) (args : dict) w1,
             is_str actual = true \/ py_truthy actual = false ->
             returns_at
               (adopted <- adopt_new_project name r actual d ;;
                ret (Execution (fst adopted) args (snd adopted))) w1).
  { intros name r actual args w1 Hactual.
    apply returns_at_bind; [now apply adopt_new_project_total|].
    intros. apply total_ret. }
  destruct (py_truthy (dict_get kwargs "working_directory" VNone)) eqn:Ewd;
    cbn [negb].
  - (* the model names the directory *)
    apply returns_at_bind.
    + apply total_bind; [apply total_print|intros _].
      apply total_bind; [|intro; apply total_ret].
      now apply (call_execute_shell_command_total kwargs c).
    + intros [[r actual] args] w1 H. apply Hadopt.
      unfold bind, print, emit, modify in H. simpl in H.
      destruct (call_with_kwargs _ _ _ _) in H; [|discriminate H].
      injection H as _ <- _ _. simpl.
      destruct Hwd as [Hs|Hn]; [now left | rewrite Hn in Ewd; discriminate Ewd].
  - (* the operator is asked *)
    apply returns_at_bind.
    + apply returns_at_bind; [apply input_returns; auto|].
      intros answer w1 _.
      apply total_bind; [apply total_get|intro root].
      apply total_bind; [apply total_get|intro here].
      destruct (negb (os_path_isdir root here (strip answer))); [totality|].
      apply total_bind; [totality|intros _].
      apply total_bind; [apply total_print|intros _].
      apply total_bind; [|intro; apply total_ret].
      apply (call_execute_shell_command_total _ c).
      * now apply unexpected_keyword_set.
      * rewrite dict_find_set. exact Hc.
    + intros [[r actual] args] w1 H. apply Hadopt.
      unfold bind in H.
      destruct (input _ w) as [answer w2|]; [|discriminate H].
      unfold get in H.
      destruct (negb (os_path_isdir (fs w2) (cwd w2) (strip answer))).
      * unfold print, emit, modify, ret in H. injection H as _ <- _ _.
        right. exact Ewd.
      * destruct (turn_in_transcript d); unfold modify, print, emit, modify, ret in H;
          destruct (call_with_kwargs _ _ _ _) in H; try discriminate H;
          injection H as _ <- _ _; now left.
Qed.

Lemma call_with_kwargs_bound (n : string) (f : tool_function) (kwargs : dict)
  (values : list pyval) :
  unexpected_keyword (parameters f) kwargs = None ->
  bind_parameters n (parameters f) kwargs = inr values ->
  call_with_kwargs n f kwargs = body f values.
Proof. intros Hu Hb. unfold call_with_kwargs. now rewrite Hu, Hb. Qed.

Lemma execute_call_registered (n : string) (f : tool_function) (kwargs : dict)
  (values : list pyval) (d : dispatching) (w : world) :
  registry_find available_tools_python_functions n = Some f ->
  (n =? "execute_shell_command") = false ->
  unexpected_keyword (parameters f) kwargs = None ->
  bind_parameters n (parameters f) kwargs = inr values ->
  returns_at (body f values) w ->
  returns_at (execute_call n kwargs d) w.
Proof.
  intros Hf Hn Hu Hb Hr. unfold execute_call. rewrite Hf, Hn.
  apply returns_at_bind; [apply total_ret|]. intros b w0 [= <- <-].
  rewrite (call_with_kwargs_bound _ _ _ _ Hu Hb).
  apply returns_at_bind; [exact Hr|]. intros. apply total_ret.
Qed.

(** A call within the guards returns a result, whatever the operating
    system answers. *)
Lemma guarded_call_returns (n : string) (a : dict) (d : dispatching) (w : world) :
  within_guards n a w = true -> returns_at (execute_call n a d) w.
Proof.
  unfold within_guards.
  destruct (registry_find available_tools_python_functions n) as [f|] eqn:Hf.
  2:{ intros _. unfold execute_call. rewrite Hf.
      apply total_bind; [apply total_print | intros _; apply total_ret]. }
  destruct (unexpected_keyword (parameters f) a) eqn:Hu; [discriminate|].
  destruct (bind_parameters n (parameters f) a) as [e|values] eqn:Hb;
    [discriminate|].
  destruct (String.eqb_spec n "execute_shell_command") as [->|N1].
  { (* execute_shell_command, with or without [ng new] *)
    unfold execute_call. rewrite Hf.
    unfold available_tools_python_functions in Hf. cbn [registry_find] in Hf.
    simpl in Hf. injection Hf as <-.
    cbn [bind_parameters parameters registered_execute_shell_command] in Hb.
    destruct (dict_find a "command") as [v|] eqn:Hc; [|discriminate Hb].
    assert (Hvalues : values = [v; dict_get a "working_directory" VNone]).
    { unfold dict_get.
      destruct (dict_find a "working_directory"); now injection Hb as <-. }
    subst values. cbn [arg nth].
    destruct v as [| | |command| |]; try discriminate.
    intro Hg. cbn [String.eqb Ascii.eqb Bool.eqb].
    unfold dict_get at 1. rewrite Hc. unfold py_in. cbn [py_contains].
    apply returns_at_bind; [apply total_ret|]. intros b w0 [= <- <-].
    destruct (contains "ng new" command) eqn:Enew.
    - apply (dispatch_ng_new_returns a d w command Hu Hc).
      + destruct (dict_get a "working_directory" VNone);
          try discriminate Hg; [now right | now left].
      + intro Hfalsy.
        destruct (dict_get a "working_directory" VNone) as [| | |dir| |];
          try discriminate Hg; [exact Hg|].
        simpl in Hfalsy. apply negb_false_iff in Hfalsy. rewrite Hfalsy in Hg.
        exact Hg.
    - apply returns_at_bind; [|intros; apply total_ret].
      now apply (call_execute_shell_command_total a command). }
  apply String.eqb_neq in N1.
  unfold available_tools_python_functions in Hf. cbn [registry_find] in Hf.
  rewrite N1 in Hf.
  repeat match type of Hf with
         | (if (?x =? ?k) then _ else _) = _ =>
             destruct (String.eqb_spec x k) as [->|?]
         end; try discriminate Hf; injection Hf as <-; cbn [orb String.eqb Ascii.eqb Bool.eqb];
    intro Hg; (eapply execute_call_registered; [reflexivity | reflexivity
                                               | exact Hu | exact Hb |]);
    cbn [body].
  - apply start_angular_serve_total.
  - apply stop_angular_server_total.
  - destruct (arg 0 values); try discriminate Hg. apply write_file_total.
  - destruct (arg 0 values); try discriminate Hg. apply read_file_total.
  - destruct (arg 0 values); try discriminate Hg.
    apply list_directory_contents_total.
  - destruct (arg 0 values); try discriminate Hg.
    apply delete_file_or_directory_total.
  - now apply ask_user_confirmation_returns.
Qed.

Lemma guarded_dispatch_returns (n : string) (a : dict) (d : dispatching)
  (w : world) :
  within_guards n a w = true -> returns_at (dispatch (n, a) d) w.
Proof.
  intro Hg. unfold dispatch.
  apply returns_at_bind; [apply total_emit|]. intros [] w1 [= <-].
  apply returns_at_bind; [now apply guarded_call_returns|].
  intros [r live] w2 _. generalize w2.
  match goal with |- forall w, returns_at ?c w => change (total c) end.
  totality.
Qed.

Lemma send_tool_results_takes_a_reply (d : dispatching) (w w' : world) :
  send_tool_results d w = Returns tt w' ->
  S (length (llm_script w')) = length (llm_script w).
Proof.
  unfold send_tool_results.
  cbn [Z.ltb Z.compare TOOL_RESPONSE_DELAY_SECONDS].
  unfold send_message, append_turn, print, emit, modify, get, ret, raise, bind.
  cbn [llm_script set_trace].
  destruct (llm_script w) as [|[response|e] rest] eqn:Es;
    try (intro H; discriminate H).
  destruct (parts (model_response_to_log response));
    intros [= <-]; reflexivity.
Qed.

(** The loop does not run out of fuel that exceeds the replies in store. *)
Lemma tool_loop_fuel (fuel : nat) :
  forall (r : recovery) (w w' : world),
    length (llm_script w) < fuel ->
    tool_loop fuel r w <> Returns OutOfFuel w'.
Proof.
  induction fuel as [|fuel IH]; intros r w w' Hlen; [lia|].
  cbn [tool_loop]. unfold bind at 1. unfold get at 1. cbv beta iota.
  destruct (function_calls_from_last_model_turn
              (conversation_history_for_this_run w)) as [|c calls] eqn:Ec;
    [unfold ret; intro H; discriminate H|].
  unfold bind at 1.
  destruct (answer_calls (c :: calls) r w) as [answered w1|e w1] eqn:Ea;
    [|intro H; discriminate H].
  assert (Hne : c :: calls <> []) by discriminate.
  destruct (answer_calls_returns _ _ _ _ _ Hne Ea)
    as (d & results & earlier & -> & _ & _ & Hl & _).
  unfold bind.
  destruct (send_tool_results d w1) as [[] w2|e w2] eqn:Esend;
    [|intro H; discriminate H].
  apply send_tool_results_takes_a_reply in Esend.
  apply IH. rewrite Hl in Esend. lia.
Qed.

Lemma open_turn_returns (user_input : string) (w : world) :
  exists w0 : world,
    open_turn user_input w
    = Returns [part_text (processed_user_input user_input)] w0
    /\ llm_script w0 = llm_script w.
Proof.
  unfold open_turn, bind, get.
  destruct (chat_session w).
  - destruct (recognized_intent user_input);
      unfold ret, print, emit, append_turn, modify; eexists; split; reflexivity.
  - unfold initialize_global_chat_session, bind, get, print, emit, modify.
    cbn [CURRENT_PROJECT_PATH set_trace].
    destruct (py_truthy (path_value (CURRENT_PROJECT_PATH w)));
      destruct (recognized_intent user_input);
      unfold ret, print, emit, append_turn, modify; eexists; split; reflexivity.
Qed.

Lemma converse_fuel (message : list part) (w w' : world) (e : loop_end) :
  converse message w = Returns e w' -> e <> OutOfFuel.
Proof.
  unfold converse. unfold bind at 1. unfold print, emit, modify.
  unfold bind at 1. unfold send_message, bind at 1, emit, modify.
  unfold bind at 1, get. cbn [llm_script set_trace].
  destruct (llm_script w) as [|[response|x] rest] eqn:Es;
    unfold raise, bind, modify, ret; try (intro H; discriminate H).
  set (w1 := set_llm_script rest _).
  destruct (parts (model_response_to_log response)) eqn:Ep.
  - cbn [llm_script]. fold (tool_loop (S (length (llm_script w1))) no_recovery w1).
    destruct (tool_loop _ _ _) as [e1 w2|x w2] eqn:El;
      [|intro H; discriminate H].
    unfold print, emit, modify.
    destruct (negb _); intros [= <- _]; intros ->;
      apply (tool_loop_fuel _ _ _ _ (Nat.lt_succ_diag_r _) El).
  - unfold append_turn, modify. set (w1' := set_history _ w1).
    cbn [llm_script].
    fold (tool_loop (S (length (llm_script w1'))) no_recovery w1').
    destruct (tool_loop _ _ _) as [e1 w2|x w2] eqn:El;
      [|intro H; discriminate H].
    unfold print, emit, modify.
    destruct (negb _); intros [= <- _]; intros ->;
      apply (tool_loop_fuel _ _ _ _ (Nat.lt_succ_diag_r _) El).
Qed.

(** C5 (as amended).  A failure of the operating system inside a tool
    comes back to the model as a result: every call within the guards of
    its tool yields a result part, whatever the surroundings answer.
    Every other exception raised while a call is dispatched (arguments
    that do not bind, a path or command that is not a str, the end of the
    console input) goes, like an exception of the model call, to the one
    handler of [process_user_command], which never lets it out: it logs
    it and abandons the turn, leaving the world, and with it the
    transcript, as it was when the exception was raised.  The loop itself
    always comes to an end. *)
Theorem exceptions_stop_at_the_turn :
  (forall (n : string) (a : dict) (d : dispatching) (w : world),
      within_guards n a w = true ->
      exists (d' : dispatching) (w' : world),
        dispatch (n, a) d w = Returns d' w')
  /\ (forall (user_input : string) (w : world),
        exists w0 : world,
          open_turn user_input w
          = Returns [part_text (processed_user_input user_input)] w0
          /\ match converse [part_text (processed_user_input user_input)] w0 with
             | Returns e w1 =>
                 e <> OutOfFuel
                 /\ process_user_command user_input w
                    = Returns (TurnCompleted e) w1
             | Raises x w1 =>
                 process_user_command user_input w
                 = Returns (TurnAbandoned x) (abandoned_at x w1)
                 /\ conversation_history_for_this_run (abandoned_at x w1)
                    = conversation_history_for_this_run w1
             end).
Proof.
  split.
  - intros n a d w Hg. exact (guarded_dispatch_returns n a d w Hg).
  - intros user_input w.
    destruct (open_turn_returns user_input w) as (w0 & Ho & _).
    exists w0. split; [exact Ho|].
    unfold process_user_command, bind. rewrite Ho. unfold try_except, bind.
    destruct (converse _ w0) as [e w1|x w1] eqn:Ec.
    + split; [eapply converse_fuel; eauto | reflexivity].
    + split; reflexivity.
Qed.

(** C5 fails as stated: the model asks for [read_file] without the
    path.  The call raises [TypeError], no result is handed back to the
    model, and the turn is abandoned although the model call itself has
    not failed: its second reply is never asked for. *)
Lemma tool_exception_abandons_turn :
  (exists w' : world,
      dispatch ("read_file", []) (Dispatching [] no_recovery 0 true)
        example_world
      = Raises
          (Exn "TypeError"
             "read_file() missing 1 required positional argument: 'relative_filepath'")
          w')
  /\ process_user_command "show me a.txt"
       (set_llm_script careless_model example_world)
     = careless_turn
  /\ (exists w' : world,
        careless_turn
        = Returns
            (TurnAbandoned
               (Exn "TypeError"
                  "read_file() missing 1 required positional argument: 'relative_filepath'"))
            w'
        /\ llm_script w' = [LlmResponse [ResponsePart (Some "Done.") None]]
        /\ tool_turns (conversation_history_for_this_run w') = 0).
Proof.
  split; [eexists; vm_compute; reflexivity|].
  split; [vm_compute; reflexivity|].
  eexists. split; [reflexivity|]. split; reflexivity.
Qed.

(** An instance of C5: [read_file] of a file that is not there. *)
Lemma missing_file_is_answered :
  within_guards "read_file" [("relative_filepath", VStr "missing.txt")]
    example_world = true
  /\ exists (d' : dispatching) (w' : world),
       dispatch ("read_file", [("relative_filepath", VStr "missing.txt")])
         (Dispatching [] no_recovery 0 true) example_world
       = Returns d' w'.
Proof.
  split; [reflexivity|].
  apply (proj1 exceptions_stop_at_the_turn). reflexivity.
Defined.

(** ** The development server *)

(** C4 (as amended).  While the process of [NG_SERVE_PROCESS] is alive, a
    call of the start tool spawns nothing: it changes nothing but the
    console, where it prints at most.  When a working directory is given
    or the project path is set, its result has the status
    [already_running] and the pid of the running process; otherwise it
    is the error [Working directory not set.]. *)
Theorem no_second_server (command working_directory monitor_duration_seconds : pyval)
  (w : world) (running_pid : Z) :
  NG_SERVE_PROCESS w = Some (Popen running_pid false) ->
  exists (result : pyval) (lines : list event),
    start_angular_serve_and_get_initial_output command working_directory
      monitor_duration_seconds w
    = Returns result (set_trace (trace w ++ lines) w)
    /\ existsb is_process_event lines = false
    /\ if working_directory_known working_directory w
       then result_get result "status" VNone = VStr "already_running"
            /\ result_get result "pid" VNone = VInt running_pid
       else result_get result "status" VNone = VStr "error"
            /\ result_get result "message" VNone
               = VStr "Working directory not set.".
Proof.
  intro Hp.
  unfold start_angular_serve_and_get_initial_output, working_directory_known.
  unfold bind at 1. unfold get at 1. cbv beta iota.
  destruct working_directory;
    try (unfold bind, get, print, emit, modify, ret; rewrite Hp;
         cbv beta iota; eexists; eexists;
         split; [reflexivity | repeat split; reflexivity]).
  destruct (py_truthy (path_value (CURRENT_PROJECT_PATH w))).
  - unfold bind, get, print, emit, modify, ret; rewrite Hp.
    cbv beta iota. eexists; eexists.
    split; [reflexivity | repeat split; reflexivity].
  - unfold ret. exists (VDict [("status", VStr "error");
                              ("message", VStr "Working directory not set.");
                              ("pid", VNone);
                              ("initial_stdout_log", VStr "");
                              ("initial_stderr_log", VStr "")]), [].
    rewrite app_nil_r. destruct w. repeat split; try reflexivity.
Qed.

(** An instance of C4: a second start in the project of the running
    server. *)
Lemma second_start_is_refused :
  NG_SERVE_PROCESS serving_world = Some (Popen 4242 false)
  /\ exists (result : pyval) (lines : list event),
       start_angular_serve_and_get_initial_output (VStr "ng serve") VNone
         (VInt 20) serving_world
       = Returns result (set_trace (trace serving_world ++ lines) serving_world)
       /\ existsb is_process_event lines = false
       /\ if working_directory_known VNone serving_world
          then result_get result "status" VNone = VStr "already_running"
               /\ result_get result "pid" VNone = VInt 4242
          else result_get result "status" VNone = VStr "error"
               /\ result_get result "message" VNone
                  = VStr "Working directory not set.".
Proof.
  split; [reflexivity|].
  exact (no_second_server (VStr "ng serve") VNone (VInt 20) serving_world 4242
           eq_refl).
Defined.

(** C4 fails as stated when no working directory is given and the
    project path is not set: the server with pid 4242 is alive, and the
    start tool answers with the error about the working directory, which
    names no process, instead of [already_running]. *)
Lemma second_start_without_directory :
  NG_SERVE_PROCESS serving_pathless_world = Some (Popen 4242 false)
  /\ start_angular_serve_and_get_initial_output (VStr "ng serve") VNone
       (VInt 20) serving_pathless_world
     = Returns
         (VDict [("status", VStr "error");
                 ("message", VStr "Working directory not set.");
                 ("pid", VNone);
                 ("initial_stdout_log", VStr "");
                 ("initial_stderr_log", VStr "")])
         serving_pathless_world
  /\ ~ (exists (result : pyval) (w' : world),
          start_angular_serve_and_get_initial_output (VStr "ng serve") VNone
            (VInt 20) serving_pathless_world
          = Returns result w'
          /\ result_get result "status" VNone = VStr "already_running"
          /\ result_get result "pid" VNone = VInt 4242).
Proof.
  split; [reflexivity|]. split; [reflexivity|].
  intros (result & w' & H & Hs & _).
  vm_compute in H. injection H as <- _. discriminate Hs.
Qed.

Lemma post_ret {A : Type} (P : A -> Prop) (a : A) : P a -> post P (ret a).
Proof. intros H w. exact H. Qed.

Lemma post_raise {A : Type} (P : A -> Prop) (e : exn) : post P (raise e).
Proof. intros w. exact I. Qed.

Lemma post_bind {A B : Type} (P : B -> Prop) (c : M A) (k : A -> M B) :
  (forall a, post P (k a)) -> post P (bind c k).
Proof.
  intros Hk w. unfold bind. destruct (c w) as [a w'|e w']; [apply Hk | exact I].
Qed.

Lemma post_try_except {A : Type} (P : A -> Prop) (c : M A) (h : exn -> M A) :
  post P c -> (forall e, post P (h e)) -> post P (try_except c h).
Proof.
  intros Hc Hh w. unfold try_except. specialize (Hc w).
  destruct (c w) as [a w'|e w']; [exact Hc | apply Hh].
Qed.

Ltac post_step :=
  match goal with
  | |- post _ (bind _ _) => apply post_bind; intro
  | |- post _ (try_except _ _) => apply post_try_except; [|intro]
  | |- post _ (ret _) => apply post_ret
  | |- post _ (raise _) => apply post_raise
  | |- post _ (match ?x with _ => _ end) => destruct x eqn:?
  | |- post _ (let (_, _) := ?x in _) => destruct x eqn:?
  end.

(** Every result of the start tool has one of its known statuses. *)
Lemma start_status_known (command working_directory duration : pyval) :
  post (fun r => known_start_status r = true)
    (start_angular_serve_and_get_initial_output command working_directory
       duration).
Proof.
  unfold start_angular_serve_and_get_initial_output.
  repeat post_step; try reflexivity.
  all: repeat match goal with
              | H : (if ?b then _ else _) = (_, _) |- _ => destruct b eqn:?
              end.
  all: repeat match goal with
              | H : (_ =? _) = true |- _ => apply String.eqb_eq in H
              | H : (_, _) = (_, _) |- _ => injection H as <- <-
              end.
  all: try reflexivity.
  all: match goal with H : status _ = _ |- _ => rewrite H end; reflexivity.
Qed.

Lemma drain_stdout_quiet (queue : list string) (st : string)
  (collected : list string) :
  forallb (fun line => negb (has_success_marker line)) queue = true ->
  drain_stdout queue st collected = ([], st, (collected ++ queue)%list).
Proof.
  revert collected. induction queue as [|line queue IH]; intros collected H.
  - simpl. now rewrite app_nil_r.
  - simpl in H. apply andb_prop in H as [Hl Hq].
    apply negb_true_iff in Hl. unfold has_success_marker in Hl.
    cbn [drain_stdout]. rewrite Hl, (IH _ Hq), <- app_assoc. reflexivity.
Qed.

Lemma drain_stderr_quiet (queue : list string) (st : string)
  (collected : list string) :
  forallb (fun line => negb (has_error_marker line)) queue = true ->
  drain_stderr queue st collected = (st, (collected ++ queue)%list).
Proof.
  revert collected. induction queue as [|line queue IH]; intros collected H.
  - simpl. now rewrite app_nil_r.
  - simpl in H. apply andb_prop in H as [Hl Hq].
    apply negb_true_iff in Hl. unfold has_error_marker in Hl.
    cbn [drain_stderr]. rewrite Hl, (IH _ Hq), <- app_assoc. reflexivity.
Qed.

(** Quiet passes leave the status at [compiling] and the process alive. *)
Lemma monitor_quiet (window : list snapshot) :
  forall m : monitoring,
    forallb quiet window = true ->
    status m = "compiling" -> stdout_queue m = [] -> stderr_queue m = [] ->
    polled_exit m = false ->
    let m' := monitor window m in
    status m' = "compiling" /\ stdout_queue m' = [] /\ stderr_queue m' = []
    /\ polled_exit m' = false.
Proof.
  induction window as [|s window IH]; intros m H Hs Ho He Hp; simpl.
  - auto.
  - simpl in H. apply andb_prop in H as [Hq Hw]. unfold quiet in Hq.
    apply andb_prop in Hq as [Hq Herr]. apply andb_prop in Hq as [Hex Hout].
    apply negb_true_iff in Hex. rewrite Hex, Ho, He. cbn [app].
    rewrite (drain_stdout_quiet _ _ _ Hout), (drain_stderr_quiet _ _ _ Herr).
    rewrite Hs. cbn [String.eqb Ascii.eqb Bool.eqb].
    apply IH; auto.
Qed.

(** C6.  Every call of the start tool returns a result with a known
    status: [error] without a pid, and with a pid one of
    [compiling_or_timeout], [compiled_successfully],
    [error_during_startup] (a monitored start) or [already_running].
    When the process is spawned and every pass of the monitoring window
    finds it alive and sees neither a success marker on its standard
    output nor an error marker on its standard error, the status is
    [compiling_or_timeout]: the result carries the pid of the new
    process, the process stays in [NG_SERVE_PROCESS] as alive, the spawn
    is the only thing done to any process, and the loop does not count
    the result as an error. *)
Theorem start_statuses :
  (forall (command working_directory duration : pyval) (w : world),
      exists (result : pyval) (w' : world),
        start_angular_serve_and_get_initial_output command working_directory
          duration w
        = Returns result w'
        /\ known_start_status result = true)
  /\ (forall (command : string) (working_directory duration : pyval)
        (w : world) (new_pid : Z) (window : list snapshot)
        (late_out late_err : list string) (rest : list popen_outcome)
        (passes : list snapshot),
        (working_directory = VNone
         \/ exists dir, working_directory = VStr dir) ->
        working_directory_known working_directory w = true ->
        server_running w = false ->
        popen_script w = Spawned new_pid window late_out late_err :: rest ->
        passes_of_window duration window = Some passes ->
        forallb quiet passes = true ->
        exists (result : pyval) (w' : world) (lines : list event)
          (resolved : pyval),
          start_angular_serve_and_get_initial_output (VStr command)
            working_directory duration w
          = Returns result w'
          /\ result_get result "status" VNone = VStr "compiling_or_timeout"
          /\ result_get result "pid" VNone = VInt new_pid
          /\ NG_SERVE_PROCESS w' = Some (Popen new_pid false)
          /\ trace w' = (trace w ++ lines)%list
          /\ filter is_process_event lines = [EvPopen (VStr command) resolved]
          /\ forall args,
               classify "start_angular_serve_and_get_initial_output" args
                 result
               = (false, VNone)).
Proof.
  split.
  - intros command wd dur w.
    destruct (start_angular_serve_total command wd dur w) as (result & w' & H).
    exists result, w'. split; [exact H|].
    pose proof (start_status_known command wd dur w) as Hs.
    now rewrite H in Hs.
  - intros command wd dur w new_pid window late_out late_err rest passes
      Hwd Hk Hr Hp Hpass Hq.
    pose proof (monitor_quiet passes (Monitoring "compiling" [] [] [] [] false)
                  Hq eq_refl eq_refl eq_refl eq_refl) as (Hs & Ho & He & Hx).
    unfold start_angular_serve_and_get_initial_output.
    unfold bind at 1. unfold get at 1. cbv beta iota.
    assert (Hres : exists resolved,
               match wd with
               | VNone => if py_truthy (path_value (CURRENT_PROJECT_PATH w))
                          then Some (path_value (CURRENT_PROJECT_PATH w))
                          else None
               | _ => Some wd
               end = Some resolved
               /\ (resolved = VNone \/ exists dir, resolved = VStr dir)).
    { destruct Hwd as [->|[dir ->]].
      - simpl in Hk. rewrite Hk. eexists. split; [reflexivity|].
        destruct (CURRENT_PROJECT_PATH w); simpl; eauto.
      - eexists. split; [reflexivity|]. eauto. }
    destruct Hres as (resolved & -> & Hresolved).
    unfold bind at 1. unfold get at 1. cbv beta iota.
    unfold server_running in Hr.
    destruct (alive_pid (NG_SERVE_PROCESS w)); [discriminate Hr|].
    assert (Hspawn : forall w0,
               popen_script w0 = popen_script w ->
               subprocess_Popen (VStr command) resolved w0
               = Returns (new_pid, window, late_out, late_err)
                   (set_NG_SERVE_PROCESS (Some (Popen new_pid false))
                      (set_popen_script rest
                         (set_trace
                            (trace w0 ++ [EvPopen (VStr command) resolved])
                            w0)))).
    { intros w0 Hw0. unfold subprocess_Popen.
      destruct Hresolved as [->|[dir ->]];
        unfold bind, emit, modify, get, ret; cbn [popen_script set_trace];
        rewrite Hw0, Hp; reflexivity. }
    unfold bind at 1. unfold print at 1, emit, modify.
    unfold bind at 1. unfold print at 1, emit, modify.
    unfold try_except. unfold bind at 1. rewrite Hspawn by reflexivity.
    unfold bind at 1. unfold print at 1, emit, modify.
    unfold monitoring_window. rewrite Hpass.
    unfold bind at 1. unfold ret at 1.
    rewrite Hs, Ho, He, Hx. cbn [String.eqb Ascii.eqb Bool.eqb].
    unfold bind, modify, ret.
    eexists. eexists. eexists. exists resolved.
    split; [reflexivity|].
    split; [reflexivity|]. split; [reflexivity|]. split; [reflexivity|].
    cbn [trace set_trace set_NG_SERVE_PROCESS set_popen_script].
    rewrite <- !app_assoc.
    split; [reflexivity|]. split; [reflexivity|].
    intro args. reflexivity.
Qed.

(** An instance of C6: [ng serve] that is still compiling when the window
    of twenty seconds is over. *)
Lemma slow_build_times_out :
  working_directory_known VNone slow_build_world = true
  /\ server_running slow_build_world = false
  /\ forallb quiet
       [Snapshot false
          ["- Generating browser application bundles (phase: setup)..."] [];
        Snapshot false [] []] = true
  /\ exists (result : pyval) (w' : world) (lines : list event)
       (resolved : pyval),
       start_angular_serve_and_get_initial_output (VStr "ng serve") VNone
         (VInt 20) slow_build_world
       = Returns result w'
       /\ result_get result "status" VNone = VStr "compiling_or_timeout"
       /\ result_get result "pid" VNone = VInt 5151
       /\ NG_SERVE_PROCESS w' = Some (Popen 5151 false)
       /\ trace w' = (trace slow_build_world ++ lines)%list
       /\ filter is_process_event lines = [EvPopen (VStr "ng serve") resolved]
       /\ forall args,
            classify "start_angular_serve_and_get_initial_output" args result
            = (false, VNone).
Proof.
  split; [reflexivity|]. split; [reflexivity|]. split; [reflexivity|].
  apply (proj2 start_statuses "ng serve" VNone (VInt 20) slow_build_world
           5151%Z
           [Snapshot false
              ["- Generating browser application bundles (phase: setup)..."] [];
            Snapshot false [] []]
           ["Browser application bundle generation complete."] [] []
           [Snapshot false
              ["- Generating browser application bundles (phase: setup)..."] [];
            Snapshot false [] []]);
    solve [reflexivity | left; reflexivity].
Defined.

(** ** Tools without a project path *)




(** ** Reading a file *)

(** C10.  [read_file] of a str never raises and always returns a str: the
    text of the file when the project path is set and the file can be
    opened and decoded, and otherwise a message that begins with
    [Error]; it changes nothing but the console.  A file may hold that
    very message: then the result of a successful read equals the result
    of a failed one. *)
Theorem read_file_answers_in_band :
  (forall (relative_filepath : string) (w : world),
      exists (s : string) (lines : list event),
        read_file (VStr relative_filepath) w
        = Returns (VStr s) (set_trace (trace w ++ lines) w)
        /\ match file_read_at w relative_filepath with
           | Some content => s = content
           | None => startswith s "Error" = true
           end)
  /\ (exists (relative_filepath s : string) (failing reading : world),
         file_read_at failing relative_filepath = None
         /\ file_read_at reading relative_filepath = Some s
         /\ exists lines lines' : list event,
              read_file (VStr relative_filepath) failing
              = Returns (VStr s) (set_trace (trace failing ++ lines) failing)
              /\ read_file (VStr relative_filepath) reading
                 = Returns (VStr s) (set_trace (trace reading ++ lines') reading)).
Proof.
  split.
  - intros rel w. unfold read_file, file_read_at, bind, get.
    destruct (CURRENT_PROJECT_PATH w) as [p|] eqn:Ep; cbn [path_value py_truthy].
    + destruct (negb (p =? "")) eqn:Enonempty.
      * unfold py_path_join, ret, print, emit, modify, try_except, bind, get.
        cbn [fs cwd set_trace].
        destruct (io_read_text (fs w) (cwd w) (os_path_join p rel)) as [c|e];
          unfold of_io, ret, raise.
        -- eexists; eexists. split; reflexivity.
        -- destruct (is_FileNotFoundError e);
             eexists; eexists; split; reflexivity.
      * exists "Error: CURRENT_PROJECT_PATH is not set. Cannot read file.", [].
        rewrite app_nil_r. destruct w. split; reflexivity.
    + exists "Error: CURRENT_PROJECT_PATH is not set. Cannot read file.", [].
      rewrite app_nil_r. destruct w. split; reflexivity.
  - exists "missing.txt", "Error: File not found at /proj/missing.txt",
      example_world, misleading_world.
    split; [reflexivity|]. split; [reflexivity|].
    eexists; eexists. split; reflexivity.
Qed.

(** ** The filesystem *)

Lemma entry_find_put (es : list (string * node)) (c c' : string) (n : node) :
  entry_find (entry_put es c n) c'
  = if (c' =? c) then Some n else entry_find es c'.
Proof.
  induction es as [|[k m] es IH]; simpl.
  - reflexivity.
  - destruct (String.eqb_spec c k) as [->|Hck]; simpl.
    + destruct (String.eqb_spec c' k); reflexivity.
    + rewrite IH. destruct (String.eqb_spec c' k) as [->|Hk]; [|reflexivity].
      destruct (String.eqb_spec k c); [congruence | reflexivity].
Qed.

(** What is put can be looked up. *)
Lemma tree_lookup_put (key : list string) :
  forall (t t' : node) (n : node),
    tree_put t key n = Some t' -> tree_lookup t' key = Some n.
Proof.
  induction key as [|c key IH]; intros t t' n H; [discriminate|].
  destruct t as [|es]; [discriminate|]. cbn [tree_put] in H.
  destruct key as [|c2 key].
  - injection H as <-. cbn [tree_lookup].
    now rewrite entry_find_put, String.eqb_refl.
  - destruct (entry_find es c) as [m|]; [|discriminate].
    destruct (tree_put m (c2 :: key) n) as [m'|] eqn:Em; [|discriminate].
    injection H as <-. cbn [tree_lookup].
    rewrite entry_find_put, String.eqb_refl. now apply (IH m).
Qed.

(** Putting a file where no directory is leaves every directory a
    directory and makes no new one. *)
Lemma tree_put_file_dirs (key : list string) :
  forall (t t' : node) (text : option string),
    tree_put t key (File text) = Some t' ->
    is_dir_node (tree_lookup t key) = false ->
    forall key2, is_dir_node (tree_lookup t' key2)
                 = is_dir_node (tree_lookup t key2).
Proof.
  induction key as [|c key IH]; intros t t' text H Hnd key2; [discriminate|].
  destruct t as [|es]; [discriminate|]. cbn [tree_put] in H.
  destruct key as [|c2 key].
  - injection H as <-. destruct key2 as [|d key2]; [reflexivity|].
    cbn [tree_lookup]. rewrite entry_find_put.
    destruct (String.eqb_spec d c) as [->|Hd]; [|reflexivity].
    cbn [tree_lookup] in Hnd.
    destruct (entry_find es c) as [m|].
    + destruct key2; cbn [tree_lookup] in *.
      * destruct m; [reflexivity | discriminate Hnd].
      * destruct m; [reflexivity | discriminate Hnd].
    + destruct key2; reflexivity.
  - destruct (entry_find es c) as [m|] eqn:Ec; [|discriminate].
    destruct (tree_put m (c2 :: key) (File text)) as [m'|] eqn:Em;
      [|discriminate].
    injection H as <-. destruct key2 as [|d key2]; [reflexivity|].
    cbn [tree_lookup]. rewrite entry_find_put.
    destruct (String.eqb_spec d c) as [->|Hd]; [|reflexivity].
    rewrite Ec. apply (IH m m' text Em).
    cbn [tree_lookup] in Hnd. now rewrite Ec in Hnd.
Qed.

(** A walk that arrives somewhere arrives there again when the
    directories are the same. *)
Lemma walk_same_dirs (root root' : node) (comps : list string) :
  (forall key, is_dir_node (tree_lookup root' key)
               = is_dir_node (tree_lookup root key)) ->
  forall (cur key : list string),
    walk root cur comps = Target key -> walk root' cur comps = Target key.
Proof.
  intro Hd. induction comps as [|c cs IH]; intros cur key H; [exact H|].
  cbn [walk] in *.
  destruct ((c =? "") || (c =? ".")); [now apply IH|].
  destruct (c =? ".."); [now apply IH|].
  destruct cs as [|c2 cs]; [exact H|].
  specialize (Hd (cur ++ [c])%list). unfold is_dir_node in Hd.
  destruct (tree_lookup root (cur ++ [c])%list) as [[|es]|]; try discriminate H.
  destruct (tree_lookup root' (cur ++ [c])%list) as [[|es']|];
    try discriminate Hd.
  now apply IH.
Qed.

(** What has been written is what is read, up to the newlines. *)
Lemma io_read_after_write (root root' : node) (here : list string)
  (p content : string) :
  io_write_text root here p content = IoOk root' ->
  io_read_text root' here p = IoOk (universal_newlines content).
Proof.
  unfold io_write_text, io_read_text, resolve.
  destruct (p =? ""); [discriminate|].
  set (start := if startswith p "/" then [] else here).
  destruct (walk root start (py_split p "/")) as [key| |] eqn:Ew;
    try discriminate.
  intro H.
  assert (Hnd : is_dir_node (tree_lookup root key) = false).
  { destruct (tree_lookup root key) as [[|]|]; try reflexivity. discriminate H. }
  assert (Hput : tree_put root key (File (Some content)) = Some root').
  { destruct (tree_lookup root key) as [[|]|]; try discriminate H;
      destruct (tree_put root key (File (Some content))); try discriminate H;
      now injection H as <-. }
  rewrite (walk_same_dirs root root' _
             (tree_put_file_dirs key root root' _ Hput Hnd) _ _ Ew).
  now rewrite (tree_lookup_put key root root' _ Hput).
Qed.

Lemma universal_newlines_without_carriage_return (s : string) :
  has_carriage_return s = false -> universal_newlines s = s.
Proof.
  induction s as [|c s IH]; intro H; [reflexivity|].
  simpl in H. apply orb_false_iff in H as [Hc Hs].
  cbn [universal_newlines]. rewrite Hc. now rewrite (IH Hs).
Qed.

(** What a successful [write_file] has done. *)
Lemma write_file_succeeded (relative_filepath content : string) (w w' : world) :
  write_file (VStr relative_filepath) (VStr content) w = Returns (VBool true) w' ->
  exists (project_path : string) (root1 : node),
    CURRENT_PROJECT_PATH w = Some project_path
    /\ (project_path =? "") = false
    /\ CURRENT_PROJECT_PATH w' = CURRENT_PROJECT_PATH w
    /\ cwd w' = cwd w
    /\ io_write_text root1 (cwd w)
         (os_path_join project_path relative_filepath) content
       = IoOk (fs w').
Proof.
  unfold write_file, bind, get.
  destruct (CURRENT_PROJECT_PATH w) as [p|] eqn:Ep; cbn [path_value py_truthy].
  2:{ unfold print, emit, modify, ret. intro H. discriminate H. }
  destruct (p =? "") eqn:Enonempty; cbn [negb].
  { unfold print, emit, modify, ret. intro H. discriminate H. }
  unfold py_path_join, ret, print, emit, modify, try_except, bind, get.
  cbn [fs cwd set_trace].
  destruct (io_makedirs (fs w) (cwd w) (os_path_dirname (os_path_join p relative_filepath)))
    as [root1|e]; unfold of_io, ret, raise, modify;
    [|intro H; discriminate H].
  unfold write_opened, bind, get, of_io. cbn [fs cwd set_fs set_trace].
  destruct (io_write_text root1 (cwd w) (os_path_join p relative_filepath) content)
    as [root2|e] eqn:Ew; unfold ret, raise, modify;
    [|intro H; discriminate H].
  intros [= <-]. exists p, root1.
  cbn [CURRENT_PROJECT_PATH cwd fs set_fs set_trace]. rewrite Ep. auto.
Qed.

(** C9 (as amended).  For every relative path and every text without a
    carriage return (the empty text and texts with line feeds included):
    after a successful [write_file] of the text, as long as the project
    path and the filesystem stay as the write left them, [read_file] of
    the same path returns exactly the text. *)
Theorem write_then_read (relative_filepath content : string) (w w' w2 : world) :
  write_file (VStr relative_filepath) (VStr content) w = Returns (VBool true) w' ->
  has_carriage_return content = false ->
  CURRENT_PROJECT_PATH w2 = CURRENT_PROJECT_PATH w' ->
  fs w2 = fs w' ->
  cwd w2 = cwd w' ->
  exists lines : list event,
    read_file (VStr relative_filepath) w2
    = Returns (VStr content) (set_trace (trace w2 ++ lines) w2).
Proof.
  intros Hw Hcr Hp Hfs Hcwd.
  destruct (write_file_succeeded _ _ _ _ Hw)
    as (p & root1 & Ep & Enonempty & Ep' & Ecwd & Eio).
  apply io_read_after_write in Eio.
  rewrite (universal_newlines_without_carriage_return _ Hcr) in Eio.
  unfold read_file, bind, get. rewrite Hp, Ep', Ep.
  cbn [path_value py_truthy]. rewrite Enonempty. cbn [negb].
  unfold py_path_join, ret, print, emit, modify, try_except, bind, get.
  cbn [fs cwd set_trace]. rewrite Hfs, Hcwd, Ecwd, Eio.
  unfold of_io, ret. eexists. reflexivity.
Qed.

(** An instance of C9: two lines written to a new file in a new
    directory, and read back. *)
Lemma two_lines_come_back :
  write_file (VStr "src/notes.txt") (VStr two_lines) example_world
  = Returns (VBool true) (world_of notes_written)
  /\ has_carriage_return two_lines = false
  /\ exists lines : list event,
       read_file (VStr "src/notes.txt") (world_of notes_written)
       = Returns (VStr two_lines)
           (set_trace (trace (world_of notes_written) ++ lines)
              (world_of notes_written)).
Proof.
  split; [vm_compute; reflexivity|]. split; [reflexivity|].
  apply (write_then_read "src/notes.txt" two_lines example_world
           (world_of notes_written) (world_of notes_written));
    solve [vm_compute; reflexivity | reflexivity].
Defined.

(** C9 fails as stated for a text with a carriage return: [write_file]
    succeeds, the file holds the text, and [read_file], which opens the
    file with universal newlines, returns the text with a line feed in
    the place of the carriage return. *)
Lemma carriage_return_does_not_come_back :
  exists w' w'' : world,
    write_file (VStr "notes.txt") (VStr text_with_carriage_return)
      example_world
    = Returns (VBool true) w'
    /\ tree_lookup (fs w') ["proj"; "notes.txt"]
       = Some (File (Some text_with_carriage_return))
    /\ read_file (VStr "notes.txt") w'
       = Returns (VStr ("a" ++ nl ++ "b")) w''
    /\ "a" ++ nl ++ "b" <> text_with_carriage_return.
Proof.
  eexists. eexists.
  split; [vm_compute; reflexivity|].
  split; [reflexivity|].
  split; [vm_compute; reflexivity|].
  discriminate.
Qed.

(** ** Paths and the project root *)

Lemma prefix_slash (c : ascii) (s : string) :
  prefix "/" (String c s) = (c =? "/")%char.
Proof.
  cbn [prefix]. destruct (ascii_dec "/" c) as [<-|Hne].
  - now destruct s.
  - symmetry. apply Ascii.eqb_neq. congruence.
Qed.

Lemma split_on_not_nil (sep : string) (s : string) :
  forall (skip : nat) (cur : string), split_on sep skip cur s <> [].
Proof.
  induction s as [|c s IH]; intros skip cur; cbn [split_on]; [discriminate|].
  destruct skip; [|apply IH].
  destruct (prefix sep (String c s)); [discriminate | apply IH].
Qed.

(** Splitting at slashes goes through a slash between two strings. *)
Lemma split_on_slash_app (a b : string) :
  forall cur : string,
    split_on "/" 0 cur (a ++ String "/" b)
    = (split_on "/" 0 cur a ++ split_on "/" 0 "" b)%list.
Proof.
  induction a as [|c a IH]; intro cur.
  - cbn [append split_on]. rewrite prefix_slash. reflexivity.
  - cbn [append split_on]. rewrite !prefix_slash.
    destruct (c =? "/")%char; cbn [String.length Nat.sub]; rewrite IH;
      reflexivity.
Qed.

Lemma py_split_slash_app (a b : string) :
  py_split (a ++ String "/" b) "/" = (py_split a "/" ++ py_split b "/")%list.
Proof. apply split_on_slash_app. Qed.

Lemma endswith_slash (s : string) :
  endswith s "/" = true -> exists q, s = q ++ "/".
Proof.
  induction s as [|c s IH]; cbn [endswith]; intro H.
  - discriminate H.
  - apply orb_prop in H as [H|H].
    + apply String.eqb_eq in H. exists "". exact H.
    + destruct (IH H) as [q ->]. now exists (String c q).
Qed.

Lemma startswith_append (p x : string) :
  p <> "" -> startswith (p ++ x) "/" = startswith p "/".
Proof.
  unfold startswith. destruct p as [|c p]; [congruence|]. intros _.
  cbn [append]. now rewrite !prefix_slash.
Qed.

Lemma is_prefix_refl (a : list string) : is_prefix a a = true.
Proof.
  induction a as [|x a IH]; [reflexivity|].
  cbn [is_prefix]. now rewrite String.eqb_refl.
Qed.

Lemma is_prefix_app (a b : list string) : is_prefix a (a ++ b) = true.
Proof.
  induction a as [|x a IH]; [reflexivity|].
  cbn [is_prefix app]. now rewrite String.eqb_refl.
Qed.

Lemma is_prefix_trans (a b c : list string) :
  is_prefix a b = true -> is_prefix b c = true -> is_prefix a c = true.
Proof.
  revert b c. induction a as [|x a IH]; intros b c Hab Hbc; [reflexivity|].
  destruct b as [|y b]; [discriminate|]. destruct c as [|z c]; [discriminate|].
  cbn [is_prefix] in *.
  apply andb_prop in Hab as [Hxy Hab]. apply andb_prop in Hbc as [Hyz Hbc].
  apply String.eqb_eq in Hxy, Hyz. subst.
  rewrite String.eqb_refl. now apply (IH b c).
Qed.

(** A walk along two lists of components passes where the walk along
    the first arrives. *)
Lemma walk_app (root : node) (a b : list string) :
  b <> [] ->
  forall (cur key : list string),
    walk root cur (a ++ b) = Target key ->
    exists mid : list string,
      walk root cur a = Target mid /\ walk root mid b = Target key.
Proof.
  intro Hb. induction a as [|c a IH]; intros cur key H.
  - exists cur. split; [reflexivity | exact H].
  - cbn [app walk] in *.
    destruct ((c =? "") || (c =? ".")); [now apply IH|].
    destruct (c =? ".."); [now apply IH|].
    destruct (a ++ b)%list as [|c2 rest] eqn:Eab.
    { apply app_eq_nil in Eab as [_ ->]. contradiction. }
    destruct (tree_lookup root (cur ++ [c])%list) as [[|es]|] eqn:El;
      try discriminate H.
    destruct (IH _ _ H) as (mid & Ha & Hmid).
    exists mid. split; [|exact Hmid].
    destruct a as [|c3 a]; exact Ha.
Qed.

(** Without [..] a walk stays below where it starts. *)
Lemma walk_without_dotdot (root : node) (comps : list string) :
  existsb (fun c => (c =? "..")) comps = false ->
  forall (cur key : list string),
    walk root cur comps = Target key -> is_prefix cur key = true.
Proof.
  induction comps as [|c cs IH]; intros Hdd cur key H.
  - injection H as <-. apply is_prefix_refl.
  - cbn [existsb] in Hdd. apply orb_false_iff in Hdd as [Hc Hcs].
    cbn [walk] in H. rewrite Hc in H.
    destruct ((c =? "") || (c =? ".")); [now apply IH|].
    destruct cs as [|c2 cs].
    + injection H as <-. apply is_prefix_app.
    + destruct (tree_lookup root (cur ++ [c])%list) as [[|es]|];
        try discriminate H.
      apply (is_prefix_trans _ (cur ++ [c])%list); [apply is_prefix_app|].
      now apply IH.
Qed.

(** Joined to the root, a relative path without [..] leads below the
    root. *)
Lemma join_stays_below (root : node) (here : list string)
  (project_path relative_path : string) (root_key key : list string) :
  startswith relative_path "/" = false ->
  has_dotdot relative_path = false ->
  resolve root here project_path = Target root_key ->
  resolve root here (os_path_join project_path relative_path) = Target key ->
  is_prefix root_key key = true.
Proof.
  intros Habs Hdd Hroot Hkey. unfold os_path_join in Hkey. rewrite Habs in Hkey.
  unfold resolve in Hroot, Hkey.
  destruct (String.eqb_spec project_path "") as [->|Hne]; [discriminate Hroot|].
  cbn [orb] in Hkey.
  assert (Hsplit : py_split relative_path "/" <> []) by apply split_on_not_nil.
  destruct (endswith project_path "/") eqn:Eend.
  - destruct (endswith_slash _ Eend) as [q ->].
    destruct ((q ++ "/") ++ relative_path =? ""); [discriminate Hkey|].
    rewrite startswith_append in Hkey by exact Hne.
    assert (Eassoc : (q ++ "/") ++ relative_path = q ++ String "/" relative_path).
    { clear. induction q as [|c q IH]; [reflexivity|].
      cbn [append]. now rewrite <- IH. }
    rewrite Eassoc, py_split_slash_app in Hkey.
    change (q ++ "/") with (q ++ String "/" "") in Hroot at 2.
    rewrite py_split_slash_app in Hroot.
    apply walk_app in Hroot as (mid & Hq & Hmid); [|discriminate].
    apply walk_app in Hkey as (mid' & Hq' & Hmid'); [|exact Hsplit].
    rewrite Hq in Hq'. injection Hq' as <-.
    cbn in Hmid. injection Hmid as <-.
    now apply (walk_without_dotdot root _ Hdd mid key).
  - destruct (project_path ++ "/" ++ relative_path =? ""); [discriminate Hkey|].
    rewrite startswith_append in Hkey by exact Hne.
    change (project_path ++ "/" ++ relative_path)
      with (project_path ++ String "/" relative_path) in Hkey.
    rewrite py_split_slash_app in Hkey.
    apply walk_app in Hkey as (mid & Hp & Hmid); [|exact Hsplit].
    rewrite Hroot in Hp. injection Hp as <-.
    now apply (walk_without_dotdot root _ Hdd root_key key).
Qed.

(** C7 fails as stated: with the project at [/proj], [read_file] of
    [/etc/passwd] returns the content of that file, and
    [delete_file_or_directory] of [../etc] removes the directory [/etc];
    both places are outside the root and neither call reports a
    failure. *)
Lemma tools_act_outside_root :
  inside_root example_world "/etc/passwd" = false
  /\ (exists w' : world,
        read_file (VStr "/etc/passwd") example_world
        = Returns (VStr "root:x:0:0") w')
  /\ inside_root example_world "../etc" = false
  /\ (exists w' : world,
        delete_file_or_directory (VStr "../etc") example_world
        = Returns
            (VDict [("status", VStr "success");
                    ("message",
                     VStr "Successfully deleted directory (and its contents): /proj/../etc")])
            w'
        /\ tree_lookup (fs example_world) ["etc"; "passwd"]
           = Some (File (Some "root:x:0:0"))
        /\ tree_lookup (fs w') ["etc"] = None).
Proof.
  split; [reflexivity|].
  split; [eexists; vm_compute; reflexivity|].
  split; [reflexivity|].
  eexists. split; [vm_compute; reflexivity|]. split; reflexivity.
Qed.

(** ** What the tracker holds, and what it ignores *)

Lemma track_invariant (tool_name : string) (a : dict) (res : pyval)
  (r : recovery) :
  tracker_invariant r -> tracker_invariant (track tool_name a res r).
Proof.
  intros [Hle Hr]. split; [now apply track_bounded|].
  unfold track, tracked_command in *.
  destruct (classify tool_name a res) as [is_error cmd].
  destruct (is_error && py_truthy cmd) eqn:E.
  - apply andb_prop in E as [_ Hcmd].
    destruct (negb (tracks r cmd)) eqn:Et; cbn [current_fix_attempt].
    + simpl. intros v [= <-]. split; [exact Hcmd | lia].
    + destruct (current_fix_attempt r <? MAX_ERROR_FIX_ATTEMPTS)%nat;
        cbn [original_failed_command_details current_fix_attempt];
        [|discriminate].
      intros v Hv. destruct (Hr v Hv) as [Ht _]. split; [exact Ht | lia].
  - destruct (negb is_error && _);
      cbn [original_failed_command_details]; [discriminate | exact Hr].
Qed.

Lemma track_all_invariant (past : list executed_call) :
  tracker_invariant (track_all past).
Proof.
  induction past as [|e past IH] using rev_ind.
  - split; [unfold track_all, MAX_ERROR_FIX_ATTEMPTS; simpl; lia|].
    intros v H. discriminate H.
  - rewrite track_all_snoc. destruct e as [[n a] res].
    now apply track_invariant.
Qed.

(** X1.  At every moment of a user turn, whatever calls have been
    executed: the attempt counter is at most the ceiling of 3, and when a
    command is tracked it is a value that counts as true (never [None],
    never the empty string) with at least one attempt counted. *)
Theorem tracker_holds_a_real_command (past : list executed_call) :
  tracker_invariant (track_all past).
Proof. apply track_all_invariant. Qed.

(** X2.  A call without a [command] argument never changes the tracker,
    whatever its tool and whatever its result: a failed deletion, which
    the loop does flag as an error, is neither counted nor does it clear
    what is tracked. *)
Theorem tracker_ignores_calls_without_command (past : list executed_call)
  (tool_name : string) (tool_args_dict : dict) (function_result_dict : pyval) :
  dict_find tool_args_dict "command" = None ->
  track_call (tool_name, tool_args_dict, function_result_dict) (track_all past)
  = track_all past.
Proof.
  intro Hc. destruct (track_all_invariant past) as [_ Hr].
  unfold track_call, track, classify, dict_get. rewrite Hc.
  assert (Hnone : match original_failed_command_details (track_all past) with
                  | Some d => py_eq VNone (failed_command_string d)
                  | None => false
                  end = false).
  { unfold tracked_command in Hr.
    destruct (original_failed_command_details (track_all past)) as [d|];
      [|reflexivity].
    destruct (Hr _ eq_refl) as [Ht _].
    destruct (failed_command_string d); try reflexivity. discriminate Ht. }
  repeat match goal with
         | |- context [if ?b then (true, VNone) else _] => destruct b
         end;
    cbn [andb negb py_truthy]; rewrite ?Hnone; reflexivity.
Qed.

(** An instance of X2: a failed deletion after a failure of [ng build]. *)
Lemma failed_deletion_is_not_counted :
  dict_find [("relative_path", VStr "dist")] "command" = None
  /\ fst (classify "delete_file_or_directory" [("relative_path", VStr "dist")]
            (snd delete_fails)) = true
  /\ track_call delete_fails (track_all [ng_build_fails])
     = track_all [ng_build_fails].
Proof.
  split; [reflexivity|]. split; [reflexivity|].
  apply (tracker_ignores_calls_without_command [ng_build_fails]).
  reflexivity.
Defined.

(** ** The utterance on its way to the model *)

Lemma prefix_app_iff (p s : string) :
  prefix p s = true <-> exists y, s = p ++ y.
Proof.
  revert s. induction p as [|c p IH]; intro s.
  - split; [intros _; now exists s | intros _; now destruct s].
  - destruct s as [|d s]; cbn [prefix].
    + split; [discriminate | intros [y H]; discriminate H].
    + destruct (ascii_dec c d) as [->|Hne].
      * rewrite IH. split; intros [y H]; exists y.
        -- now rewrite H.
        -- now injection H.
      * split; [discriminate|]. intros [y H]. injection H as H _. congruence.
Qed.

Lemma contains_iff (needle s : string) :
  contains needle s = true <-> exists x y, s = x ++ needle ++ y.
Proof.
  induction s as [|c s IH]; cbn [contains].
  - rewrite orb_false_r, prefix_app_iff. split.
    + intros [y H]. now exists "", y.
    + intros (x & y & H). destruct x; [now exists y | discriminate H].
  - rewrite orb_true_iff, prefix_app_iff, IH. split.
    + intros [[y H]|(x & y & H)].
      * now exists "", y.
      * exists (String c x), y. now rewrite H.
    + intros (x & y & H). destruct x as [|d x].
      * left. now exists y.
      * right. injection H as _ H. now exists x, y.
Qed.

Lemma append_assoc (a b c : string) : (a ++ b) ++ c = a ++ b ++ c.
Proof. induction a as [|x a IH]; [reflexivity|]. cbn [append]. now rewrite IH. Qed.

Lemma contains_trans (a b s : string) :
  contains a b = true -> contains b s = true -> contains a s = true.
Proof.
  rewrite !contains_iff. intros (x & y & ->) (x' & y' & ->).
  exists (x' ++ x), (y ++ y'). now rewrite !append_assoc.
Qed.

Lemma contains_wrapped (u a b : string) : contains u (a ++ u ++ b) = true.
Proof. apply contains_iff. now exists a, b. Qed.

Lemma contains_refl (u : string) : contains u u = true.
Proof.
  apply contains_iff. exists "", "". cbn [append].
  induction u as [|c u IH]; [reflexivity|]. cbn [append]. now rewrite <- IH.
Qed.

(** X3.  The rewriting of the utterance never loses it: an utterance in
    which no keyword is recognized goes to the model as it is, and every
    other one goes inside the plan for its intent, word for word. *)
Theorem utterance_reaches_the_model (user_input : string) :
  contains user_input (processed_user_input user_input) = true
  /\ (recognized_intent user_input = None ->
      processed_user_input user_input = user_input)
  /\ (recognized_intent user_input <> None ->
      exists plan : string,
        processed_user_input user_input
        = "The user's command is: '" ++ user_input ++ plan).
Proof.
  unfold processed_user_input, recognized_intent.
  destruct (any_keyword_in restart_keywords (lower user_input)).
  { split; [apply contains_wrapped|]. split; [discriminate|].
    intros _. eexists. reflexivity. }
  destruct (any_keyword_in stop_keywords (lower user_input)).
  { split; [apply contains_wrapped|]. split; [discriminate|].
    intros _. eexists. reflexivity. }
  destruct (any_keyword_in serve_keywords (lower user_input)).
  { split; [apply contains_wrapped|]. split; [discriminate|].
    intros _. eexists. reflexivity. }
  split; [apply contains_refl|]. split; [reflexivity | congruence].
Qed.

(** X4.  The keywords overlap: an utterance with [restart server] or
    [stop and start server] in it also has the keyword [start server] of
    a plain start in it.  The intents are tried in the order restart,
    stop, serve, so such an utterance gets the plan for a restart. *)
Theorem restart_goes_before_start (user_input keyword : string) :
  keyword = "restart server" \/ keyword = "stop and start server" ->
  contains keyword (lower user_input) = true ->
  any_keyword_in serve_keywords (lower user_input) = true
  /\ recognized_intent user_input = Some "restart".
Proof.
  intros Hk Hc. split.
  - assert (Hs : contains "start server" (lower user_input) = true).
    { apply (contains_trans _ keyword); [|exact Hc].
      destruct Hk as [->| ->]; reflexivity. }
    unfold any_keyword_in, serve_keywords. cbn [existsb]. rewrite Hs.
    now rewrite !orb_true_r.
  - unfold recognized_intent, any_keyword_in, restart_keywords. cbn [existsb].
    destruct Hk as [->| ->]; rewrite Hc; now rewrite ?orb_true_r.
Qed.

(** An instance of X4. *)
Lemma please_restart_server :
  contains "restart server" (lower "Please RESTART Server now") = true
  /\ any_keyword_in serve_keywords (lower "Please RESTART Server now") = true
  /\ recognized_intent "Please RESTART Server now" = Some "restart".
Proof.
  split; [reflexivity|].
  apply (restart_goes_before_start "Please RESTART Server now" "restart server");
    [now left | reflexivity].
Defined.

(** ** The session and the end of a turn *)

Lemma system_prompt_has_one_placeholder :
  exists before after : string,
    py_split system_prompt_text_template "{current_project_path_placeholder}"
    = [before; after].
Proof. eexists. eexists. vm_compute. reflexivity. Qed.

(** X5.  [initialize_global_chat_session] always returns and starts the
    session over: the transcript is exactly the two opening turns,
    whatever it held before, the session is the one started with them,
    and nothing else of the world changes but the console.  The template
    of the system prompt has its placeholder in one place, and the system
    prompt is the template with the project path there, or with the
    words [Not set (User needs to provide if task requires it)] when
    there is no project path. *)
Theorem session_starts_over :
  exists before after : string,
    py_split system_prompt_text_template "{current_project_path_placeholder}"
    = [before; after]
    /\ forall w : world,
         exists lines : list event,
           let opening :=
             [Turn role_user
                [part_text (before ++ shown_project_path w ++ after)];
              Turn role_model [part_text initial_model_acknowledgement]] in
           initialize_global_chat_session w
           = Returns tt
               (set_trace (trace w ++ lines)
                  (set_history opening (set_chat_session (Some opening) w)))
           /\ contains (shown_project_path w)
                (before ++ shown_project_path w ++ after) = true.
Proof.
  destruct system_prompt_has_one_placeholder as (before & after & Hs).
  exists before, after. split; [exact Hs|]. intro w.
  unfold initialize_global_chat_session, replace. rewrite Hs.
  cbn [String.concat]. unfold shown_project_path, bind, get.
  destruct (CURRENT_PROJECT_PATH w) as [p|] eqn:Ep; cbn [path_value py_truthy].
  - destruct (p =? ""); cbn [negb];
      unfold print, emit, modify; cbn [trace set_trace set_history set_chat_session];
      eexists; (split; [|apply contains_wrapped]);
      rewrite <- !app_assoc; destruct w; cbn in *; subst; reflexivity.
  - unfold print, emit, modify; cbn [trace set_trace set_history set_chat_session];
      eexists; (split; [|apply contains_wrapped]);
      rewrite <- !app_assoc; destruct w; cbn in *; subst; reflexivity.
Qed.

(** The loop ends only when the last turn of the transcript asks for
    nothing. *)
Lemma tool_loop_ends_without_calls (fuel : nat) :
  forall (r : recovery) (w w' : world),
    tool_loop fuel r w = Returns NoMoreToolCalls w' ->
    function_calls_from_last_model_turn (conversation_history_for_this_run w')
    = [].
Proof.
  induction fuel as [|fuel IH]; intros r w w'; [intro H; discriminate H|].
  cbn [tool_loop]. unfold bind at 1. unfold get at 1. cbv beta iota.
  destruct (function_calls_from_last_model_turn
              (conversation_history_for_this_run w)) as [|c calls] eqn:Ec.
  { unfold ret. intros [= <-]. exact Ec. }
  unfold bind at 1.
  destruct (answer_calls (c :: calls) r w) as [answered w1|e w1] eqn:Ea;
    [|intro H; discriminate H].
  assert (Hne : c :: calls <> []) by discriminate.
  destruct (answer_calls_returns _ _ _ _ _ Hne Ea)
    as (d & results & earlier & -> & _).
  unfold bind.
  destruct (send_tool_results d w1) as [[] w2|e w2] eqn:Esend;
    [|intro H; discriminate H].
  apply IH.
Qed.

Lemma converse_ends_without_calls (message : list part) (w w' : world)
  (e : loop_end) :
  converse message w = Returns e w' ->
  function_calls_from_last_model_turn (conversation_history_for_this_run w')
  = [].
Proof.
  intro H. pose proof (converse_fuel _ _ _ _ H) as Hfuel.
  revert H. unfold converse. unfold bind at 1. unfold print, emit, modify.
  unfold bind at 1.
  destruct (send_message message _) as [response w1|x w1];
    [|intro H; discriminate H].
  unfold bind at 1.
  destruct ((match parts (model_response_to_log response) with
             | [] => ret tt
             | _ :: _ => append_turn (model_response_to_log response)
             end) w1) as [[] w2|x w2]; [|intro H; discriminate H].
  unfold bind at 1. unfold get at 1. cbv beta iota.
  unfold bind at 1.
  destruct (tool_loop _ no_recovery w2) as [e1 w3|x w3] eqn:El;
    [|intro H; discriminate H].
  unfold bind at 1. unfold get at 1. cbv beta iota.
  unfold bind, print, emit, modify, ret.
  destruct (negb _); intros [= <- <-];
    cbn [conversation_history_for_this_run set_trace];
    (destruct e1; [|contradiction]);
    exact (tool_loop_ends_without_calls _ _ _ _ El).
Qed.

(** X6.  A user turn that is not abandoned ends with every call
    answered: the loop has come to its end by itself, and the last turn
    of the transcript asks for no tool. *)
Theorem completed_turn_leaves_no_call (user_input : string) (w w' : world)
  (e : loop_end) :
  process_user_command user_input w = Returns (TurnCompleted e) w' ->
  e = NoMoreToolCalls
  /\ function_calls_from_last_model_turn (conversation_history_for_this_run w')
     = [].
Proof.
  destruct (open_turn_returns user_input w) as (w0 & Ho & _).
  unfold process_user_command, bind. rewrite Ho. unfold try_except, bind.
  destruct (converse _ w0) as [e1 w1|x w1] eqn:Ec.
  - unfold ret. intros [= <- <-]. split.
    + pose proof (converse_fuel _ _ _ _ Ec). now destruct e1.
    + exact (converse_ends_without_calls _ _ _ _ Ec).
  - unfold top_level_handler, bind, print, emit, modify, ret.
    intro H. discriminate H.
Qed.

(** An instance of X6: the model asks for [a.txt] and concludes. *)
Lemma helpful_turn_leaves_no_call :
  process_user_command "show me a.txt"
    (set_llm_script helpful_model example_world)
  = Returns (TurnCompleted NoMoreToolCalls) (world_of helpful_turn)
  /\ tool_turns (conversation_history_for_this_run (world_of helpful_turn)) = 1
  /\ function_calls_from_last_model_turn
       (conversation_history_for_this_run (world_of helpful_turn)) = [].
Proof.
  split; [vm_compute; reflexivity|]. split; [reflexivity|].
  apply (completed_turn_leaves_no_call "show me a.txt"
           (set_llm_script helpful_model example_world)
           (world_of helpful_turn) NoMoreToolCalls).
  vm_compute. reflexivity.
Defined.

(** ** Stopping the development server *)

(** The start tool answers [already_running] only while the process of
    [NG_SERVE_PROCESS] is alive. *)
Lemma already_running_needs_alive (command working_directory duration : pyval)
  (w : world) :
  match start_angular_serve_and_get_initial_output command working_directory
          duration w with
  | Returns r _ =>
      result_get r "status" VNone = VStr "already_running" ->
      server_running w = true
  | Raises _ _ => True
  end.
Proof.
  unfold start_angular_serve_and_get_initial_output.
  unfold bind at 1. unfold get at 1. cbv beta iota.
  destruct (match working_directory with
            | VNone => if py_truthy (path_value (CURRENT_PROJECT_PATH w))
                       then Some (path_value (CURRENT_PROJECT_PATH w))
                       else None
            | _ => Some working_directory
            end) as [resolved|]; [|intro H; discriminate H].
  unfold bind at 1. unfold get at 1. cbv beta iota. unfold server_running.
  destruct (alive_pid (NG_SERVE_PROCESS w));
    [unfold bind, print, emit, modify, ret; intros _; reflexivity|].
  match goal with
  | |- match ?c w with _ => _ end =>
      generalize w;
      change (post (fun r => result_get r "status" VNone
                             = VStr "already_running" -> false = true) c)
  end.
  repeat post_step; try (intro H; discriminate H).
  all: repeat match goal with
              | H : (if ?b then _ else _) = (_, _) |- _ => destruct b eqn:?
              end.
  all: repeat match goal with
              | H : (_ =? _) = true |- _ => apply String.eqb_eq in H
              | H : (_, _) = (_, _) |- _ => injection H as <- <-
              end.
  all: try (intro H; discriminate H).
  all: match goal with H : status _ = _ |- _ => cbn [result_get dict_get dict_find String.eqb Ascii.eqb Bool.eqb]; rewrite H end;
    intro H'; discriminate H'.
Qed.

(** X7.  When [stop_angular_server] answers [stopped] or [killed], a
    process was alive and has been sent the signal to terminate, and the
    handle [NG_SERVE_PROCESS] is empty afterwards: a second stop answers
    [not_running] and does nothing but print, and no start that follows
    is refused as [already_running]. *)
Theorem stopped_server_can_be_started_again (w w' : world) (answer : pyval) :
  stop_angular_server w = Returns answer w' ->
  result_get answer "status" VNone = VStr "stopped"
  \/ result_get answer "status" VNone = VStr "killed" ->
  (exists running_pid : Z,
      NG_SERVE_PROCESS w = Some (Popen running_pid false)
      /\ In (EvTerminate running_pid) (trace w'))
  /\ NG_SERVE_PROCESS w' = None
  /\ stop_angular_server w'
     = Returns
         (VDict [("status", VStr "not_running");
                 ("message", VStr "'ng serve' process not found or not running.")])
         (set_trace
            (trace w' ++ [EvPrint "[AGENT] 'ng serve' process not found or not running."])
            w')
  /\ forall (command working_directory duration result : pyval) (w'' : world),
       start_angular_serve_and_get_initial_output command working_directory
         duration w'
       = Returns result w'' ->
       result_get result "status" VNone <> VStr "already_running".
Proof.
  intros Hstop Hstatus.
  assert (H : (exists running_pid : Z,
                  NG_SERVE_PROCESS w = Some (Popen running_pid false)
                  /\ In (EvTerminate running_pid) (trace w'))
              /\ NG_SERVE_PROCESS w' = None).
  { revert Hstop. unfold stop_angular_server, bind, get.
    destruct (NG_SERVE_PROCESS w) as [[running_pid []]|] eqn:Ep;
      cbn [alive_pid].
    - unfold print, emit, modify, ret. intros [= <- <-].
      destruct Hstatus as [H|H]; discriminate H.
    - unfold print, emit, modify, wait_for_exit, bind, get, ret.
      cbn [wait_script set_trace].
      destruct (wait_script w) as [|[| |x] rest]; intros [= <- <-];
        try (destruct Hstatus as [H|H]; discriminate H);
        (split; [exists running_pid; split; [reflexivity|]|reflexivity]);
        cbn [trace set_trace set_NG_SERVE_PROCESS set_wait_script];
        rewrite ?in_app_iff; cbn [In]; tauto.
    - unfold print, emit, modify, ret. intros [= <- <-].
      destruct Hstatus as [H|H]; discriminate H. }
  destruct H as [Hsent Hnone]. split; [exact Hsent|]. split; [exact Hnone|].
  split.
  - unfold stop_angular_server, bind, get. rewrite Hnone. reflexivity.
  - intros command wd dur result w'' Hstart Har.
    pose proof (already_running_needs_alive command wd dur w') as Ha.
    rewrite Hstart in Ha. specialize (Ha Har).
    unfold server_running in Ha. rewrite Hnone in Ha. discriminate Ha.
Qed.

(** An instance of X7: the server of the project is stopped, and
    [ng serve] is asked for again. *)
Lemma stopped_server_is_not_running :
  stop_angular_server serving_world
  = Returns
      (VDict [("status", VStr "stopped");
              ("message", VStr "'ng serve' process terminated successfully.")])
      (world_of server_stopped)
  /\ In (EvTerminate 4242) (trace (world_of server_stopped))
  /\ NG_SERVE_PROCESS (world_of server_stopped) = None
  /\ forall (result : pyval) (w'' : world),
       start_angular_serve_and_get_initial_output (VStr "ng serve") VNone
         (VInt 20) (world_of server_stopped)
       = Returns result w'' ->
       result_get result "status" VNone <> VStr "already_running".
Proof.
  split; [vm_compute; reflexivity|].
  destruct (stopped_server_can_be_started_again serving_world
              (world_of server_stopped)
              (VDict [("status", VStr "stopped");
                      ("message",
                       VStr "'ng serve' process terminated successfully.")]))
    as (_ & Hnone & _ & Hstart);
    [vm_compute; reflexivity | left; reflexivity |].
  split; [vm_compute; tauto|]. split; [exact Hnone|].
  intros result w''. apply Hstart.
Defined.

(** ** Asking the operator *)

Lemma ask_until_answered_first_answer (prompt : string) (invalid : list string)
  (answer : string) (rest : list string) :
  forallb (fun l => negb (is_answer l)) invalid = true ->
  is_answer answer = true ->
  forall w : world,
    ask_until_answered prompt (invalid ++ answer :: rest) w
    = Returns (VBool (strip (lower answer) =? "yes"))
        (set_trace (trace w ++ asked_until_answered prompt invalid)
           (set_stdin rest w)).
Proof.
  intros Hinv Hans. induction invalid as [|l invalid IH]; intro w.
  - cbn [app ask_until_answered]. unfold is_answer in Hans.
    unfold bind, emit, modify, print, emit, modify, ret.
    destruct (strip (lower answer) =? "yes"); [reflexivity|].
    cbn [orb] in Hans. rewrite Hans. reflexivity.
  - cbn [forallb] in Hinv. apply andb_prop in Hinv as [Hl Hinv].
    apply negb_true_iff in Hl. unfold is_answer in Hl.
    apply orb_false_iff in Hl as [Hyes Hno].
    cbn [app ask_until_answered].
    unfold bind at 1. unfold emit at 1, modify at 1.
    unfold bind at 1. unfold modify at 1.
    rewrite Hyes, Hno.
    unfold bind at 1. unfold print, emit, modify.
    rewrite (IH Hinv). unfold asked_until_answered.
    cbn [flat_map trace set_trace set_stdin app].
    rewrite <- !app_assoc. reflexivity.
Qed.

(** X8.  [ask_user_confirmation] takes the first line of the console
    that reads [yes] or [no] once put in lower case and stripped of
    surrounding white space: it returns [True] exactly when that line
    reads [yes].  Every line before it costs the operator the reminder
    and the question again; the lines after it stay on the console, and
    nothing else of the world changes. *)
Theorem confirmation_is_the_first_answer (prompt_message : pyval) (w : world)
  (invalid : list string) (answer : string) (rest : list string) :
  stdin w = (invalid ++ answer :: rest)%list ->
  forallb (fun l => negb (is_answer l)) invalid = true ->
  is_answer answer = true ->
  ask_user_confirmation prompt_message w
  = Returns (VBool (strip (lower answer) =? "yes"))
      (set_trace
         (trace w
            ++ asked_until_answered (confirmation_prompt prompt_message)
                 invalid)
         (set_stdin rest w)).
Proof.
  intros Hin Hinv Hans. unfold ask_user_confirmation, bind, get.
  rewrite Hin. now apply ask_until_answered_first_answer.
Qed.

(** An instance of X8: the operator types [maybe], then [  YES ]. *)
Lemma capital_yes_confirms :
  stdin hesitant_operator = (["maybe"] ++ "  YES " :: ["exit"])%list
  /\ is_answer "maybe" = false
  /\ is_answer "  YES " = true
  /\ ask_user_confirmation (VStr "Overwrite a.txt?") hesitant_operator
     = Returns (VBool true)
         (set_trace
            [EvPrompt "CONFIRMATION REQUIRED BY AGENT: Overwrite a.txt? (yes/no): ";
             EvPrint "Invalid input. Please enter 'yes' or 'no'.";
             EvPrompt "CONFIRMATION REQUIRED BY AGENT: Overwrite a.txt? (yes/no): "]
            (set_stdin ["exit"] hesitant_operator)).
Proof.
  split; [reflexivity|]. split; [reflexivity|]. split; [reflexivity|].
  apply (confirmation_is_the_first_answer (VStr "Overwrite a.txt?")
           hesitant_operator ["maybe"] "  YES " ["exit"]);
    reflexivity.
Defined.

(** ** Listing a directory *)

(** X9.  [list_directory_contents] of a str never raises and changes
    nothing but the console.  Its result always has a list under
    [contents]: when the directory can be listed, the result says
    [success] and the list names the entries of the directory in their
    order, each as a [file] or a [directory]; otherwise the result
    carries an [error], no [success], and the list is empty. *)
Theorem listing_answers_in_band (relative_path : string) (w : world) :
  exists (result : pyval) (lines : list event) (items : list pyval),
    list_directory_contents (VStr relative_path) w
    = Returns result (set_trace (trace w ++ lines) w)
    /\ result_get result "contents" VNone = VList items
    /\ match names_listed_at w relative_path with
       | Some names =>
           result_get result "success" VNone = VBool true
           /\ result_get result "error" VNone = VNone
           /\ map (fun item => result_get item "name" VNone) items
              = map VStr names
           /\ Forall (fun item =>
                        result_get item "type" VNone = VStr "file"
                        \/ result_get item "type" VNone = VStr "directory")
                items
       | None =>
           (exists message : string,
               result_get result "error" VNone = VStr message)
           /\ result_get result "success" VNone = VNone
           /\ items = []
       end.
Proof.
  unfold list_directory_contents, names_listed_at, bind, get.
  assert (Hsame : forall v : pyval,
             Returns v w = Returns v (set_trace (trace w ++ []) w)).
  { intro v. rewrite app_nil_r. now destruct w. }
  destruct (CURRENT_PROJECT_PATH w) as [p|] eqn:Ep; cbn [path_value py_truthy].
  2:{ eexists; exists [], []. split; [apply Hsame|].
      split; [reflexivity|]. split; [now eexists|]. split; reflexivity. }
  destruct (negb (p =? "")) eqn:Enonempty.
  2:{ eexists; exists [], []. split; [apply Hsame|].
      split; [reflexivity|]. split; [now eexists|]. split; reflexivity. }
  unfold py_path_join, ret, print, emit, modify, try_except, bind, get.
  cbn [fs cwd set_trace].
  destruct (io_listdir (fs w) (cwd w) (os_path_join p relative_path))
    as [names|e]; unfold of_io, ret, raise.
  - eexists; eexists; eexists. split; [reflexivity|]. split; [reflexivity|].
    split; [reflexivity|]. split; [reflexivity|]. split.
    + rewrite map_map. apply map_ext. intro item. reflexivity.
    + apply Forall_forall. intros item Hin. apply in_map_iff in Hin.
      destruct Hin as (name & <- & _).
      destruct (os_path_isdir _ _ _); [right | left]; reflexivity.
  - destruct (is_FileNotFoundError e);
      eexists; eexists; exists []; (split; [reflexivity|]);
      (split; [reflexivity|]); (split; [now eexists|]); split; reflexivity.
Qed.

Lemma rev_string_onto_twice (s : string) :
  forall acc acc2 : string,
    rev_string_onto acc2 (rev_string_onto acc s)
    = rev_string_onto (s ++ acc2) acc.
Proof.
  induction s as [|c s IH]; intros acc acc2; [reflexivity|].
  cbn [rev_string_onto append]. now rewrite IH.
Qed.

Lemma append_nil_r (s : string) : s ++ "" = s.
Proof. induction s as [|c s IH]; [reflexivity|]. cbn [append]. now rewrite IH. Qed.

Lemma rev_string_involutive (s : string) : rev_string (rev_string s) = s.
Proof.
  unfold rev_string. rewrite rev_string_onto_twice. cbn [rev_string_onto].
  apply append_nil_r.
Qed.

(** A string without a slash is one component. *)
Lemma split_on_slash_free (s : string) :
  contains "/" s = false ->
  forall cur : string,
    split_on "/" 0 cur s = [rev_string (rev_string_onto cur s)].
Proof.
  induction s as [|c s IH]; intros H cur; [reflexivity|].
  cbn [contains] in H. apply orb_false_iff in H as [Hc Hs].
  cbn [split_on rev_string_onto]. rewrite Hc. now apply IH.
Qed.

Lemma py_split_slash_free (s : string) :
  contains "/" s = false -> py_split s "/" = [s].
Proof.
  intro H. unfold py_split. rewrite (split_on_slash_free s H).
  fold (rev_string s). now rewrite rev_string_involutive.
Qed.

(** A walk that arrives at a directory goes on from there. *)
Lemma walk_extend (root : node) (a b : list string) :
  forall (cur mid : list string),
    walk root cur a = Target mid ->
    is_dir_node (tree_lookup root mid) = true ->
    walk root cur (a ++ b) = walk root mid b.
Proof.
  induction a as [|c a IH]; intros cur mid H Hd.
  - injection H as <-. reflexivity.
  - cbn [app walk] in *.
    destruct ((c =? "") || (c =? ".")); [now apply IH|].
    destruct (c =? ".."); [now apply IH|].
    destruct a as [|c2 a].
    + injection H as <-. cbn [app]. destruct b as [|c3 b]; [reflexivity|].
      unfold is_dir_node in Hd.
      destruct (tree_lookup root (cur ++ [c])%list) as [[|es]|];
        try discriminate Hd. reflexivity.
    + cbn [app].
      destruct (tree_lookup root (cur ++ [c])%list) as [[|es]|];
        try discriminate H. now apply IH.
Qed.

Lemma walk_plain_name (root : node) (cur : list string) (name : string) :
  plain_name name = true -> walk root cur [name] = Target (cur ++ [name])%list.
Proof.
  unfold plain_name. intro H.
  apply andb_prop in H as [H Hdd]. apply andb_prop in H as [H Hd].
  apply andb_prop in H as [He _].
  apply negb_true_iff in He, Hd, Hdd.
  cbn [walk]. now rewrite He, Hd, Hdd.
Qed.

Lemma string_app_slash (q s : string) : (q ++ "/") ++ s = q ++ String "/" s.
Proof. induction q as [|c q IH]; [reflexivity|]. cbn [append]. now rewrite <- IH. Qed.

(** Where an entry of a directory is found under its joined path. *)
Lemma resolve_entry (root : node) (here : list string) (full name : string)
  (key : list string) :
  resolve root here full = Target key ->
  is_dir_node (tree_lookup root key) = true ->
  plain_name name = true ->
  resolve root here (os_path_join full name) = Target (key ++ [name])%list.
Proof.
  intros Hfull Hdir Hname.
  assert (Hslash : contains "/" name = false).
  { unfold plain_name in Hname.
    apply andb_prop in Hname as [H _]. apply andb_prop in H as [H _].
    apply andb_prop in H as [_ H]. now apply negb_true_iff in H. }
  assert (Habs : startswith name "/" = false).
  { unfold startswith. destruct name as [|c name]; [reflexivity|].
    cbn [contains] in Hslash. now apply orb_false_iff in Hslash as [H _]. }
  unfold os_path_join. rewrite Habs.
  unfold resolve in Hfull.
  destruct (String.eqb_spec full "") as [->|Hne]; [discriminate Hfull|].
  cbn [orb].
  destruct (endswith full "/") eqn:Eend.
  - destruct (endswith_slash _ Eend) as [q ->].
    unfold resolve.
    assert (Hnonempty : ((q ++ "/") ++ name =? "") = false).
    { apply String.eqb_neq. destruct q; discriminate. }
    rewrite Hnonempty, startswith_append by exact Hne.
    rewrite string_app_slash, py_split_slash_app, (py_split_slash_free _ Hslash).
    change (q ++ "/") with (q ++ String "/" "") in Hfull at 2.
    rewrite py_split_slash_app in Hfull.
    apply walk_app in Hfull as (mid & Hq & Hmid); [|discriminate].
    cbn in Hmid. injection Hmid as <-.
    rewrite (walk_extend _ _ _ _ _ Hq Hdir). now apply walk_plain_name.
  - unfold resolve.
    assert (Hnonempty : (full ++ "/" ++ name =? "") = false).
    { apply String.eqb_neq. destruct full; [congruence | discriminate]. }
    rewrite Hnonempty, startswith_append by exact Hne.
    change (full ++ "/" ++ name) with (full ++ String "/" name).
    rewrite py_split_slash_app, (py_split_slash_free _ Hslash).
    rewrite (walk_extend _ _ _ _ _ Hfull Hdir). now apply walk_plain_name.
Qed.

Lemma tree_lookup_app (key key' : list string) :
  forall t : node,
    tree_lookup t (key ++ key')
    = match tree_lookup t key with
      | Some m => tree_lookup m key'
      | None => None
      end.
Proof.
  induction key as [|c key IH]; intro t; [reflexivity|].
  cbn [app tree_lookup]. destruct t as [|es]; [reflexivity|].
  destruct (entry_find es c); [apply IH | reflexivity].
Qed.

Lemma entry_find_distinct (es : list (string * node)) (e : string * node) :
  distinct (map fst es) = true -> In e es -> entry_find es (fst e) = Some (snd e).
Proof.
  induction es as [|[k m] es IH]; intros Hd Hin; [contradiction|].
  cbn [map fst distinct] in Hd. apply andb_prop in Hd as [Hk Hd].
  apply negb_true_iff in Hk. cbn [entry_find].
  destruct Hin as [<-|Hin].
  - cbn [fst snd]. now rewrite String.eqb_refl.
  - destruct (String.eqb_spec (fst e) k) as [<-|Hne]; [|now apply IH].
    exfalso. assert (Hex : existsb (String.eqb (fst e)) (map fst es) = true).
    { apply existsb_exists. exists (fst e). split; [now apply in_map|].
      apply String.eqb_refl. }
    congruence.
Qed.

(** X10.  In a directory whose entries have the names a filesystem gives
    them (not empty, without a slash, neither [.] nor [..], no name
    twice), [list_directory_contents] tells the files from the
    directories: the list under [contents] has one item for every entry,
    in the order of the directory, with the name of the entry and with
    the type [directory] exactly when the entry is a directory. *)
Theorem listing_tells_files_from_directories (relative_path : string)
  (w : world) (es : list (string * node)) :
  directory_at w relative_path = Some es ->
  forallb plain_name (map fst es) = true ->
  distinct (map fst es) = true ->
  exists (result : pyval) (lines : list event),
    list_directory_contents (VStr relative_path) w
    = Returns result (set_trace (trace w ++ lines) w)
    /\ result_get result "success" VNone = VBool true
    /\ result_get result "contents" VNone = VList (map entry_item es).
Proof.
  unfold directory_at, list_directory_contents, bind, get.
  destruct (CURRENT_PROJECT_PATH w) as [p|]; [|discriminate].
  cbn [path_value py_truthy].
  destruct (negb (p =? "")); [|discriminate].
  unfold py_path_join, ret, print, emit, modify, try_except, bind, get.
  cbn [fs cwd set_trace]. unfold io_listdir.
  destruct (resolve (fs w) (cwd w) (os_path_join p relative_path))
    as [key| |] eqn:Er; try discriminate.
  destruct (tree_lookup (fs w) key) as [[|es']|] eqn:El; try discriminate.
  intros [= ->] Hplain Hdistinct. unfold of_io, ret.
  eexists; eexists. split; [reflexivity|]. split; [reflexivity|].
  cbn [result_get dict_get dict_find String.eqb Ascii.eqb Bool.eqb].
  f_equal. rewrite map_map. apply map_ext_in. intros e Hin.
  unfold entry_item. do 3 f_equal.
  assert (Hname : plain_name (fst e) = true).
  { rewrite forallb_forall in Hplain. apply Hplain. now apply in_map. }
  unfold os_path_isdir.
  rewrite (resolve_entry _ _ _ _ _ Er) by (now rewrite ?El).
  rewrite tree_lookup_app, El. cbn [tree_lookup].
  rewrite (entry_find_distinct _ _ Hdistinct Hin).
  now destruct (snd e).
Qed.

(** An instance of X10: the root of the project of [mixed_project]. *)
Lemma mixed_project_is_listed :
  directory_at mixed_project "."
  = Some [("src", Dir [("main.ts", File (Some "bootstrap()"))]);
          ("angular.json", File (Some "{}"))]
  /\ exists (result : pyval) (lines : list event),
       list_directory_contents (VStr ".") mixed_project
       = Returns result (set_trace (trace mixed_project ++ lines) mixed_project)
       /\ result_get result "success" VNone = VBool true
       /\ result_get result "contents" VNone
          = VList [VDict [("name", VStr "src"); ("type", VStr "directory")];
                   VDict [("name", VStr "angular.json"); ("type", VStr "file")]].
Proof.
  split; [reflexivity|].
  apply (listing_tells_files_from_directories "." mixed_project
           [("src", Dir [("main.ts", File (Some "bootstrap()"))]);
            ("angular.json", File (Some "{}"))]);
    reflexivity.
Defined.

(** ** Deleting *)

Lemma entry_find_del_other (es : list (string * node)) (c d : string) :
  d <> c -> entry_find (entry_del es c) d = entry_find es d.
Proof.
  intro Hne. induction es as [|[k m] es IH]; [reflexivity|].
  cbn [entry_del entry_find].
  destruct (String.eqb_spec c k) as [->|Hck].
  - destruct (String.eqb_spec d k); [contradiction | reflexivity].
  - cbn [entry_find]. destruct (d =? k); [reflexivity | exact IH].
Qed.

Lemma entry_find_del_distinct (es : list (string * node)) (c : string) :
  distinct (map fst es) = true -> entry_find (entry_del es c) c = None.
Proof.
  induction es as [|[k m] es IH]; intro Hd; [reflexivity|].
  cbn [map fst distinct] in Hd. apply andb_prop in Hd as [Hk Hd].
  apply negb_true_iff in Hk. cbn [entry_del].
  destruct (String.eqb_spec c k) as [->|Hck].
  - clear IH Hd. induction es as [|[k2 m2] es IH]; [reflexivity|].
    cbn [map fst existsb] in Hk. apply orb_false_iff in Hk as [Hk2 Hk].
    cbn [entry_find]. rewrite Hk2. now apply IH.
  - cbn [entry_find]. apply String.eqb_neq in Hck. rewrite Hck. now apply IH.
Qed.

Lemma entry_del_put (es : list (string * node)) (c : string) (n : node) :
  entry_find es c <> None ->
  entry_del (entry_put es c n) c = entry_del es c.
Proof.
  induction es as [|[k m] es IH]; intro H; [now contradiction H|].
  cbn [entry_find entry_put entry_del] in *.
  destruct (String.eqb_spec c k) as [->|Hck]; cbn [entry_del].
  - now rewrite String.eqb_refl.
  - apply String.eqb_neq in Hck. rewrite Hck. now rewrite IH.
Qed.

Lemma entry_put_put (es : list (string * node)) (c : string) (a b : node) :
  entry_put (entry_put es c a) c b = entry_put es c b.
Proof.
  induction es as [|[k m] es IH]; cbn [entry_put].
  - now rewrite String.eqb_refl.
  - destruct (String.eqb_spec c k) as [->|Hck]; cbn [entry_put].
    + now rewrite String.eqb_refl.
    + apply String.eqb_neq in Hck. rewrite Hck. now rewrite IH.
Qed.

(** Nothing is left where something has been removed. *)
Lemma tree_remove_lookup (parent : list string) (name : string)
  (es : list (string * node)) :
  forall t t' : node,
    tree_remove t (parent ++ [name]) = Some t' ->
    tree_lookup t parent = Some (Dir es) ->
    distinct (map fst es) = true ->
    tree_lookup t' (parent ++ [name]) = None.
Proof.
  induction parent as [|c parent IH]; intros t t' Hr Hl Hd.
  - injection Hl as ->. cbn [app tree_remove] in Hr.
    destruct (entry_find es name); [|discriminate Hr].
    injection Hr as <-. cbn [app tree_lookup].
    now rewrite entry_find_del_distinct.
  - destruct t as [|es0]; [discriminate Hr|].
    cbn [app tree_remove tree_lookup] in *.
    destruct (entry_find es0 c) as [m|]; [|discriminate Hr].
    destruct (parent ++ [name])%list as [|c2 key'] eqn:Ek.
    { now apply app_eq_nil in Ek as [_ Ek]. }
    destruct (tree_remove m (c2 :: key')) as [m'|] eqn:Em; [|discriminate Hr].
    injection Hr as <-. cbn [tree_lookup].
    rewrite entry_find_put, String.eqb_refl. now apply (IH m).
Qed.

(** A file elsewhere stays where it is. *)
Lemma tree_remove_other (key : list string) :
  forall (t t' : node) (key2 : list string) (text : option string),
    tree_remove t key = Some t' ->
    tree_lookup t key2 = Some (File text) ->
    is_prefix key key2 = false ->
    tree_lookup t' key2 = Some (File text).
Proof.
  induction key as [|c key IH]; intros t t' key2 text Hr Hl Hp;
    [discriminate Hr|].
  destruct t as [|es]; [discriminate Hr|]. cbn [tree_remove] in Hr.
  destruct (entry_find es c) as [m|] eqn:Ec; [|discriminate Hr].
  destruct key2 as [|d key2]; [discriminate Hl|].
  cbn [tree_lookup is_prefix] in Hl, Hp.
  destruct key as [|c2 key].
  - injection Hr as <-. cbn [tree_lookup].
    rewrite andb_true_r in Hp. apply String.eqb_neq in Hp.
    rewrite entry_find_del_other by congruence. exact Hl.
  - destruct (tree_remove m (c2 :: key)) as [m'|] eqn:Em; [|discriminate Hr].
    injection Hr as <-. cbn [tree_lookup]. rewrite entry_find_put.
    destruct (String.eqb_spec d c) as [->|Hdc]; [|exact Hl].
    rewrite String.eqb_refl in Hp. cbn [andb] in Hp. rewrite Ec in Hl.
    now apply (IH m m' key2 text).
Qed.

Lemma is_prefix_split (a b : list string) :
  is_prefix a b = true -> exists rest, b = (a ++ rest)%list.
Proof.
  revert b. induction a as [|x a IH]; intros b H; [now exists b|].
  destruct b as [|y b]; [discriminate H|]. cbn [is_prefix] in H.
  apply andb_prop in H as [Hxy H]. apply String.eqb_eq in Hxy. subst y.
  destruct (IH b H) as [rest ->]. now exists rest.
Qed.


(** What is put at a place changes nothing that is neither there nor
    below. *)
Lemma held_at_put_outside (key : list string) :
  forall (t t' n : node) (key2 : list string),
    tree_put t key n = Some t' ->
    is_prefix key key2 = false ->
    held_at t' key2 = held_at t key2.
Proof.
  unfold held_at.
  induction key as [|c key IH]; intros t t' n key2 H Hp; [discriminate H|].
  destruct t as [|es]; [discriminate H|]. cbn [tree_put] in H.
  destruct key as [|c2 key].
  - injection H as <-. destruct key2 as [|d key2]; [reflexivity|].
    cbn [is_prefix] in Hp. rewrite andb_true_r in Hp.
    cbn [tree_lookup]. rewrite entry_find_put.
    rewrite String.eqb_sym in Hp. now rewrite Hp.
  - destruct (entry_find es c) as [m|] eqn:Ec; [|discriminate H].
    destruct (tree_put m (c2 :: key) n) as [m'|] eqn:Em; [|discriminate H].
    injection H as <-. destruct key2 as [|d key2]; [reflexivity|].
    cbn [is_prefix] in Hp. cbn [tree_lookup]. rewrite entry_find_put.
    destruct (String.eqb_spec d c) as [->|Hdc]; [|reflexivity].
    rewrite String.eqb_refl in Hp. cbn [andb] in Hp. rewrite Ec.
    exact (IH m m' n key2 Em Hp).
Qed.

(** What is removed at a place changes nothing that is neither there nor
    below. *)
Lemma held_at_remove_outside (key : list string) :
  forall (t t' : node) (key2 : list string),
    tree_remove t key = Some t' ->
    is_prefix key key2 = false ->
    held_at t' key2 = held_at t key2.
Proof.
  unfold held_at.
  induction key as [|c key IH]; intros t t' key2 H Hp; [discriminate H|].
  destruct t as [|es]; [discriminate H|]. cbn [tree_remove] in H.
  destruct (entry_find es c) as [m|] eqn:Ec; [|discriminate H].
  destruct key as [|c2 key].
  - injection H as <-. destruct key2 as [|d key2]; [reflexivity|].
    cbn [is_prefix] in Hp. rewrite andb_true_r in Hp.
    cbn [tree_lookup]. apply String.eqb_neq in Hp.
    rewrite entry_find_del_other by congruence. reflexivity.
  - destruct (tree_remove m (c2 :: key)) as [m'|] eqn:Em; [|discriminate H].
    injection H as <-. destruct key2 as [|d key2]; [reflexivity|].
    cbn [is_prefix] in Hp. cbn [tree_lookup]. rewrite entry_find_put.
    destruct (String.eqb_spec d c) as [->|Hdc]; [|reflexivity].
    rewrite String.eqb_refl in Hp. cbn [andb] in Hp. rewrite Ec.
    exact (IH m m' key2 Em Hp).
Qed.

(** A directory that has lost its entries is still there; what was below
    it is gone, and nothing else has changed. *)
Lemma held_at_clear (key : list string) (t cleared : node)
  (es : list (string * node)) :
  tree_clear t key = Some cleared ->
  tree_lookup t key = Some (Dir es) ->
  tree_lookup cleared key = Some (Dir [])
  /\ forall key2 : list string,
       (is_prefix key key2 = false \/ key2 = key ->
        held_at cleared key2 = held_at t key2)
       /\ (is_prefix key key2 = true -> key2 <> key ->
           held_at cleared key2 = HoldsNothing).
Proof.
  intros Hc Hl.
  assert (Hthere : tree_lookup cleared key = Some (Dir [])).
  { destruct key as [|c key].
    - cbn in Hc, Hl. injection Hl as ->. now injection Hc as <-.
    - exact (tree_lookup_put _ _ _ _ Hc). }
  split; [exact Hthere|]. intro key2. split.
  - intros [Hp| ->].
    + destruct key as [|c key]; [discriminate Hp|].
      exact (held_at_put_outside _ _ _ _ _ Hc Hp).
    + unfold held_at. now rewrite Hthere, Hl.
  - intros Hp Hne. destruct (is_prefix_split _ _ Hp) as [rest ->].
    destruct rest as [|x rest]; [now rewrite app_nil_r in Hne|].
    unfold held_at. now rewrite tree_lookup_app, Hthere.
Qed.

(** Following a path in the filesystem that is left when a directory has
    lost its entries leads where it led before, unless the path passes
    through what is gone. *)
Lemma walk_cleared (key : list string) (t cleared : node)
  (es : list (string * node)) (comps : list string) :
  tree_clear t key = Some cleared ->
  tree_lookup t key = Some (Dir es) ->
  forall cur : list string,
    walk cleared cur comps = walk t cur comps
    \/ walk cleared cur comps = NoEnt.
Proof.
  intros Hc Hl. destruct (held_at_clear _ _ _ _ Hc Hl) as [_ Hheld].
  induction comps as [|c cs IH]; intro cur; [now left|].
  cbn [walk].
  destruct ((c =? "") || (c =? ".")); [apply IH|].
  destruct (c =? ".."); [apply IH|].
  destruct cs as [|c2 cs]; [now left|].
  destruct (Hheld (cur ++ [c])%list) as [Hsame Hgone].
  destruct (is_prefix key (cur ++ [c])%list) eqn:Ep.
  - destruct (list_eq_dec string_dec (cur ++ [c])%list key) as [Heq|Hne].
    + specialize (Hsame (or_intror Heq)). unfold held_at in Hsame.
      destruct (tree_lookup cleared (cur ++ [c])%list) as [[|]|],
               (tree_lookup t (cur ++ [c])%list) as [[|]|];
        try discriminate Hsame; try (now left). apply IH.
    + specialize (Hgone eq_refl Hne). unfold held_at in Hgone.
      destruct (tree_lookup cleared (cur ++ [c])%list) as [[|]|];
        try discriminate Hgone. now right.
  - specialize (Hsame (or_introl eq_refl)). unfold held_at in Hsame.
    destruct (tree_lookup cleared (cur ++ [c])%list) as [[|]|],
             (tree_lookup t (cur ++ [c])%list) as [[|]|];
      try discriminate Hsame; try (now left). apply IH.
Qed.


Lemma tree_remove_below (es : list (string * node)) (c c2 : string)
  (key : list string) :
  tree_remove (Dir es) (c :: c2 :: key)
  = match entry_find es c with
    | Some m =>
        match tree_remove m (c2 :: key) with
        | Some m' => Some (Dir (entry_put es c m'))
        | None => None
        end
    | None => None
    end.
Proof. reflexivity. Qed.

(** Removing a directory that has lost its entries leaves what removing
    it with its entries leaves. *)
Lemma tree_remove_cleared (key : list string) :
  forall (t cleared : node) (es : list (string * node)),
    tree_put t key (Dir []) = Some cleared ->
    tree_lookup t key = Some (Dir es) ->
    tree_remove cleared key = tree_remove t key.
Proof.
  induction key as [|c key IH]; intros t cleared es Hc Hl; [discriminate Hc|].
  destruct t as [|es0]; [discriminate Hc|].
  cbn [tree_put tree_lookup] in Hc, Hl.
  destruct (entry_find es0 c) as [m|] eqn:Ec; [|discriminate Hl].
  destruct key as [|c2 key].
  - injection Hc as <-. cbn [tree_remove].
    rewrite entry_find_put, String.eqb_refl, Ec.
    rewrite entry_del_put by congruence. reflexivity.
  - destruct (tree_put m (c2 :: key) (Dir [])) as [m1|] eqn:Em;
      [|discriminate Hc].
    injection Hc as <-. rewrite !tree_remove_below.
    rewrite entry_find_put, String.eqb_refl, Ec.
    rewrite (IH m m1 es Em Hl).
    destruct (tree_remove m (c2 :: key)); [|reflexivity].
    now rewrite entry_put_put.
Qed.




(** What [shutil.rmtree] leaves: the filesystem as it was, with an
    exception; the filesystem without the directory; or, with the
    exception of [os.rmdir], the filesystem in which the directory has
    lost its entries. *)
Lemma io_rmtree_outcome (t : node) (here : list string) (p : string) :
  (exists e, io_rmtree t here p = (t, Some e))
  \/ (exists (key : list string) (es : list (string * node)) (t' : node),
         resolve t here p = Target key
         /\ tree_lookup t key = Some (Dir es)
         /\ tree_remove t key = Some t'
         /\ io_rmtree t here p = (t', None))
  \/ (exists (key : list string) (es : list (string * node)) (cleared : node)
        (e : exn),
         resolve t here p = Target key
         /\ tree_lookup t key = Some (Dir es)
         /\ tree_clear t key = Some cleared
         /\ io_rmdir cleared here p = IoRaise e
         /\ io_rmtree t here p = (cleared, Some e)).
Proof.
  unfold io_rmtree.
  destruct (resolve t here p) as [key| |] eqn:Er;
    try (left; now eexists).
  destruct (tree_lookup t key) as [[text|es]|] eqn:El;
    try (left; now eexists).
  destruct (tree_clear t key) as [cleared|] eqn:Ec; [|left; now eexists].
  destruct (io_rmdir cleared here p) as [t'|e] eqn:Ed.
  - right. left. exists key, es, t'.
    split; [reflexivity|]. split; [exact El|]. split; [|reflexivity].
    unfold io_rmdir in Ed.
    destruct (walk_cleared key t cleared es (py_split p "/") Ec El
                (if startswith p "/" then [] else here)) as [Hw|Hw].
    + assert (Hr' : resolve cleared here p = Target key).
      { unfold resolve in *. destruct (p =? ""); [discriminate Er|].
        now rewrite Hw. }
      rewrite Hr' in Ed.
      destruct (last_component p =? "."); [discriminate Ed|].
      destruct (last_component p =? ".."); [discriminate Ed|].
      destruct (held_at_clear _ _ _ _ Ec El) as [Hthere _].
      rewrite Hthere in Ed.
      destruct key as [|c key]; [discriminate Ed|].
      cbn [tree_clear] in Ec.
      rewrite (tree_remove_cleared _ _ _ _ Ec El) in Ed.
      destruct (tree_remove t (c :: key)); [|discriminate Ed].
      now injection Ed as ->.
    + unfold resolve in Ed. destruct (p =? ""); [discriminate Ed|].
      rewrite Hw in Ed. discriminate Ed.
  - right. right. exists key, es, cleared, e.
    split; [reflexivity|]. split; [exact El|]. split; [exact Ec|].
    split; [exact Ed | reflexivity].
Qed.

(** What [delete_file_or_directory] of a str does: it fails and changes
    nothing but the console; or it succeeds and removes what the path
    leads to; or it fails after it has removed what the directory the
    path leads to held. *)
Lemma delete_outcome (relative_path : string) (w : world) :
  exists (result : pyval) (lines : list event),
    (delete_file_or_directory (VStr relative_path) w
     = Returns result (set_trace (trace w ++ lines) w)
     /\ result_get result "status" VNone = VStr "error")
    \/ (exists (key : list string) (root' : node),
           tool_target w relative_path = Target key
           /\ tree_lookup (fs w) key <> None
           /\ tree_remove (fs w) key = Some root'
           /\ delete_file_or_directory (VStr relative_path) w
              = Returns result (set_trace (trace w ++ lines) (set_fs root' w))
           /\ result_get result "status" VNone = VStr "success")
    \/ (exists (key : list string) (es : list (string * node))
          (cleared : node) (e : exn),
           tool_target w relative_path = Target key
           /\ tree_lookup (fs w) key = Some (Dir es)
           /\ tree_clear (fs w) key = Some cleared
           /\ io_rmdir cleared (cwd w) (full_path_of w relative_path)
              = IoRaise e
           /\ delete_file_or_directory (VStr relative_path) w
              = Returns result
                  (set_trace (trace w ++ lines) (set_fs cleared w))
           /\ result_get result "status" VNone = VStr "error").
Proof.
  unfold delete_file_or_directory, tool_target, full_path_of, bind, get.
  destruct (CURRENT_PROJECT_PATH w) as [p|] eqn:Ep; cbn [path_value py_truthy].
  2:{ eexists; exists []. left. rewrite app_nil_r.
      split; [now destruct w | reflexivity]. }
  destruct (negb (p =? "")).
  2:{ eexists; exists []. left. rewrite app_nil_r.
      split; [now destruct w | reflexivity]. }
  unfold py_path_join, ret, print, emit, modify, try_except, bind, get.
  cbn [fs cwd set_trace].
  set (full := os_path_join p relative_path).
  destruct (os_path_exists (fs w) (cwd w) full); cbn [negb].
  2:{ eexists; eexists. left. split; reflexivity. }
  destruct (os_path_isfile (fs w) (cwd w) full).
  - unfold io_remove.
    destruct (resolve (fs w) (cwd w) full) as [key| |] eqn:Er;
      unfold of_io, raise;
      try (eexists; eexists; left;
           split; [cbn [trace set_trace]; rewrite <- ?app_assoc; reflexivity
                 | reflexivity]).
    destruct (tree_lookup (fs w) key) as [[text|es]|] eqn:El;
      unfold raise;
      try (eexists; eexists; left;
           split; [cbn [trace set_trace]; rewrite <- ?app_assoc; reflexivity
                 | reflexivity]).
    destruct (tree_remove (fs w) key) as [root'|] eqn:Ed; unfold raise, ret.
    + eexists; eexists. right. left. exists key, root'.
      split; [reflexivity|].
      split; [congruence|]. split; [exact Ed|].
      split; [cbn [trace set_trace set_fs]; rewrite <- ?app_assoc; reflexivity
             |reflexivity].
    + eexists; eexists; left.
      split; [cbn [trace set_trace]; rewrite <- ?app_assoc; reflexivity
                 | reflexivity].
  - destruct (os_path_isdir (fs w) (cwd w) full).
    2:{ eexists; eexists. left. split; reflexivity. }
    destruct (io_rmtree_outcome (fs w) (cwd w) full)
      as [[e ->]|[(key & es & t' & Er & El & Ed & ->)
                 |(key & es & cleared & e & Er & El & Ec & Ed & ->)]];
      unfold raise, ret; cbn [trace set_trace set_fs].
    + eexists; eexists. left.
      split; [rewrite <- ?app_assoc; f_equal; now destruct w | reflexivity].
    + eexists; eexists. right. left. exists key, t'.
      split; [exact Er|]. split; [congruence|]. split; [exact Ed|].
      split; [rewrite <- ?app_assoc; reflexivity | reflexivity].
    + eexists; eexists. right. right. exists key, es, cleared, e.
      split; [exact Er|]. split; [exact El|]. split; [exact Ec|].
      split; [exact Ed|].
      split; [rewrite <- ?app_assoc; reflexivity | reflexivity].
Qed.


(** A deletion that is refused half-way: [.] in [mixed_project] leads to
    the project directory, which loses its entries; the tool answers
    with the error of [os.rmdir]. *)
Example deleting_dot_empties_the_project :
  exists w' : world,
    delete_file_or_directory (VStr ".") mixed_project
    = Returns
        (VDict [("status", VStr "error");
                ("message",
                 VStr "Error deleting /proj/.: [Errno 22] Invalid argument: '/proj/.'")])
        w'
    /\ tree_lookup (fs mixed_project) ["proj"; "angular.json"]
       = Some (File (Some "{}"))
    /\ tree_lookup (fs w') ["proj"] = Some (Dir []).
Proof. eexists. split; [vm_compute; reflexivity|]. split; reflexivity. Qed.

(** X12.  After a successful [delete_file_or_directory], in a directory
    in which no name occurs twice: nothing is left at the place the path
    led to, nor anywhere below it, and every file at another place is
    where it was, with its content. *)
Theorem deleted_path_is_gone (relative_path : string) (w w' : world)
  (result : pyval) (parent : list string) (name : string)
  (es : list (string * node)) :
  delete_file_or_directory (VStr relative_path) w = Returns result w' ->
  result_get result "status" VNone = VStr "success" ->
  tool_target w relative_path = Target (parent ++ [name])%list ->
  tree_lookup (fs w) parent = Some (Dir es) ->
  distinct (map fst es) = true ->
  (forall key2 : list string,
      is_prefix (parent ++ [name])%list key2 = true ->
      tree_lookup (fs w') key2 = None)
  /\ (forall (key2 : list string) (text : option string),
         tree_lookup (fs w) key2 = Some (File text) ->
         is_prefix (parent ++ [name])%list key2 = false ->
         tree_lookup (fs w') key2 = Some (File text)).
Proof.
  intros Hdel Hstatus Htarget Hparent Hdistinct.
  destruct (delete_outcome relative_path w) as (result0 & lines & H).
  destruct H as [[H Herr]|[(key & root' & Hkey & _ & Hremove & H & _)
                          |(key & es0 & cleared & e & _ & _ & _ & _ & H & Herr)]].
  { rewrite Hdel in H. injection H as -> _. congruence. }
  2:{ rewrite Hdel in H. injection H as -> _. congruence. }
  rewrite Hdel in H. injection H as _ ->.
  rewrite Htarget in Hkey. injection Hkey as <-.
  cbn [fs set_trace set_fs]. split.
  - intros key2 Hp. destruct (is_prefix_split _ _ Hp) as [rest ->].
    rewrite tree_lookup_app.
    now rewrite (tree_remove_lookup _ _ _ _ _ Hremove Hparent Hdistinct).
  - intros key2 text Hl Hp. exact (tree_remove_other _ _ _ _ _ Hremove Hl Hp).
Qed.

(** An instance of X12: the directory [src] of [mixed_project] is
    deleted; [angular.json] stays. *)
Lemma src_is_gone :
  delete_file_or_directory (VStr "src") mixed_project
  = Returns
      (VDict [("status", VStr "success");
              ("message",
               VStr "Successfully deleted directory (and its contents): /proj/src")])
      (world_of src_deleted)
  /\ tool_target mixed_project "src" = Target ["proj"; "src"]
  /\ tree_lookup (fs mixed_project) ["proj"; "src"; "main.ts"]
     = Some (File (Some "bootstrap()"))
  /\ tree_lookup (fs (world_of src_deleted)) ["proj"; "src"; "main.ts"] = None
  /\ tree_lookup (fs (world_of src_deleted)) ["proj"; "angular.json"]
     = Some (File (Some "{}")).
Proof.
  assert (Hdel : delete_file_or_directory (VStr "src") mixed_project
                 = Returns
                     (VDict [("status", VStr "success");
                             ("message",
                              VStr "Successfully deleted directory (and its contents): /proj/src")])
                     (world_of src_deleted))
    by (vm_compute; reflexivity).
  split; [exact Hdel|]. split; [reflexivity|]. split; [reflexivity|].
  destruct (deleted_path_is_gone "src" mixed_project (world_of src_deleted) _
              ["proj"] "src"
              [("src", Dir [("main.ts", File (Some "bootstrap()"))]);
               ("angular.json", File (Some "{}"))]
              Hdel eq_refl eq_refl eq_refl eq_refl)
    as [Hgone Hkept].
  split.
  - apply Hgone. reflexivity.
  - apply Hkept; reflexivity.
Defined.

(** ** Writing over a file *)

(** Making directories that are there changes nothing. *)
Lemma mkdir_walk_existing (p : string) (root : node) (comps : list string) :
  forall (cur key : list string),
    walk root cur comps = Target key ->
    is_dir_node (tree_lookup root key) = true ->
    mkdir_walk p root cur comps = IoOk root.
Proof.
  induction comps as [|c cs IH]; intros cur key H Hd; [reflexivity|].
  cbn [walk mkdir_walk] in *.
  destruct ((c =? "") || (c =? ".")); [now apply (IH _ key)|].
  destruct (c =? ".."); [now apply (IH _ key)|].
  destruct cs as [|c2 cs].
  - injection H as <-. unfold is_dir_node in Hd.
    destruct (tree_lookup root (cur ++ [c])%list) as [[|es]|];
      try discriminate Hd. reflexivity.
  - destruct (tree_lookup root (cur ++ [c])%list) as [[|es]|];
      try discriminate H. now apply (IH _ key).
Qed.

Lemma io_makedirs_existing (root : node) (here : list string) (p : string) :
  os_path_isdir root here p = true -> io_makedirs root here p = IoOk root.
Proof.
  unfold os_path_isdir, io_makedirs, resolve.
  destruct (p =? ""); [discriminate|].
  destruct (walk root _ (py_split p "/")) as [key| |] eqn:Ew; try discriminate.
  intro H. apply (mkdir_walk_existing _ _ _ _ key Ew).
  unfold is_dir_node. now destruct (tree_lookup root key) as [[|]|].
Qed.

(** Something can be put where something is. *)
Lemma tree_put_existing (key : list string) :
  forall (t n0 n : node),
    key <> [] -> tree_lookup t key = Some n0 ->
    exists t', tree_put t key n = Some t'.
Proof.
  induction key as [|c key IH]; intros t n0 n Hne Hl; [contradiction|].
  destruct t as [|es]; [discriminate Hl|]. cbn [tree_lookup tree_put] in *.
  destruct key as [|c2 key]; [now eexists|].
  destruct (entry_find es c) as [m|]; [|discriminate Hl].
  destruct (IH m n0 n) as [m' ->]; [discriminate | exact Hl |]. now eexists.
Qed.

(** X13.  [write_file] over a file that is there, in a directory that is
    there, always gets as far as opening the file.  With a str as content
    it returns [True] and the file holds the str; with anything else it
    returns [False], and the file, which has been opened for writing, is
    left empty: what it held is lost.  Nothing else of the world changes
    but the console. *)
Theorem write_file_over_a_file (relative_filepath : string) (content : pyval)
  (w : world) (key : list string) (old : option string) :
  py_truthy (path_value (CURRENT_PROJECT_PATH w)) = true ->
  parent_directory_exists w relative_filepath = true ->
  tool_target w relative_filepath = Target key ->
  tree_lookup (fs w) key = Some (File old) ->
  exists (root' : node) (lines : list event),
    write_file (VStr relative_filepath) content w
    = Returns (VBool (is_str content))
        (set_trace (trace w ++ lines) (set_fs root' w))
    /\ tree_lookup root' key = Some (File (Some (text_written content)))
    /\ tool_target (set_fs root' w) relative_filepath = Target key.
Proof.
  unfold parent_directory_exists, tool_target, write_file, bind, get.
  destruct (CURRENT_PROJECT_PATH w) as [p|] eqn:Ep; [|discriminate].
  intros Htruthy Hparent Hkey Hfile. rewrite Htruthy.
  unfold py_path_join, ret, print, emit, modify, try_except, bind, get.
  cbn [fs cwd set_trace].
  set (full := os_path_join p relative_filepath) in *.
  rewrite (io_makedirs_existing _ _ _ Hparent).
  unfold of_io at 1. unfold ret at 1. unfold modify.
  assert (Hroot : set_fs (fs w) (set_trace (trace w ++ [EvPrint ("Writing to file: " ++ full)]) w)
                  = set_trace (trace w ++ [EvPrint ("Writing to file: " ++ full)]) w)
    by now destruct w.
  rewrite Hroot. clear Hroot.
  assert (Hne : key <> []).
  { intros ->. cbn [tree_lookup] in Hfile. injection Hfile as Hfile.
    unfold os_path_isdir in Hparent. rewrite Hfile in Hparent.
    destruct (resolve _ _ _) as [k| |]; try discriminate Hparent.
    destruct k; discriminate Hparent. }
  assert (Hwrite : forall text : string,
             exists root' : node,
               io_write_text (fs w) (cwd w) full text = IoOk root'
               /\ tree_lookup root' key = Some (File (Some text))
               /\ resolve root' (cwd w) full = Target key).
  { intro text. unfold io_write_text. rewrite Hkey, Hfile.
    destruct (tree_put_existing key (fs w) _ (File (Some text)) Hne Hfile)
      as [root' Hput].
    rewrite Hput. exists root'. split; [reflexivity|].
    split; [exact (tree_lookup_put _ _ _ _ Hput)|].
    unfold resolve in *. destruct (full =? ""); [discriminate Hkey|].
    apply (walk_same_dirs (fs w)); [|exact Hkey].
    apply (tree_put_file_dirs key _ _ _ Hput). now rewrite Hfile. }
  unfold write_opened, bind, get. cbn [fs cwd set_trace].
  destruct content as [|b|z|s|l|d];
    try (destruct (Hwrite "") as (root' & -> & Hl & Hr);
         unfold of_io, ret, raise, modify, print, emit, modify;
         exists root'; eexists;
         split; [cbn [trace set_trace set_fs is_str exn_text]; rewrite <- ?app_assoc;
                 reflexivity|];
         split; [exact Hl
                | cbn [CURRENT_PROJECT_PATH set_fs fs cwd]; rewrite Ep; exact Hr]).
  destruct (Hwrite s) as (root' & -> & Hl & Hr).
  unfold of_io, ret, raise, modify, print, emit, modify.
  exists root'; eexists.
  split; [cbn [trace set_trace set_fs is_str exn_text]; rewrite <- ?app_assoc;
          reflexivity|].
  split; [exact Hl
                | cbn [CURRENT_PROJECT_PATH set_fs fs cwd]; rewrite Ep; exact Hr].
Qed.

(** An instance of X13: the number 42 is written to [a.txt]. *)
Lemma a_number_empties_the_file :
  tree_lookup (fs example_world) ["proj"; "a.txt"] = Some (File (Some "hello"))
  /\ exists (root' : node) (lines : list event),
       write_file (VStr "a.txt") (VInt 42) example_world
       = Returns (VBool false)
           (set_trace (trace example_world ++ lines) (set_fs root' example_world))
       /\ tree_lookup root' ["proj"; "a.txt"] = Some (File (Some ""))
       /\ tool_target (set_fs root' example_world) "a.txt"
          = Target ["proj"; "a.txt"].
Proof.
  split; [reflexivity|].
  apply (write_file_over_a_file "a.txt" (VInt 42) example_world
           ["proj"; "a.txt"] (Some "hello"));
    reflexivity.
Defined.

(** ** Where the tools act *)


Lemma rev_string_onto_app (s : string) :
  forall acc : string, rev_string_onto acc s = rev_string s ++ acc.
Proof.
  unfold rev_string.
  induction s as [|c s IH]; intro acc; [reflexivity|].
  cbn [rev_string_onto]. rewrite IH, (IH (String c "")).
  now rewrite append_assoc.
Qed.

Lemma rev_string_app (a b : string) :
  rev_string (a ++ b) = rev_string b ++ rev_string a.
Proof.
  induction a as [|c a IH].
  - cbn [append]. now rewrite append_nil_r.
  - cbn [append]. unfold rev_string at 1 3. cbn [rev_string_onto].
    rewrite !rev_string_onto_app, IH. now rewrite append_assoc.
Qed.

(** A string with a slash is cut at its last slash. *)
Lemma last_slash (p : string) :
  contains "/" p = false
  \/ exists h t : string, p = h ++ String "/" t /\ contains "/" t = false.
Proof.
  induction p as [|c p IH]; [now left|].
  cbn [contains]. rewrite prefix_slash.
  destruct IH as [IH|(h & t & -> & Ht)].
  - rewrite IH, orb_false_r.
    destruct (Ascii.eqb_spec c "/") as [->|Hc]; [|now left].
    right. now exists "", p.
  - right. now exists (String c h), t.
Qed.

Lemma contains_slash_rev_onto (s : string) :
  forall acc : string,
    contains "/" s = false -> contains "/" acc = false ->
    contains "/" (rev_string_onto acc s) = false.
Proof.
  induction s as [|c s IH]; intros acc Hs Hacc; [exact Hacc|].
  cbn [contains] in Hs. rewrite prefix_slash in Hs.
  apply orb_false_iff in Hs as [Hc Hs].
  cbn [rev_string_onto]. apply IH; [exact Hs|].
  cbn [contains]. rewrite prefix_slash. now rewrite Hc, Hacc.
Qed.

Lemma drop_to_slash_free (s : string) :
  contains "/" s = false -> drop_to_slash s = "".
Proof.
  induction s as [|c s IH]; intro H; [reflexivity|].
  cbn [contains] in H. rewrite prefix_slash in H.
  apply orb_false_iff in H as [Hc Hs].
  cbn [drop_to_slash]. rewrite Hc. now apply IH.
Qed.

Lemma drop_to_slash_app (x y : string) :
  contains "/" x = false ->
  drop_to_slash (x ++ String "/" y) = String "/" y.
Proof.
  induction x as [|c x IH]; intro H.
  - cbn [append drop_to_slash]. now rewrite Ascii.eqb_refl.
  - cbn [contains] in H. rewrite prefix_slash in H.
    apply orb_false_iff in H as [Hc Hx].
    cbn [append drop_to_slash]. rewrite Hc. now apply IH.
Qed.


Lemma lstrip_slash_slashes (s : string) :
  exists k : nat, s = slashes k ++ lstrip_slash s.
Proof.
  induction s as [|c s [k IH]]; [now exists O|].
  cbn [lstrip_slash]. destruct (Ascii.eqb_spec c "/") as [->|Hc].
  - exists (S k). cbn [slashes append]. now rewrite <- IH.
  - now exists O.
Qed.

Lemma rev_string_slashes (k : nat) : rev_string (slashes k) = slashes k.
Proof.
  induction k as [|k IH]; [reflexivity|].
  cbn [slashes]. change (String "/" (slashes k)) with ("/" ++ slashes k).
  rewrite rev_string_app, IH. clear IH.
  induction k as [|k IH]; [reflexivity|].
  cbn [slashes append]. now rewrite IH.
Qed.

Lemma py_split_slashes (k : nat) :
  filter nonempty (py_split (slashes k) "/") = [].
Proof.
  induction k as [|k IH]; [reflexivity|].
  cbn [slashes]. change (String "/" (slashes k)) with ("" ++ String "/" (slashes k)).
  rewrite py_split_slash_app, filter_app, IH. reflexivity.
Qed.

Lemma py_split_trailing_slashes (g : string) (k : nat) :
  filter nonempty (py_split (g ++ slashes k) "/")
  = filter nonempty (py_split g "/").
Proof.
  destruct k as [|k]; [now rewrite append_nil_r|].
  cbn [slashes]. rewrite py_split_slash_app, filter_app, py_split_slashes.
  now rewrite app_nil_r.
Qed.

(** [os.path.dirname]: empty for a path without a slash; otherwise a
    beginning of the path that is not empty and has the components of
    the path but the last. *)
Lemma os_path_dirname_spec (p : string) :
  os_path_dirname p = ""
  \/ (os_path_dirname p <> ""
      /\ (exists x : string, p = os_path_dirname p ++ x)
      /\ filter nonempty (py_split (os_path_dirname p) "/")
         = filter nonempty (removelast (py_split p "/"))).
Proof.
  unfold os_path_dirname.
  destruct (last_slash p) as [Hfree|(h & t & -> & Ht)].
  - left.
    assert (Hd : drop_to_slash (rev_string p) = "").
    { apply drop_to_slash_free. unfold rev_string.
      now apply contains_slash_rev_onto. }
    rewrite Hd. reflexivity.
  - right.
    assert (Hsplit : removelast (py_split (h ++ String "/" t) "/")
                     = py_split h "/").
    { rewrite py_split_slash_app, (py_split_slash_free t Ht).
      apply removelast_last. }
    rewrite Hsplit.
    change (String "/" t) with ("/" ++ t).
    rewrite <- append_assoc, rev_string_app.
    rewrite (rev_string_app h "/").
    change (rev_string "/") with "/". cbn [append].
    assert (Hfree : contains "/" (rev_string t) = false).
    { unfold rev_string. now apply contains_slash_rev_onto. }
    rewrite (drop_to_slash_app _ _ Hfree).
    cbn [lstrip_slash]. rewrite Ascii.eqb_refl.
    destruct (lstrip_slash_slashes (rev_string h)) as [k Hk].
    assert (Hh : h = rev_string (lstrip_slash (rev_string h)) ++ slashes k).
    { rewrite <- (rev_string_involutive h) at 1. rewrite Hk at 1.
      now rewrite rev_string_app, rev_string_slashes. }
    destruct (String.eqb_spec (lstrip_slash (rev_string h)) "") as [He|Hne].
    + change (String "/" (rev_string h)) with ("/" ++ rev_string h).
      rewrite rev_string_app, rev_string_involutive.
      change (rev_string "/") with "/".
      split; [now destruct h|]. split.
      * exists t. now rewrite append_assoc.
      * change (h ++ "/") with (h ++ String "/" "").
        rewrite py_split_slash_app, filter_app. cbn. now rewrite app_nil_r.
    + set (g := rev_string (lstrip_slash (rev_string h))) in *.
      split.
      { intro Hg. apply Hne. rewrite <- (rev_string_involutive (lstrip_slash _)).
        fold g. now rewrite Hg. }
      split.
      * exists (slashes k ++ "/" ++ t).
        rewrite <- append_assoc, <- Hh. now rewrite append_assoc.
      * rewrite <- (py_split_trailing_slashes g k). now rewrite <- Hh.
Qed.

Lemma is_prefix_app_false (a b key : list string) :
  is_prefix a key = false -> is_prefix (a ++ b) key = false.
Proof.
  intro H. destruct (is_prefix (a ++ b) key) eqn:E; [|reflexivity].
  rewrite (is_prefix_trans a (a ++ b) key (is_prefix_app a b) E) in H.
  discriminate H.
Qed.

Lemma is_prefix_below_false (a b key : list string) :
  is_prefix a b = true -> is_prefix a key = false -> is_prefix b key = false.
Proof.
  intros Hab H. destruct (is_prefix b key) eqn:E; [|reflexivity].
  rewrite (is_prefix_trans a b key Hab E) in H. discriminate H.
Qed.

(** Below a place that holds nothing there is nothing. *)
Lemma held_at_below_nothing (t : node) (key key2 : list string) :
  tree_lookup t key = None -> is_prefix key key2 = true ->
  held_at t key2 = HoldsNothing.
Proof.
  intros Hl Hp. destruct (is_prefix_split _ _ Hp) as [rest ->].
  unfold held_at. now rewrite tree_lookup_app, Hl.
Qed.

Lemma same_outside_refl (root_key : list string) (t : node) :
  same_outside root_key t t.
Proof. intros key _. reflexivity. Qed.

Lemma same_outside_trans (root_key : list string) (a b c : node) :
  same_outside root_key a b -> same_outside root_key b c ->
  same_outside root_key a c.
Proof. intros Hab Hbc key Hk. now rewrite (Hbc key Hk), (Hab key Hk). Qed.

(** What changes nothing outside a place changes nothing outside a place
    above. *)
Lemma same_outside_above (root_key key : list string) (a b : node) :
  is_prefix root_key key = true ->
  (forall key2, is_prefix key key2 = false -> held_at b key2 = held_at a key2) ->
  same_outside root_key a b.
Proof.
  intros Hp H key2 Hk. apply H. exact (is_prefix_below_false _ _ _ Hp Hk).
Qed.

(** The empty components of a path make no difference to the directories
    [os.makedirs] makes. *)
Lemma mkdir_walk_filter (p p' : string) (comps : list string) :
  forall (root : node) (cur : list string),
    ok_tree (mkdir_walk p root cur comps)
    = ok_tree (mkdir_walk p' root cur (filter nonempty comps)).
Proof.
  induction comps as [|c cs IH]; intros root cur; [reflexivity|].
  cbn [filter]. unfold nonempty at 1.
  destruct (String.eqb_spec c "") as [->|Hc]; cbn [negb].
  - cbn [mkdir_walk String.eqb orb]. apply IH.
  - cbn [mkdir_walk]. apply String.eqb_neq in Hc. rewrite Hc. cbn [orb].
    destruct (c =? "."); [apply IH|].
    destruct (c =? ".."); [apply IH|].
    destruct (tree_lookup root (cur ++ [c])%list) as [[text|es]|].
    + destruct (filter nonempty cs); destruct cs; reflexivity.
    + apply IH.
    + destruct (tree_put root (cur ++ [c])%list (Dir [])); [apply IH|reflexivity].
Qed.

(** The empty components of a path that leads somewhere make no
    difference to where it leads. *)
Lemma walk_filter (root : node) (comps : list string) :
  forall (cur key : list string),
    walk root cur comps = Target key ->
    walk root cur (filter nonempty comps) = Target key.
Proof.
  induction comps as [|c cs IH]; intros cur key H; [exact H|].
  cbn [filter]. unfold nonempty at 1.
  destruct (String.eqb_spec c "") as [->|Hc]; cbn [negb].
  - cbn [walk String.eqb orb] in H. now apply IH.
  - cbn [walk] in *. apply String.eqb_neq in Hc. rewrite Hc in *. cbn [orb] in *.
    destruct (c =? "."); [now apply IH|].
    destruct (c =? ".."); [now apply IH|].
    destruct cs as [|c2 cs]; [exact H|].
    destruct (tree_lookup root (cur ++ [c])%list) as [[text|es]|] eqn:El;
      try discriminate H.
    specialize (IH _ _ H).
    destruct (filter nonempty (c2 :: cs)) as [|c3 cs3].
    + cbn [walk] in IH. exact IH.
    + exact IH.
Qed.

(** [os.makedirs] goes through the directories that are there. *)
Lemma mkdir_walk_extend (p : string) (root : node) (a b : list string) :
  forall (cur mid : list string),
    walk root cur a = Target mid ->
    is_dir_node (tree_lookup root mid) = true ->
    mkdir_walk p root cur (a ++ b) = mkdir_walk p root mid b.
Proof.
  induction a as [|c a IH]; intros cur mid H Hd.
  - injection H as <-. reflexivity.
  - cbn [app walk mkdir_walk] in *.
    destruct ((c =? "") || (c =? ".")); [now apply IH|].
    destruct (c =? ".."); [now apply IH|].
    destruct a as [|c2 a].
    + injection H as <-. unfold is_dir_node in Hd.
      destruct (tree_lookup root (cur ++ [c])%list) as [[|es]|];
        try discriminate Hd. reflexivity.
    + destruct (tree_lookup root (cur ++ [c])%list) as [[|es]|];
        try discriminate H. now apply IH.
Qed.

(** [os.makedirs] on components without [..] makes directories below
    the place it starts from, and nowhere else; what is there stays. *)
Lemma mkdir_walk_inside (p : string) (comps : list string) :
  existsb (fun c => (c =? "..")) comps = false ->
  forall (root root' : node) (cur : list string),
    mkdir_walk p root cur comps = IoOk root' ->
    (forall key, is_prefix cur key = false ->
                 held_at root' key = held_at root key)
    /\ (forall key, held_at root key <> HoldsNothing ->
                    held_at root' key = held_at root key).
Proof.
  induction comps as [|c cs IH]; intros Hdd root root' cur H.
  - injection H as <-. split; reflexivity.
  - cbn [existsb] in Hdd. apply orb_false_iff in Hdd as [Hc Hdd].
    cbn [mkdir_walk] in H. rewrite Hc in H.
    destruct ((c =? "") || (c =? ".")); [now apply (IH Hdd)|].
    destruct (tree_lookup root (cur ++ [c])%list) as [[text|es]|] eqn:El.
    + destruct cs; discriminate H.
    + destruct (IH Hdd _ _ _ H) as [Hout Hkept]. split; [|exact Hkept].
      intros key Hk. apply Hout. now apply is_prefix_app_false.
    + destruct (tree_put root (cur ++ [c])%list (Dir [])) as [root1|] eqn:Ep;
        [|discriminate H].
      destruct (IH Hdd _ _ _ H) as [Hout Hkept].
      assert (Hkept1 : forall key, held_at root key <> HoldsNothing ->
                                   held_at root1 key = held_at root key).
      { intros key Hk.
        destruct (is_prefix (cur ++ [c])%list key) eqn:E.
        - exfalso. apply Hk. exact (held_at_below_nothing _ _ _ El E).
        - exact (held_at_put_outside _ _ _ _ _ Ep E). }
      split.
      * intros key Hk.
        pose proof (is_prefix_app_false cur [c] key Hk) as Hk'.
        rewrite (Hout key Hk').
        exact (held_at_put_outside _ _ _ _ _ Ep Hk').
      * intros key Hk. pose proof (Hkept1 key Hk) as H1.
        rewrite <- H1. apply Hkept. now rewrite H1.
Qed.

(** A path leads where it led when what was there is still there. *)
Lemma walk_grown (root root' : node) (comps : list string) :
  (forall key, held_at root key <> HoldsNothing ->
               held_at root' key = held_at root key) ->
  forall (cur key : list string),
    walk root cur comps = Target key -> walk root' cur comps = Target key.
Proof.
  intro Hkept. induction comps as [|c cs IH]; intros cur key H; [exact H|].
  cbn [walk] in *.
  destruct ((c =? "") || (c =? ".")); [now apply IH|].
  destruct (c =? ".."); [now apply IH|].
  destruct cs as [|c2 cs]; [exact H|].
  specialize (Hkept (cur ++ [c])%list). unfold held_at in Hkept.
  destruct (tree_lookup root (cur ++ [c])%list) as [[|es]|]; try discriminate H.
  destruct (tree_lookup root' (cur ++ [c])%list) as [[|es']|];
    try (specialize (Hkept ltac:(discriminate)); discriminate Hkept).
  now apply IH.
Qed.

Lemma resolve_grown (root root' : node) (here : list string) (p : string)
  (key : list string) :
  (forall key, held_at root key <> HoldsNothing ->
               held_at root' key = held_at root key) ->
  resolve root here p = Target key -> resolve root' here p = Target key.
Proof.
  intros Hkept H. unfold resolve in *. destruct (p =? ""); [discriminate H|].
  exact (walk_grown _ _ _ Hkept _ _ H).
Qed.

(** The path a tool makes of a relative path that does not start with a
    slash: the project path, a slash, the relative path. *)
Lemma os_path_join_relative (project_path relative_path : string) :
  project_path <> "" ->
  startswith relative_path "/" = false ->
  exists head : string,
    os_path_join project_path relative_path
    = head ++ String "/" relative_path
    /\ filter nonempty (py_split head "/")
       = filter nonempty (py_split project_path "/")
    /\ startswith (os_path_join project_path relative_path) "/"
       = startswith project_path "/".
Proof.
  intros Hne Habs. unfold os_path_join. rewrite Habs.
  apply String.eqb_neq in Hne. rewrite Hne. cbn [orb].
  apply String.eqb_neq in Hne.
  destruct (endswith project_path "/") eqn:Eend.
  - destruct (endswith_slash _ Eend) as [q Hq].
    exists q. split; [now rewrite Hq, string_app_slash|]. split.
    + rewrite Hq. change (q ++ "/") with (q ++ String "/" "").
      rewrite py_split_slash_app, filter_app. cbn. now rewrite app_nil_r.
    + now apply startswith_append.
  - exists project_path. split; [reflexivity|]. split; [reflexivity|].
    now apply startswith_append.
Qed.

Lemma existsb_filter_removelast (f : string -> bool) (l : list string) :
  existsb f l = false ->
  existsb f (filter nonempty (removelast l)) = false.
Proof.
  intro H. destruct (existsb f (filter nonempty (removelast l))) eqn:E;
    [|reflexivity].
  apply existsb_exists in E as (x & Hx & Hfx).
  apply filter_In in Hx as [Hx _].
  assert (Hin : In x l).
  { clear -Hx. induction l as [|a l IH]; [contradiction|].
    cbn [removelast] in Hx. destruct l as [|b l]; [contradiction|].
    destruct Hx as [<-|Hx]; [now left | right; now apply IH]. }
  assert (Hex : existsb f l = true) by (apply existsb_exists; now exists x).
  congruence.
Qed.

(** [os.makedirs] of the directory part of a path of the tools, for a
    relative path without [..]: what it makes is at or below the project
    root, and what was there stays. *)
Lemma io_makedirs_inside (root root' : node) (here : list string)
  (project_path relative_path : string) (root_key : list string)
  (entries : list (string * node)) :
  startswith relative_path "/" = false ->
  has_dotdot relative_path = false ->
  resolve root here project_path = Target root_key ->
  tree_lookup root root_key = Some (Dir entries) ->
  io_makedirs root here
    (os_path_dirname (os_path_join project_path relative_path))
  = IoOk root' ->
  same_outside root_key root root'
  /\ (forall key, held_at root key <> HoldsNothing ->
                  held_at root' key = held_at root key).
Proof.
  intros Habs Hdd Hroot Hdir Hmk.
  assert (Hne : project_path <> "").
  { intros ->. discriminate Hroot. }
  destruct (os_path_join_relative _ _ Hne Habs) as (head & Hjoin & Hhead & Hstart).
  unfold io_makedirs in Hmk.
  set (full := os_path_join project_path relative_path) in *.
  destruct (os_path_dirname_spec full) as [He|(Hd & (x & Hx) & Hcomps)].
  { rewrite He in Hmk. discriminate Hmk. }
  apply String.eqb_neq in Hd. rewrite Hd in Hmk. apply String.eqb_neq in Hd.
  assert (Hs : startswith (os_path_dirname full) "/"
               = startswith project_path "/").
  { rewrite <- Hstart. rewrite Hx at 2. symmetry. now apply startswith_append. }
  rewrite Hs in Hmk.
  assert (Hok : ok_tree
                  (mkdir_walk (os_path_dirname full) root
                     (if startswith project_path "/" then [] else here)
                     (filter nonempty (py_split (os_path_dirname full) "/")))
                = Some root').
  { rewrite <- (mkdir_walk_filter (os_path_dirname full)). now rewrite Hmk. }
  rewrite Hcomps, Hjoin, py_split_slash_app in Hok.
  rewrite removelast_app in Hok by apply split_on_not_nil.
  rewrite filter_app, Hhead in Hok.
  unfold resolve in Hroot.
  apply String.eqb_neq in Hne. rewrite Hne in Hroot.
  apply walk_filter in Hroot.
  rewrite (mkdir_walk_extend _ _ _ _ _ _ Hroot) in Hok
    by (now rewrite Hdir).
  destruct (mkdir_walk _ root root_key _) as [root1|] eqn:Ewalk;
    [|discriminate Hok].
  injection Hok as ->.
  apply (mkdir_walk_inside _ _ (existsb_filter_removelast _ _ Hdd) _ _ _ Ewalk).
Qed.

(** Writing the file of a path of the tools, for a relative path without
    [..], changes nothing outside the project root. *)
Lemma io_write_text_inside (root root' : node) (here : list string)
  (project_path relative_path text : string) (root_key : list string) :
  startswith relative_path "/" = false ->
  has_dotdot relative_path = false ->
  resolve root here project_path = Target root_key ->
  io_write_text root here (os_path_join project_path relative_path) text
  = IoOk root' ->
  same_outside root_key root root'.
Proof.
  intros Habs Hdd Hroot Hw. unfold io_write_text in Hw.
  destruct (resolve root here (os_path_join project_path relative_path))
    as [key| |] eqn:Ekey; try discriminate Hw.
  pose proof (join_stays_below _ _ _ _ _ _ Habs Hdd Hroot Ekey) as Hin.
  destruct (tree_lookup root key) as [[t|es]|]; try discriminate Hw;
    (destruct (tree_put root key (File (Some text))) as [root1|] eqn:Ep;
     [|discriminate Hw]);
    injection Hw as <-;
    apply (same_outside_above _ key _ _ Hin);
    intros key2 Hk; exact (held_at_put_outside _ _ _ _ _ Ep Hk).
Qed.

(** [write_file] under a relative path without [..], in a project whose
    root is a directory, changes nothing outside the root, whatever it
    is given to write and however it ends. *)
Lemma write_file_inside (w : world) (relative_path : string) (content : pyval)
  (root_key : list string) (entries : list (string * node)) :
  startswith relative_path "/" = false ->
  has_dotdot relative_path = false ->
  project_root w = Target root_key ->
  tree_lookup (fs w) root_key = Some (Dir entries) ->
  same_outside root_key (fs w)
    (fs (world_of (write_file (VStr relative_path) content w))).
Proof.
  intros Habs Hdd Hroot Hdir. unfold project_root in Hroot.
  unfold write_file, bind, get.
  destruct (CURRENT_PROJECT_PATH w) as [p|] eqn:Ep; [|discriminate Hroot].
  cbn [path_value py_truthy].
  destruct (String.eqb_spec p "") as [->|Hne]; [discriminate Hroot|].
  cbn [negb].
  unfold py_path_join, ret, print, emit, modify, try_except, bind, get.
  cbn [fs cwd set_trace].
  destruct (io_makedirs (fs w) (cwd w)
              (os_path_dirname (os_path_join p relative_path)))
    as [fs1|e] eqn:Emk; unfold of_io, ret, raise;
    [|cbn [world_of fs set_trace]; apply same_outside_refl].
  destruct (io_makedirs_inside _ _ _ _ _ _ _ Habs Hdd Hroot Hdir Emk)
    as [Hout Hkept].
  pose proof (resolve_grown _ _ _ _ _ Hkept Hroot) as Hroot1.
  unfold write_opened, bind, get. cbn [fs cwd set_fs set_trace].
  assert (Hstep : forall text fs2,
             io_write_text fs1 (cwd w) (os_path_join p relative_path) text
             = IoOk fs2 ->
             same_outside root_key (fs w) fs2).
  { intros text fs2 Hw. apply (same_outside_trans _ _ fs1); [exact Hout|].
    exact (io_write_text_inside _ _ _ _ _ _ _ Habs Hdd Hroot1 Hw). }
  destruct content;
    match goal with
    | |- context [io_write_text fs1 (cwd w) ?full ?text] =>
        pose proof (Hstep text) as Hw;
        destruct (io_write_text fs1 (cwd w) full text) as [fs2|e]
    end;
    unfold of_io, ret, raise, modify; cbn [world_of fs set_fs set_trace];
    first [exact Hout | now apply Hw].
Qed.

(** [delete_file_or_directory] under a relative path without [..]
    changes nothing outside the project root, however it ends. *)
Lemma delete_inside (w : world) (relative_path : string)
  (root_key : list string) :
  startswith relative_path "/" = false ->
  has_dotdot relative_path = false ->
  project_root w = Target root_key ->
  same_outside root_key (fs w)
    (fs (world_of (delete_file_or_directory (VStr relative_path) w))).
Proof.
  intros Habs Hdd Hroot.
  assert (Hin : forall key, tool_target w relative_path = Target key ->
                            is_prefix root_key key = true).
  { intros key Hkey. unfold project_root, tool_target in *.
    destruct (CURRENT_PROJECT_PATH w) as [p|]; [|discriminate Hroot].
    exact (join_stays_below _ _ _ _ _ _ Habs Hdd Hroot Hkey). }
  destruct (delete_outcome relative_path w) as (result & lines & H).
  destruct H as [[-> _]|[(key & root' & Hkey & _ & Hremove & -> & _)
                        |(key & es & cleared & e & Hkey & Hl & Hc & _ & -> & _)]];
    cbn [world_of fs set_fs set_trace].
  - apply same_outside_refl.
  - apply (same_outside_above _ key _ _ (Hin key Hkey)).
    intros key2 Hk. exact (held_at_remove_outside _ _ _ _ Hremove Hk).
  - apply (same_outside_above _ key _ _ (Hin key Hkey)).
    intros key2 Hk. destruct key as [|c key]; [discriminate Hk|].
    exact (held_at_put_outside _ _ _ _ _ Hc Hk).
Qed.

(** [read_file] under a relative path without [..] leaves the
    filesystem as it was, and what it returns is a message that begins
    with [Error] or the text of a file at or below the project root. *)
Lemma read_file_inside (w : world) (relative_path : string)
  (root_key : list string) :
  startswith relative_path "/" = false ->
  has_dotdot relative_path = false ->
  project_root w = Target root_key ->
  fs (world_of (read_file (VStr relative_path) w)) = fs w
  /\ forall (answer : pyval) (w' : world),
       read_file (VStr relative_path) w = Returns answer w' ->
       (exists message : string,
           answer = VStr message /\ startswith message "Error" = true)
       \/ exists (key : list string) (text : string),
            is_prefix root_key key = true
            /\ tree_lookup (fs w) key = Some (File (Some text))
            /\ answer = VStr (universal_newlines text).
Proof.
  intros Habs Hdd Hroot. unfold project_root in Hroot.
  unfold read_file, bind, get.
  destruct (CURRENT_PROJECT_PATH w) as [p|] eqn:Ep; [|discriminate Hroot].
  cbn [path_value py_truthy].
  destruct (String.eqb_spec p "") as [->|Hne]; [discriminate Hroot|].
  cbn [negb].
  unfold py_path_join, ret, print, emit, modify, try_except, bind, get.
  cbn [fs cwd set_trace].
  unfold io_read_text.
  destruct (resolve (fs w) (cwd w) (os_path_join p relative_path))
    as [key| |] eqn:Ekey; unfold of_io, ret, raise.
  2,3: split; [reflexivity|]; intros answer w' [= <- _]; left;
    eexists; split; reflexivity.
  pose proof (join_stays_below _ _ _ _ _ _ Habs Hdd Hroot Ekey) as Hin.
  destruct (tree_lookup (fs w) key) as [[[text|]|es]|] eqn:El;
    unfold ret, raise.
  2,3,4: split; [reflexivity|]; intros answer w' [= <- _]; left;
    eexists; split; reflexivity.
  split; [reflexivity|]. intros answer w' [= <- _]. right.
  now exists key, text.
Qed.

(** [list_directory_contents] under a relative path without [..] leaves
    the filesystem as it was, and when it says [success] the names it
    lists are those of the entries of a directory at or below the
    project root. *)
Lemma list_inside (w : world) (relative_path : string)
  (root_key : list string) :
  startswith relative_path "/" = false ->
  has_dotdot relative_path = false ->
  project_root w = Target root_key ->
  fs (world_of (list_directory_contents (VStr relative_path) w)) = fs w
  /\ forall (result : pyval) (w' : world),
       list_directory_contents (VStr relative_path) w = Returns result w' ->
       result_get result "success" VNone = VBool true ->
       exists (key : list string) (es : list (string * node))
         (items : list pyval),
         is_prefix root_key key = true
         /\ tree_lookup (fs w) key = Some (Dir es)
         /\ result_get result "contents" VNone = VList items
         /\ map (fun item => result_get item "name" VNone) items
            = map (fun e => VStr (fst e)) es.
Proof.
  intros Habs Hdd Hroot. unfold project_root in Hroot.
  unfold list_directory_contents, bind, get.
  destruct (CURRENT_PROJECT_PATH w) as [p|] eqn:Ep; [|discriminate Hroot].
  cbn [path_value py_truthy].
  destruct (String.eqb_spec p "") as [->|Hne]; [discriminate Hroot|].
  cbn [negb].
  unfold py_path_join, ret, print, emit, modify, try_except, bind, get.
  cbn [fs cwd set_trace].
  unfold io_listdir.
  destruct (resolve (fs w) (cwd w) (os_path_join p relative_path))
    as [key| |] eqn:Ekey; unfold of_io, ret, raise.
  2,3: split; [reflexivity|]; intros result w' [= <- _] Hs;
    discriminate Hs.
  pose proof (join_stays_below _ _ _ _ _ _ Habs Hdd Hroot Ekey) as Hin.
  destruct (tree_lookup (fs w) key) as [[text|es]|] eqn:El;
    unfold ret, raise.
  1,3: split; [reflexivity|]; intros result w' [= <- _] Hs;
    discriminate Hs.
  split; [reflexivity|]. intros result w' [= <- _] _.
  exists key, es. eexists. split; [exact Hin|]. split; [exact El|].
  split; [reflexivity|].
  rewrite !map_map. apply map_ext. intro e. reflexivity.
Qed.

(** C7 (as amended).  The four tools that take a relative path act where
    [os.path.join] of the project root and the path leads, and check
    nothing against the root.  In a filesystem without symbolic links,
    when the project root is a directory and the path neither starts
    with a slash nor has a [..] component, each of them stays inside the
    root.  [read_file] leaves the filesystem as it was and returns a
    message that begins with [Error] or the text of a file at or below
    the root; [list_directory_contents] leaves the filesystem as it was
    and, when it says [success], lists the names of the entries of a
    directory at or below the root; after [write_file], whatever it was
    given to write, and after [delete_file_or_directory], every place
    that is neither the root nor below it holds what it held. *)
Theorem plain_paths_keep_the_tools_inside (w : world) (relative_path : string)
  (content : pyval) (root_key : list string)
  (entries : list (string * node)) :
  startswith relative_path "/" = false ->
  has_dotdot relative_path = false ->
  project_root w = Target root_key ->
  tree_lookup (fs w) root_key = Some (Dir entries) ->
  (fs (world_of (read_file (VStr relative_path) w)) = fs w
   /\ forall (answer : pyval) (w' : world),
        read_file (VStr relative_path) w = Returns answer w' ->
        (exists message : string,
            answer = VStr message /\ startswith message "Error" = true)
        \/ exists (key : list string) (text : string),
             is_prefix root_key key = true
             /\ tree_lookup (fs w) key = Some (File (Some text))
             /\ answer = VStr (universal_newlines text))
  /\ (fs (world_of (list_directory_contents (VStr relative_path) w)) = fs w
      /\ forall (result : pyval) (w' : world),
           list_directory_contents (VStr relative_path) w
           = Returns result w' ->
           result_get result "success" VNone = VBool true ->
           exists (key : list string) (es : list (string * node))
             (items : list pyval),
             is_prefix root_key key = true
             /\ tree_lookup (fs w) key = Some (Dir es)
             /\ result_get result "contents" VNone = VList items
             /\ map (fun item => result_get item "name" VNone) items
                = map (fun e => VStr (fst e)) es)
  /\ same_outside root_key (fs w)
       (fs (world_of (write_file (VStr relative_path) content w)))
  /\ same_outside root_key (fs w)
       (fs (world_of (delete_file_or_directory (VStr relative_path) w))).
Proof.
  intros Habs Hdd Hroot Hdir.
  split; [exact (read_file_inside _ _ _ Habs Hdd Hroot)|].
  split; [exact (list_inside _ _ _ Habs Hdd Hroot)|].
  split; [exact (write_file_inside _ _ content _ _ Habs Hdd Hroot Hdir)|].
  exact (delete_inside _ _ _ Habs Hdd Hroot).
Qed.

(** An instance of C7: [src/notes.txt] in the project at [/proj], where
    the directory [src] is not there yet.  What [/etc/passwd] holds is
    what it held, after the writing and after the deletion. *)
Lemma notes_stay_inside :
  (startswith "src/notes.txt" "/" = false
   /\ has_dotdot "src/notes.txt" = false
   /\ project_root example_world = Target ["proj"]
   /\ tree_lookup (fs example_world) ["proj"]
      = Some (Dir [("a.txt", File (Some "hello"))]))
  /\ held_at
       (fs (world_of (write_file (VStr "src/notes.txt") (VStr "remember")
                        example_world)))
       ["proj"; "src"; "notes.txt"]
     = HoldsFile (Some "remember")
  /\ same_outside ["proj"] (fs example_world)
       (fs (world_of (write_file (VStr "src/notes.txt") (VStr "remember")
                        example_world)))
  /\ same_outside ["proj"] (fs example_world)
       (fs (world_of (delete_file_or_directory (VStr "src/notes.txt")
                        example_world))).
Proof.
  split; [repeat split; reflexivity|]. split; [reflexivity|].
  exact (proj2 (proj2 (plain_paths_keep_the_tools_inside example_world
                         "src/notes.txt" (VStr "remember") ["proj"]
                         [("a.txt", File (Some "hello"))]
                         eq_refl eq_refl eq_refl eq_refl))).
Defined.

(** ** Running a command *)

Lemma subprocess_run_outcome (command cwd : pyval) (w : world) :
  match subprocess_run command cwd w with
  | Returns (out, err, code) w' =>
      exists (fs' : node) (rest : list run_outcome),
        run_script w = RunCompleted out err code fs' :: rest
        /\ w' = set_fs fs'
                  (set_run_script rest
                     (set_trace (trace w ++ [EvRun command cwd]) w))
  | Raises _ _ => True
  end.
Proof.
  unfold subprocess_run.
  destruct command, cwd; try exact I;
    unfold bind, emit, modify, get, ret, raise; cbn [run_script set_trace];
    destruct (run_script w) as [|[out err code fs'|x] rest]; try exact I;
    now exists fs', rest.
Qed.

(** X14.  [execute_shell_command] of a str never raises, and its result
    always has a str under [stdout], a str under [stderr] and an int
    under [exit_code].  It reports the exit code 0 only when the command
    has been run and has ended with 0, and the [stdout] it reports is then
    the output of the command: a command that could not be started is
    never reported as a success. *)
Theorem shell_result_is_honest (command : string) (working_directory : pyval)
  (w : world) :
  exists (result : pyval) (w' : world) (out err : string) (code : Z),
    execute_shell_command (VStr command) working_directory w = Returns result w'
    /\ result_get result "stdout" VNone = VStr out
    /\ result_get result "stderr" VNone = VStr err
    /\ result_get result "exit_code" VNone = VInt code
    /\ (code = 0%Z ->
        exists (err0 : string) (fs' : node) (rest : list run_outcome)
          (resolved : pyval),
          run_script w = RunCompleted out err0 0 fs' :: rest
          /\ In (EvRun (VStr command) resolved) (trace w')).
Proof.
  unfold execute_shell_command. unfold bind at 1. unfold get at 1.
  cbv beta iota. unfold py_in. cbn [py_contains].
  match goal with
  | |- context [match _ with inl _ => _ | inr r => @?k r end] => set (rest := k)
  end.
  assert (Hrest : forall (resolved : pyval) (w0 : world),
             run_script w0 = run_script w ->
             exists (result : pyval) (w' : world) (out err : string) (code : Z),
               rest resolved w0 = Returns result w'
               /\ result_get result "stdout" VNone = VStr out
               /\ result_get result "stderr" VNone = VStr err
               /\ result_get result "exit_code" VNone = VInt code
               /\ (code = 0%Z ->
                   exists (err0 : string) (fs' : node)
                     (rest0 : list run_outcome) (resolved0 : pyval),
                     run_script w = RunCompleted out err0 0 fs' :: rest0
                     /\ In (EvRun (VStr command) resolved0) (trace w'))).
  { intros resolved w0 Hrs. unfold rest.
    unfold bind at 1. unfold print at 1, emit, modify.
    unfold bind at 1. unfold ret at 1. unfold try_except. unfold bind at 1.
    match goal with
    | |- context [subprocess_run _ _ ?w1] =>
        pose proof (subprocess_run_outcome (VStr command) resolved w1) as Hrun;
        destruct (subprocess_run (VStr command) resolved w1)
          as [[[o e] c] w2|x w2]
    end.
    2:{ destruct (is_FileNotFoundError x);
          unfold bind, print, emit, modify, ret;
          do 5 eexists; (split; [reflexivity|]);
          repeat (split; [reflexivity|]); intro H; discriminate H. }
    destruct Hrun as (fs' & rest0 & Hscript & ->).
    cbn [run_script set_trace] in Hscript. rewrite Hrs in Hscript.
    unfold py_split_method, bind, print, emit, modify, ret, get, raise.
    cbv beta iota. destruct resolved as [|rb|rz|rs|rl|rd].
    all: repeat (cbv beta iota;
            match goal with
            | |- context [if ?cond then _ else _] => destruct cond
            | |- context [match ?x with _ => _ end] =>
                let t := type of x in
                lazymatch t with
                | outcome _ => fail
                | _ => destruct x
                end
            end).
    all: do 5 eexists; (split; [reflexivity|]);
      (split; [reflexivity|]); (split; [reflexivity|]);
      (split; [reflexivity|]);
      first [ intro H; discriminate H
            | intros ->; exists e, fs', rest0; eexists;
              split; [exact Hscript|];
              cbn [trace set_trace set_fs set_run_script
                     set_CURRENT_PROJECT_PATH];
              rewrite !in_app_iff; cbn [In]; tauto ]. }
  unfold bind at 1.
  assert (Hgo : forall resolved : pyval,
             exists (result : pyval) (w' : world) (out err : string) (code : Z),
               match ret (inr resolved) w with
               | Returns a w'0 =>
                   match a with
                   | inl result_dict => ret result_dict
                   | inr resolved_working_directory =>
                       rest resolved_working_directory
                   end w'0
               | Raises e w'0 => Raises e w'0
               end = Returns result w'
               /\ result_get result "stdout" VNone = VStr out
               /\ result_get result "stderr" VNone = VStr err
               /\ result_get result "exit_code" VNone = VInt code
               /\ (code = 0%Z ->
                   exists (err0 : string) (fs' : node)
                     (rest0 : list run_outcome) (resolved0 : pyval),
                     run_script w = RunCompleted out err0 0 fs' :: rest0
                     /\ In (EvRun (VStr command) resolved0) (trace w'))).
  { intro resolved. exact (Hrest resolved w eq_refl). }
  destruct working_directory; try apply Hgo.
  destruct (py_truthy (path_value (CURRENT_PROJECT_PATH w))); [apply Hgo|].
  unfold bind at 1. unfold ret at 1.
  destruct (contains "ng new" command); cbn [negb]; [apply Hgo|].
  unfold bind, print, emit, modify, ret.
  do 5 eexists. split; [reflexivity|].
  repeat (split; [reflexivity|]). intro H. discriminate H.
Qed.

(** ** What moves the project path *)

#[export] Instance keeps_frame_relation {A : Type} (f : world -> A) :
  frame_relation (keeps f).
Proof.
  constructor.
  - intro w. reflexivity.
  - intros w1 w2 w3 H12 H23. unfold keeps in *. congruence.
Qed.

Lemma preserves_bind_ret (R : world -> world -> Prop) {A B : Type} (a : A)
  (k : A -> M B) :
  preserves R (k a) -> preserves R (bind (ret a) k).
Proof. intros H w. exact (H w). Qed.

(** One step of a proof that a computation keeps a part of the world;
    [tac] shows it of a change of the world. *)
Ltac keeps_step tac :=
  match goal with
  | |- frame_relation _ => exact _
  | |- preserves _ (bind _ _) => apply preserves_bind; [| |intro]
  | |- preserves _ (try_except _ _) => apply preserves_try_except; [| |intro]
  | |- preserves _ (ret _) => apply preserves_ret
  | |- preserves _ (raise _) => apply preserves_raise
  | |- preserves _ (get _) => apply preserves_get
  | |- preserves _ (of_io _) => apply preserves_of_io
  | |- preserves _ (print _) => unfold print
  | |- preserves _ (emit _) => unfold emit
  | |- preserves _ (modify _) => apply preserves_modify; intro; tac
  | |- preserves _ (match ?x with _ => _ end) => destruct x
  | |- preserves _ (let (_, _) := ?x in _) => destruct x
  end.

Ltac keeps_field := repeat keeps_step reflexivity.

Lemma start_keeps_project_path (command working_directory duration : pyval) :
  preserves (keeps CURRENT_PROJECT_PATH)
    (start_angular_serve_and_get_initial_output command working_directory
       duration).
Proof.
  unfold start_angular_serve_and_get_initial_output, subprocess_Popen,
    monitoring_window.
  keeps_field.
Qed.

Lemma stop_keeps_project_path :
  preserves (keeps CURRENT_PROJECT_PATH) stop_angular_server.
Proof. unfold stop_angular_server, wait_for_exit. keeps_field. Qed.

Lemma read_file_keeps_project_path (relative_filepath : pyval) :
  preserves (keeps CURRENT_PROJECT_PATH) (read_file relative_filepath).
Proof. unfold read_file, py_path_join. keeps_field. Qed.

Lemma write_file_keeps_project_path (relative_filepath content : pyval) :
  preserves (keeps CURRENT_PROJECT_PATH) (write_file relative_filepath content).
Proof. unfold write_file, write_opened, py_path_join. keeps_field. Qed.

Lemma list_keeps_project_path (relative_path : pyval) :
  preserves (keeps CURRENT_PROJECT_PATH) (list_directory_contents relative_path).
Proof. unfold list_directory_contents, py_path_join. keeps_field. Qed.

Lemma delete_keeps_project_path (relative_path : pyval) :
  preserves (keeps CURRENT_PROJECT_PATH) (delete_file_or_directory relative_path).
Proof. unfold delete_file_or_directory, py_path_join. keeps_field. Qed.

Lemma ask_until_answered_keeps_project_path (prompt : string)
  (lines : list string) :
  preserves (keeps CURRENT_PROJECT_PATH) (ask_until_answered prompt lines).
Proof.
  induction lines as [|l rest IH]; simpl.
  - keeps_field.
  - repeat first [ exact IH | keeps_step reflexivity ].
Qed.

Lemma ask_keeps_project_path (prompt_message : pyval) :
  preserves (keeps CURRENT_PROJECT_PATH) (ask_user_confirmation prompt_message).
Proof.
  unfold ask_user_confirmation.
  repeat first [ apply ask_until_answered_keeps_project_path
               | keeps_step reflexivity ].
Qed.

(** Without [ng new] in the command, [execute_shell_command] leaves the
    project path alone. *)
Lemma execute_shell_command_keeps_project_path (command working_directory : pyval) :
  py_contains "ng new" command = Some false ->
  preserves (keeps CURRENT_PROJECT_PATH)
    (execute_shell_command command working_directory).
Proof.
  intro H. unfold execute_shell_command, py_in. rewrite H.
  unfold subprocess_run.
  repeat first
    [ match goal with
      | |- preserves _ (bind (ret _) _) =>
          apply preserves_bind_ret; cbv beta iota delta [andb negb]
      end
    | keeps_step reflexivity ].
Qed.

(** Every function of the registry but [execute_shell_command] leaves
    the project path alone. *)
Lemma registered_tool_keeps_project_path (name called_as : string)
  (f : tool_function) (kwargs : dict) :
  registry_find available_tools_python_functions name = Some f ->
  (name =? "execute_shell_command") = false ->
  preserves (keeps CURRENT_PROJECT_PATH) (call_with_kwargs called_as f kwargs).
Proof.
  intros Hf Hn. unfold call_with_kwargs.
  destruct (unexpected_keyword (parameters f) kwargs);
    [apply preserves_raise; exact _|].
  destruct (bind_parameters called_as (parameters f) kwargs) as [e|values];
    [apply preserves_raise; exact _|].
  unfold available_tools_python_functions in Hf. cbn [registry_find] in Hf.
  rewrite Hn in Hf.
  repeat match type of Hf with
         | (if ?b then _ else _) = _ =>
             destruct b; [injection Hf as <-; simpl|]
         end;
    try discriminate;
    auto using start_keeps_project_path, stop_keeps_project_path,
      read_file_keeps_project_path, write_file_keeps_project_path,
      list_keeps_project_path, delete_keeps_project_path,
      ask_keeps_project_path.
Qed.

Lemma plain_call_keeps_project_path (n : string) (a : dict) (d : dispatching) :
  asks_ng_new n a = false ->
  preserves (keeps CURRENT_PROJECT_PATH) (execute_call n a d).
Proof.
  unfold asks_ng_new, execute_call. intro Hplain.
  destruct (registry_find available_tools_python_functions n) as [f|] eqn:Hf;
    [|keeps_field].
  destruct (String.eqb_spec n "execute_shell_command") as [->|Hn].
  - cbn [andb] in Hplain. unfold py_in.
    destruct (py_contains "ng new" (dict_get a "command" (VStr ""))) as [b|] eqn:Ec.
    + subst b. apply preserves_bind_ret. cbv beta iota.
      apply preserves_bind; [exact _ | | intro; apply preserves_ret; exact _].
      unfold available_tools_python_functions in Hf. cbn [registry_find] in Hf.
      simpl in Hf. injection Hf as <-. unfold call_with_kwargs.
      destruct (unexpected_keyword _ a); [apply preserves_raise; exact _|].
      cbn [bind_parameters parameters registered_execute_shell_command].
      unfold dict_get in Ec.
      destruct (dict_find a "command") as [v|];
        [|apply preserves_raise; exact _].
      destruct (dict_find a "working_directory"); cbn [body arg nth];
        now apply execute_shell_command_keeps_project_path.
    + intro w. reflexivity.
  - apply String.eqb_neq in Hn.
    apply preserves_bind_ret. cbv beta iota.
    apply preserves_bind; [exact _ | | intro; apply preserves_ret; exact _].
    now apply (registered_tool_keeps_project_path n).
Qed.

Lemma plain_call_within_tool_frame (n : string) (a : dict) (d : dispatching) :
  asks_ng_new n a = false -> preserves tool_frame (execute_call n a d).
Proof.
  unfold asks_ng_new, execute_call. intro Hplain.
  destruct (registry_find available_tools_python_functions n) as [f|] eqn:Hf;
    [|frame].
  assert (Hcall : preserves tool_frame
                    (r <- call_with_kwargs n f a ;;
                     ret (Execution r a (turn_in_transcript d)))).
  { apply preserves_bind; [exact _ | | intro; apply preserves_ret; exact _].
    now apply (registered_tool_preserves n). }
  destruct (n =? "execute_shell_command").
  - cbn [andb] in Hplain. unfold py_in.
    destruct (py_contains "ng new" (dict_get a "command" (VStr ""))) as [b|].
    + subst b. apply preserves_bind_ret. exact Hcall.
    + intro w. exact (frame_refl w).
  - apply preserves_bind_ret. exact Hcall.
Qed.

(** X15.  Only the creation of a project moves the project path.  The
    execution of a requested call, whatever its tool, its arguments and
    its outcome, leaves [CURRENT_PROJECT_PATH], the chat session and the
    transcript as they were, unless the call is [execute_shell_command]
    with [ng new] in its command. *)
Theorem project_path_moves_only_with_ng_new (tool_name : string)
  (tool_args_dict : dict) (d : dispatching) (w : world) :
  asks_ng_new tool_name tool_args_dict = false ->
  CURRENT_PROJECT_PATH (world_of (execute_call tool_name tool_args_dict d w))
  = CURRENT_PROJECT_PATH w
  /\ chat_session (world_of (execute_call tool_name tool_args_dict d w))
     = chat_session w
  /\ conversation_history_for_this_run
       (world_of (execute_call tool_name tool_args_dict d w))
     = conversation_history_for_this_run w.
Proof.
  intro Hplain. split.
  - exact (plain_call_keeps_project_path _ _ d Hplain w).
  - destruct (plain_call_within_tool_frame _ _ d Hplain w) as [_ Hh Hs _].
    split; assumption.
Qed.

(** An instance of X15: [ng build] in the project at [/proj]. *)
Lemma ng_build_keeps_project_path :
  asks_ng_new "execute_shell_command" [("command", VStr "ng build")] = false
  /\ CURRENT_PROJECT_PATH
       (world_of (execute_call "execute_shell_command"
                    [("command", VStr "ng build")]
                    (Dispatching [] no_recovery 0 true) example_world))
     = Some "/proj".
Proof.
  split; [reflexivity|].
  exact (proj1 (project_path_moves_only_with_ng_new "execute_shell_command"
                  [("command", VStr "ng build")]
                  (Dispatching [] no_recovery 0 true) example_world eq_refl)).
Defined.

(** ** What touches the development server *)

Ltac keeps_server_view :=
  unfold keeps, server_view;
  cbn [NG_SERVE_PROCESS trace set_trace set_fs set_stdin set_run_script
         set_history set_chat_session set_CURRENT_PROJECT_PATH set_llm_script];
  rewrite ?filter_app; cbn [filter is_server_event]; rewrite ?app_nil_r;
  reflexivity.

Ltac keeps_server := repeat keeps_step keeps_server_view.

Lemma execute_shell_command_keeps_server (command working_directory : pyval) :
  preserves (keeps server_view)
    (execute_shell_command command working_directory).
Proof.
  unfold execute_shell_command, py_in, py_split_method, subprocess_run.
  keeps_server.
Qed.

Lemma read_file_keeps_server (relative_filepath : pyval) :
  preserves (keeps server_view) (read_file relative_filepath).
Proof. unfold read_file, py_path_join. keeps_server. Qed.

Lemma write_file_keeps_server (relative_filepath content : pyval) :
  preserves (keeps server_view) (write_file relative_filepath content).
Proof. unfold write_file, write_opened, py_path_join. keeps_server. Qed.

Lemma list_keeps_server (relative_path : pyval) :
  preserves (keeps server_view) (list_directory_contents relative_path).
Proof. unfold list_directory_contents, py_path_join. keeps_server. Qed.

Lemma delete_keeps_server (relative_path : pyval) :
  preserves (keeps server_view) (delete_file_or_directory relative_path).
Proof. unfold delete_file_or_directory, py_path_join. keeps_server. Qed.

Lemma ask_until_answered_keeps_server (prompt : string) (lines : list string) :
  preserves (keeps server_view) (ask_until_answered prompt lines).
Proof.
  induction lines as [|l rest IH]; simpl.
  - keeps_server.
  - repeat first [ exact IH | keeps_step keeps_server_view ].
Qed.

Lemma ask_keeps_server (prompt_message : pyval) :
  preserves (keeps server_view) (ask_user_confirmation prompt_message).
Proof.
  unfold ask_user_confirmation.
  repeat first [ apply ask_until_answered_keeps_server
               | keeps_step keeps_server_view ].
Qed.

Lemma registered_tool_keeps_server (name called_as : string)
  (f : tool_function) (kwargs : dict) :
  registry_find available_tools_python_functions name = Some f ->
  (name =? "start_angular_serve_and_get_initial_output") = false ->
  (name =? "stop_angular_server") = false ->
  preserves (keeps server_view) (call_with_kwargs called_as f kwargs).
Proof.
  intros Hf Hstart Hstop. unfold call_with_kwargs.
  destruct (unexpected_keyword (parameters f) kwargs);
    [apply preserves_raise; exact _|].
  destruct (bind_parameters called_as (parameters f) kwargs) as [e|values];
    [apply preserves_raise; exact _|].
  unfold available_tools_python_functions in Hf. cbn [registry_find] in Hf.
  rewrite Hstart, Hstop in Hf.
  repeat match type of Hf with
         | (if ?b then _ else _) = _ =>
             destruct b; [injection Hf as <-; simpl|]
         end;
    try discriminate;
    auto using execute_shell_command_keeps_server, read_file_keeps_server,
      write_file_keeps_server, list_keeps_server, delete_keeps_server,
      ask_keeps_server.
Qed.

Lemma initialize_session_keeps_server :
  preserves (keeps server_view) initialize_global_chat_session.
Proof. unfold initialize_global_chat_session. keeps_server. Qed.

Lemma adopt_new_project_keeps_server (project_name : string)
  (result actual_exec_dir : pyval) (d : dispatching) :
  preserves (keeps server_view)
    (adopt_new_project project_name result actual_exec_dir d).
Proof.
  unfold adopt_new_project, py_path_join_any.
  repeat first [ apply initialize_session_keeps_server
               | keeps_step keeps_server_view ].
Qed.

Lemma input_keeps_server (prompt : string) :
  preserves (keeps server_view) (input prompt).
Proof. unfold input. keeps_server. Qed.

Lemma dispatch_ng_new_keeps_server (f : tool_function) (a : dict)
  (d : dispatching) :
  registry_find available_tools_python_functions "execute_shell_command"
  = Some f ->
  preserves (keeps server_view) (dispatch_ng_new f a d).
Proof.
  intro Hf. unfold dispatch_ng_new.
  assert (Hcall : forall kwargs,
             preserves (keeps server_view)
               (call_with_kwargs "execute_shell_command" f kwargs)).
  { intro kwargs.
    now apply (registered_tool_keeps_server "execute_shell_command"). }
  repeat first
    [ apply Hcall | apply input_keeps_server
    | apply adopt_new_project_keeps_server
    | keeps_step keeps_server_view ].
Qed.

Lemma execute_call_keeps_server (n : string) (a : dict) (d : dispatching) :
  (n =? "start_angular_serve_and_get_initial_output") = false ->
  (n =? "stop_angular_server") = false ->
  preserves (keeps server_view) (execute_call n a d).
Proof.
  intros Hstart Hstop. unfold execute_call.
  destruct (registry_find available_tools_python_functions n) as [f|] eqn:Hf;
    [|keeps_server].
  apply preserves_bind; [exact _ | | intro is_new].
  - destruct (n =? "execute_shell_command"); unfold py_in; keeps_server.
  - destruct is_new.
    + destruct (String.eqb_spec n "execute_shell_command") as [->|Hn].
      * now apply dispatch_ng_new_keeps_server.
      * (* [is_new] holds for [execute_shell_command] only; for any tool
           the branch touches no server *)
        unfold dispatch_ng_new.
        assert (Hcall : forall kwargs,
                   preserves (keeps server_view)
                     (call_with_kwargs "execute_shell_command" f kwargs)).
        { intro kwargs. now apply (registered_tool_keeps_server n). }
        repeat first
          [ apply Hcall | apply input_keeps_server
          | apply adopt_new_project_keeps_server
          | keeps_step keeps_server_view ].
    + apply preserves_bind; [exact _ | | intro; apply preserves_ret; exact _].
      now apply (registered_tool_keeps_server n).
Qed.

(** X16.  Only the two tools of the development server touch it.  The
    execution of a requested call of any other tool, registered or not,
    whatever its arguments and its outcome, the creation of a project
    included, leaves the handle [NG_SERVE_PROCESS] as it was and neither
    spawns, terminates nor kills a process of the server. *)
Theorem server_is_touched_by_its_tools_only (tool_name : string)
  (tool_args_dict : dict) (d : dispatching) (w : world) :
  tool_name <> "start_angular_serve_and_get_initial_output" ->
  tool_name <> "stop_angular_server" ->
  NG_SERVE_PROCESS (world_of (execute_call tool_name tool_args_dict d w))
  = NG_SERVE_PROCESS w
  /\ filter is_server_event
       (trace (world_of (execute_call tool_name tool_args_dict d w)))
     = filter is_server_event (trace w).
Proof.
  intros Hstart Hstop. apply String.eqb_neq in Hstart, Hstop.
  pose proof (execute_call_keeps_server _ tool_args_dict d Hstart Hstop w) as H.
  unfold keeps, server_view in H. now injection H.
Qed.

(** An instance of X16: a file is deleted while the server runs. *)
Lemma deletion_leaves_the_server :
  NG_SERVE_PROCESS serving_world = Some (Popen 4242 false)
  /\ NG_SERVE_PROCESS
       (world_of (execute_call "delete_file_or_directory"
                    [("relative_path", VStr "a.txt")]
                    (Dispatching [] no_recovery 0 true) serving_world))
     = Some (Popen 4242 false).
Proof.
  split; [reflexivity|].
  refine (proj1 (server_is_touched_by_its_tools_only "delete_file_or_directory"
                   [("relative_path", VStr "a.txt")]
                   (Dispatching [] no_recovery 0 true) serving_world _ _));
    discriminate.
Defined.

(** ** The monitoring of a start *)

(** While the event is not set, the reader adds its lines to the queue,
    whatever the queue holds. *)
Lemma reader_running (stream : list string) (stream_name : string) :
  forall output_queue : list string,
    _read_stream_to_queue_and_print stream stream_name output_queue false
    = (output_queue
         ++ _read_stream_to_queue_and_print stream stream_name [] false)%list.
Proof.
  induction stream as [|line stream IH]; intro q;
    cbn [_read_stream_to_queue_and_print andb].
  - now rewrite app_nil_r.
  - destruct (negb (strip line =? "")).
    + cbn [app]. rewrite (IH (q ++ _)%list), (IH [_]).
      now rewrite <- app_assoc.
    + apply IH.
Qed.

(** Once the event is set, the reader that finds the queue empty queues
    nothing more; the reader that finds it holding a line goes on as
    before. *)
Lemma reader_stopped_empty (stream : list string) (stream_name : string) :
  _read_stream_to_queue_and_print stream stream_name [] true = [].
Proof. now destruct stream. Qed.

Lemma reader_stopped_holding (stream : list string) (stream_name : string) :
  forall output_queue : list string,
    output_queue <> [] ->
    _read_stream_to_queue_and_print stream stream_name output_queue true
    = (output_queue
         ++ _read_stream_to_queue_and_print stream stream_name [] false)%list.
Proof.
  induction stream as [|line stream IH]; intros q Hq;
    cbn [_read_stream_to_queue_and_print].
  - now rewrite app_nil_r.
  - destruct q as [|x q]; [contradiction|]. cbn [andb].
    destruct (negb (strip line =? "")).
    + cbn [app]. rewrite (IH (x :: q ++ _)%list) by discriminate.
      rewrite (reader_running stream stream_name [_]).
      cbn [app]. now rewrite <- app_assoc.
    + now apply IH.
Qed.

(** What a start that spawns the process returns and leaves, in terms of
    what the monitoring loop ends with. *)
Lemma monitored_start (command : string) (working_directory duration : pyval)
  (w : world) (new_pid : Z) (window : list snapshot)
  (late_out late_err : list string) (rest : list popen_outcome)
  (passes : list snapshot) :
  (working_directory = VNone \/ exists dir, working_directory = VStr dir) ->
  working_directory_known working_directory w = true ->
  server_running w = false ->
  popen_script w = Spawned new_pid window late_out late_err :: rest ->
  passes_of_window duration window = Some passes ->
  exists (result : pyval) (w' : world) (lines : list event) (resolved : pyval),
    start_angular_serve_and_get_initial_output (VStr command)
      working_directory duration w
    = Returns result w'
    /\ result_get result "status" VNone
       = VStr (reported_status (status (monitor passes monitoring_begins)))
    /\ result_get result "pid" VNone = VInt new_pid
    /\ result_get result "initial_stdout_log" VNone
       = VStr (String.concat nl
                 (collected_stdout (monitor passes monitoring_begins)
                    ++ _read_stream_to_queue_and_print late_out "stdout"
                         (stdout_queue (monitor passes monitoring_begins))
                         true)%list)
    /\ result_get result "initial_stderr_log" VNone
       = VStr (String.concat nl
                 (collected_stderr (monitor passes monitoring_begins)
                    ++ _read_stream_to_queue_and_print late_err "stderr"
                         (stderr_queue (monitor passes monitoring_begins))
                         true)%list)
    /\ NG_SERVE_PROCESS w'
       = Some (Popen new_pid (polled_exit (monitor passes monitoring_begins)))
    /\ trace w' = (trace w ++ lines)%list
    /\ filter is_process_event lines = [EvPopen (VStr command) resolved].
Proof.
  intros Hwd Hk Hr Hp Hpass.
  unfold start_angular_serve_and_get_initial_output.
  unfold bind at 1. unfold get at 1. cbv beta iota.
  assert (Hres : exists resolved,
             match working_directory with
             | VNone => if py_truthy (path_value (CURRENT_PROJECT_PATH w))
                        then Some (path_value (CURRENT_PROJECT_PATH w))
                        else None
             | _ => Some working_directory
             end = Some resolved
             /\ (resolved = VNone \/ exists dir, resolved = VStr dir)).
  { destruct Hwd as [->|[dir ->]].
    - simpl in Hk. rewrite Hk. eexists. split; [reflexivity|].
      destruct (CURRENT_PROJECT_PATH w); simpl; eauto.
    - eexists. split; [reflexivity|]. eauto. }
  destruct Hres as (resolved & -> & Hresolved).
  unfold bind at 1. unfold get at 1. cbv beta iota.
  unfold server_running in Hr.
  destruct (alive_pid (NG_SERVE_PROCESS w)); [discriminate Hr|].
  assert (Hspawn : forall w0,
             popen_script w0 = popen_script w ->
             subprocess_Popen (VStr command) resolved w0
             = Returns (new_pid, window, late_out, late_err)
                 (set_NG_SERVE_PROCESS (Some (Popen new_pid false))
                    (set_popen_script rest
                       (set_trace
                          (trace w0 ++ [EvPopen (VStr command) resolved])
                          w0)))).
  { intros w0 Hw0. unfold subprocess_Popen.
    destruct Hresolved as [->|[dir ->]];
      unfold bind, emit, modify, get, ret; cbn [popen_script set_trace];
      rewrite Hw0, Hp; reflexivity. }
  unfold bind at 1. unfold print at 1, emit, modify.
  unfold bind at 1. unfold print at 1, emit, modify.
  unfold try_except. unfold bind at 1. rewrite Hspawn by reflexivity.
  unfold bind at 1. unfold print at 1, emit, modify.
  unfold monitoring_window. rewrite Hpass.
  unfold bind at 1. unfold ret at 1.
  fold monitoring_begins. set (m := monitor passes monitoring_begins).
  unfold reported_status.
  destruct (status m =? "compiled_successfully");
    [|destruct (status m =? "error_during_startup")];
    unfold bind, modify, ret;
    (eexists; eexists; eexists; exists resolved;
     split; [reflexivity|];
     split; [reflexivity|]; split; [reflexivity|]; split; [reflexivity|];
     split; [reflexivity|]; split; [reflexivity|];
     cbn [trace set_trace set_NG_SERVE_PROCESS set_popen_script];
     rewrite <- !app_assoc; split; reflexivity).
Qed.

Lemma drain_stdout_keeps (queue : list string) :
  forall (st : string) (collected : list string),
    let '(queue', _, collected') := drain_stdout queue st collected in
    (collected' ++ queue' = collected ++ queue)%list.
Proof.
  induction queue as [|line queue IH]; intros st collected; cbn [drain_stdout].
  - reflexivity.
  - destruct (contains "Compiled successfully" line
              || contains "successfully built" (lower line)).
    + now rewrite <- app_assoc.
    + specialize (IH st (collected ++ [line])%list).
      destruct (drain_stdout queue st (collected ++ [line])%list) as [[q' st'] c'].
      now rewrite IH, <- app_assoc.
Qed.

Lemma drain_stderr_all (queue : list string) :
  forall (st : string) (collected : list string),
    snd (drain_stderr queue st collected) = (collected ++ queue)%list.
Proof.
  induction queue as [|line queue IH]; intros st collected; cbn [drain_stderr].
  - now rewrite app_nil_r.
  - now rewrite IH, <- app_assoc.
Qed.

(** One pass of the monitoring loop loses no line and keeps the lines in
    order. *)
Lemma monitor_pass_keeps_lines (s : snapshot) (m : monitoring) :
  (collected_stdout (monitor [s] m) ++ stdout_queue (monitor [s] m)
   = collected_stdout m ++ stdout_queue m
       ++ _read_stream_to_queue_and_print (snap_stdout s) "stdout" [] false)%list
  /\ (collected_stderr (monitor [s] m) ++ stderr_queue (monitor [s] m)
      = collected_stderr m ++ stderr_queue m
          ++ _read_stream_to_queue_and_print (snap_stderr s) "stderr" [] false)%list.
Proof.
  cbn [monitor].
  rewrite (reader_running (snap_stdout s) "stdout" (stdout_queue m)).
  rewrite (reader_running (snap_stderr s) "stderr" (stderr_queue m)).
  destruct (snap_exited s); [split; reflexivity|].
  pose proof (drain_stdout_keeps
                (stdout_queue m
                   ++ _read_stream_to_queue_and_print (snap_stdout s) "stdout"
                        [] false)
                (status m) (collected_stdout m)) as Hout.
  destruct (drain_stdout _ (status m) (collected_stdout m))
    as [[out_q' status1] out].
  pose proof (drain_stderr_all
                (stderr_queue m
                   ++ _read_stream_to_queue_and_print (snap_stderr s) "stderr"
                        [] false)
                status1 (collected_stderr m)) as Herr.
  destruct (drain_stderr _ status1 (collected_stderr m)) as [status2 err].
  cbn [snd] in Herr.
  destruct (status2 =? "compiled_successfully");
    cbn [monitor collected_stdout stdout_queue collected_stderr stderr_queue];
    rewrite Hout, Herr, ?app_nil_r; split; reflexivity.
Qed.

(** The monitoring loop goes on after a pass unless the pass has ended
    it. *)
Lemma monitor_pass (s : snapshot) (window : list snapshot) (m : monitoring) :
  monitor (s :: window) m
  = if monitoring_over (monitor [s] m) then monitor [s] m
    else monitor window (monitor [s] m).
Proof.
  cbn [monitor]. unfold monitoring_over.
  destruct (snap_exited s); [reflexivity|].
  destruct (drain_stdout _ (status m) (collected_stdout m))
    as [[out_q' status1] out].
  destruct (drain_stderr _ status1 (collected_stderr m)) as [status2 err].
  destruct (status2 =? "compiled_successfully") eqn:E;
    cbn [polled_exit status orb]; rewrite E; reflexivity.
Qed.

(** The monitoring loop makes the passes of [passes_made], and no
    others; it loses no line of them and keeps the lines in order. *)
Lemma monitor_keeps_lines (window : list snapshot) :
  forall m : monitoring,
    (exists unseen : list snapshot,
        window = (passes_made window m ++ unseen)%list)
    /\ monitor window m = monitor (passes_made window m) m
    /\ (collected_stdout (monitor window m) ++ stdout_queue (monitor window m)
        = collected_stdout m ++ stdout_queue m
            ++ queued_stdout (passes_made window m))%list
    /\ (collected_stderr (monitor window m) ++ stderr_queue (monitor window m)
        = collected_stderr m ++ stderr_queue m
            ++ queued_stderr (passes_made window m))%list.
Proof.
  induction window as [|s window IH]; intro m.
  - split; [now exists []|]. split; [reflexivity|].
    cbn. now rewrite !app_nil_r.
  - cbn [passes_made]. rewrite (monitor_pass s window m).
    destruct (monitor_pass_keeps_lines s m) as [Ho He].
    destruct (monitoring_over (monitor [s] m)) eqn:Eover.
    + split; [now exists window|]. split; [reflexivity|].
      unfold queued_stdout, queued_stderr. cbn [flat_map].
      rewrite !app_nil_r. split; assumption.
    + destruct (IH (monitor [s] m)) as ((unseen & Hw) & Hm & Ho' & He').
      split; [exists unseen; cbn [app]; now rewrite <- Hw|].
      split.
      { rewrite (monitor_pass s (passes_made window (monitor [s] m)) m), Eover.
        exact Hm. }
      rewrite Ho', He', (app_assoc (collected_stdout _)), Ho,
        (app_assoc (collected_stderr _)), He.
      unfold queued_stdout, queued_stderr. cbn [flat_map].
      rewrite <- !app_assoc. split; reflexivity.
Qed.

(** X17.  When the start tool spawns the process, the two logs it
    returns lose no line of the passes the monitoring loop has made and
    keep the order.  The loop makes the passes up to the first that ends
    it; of what the reader of the standard output has queued in them,
    [initial_stdout_log] holds first what the loop has collected, then
    what it has left in the queue (the lines behind the one that carried
    the success marker, or those of the pass that found the process
    exited).  The lines the pipe delivers once [stop_event] is set follow
    only when the queue held a line at that moment: the reader that finds
    the queue empty stops, and those lines are not in the log.  So is
    [initial_stderr_log] made for the standard error. *)
Theorem start_logs_lose_nothing (command : string)
  (working_directory duration : pyval) (w : world) (new_pid : Z)
  (window : list snapshot) (late_out late_err : list string)
  (rest : list popen_outcome) (passes : list snapshot) :
  (working_directory = VNone \/ exists dir, working_directory = VStr dir) ->
  working_directory_known working_directory w = true ->
  server_running w = false ->
  popen_script w = Spawned new_pid window late_out late_err :: rest ->
  passes_of_window duration window = Some passes ->
  exists (result : pyval) (w' : world) (unseen : list snapshot),
    let made := passes_made passes monitoring_begins in
    let m := monitor passes monitoring_begins in
    start_angular_serve_and_get_initial_output (VStr command)
      working_directory duration w
    = Returns result w'
    /\ passes = (made ++ unseen)%list
    /\ m = monitor made monitoring_begins
    /\ (collected_stdout m ++ stdout_queue m)%list = queued_stdout made
    /\ (collected_stderr m ++ stderr_queue m)%list = queued_stderr made
    /\ result_get result "initial_stdout_log" VNone
       = VStr (String.concat nl
                 (if match stdout_queue m with [] => true | _ :: _ => false end
                  then queued_stdout made
                  else (queued_stdout made
                          ++ _read_stream_to_queue_and_print late_out "stdout"
                               [] false)%list))
    /\ result_get result "initial_stderr_log" VNone
       = VStr (String.concat nl
                 (if match stderr_queue m with [] => true | _ :: _ => false end
                  then queued_stderr made
                  else (queued_stderr made
                          ++ _read_stream_to_queue_and_print late_err "stderr"
                               [] false)%list)).
Proof.
  intros Hwd Hk Hr Hp Hpass.
  destruct (monitored_start command _ _ _ _ _ _ _ _ _ Hwd Hk Hr Hp Hpass)
    as (result & w' & lines & resolved & Hstart & _ & _ & Hout & Herr & _).
  destruct (monitor_keeps_lines passes monitoring_begins)
    as ((unseen & Hpasses) & Hm & Ho & He).
  cbn [monitoring_begins collected_stdout stdout_queue collected_stderr
         stderr_queue app] in Ho, He.
  exists result, w', unseen. cbv zeta.
  split; [exact Hstart|]. split; [exact Hpasses|]. split; [exact Hm|].
  split; [exact Ho|]. split; [exact He|].
  rewrite Hout, Herr, <- Ho, <- He. split.
  - destruct (stdout_queue (monitor passes monitoring_begins)) as [|x q] eqn:Eq.
    + now rewrite reader_stopped_empty.
    + rewrite reader_stopped_holding by discriminate.
      now rewrite !app_assoc.
  - destruct (stderr_queue (monitor passes monitoring_begins)) as [|x q] eqn:Eq.
    + now rewrite reader_stopped_empty.
    + rewrite reader_stopped_holding by discriminate.
      now rewrite !app_assoc.
Qed.

(** Quiet passes add their lines and change nothing else. *)
Lemma monitor_after_quiet (q more : list snapshot) :
  forallb quiet q = true ->
  forall out err : list string,
    monitor (q ++ more) (Monitoring "compiling" [] [] out err false)
    = monitor more
        (Monitoring "compiling" [] []
           (out ++ queued_stdout q) (err ++ queued_stderr q) false).
Proof.
  induction q as [|s q IH]; intros H out err.
  - cbn. now rewrite !app_nil_r.
  - cbn [forallb] in H. apply andb_prop in H as [Hq Hw]. unfold quiet in Hq.
    apply andb_prop in Hq as [Hq Herr]. apply andb_prop in Hq as [Hex Hout].
    apply negb_true_iff in Hex.
    cbn [app monitor stdout_queue stderr_queue status collected_stdout
           collected_stderr].
    rewrite Hex. cbn [app].
    rewrite (drain_stdout_quiet _ _ _ Hout), (drain_stderr_quiet _ _ _ Herr).
    cbn [String.eqb Ascii.eqb Bool.eqb]. rewrite (IH Hw).
    unfold queued_stdout, queued_stderr. cbn [flat_map].
    now rewrite !app_assoc.
Qed.

Lemma drain_stdout_marker (queue : list string) :
  existsb has_success_marker queue = true ->
  forall (st : string) (collected : list string),
    snd (fst (drain_stdout queue st collected)) = "compiled_successfully".
Proof.
  induction queue as [|line queue IH]; intros H st collected;
    [discriminate H|].
  cbn [existsb] in H. cbn [drain_stdout]. unfold has_success_marker in H at 1.
  destruct (contains "Compiled successfully" line
            || contains "successfully built" (lower line)); [reflexivity|].
  now apply IH.
Qed.

(** X18.  When the process is found to have exited in a pass of the
    monitoring loop, after passes that were quiet, the start tool reports
    [error_during_startup], whatever the process has written: the handle
    keeps the process as one that has exited, so that the server does not
    count as running, and the loop takes the result for a failure of the
    command. *)
Theorem exit_during_startup_is_an_error (command : string)
  (working_directory duration : pyval) (w : world) (new_pid : Z)
  (window : list snapshot) (late_out late_err : list string)
  (rest : list popen_outcome) (before after : list snapshot) (s : snapshot) :
  (working_directory = VNone \/ exists dir, working_directory = VStr dir) ->
  working_directory_known working_directory w = true ->
  server_running w = false ->
  popen_script w = Spawned new_pid window late_out late_err :: rest ->
  passes_of_window duration window = Some (before ++ s :: after)%list ->
  forallb quiet before = true ->
  snap_exited s = true ->
  exists (result : pyval) (w' : world),
    start_angular_serve_and_get_initial_output (VStr command)
      working_directory duration w
    = Returns result w'
    /\ result_get result "status" VNone = VStr "error_during_startup"
    /\ result_get result "pid" VNone = VInt new_pid
    /\ NG_SERVE_PROCESS w' = Some (Popen new_pid true)
    /\ server_running w' = false
    /\ forall args : dict,
         classify "start_angular_serve_and_get_initial_output" args result
         = (true, dict_get args "command" VNone).
Proof.
  intros Hwd Hk Hr Hp Hpass Hq Hs.
  destruct (monitored_start command _ _ _ _ _ _ _ _ _ Hwd Hk Hr Hp Hpass)
    as (result & w' & lines & resolved & Hstart & Hstatus & Hpid & _ & _
        & Hproc & _).
  unfold monitoring_begins in *.
  rewrite (monitor_after_quiet _ _ Hq) in Hstatus, Hproc.
  cbn [monitor] in Hstatus, Hproc. rewrite Hs in Hstatus, Hproc.
  cbn [status polled_exit] in Hstatus, Hproc.
  exists result, w'. split; [exact Hstart|]. split; [exact Hstatus|].
  split; [exact Hpid|]. split; [exact Hproc|].
  split; [unfold server_running; now rewrite Hproc|].
  intro args. unfold classify. rewrite Hstatus. reflexivity.
Qed.

(** X19.  When, after passes that were quiet, a pass finds the process
    alive, a success marker in a line of its standard output and no error
    marker in the lines of its standard error, the start tool reports
    [compiled_successfully]: the process stays in the handle as alive,
    and the loop does not take the result for a failure. *)
Theorem success_marker_ends_the_monitoring (command : string)
  (working_directory duration : pyval) (w : world) (new_pid : Z)
  (window : list snapshot) (late_out late_err : list string)
  (rest : list popen_outcome) (before after : list snapshot) (s : snapshot) :
  (working_directory = VNone \/ exists dir, working_directory = VStr dir) ->
  working_directory_known working_directory w = true ->
  server_running w = false ->
  popen_script w = Spawned new_pid window late_out late_err :: rest ->
  passes_of_window duration window = Some (before ++ s :: after)%list ->
  forallb quiet before = true ->
  snap_exited s = false ->
  existsb has_success_marker
    (_read_stream_to_queue_and_print (snap_stdout s) "stdout" [] false) = true ->
  forallb (fun line => negb (has_error_marker line))
    (_read_stream_to_queue_and_print (snap_stderr s) "stderr" [] false) = true ->
  exists (result : pyval) (w' : world),
    start_angular_serve_and_get_initial_output (VStr command)
      working_directory duration w
    = Returns result w'
    /\ result_get result "status" VNone = VStr "compiled_successfully"
    /\ result_get result "pid" VNone = VInt new_pid
    /\ NG_SERVE_PROCESS w' = Some (Popen new_pid false)
    /\ forall args : dict,
         classify "start_angular_serve_and_get_initial_output" args result
         = (false, VNone).
Proof.
  intros Hwd Hk Hr Hp Hpass Hq Hs Hmark Herr.
  destruct (monitored_start command _ _ _ _ _ _ _ _ _ Hwd Hk Hr Hp Hpass)
    as (result & w' & lines & resolved & Hstart & Hstatus & Hpid & _ & _
        & Hproc & _).
  unfold monitoring_begins in *.
  rewrite (monitor_after_quiet _ _ Hq) in Hstatus, Hproc.
  cbn [monitor stdout_queue stderr_queue status collected_stdout
         collected_stderr app] in Hstatus, Hproc.
  rewrite Hs in Hstatus, Hproc.
  pose proof (drain_stdout_marker _ Hmark "compiling"
                (queued_stdout before)) as Hd.
  revert Hstatus Hproc.
  destruct (drain_stdout _ "compiling" (queued_stdout before))
    as [[out_q' status1] out].
  cbn [fst snd] in Hd. subst status1.
  rewrite (drain_stderr_quiet _ _ _ Herr).
  cbn [String.eqb Ascii.eqb Bool.eqb status polled_exit].
  intros Hstatus Hproc.
  exists result, w'. split; [exact Hstart|]. split; [exact Hstatus|].
  split; [exact Hpid|]. split; [exact Hproc|].
  intro args. unfold classify. rewrite Hstatus. reflexivity.
Qed.

(** An instance of X17: the logs of a build that reports its success in
    the second pass.  The loop makes two of the three passes; the line
    behind the success marker is still in the queue when [stop_event] is
    set, so the line that arrives afterwards is in the log. *)
Lemma quick_build_logs_lose_nothing :
  (working_directory_known VNone quick_build_world = true
   /\ server_running quick_build_world = false
   /\ length (passes_made quick_build_passes monitoring_begins) = 2%nat)
  /\ exists (result : pyval) (w' : world) (unseen : list snapshot),
       let made := passes_made quick_build_passes monitoring_begins in
       let m := monitor quick_build_passes monitoring_begins in
       start_angular_serve_and_get_initial_output (VStr "ng serve") VNone
         (VInt 20) quick_build_world
       = Returns result w'
       /\ quick_build_passes = (made ++ unseen)%list
       /\ m = monitor made monitoring_begins
       /\ (collected_stdout m ++ stdout_queue m)%list = queued_stdout made
       /\ (collected_stderr m ++ stderr_queue m)%list = queued_stderr made
       /\ result_get result "initial_stdout_log" VNone
          = VStr (String.concat nl
                    (if match stdout_queue m with
                        | [] => true
                        | _ :: _ => false
                        end
                     then queued_stdout made
                     else (queued_stdout made
                             ++ _read_stream_to_queue_and_print
                                  ["Build at: 2025-01-01T00:00:00.000Z"]
                                  "stdout" [] false)%list))
       /\ result_get result "initial_stderr_log" VNone
          = VStr (String.concat nl
                    (if match stderr_queue m with
                        | [] => true
                        | _ :: _ => false
                        end
                     then queued_stderr made
                     else (queued_stderr made
                             ++ _read_stream_to_queue_and_print [] "stderr"
                                  [] false)%list)).
Proof.
  split; [repeat split; reflexivity|].
  apply (start_logs_lose_nothing "ng serve" VNone (VInt 20) quick_build_world
           5151%Z quick_build_passes ["Build at: 2025-01-01T00:00:00.000Z"]
           [] [] quick_build_passes);
    solve [reflexivity | left; reflexivity].
Defined.

(** The two logs of that start, and the log of a start whose window ends
    with the queue empty: there the line that arrives once [stop_event]
    is set ends the reading and is not in the log. *)
Example late_lines_in_the_logs :
  (exists w' : world,
      start_angular_serve_and_get_initial_output (VStr "ng serve") VNone
        (VInt 20) quick_build_world
      = Returns
          (VDict
             [("status", VStr "compiled_successfully");
              ("command", VStr "ng serve");
              ("pid", VInt 5151);
              ("message",
               VStr "Angular serve command 'ng serve' initiated. Initial compilation reported as successful. Monitor terminal for ongoing logs. App should be at http://localhost:4200.");
              ("initial_stdout_log",
               VStr (String.concat nl
                       ["[STDOUT] - Generating browser application bundles (phase: setup)...";
                        "[STDOUT] Compiled successfully.";
                        "[STDOUT] ** Angular Live Development Server is listening on localhost:4200 **";
                        "[STDOUT] Build at: 2025-01-01T00:00:00.000Z"]));
              ("initial_stderr_log", VStr "")])
          w')
  /\ popen_script slow_build_world
     = [Spawned 5151
          [Snapshot false
             ["- Generating browser application bundles (phase: setup)..."] [];
           Snapshot false [] []]
          ["Browser application bundle generation complete."] []]
  /\ forall result : pyval,
       (exists w' : world,
           start_angular_serve_and_get_initial_output (VStr "ng serve") VNone
             (VInt 20) slow_build_world
           = Returns result w') ->
       result_get result "initial_stdout_log" VNone
       = VStr "[STDOUT] - Generating browser application bundles (phase: setup)...".
Proof.
  split; [eexists; vm_compute; reflexivity|]. split; [reflexivity|].
  intros result [w' H]. vm_compute in H. now injection H as <- _.
Qed.

(** An instance of X18: [ng serve] outside a workspace. *)
Lemma start_outside_a_workspace_fails :
  failing_start_passes
  = ([Snapshot false [] []]
       ++ Snapshot true []
            ["Error: This command is not available when running the Angular CLI outside a workspace."]
          :: [])%list
  /\ exists (result : pyval) (w' : world),
       start_angular_serve_and_get_initial_output (VStr "ng serve") VNone
         (VInt 20) failing_start_world
       = Returns result w'
       /\ result_get result "status" VNone = VStr "error_during_startup"
       /\ result_get result "pid" VNone = VInt 6161
       /\ NG_SERVE_PROCESS w' = Some (Popen 6161 true)
       /\ server_running w' = false
       /\ forall args : dict,
            classify "start_angular_serve_and_get_initial_output" args result
            = (true, dict_get args "command" VNone).
Proof.
  split; [reflexivity|].
  apply (exit_during_startup_is_an_error "ng serve" VNone (VInt 20)
           failing_start_world 6161%Z failing_start_passes [] [] []
           [Snapshot false [] []] []
           (Snapshot true []
              ["Error: This command is not available when running the Angular CLI outside a workspace."]));
    solve [reflexivity | left; reflexivity].
Defined.

(** An instance of X19: the build that reports its success in the second
    pass. *)
Lemma quick_build_is_compiled :
  working_directory_known VNone quick_build_world = true
  /\ server_running quick_build_world = false
  /\ exists (result : pyval) (w' : world),
       start_angular_serve_and_get_initial_output (VStr "ng serve") VNone
         (VInt 20) quick_build_world
       = Returns result w'
       /\ result_get result "status" VNone = VStr "compiled_successfully"
       /\ result_get result "pid" VNone = VInt 5151
       /\ NG_SERVE_PROCESS w' = Some (Popen 5151 false)
       /\ forall args : dict,
            classify "start_angular_serve_and_get_initial_output" args result
            = (false, VNone).
Proof.
  split; [reflexivity|]. split; [reflexivity|].
  apply (success_marker_ends_the_monitoring "ng serve" VNone (VInt 20)
           quick_build_world 5151%Z quick_build_passes
           ["Build at: 2025-01-01T00:00:00.000Z"] [] []
           [Snapshot false
              ["- Generating browser application bundles (phase: setup)..."] []]
           [Snapshot false
              ["- Generating browser application bundles (phase: building)..."] []]
           (Snapshot false
              ["Compiled successfully."; "** Angular Live Development Server is listening on localhost:4200 **"]
              []));
    solve [reflexivity | left; reflexivity].
Defined.

(** ** The declarations and the registry *)

Lemma declared_property_name (decl : function_declaration) (key : string)
  (p : property) :
  declared_property decl key = Some p ->
  In p (decl_properties decl) /\ property_name p = key.
Proof.
  unfold declared_property. intro H. apply find_some in H as [Hin Hname].
  apply String.eqb_eq in Hname. now split.
Qed.

Lemma compatible_no_unexpected_keyword (decl : function_declaration)
  (f : tool_function) (kwargs : dict) :
  compatible decl f = true ->
  forallb (fun kv => match declared_property decl (fst kv) with
                     | Some _ => true
                     | None => false
                     end) kwargs = true ->
  unexpected_keyword (parameters f) kwargs = None.
Proof.
  unfold compatible. intros Hc Hk. apply andb_prop in Hc as [Hprops _].
  rewrite forallb_forall in Hprops.
  induction kwargs as [|[k v] kwargs IH]; [reflexivity|].
  cbn [forallb fst] in Hk. apply andb_prop in Hk as [Hk Hrest].
  cbn [unexpected_keyword].
  destruct (declared_property decl k) as [p|] eqn:Ep; [|discriminate Hk].
  apply declared_property_name in Ep as [Hin <-].
  rewrite (Hprops p Hin). now apply IH.
Qed.

Lemma compatible_binds (decl : function_declaration) (fname : string)
  (kwargs : dict) (required : list string) :
  forallb (dict_has kwargs) required = true ->
  forall params : list (string * option pyval),
    forallb (fun q => match snd q with
                      | Some _ => true
                      | None => existsb (String.eqb (fst q)) required
                      end) params = true ->
    exists values : list pyval,
      bind_parameters fname params kwargs = inr values
      /\ length values = length params.
Proof.
  intro Hreq. rewrite forallb_forall in Hreq.
  induction params as [|[name default] params IH]; intro Hp.
  - now exists [].
  - cbn [forallb fst snd] in Hp. apply andb_prop in Hp as [Hq Hrest].
    destruct (IH Hrest) as (values & Hv & Hlen).
    cbn [bind_parameters]. rewrite Hv.
    destruct (dict_find kwargs name) as [v|] eqn:Ef.
    + exists (v :: values). cbn [length]. now rewrite Hlen.
    + destruct default as [v|].
      * exists (v :: values). cbn [length]. now rewrite Hlen.
      * exfalso. apply existsb_exists in Hq as (r & Hin & Hr).
        apply String.eqb_eq in Hr. subst r.
        specialize (Hreq name Hin). unfold dict_has in Hreq.
        now rewrite Ef in Hreq.
Qed.

(** Every declaration of [tools_schema] goes together with the function
    registered under its name. *)
Lemma schema_matches_registry (decl : function_declaration) :
  In decl tools_schema ->
  exists f : tool_function,
    registry_find available_tools_python_functions (decl_name decl) = Some f
    /\ compatible decl f = true.
Proof.
  unfold tools_schema. cbn [In]. intro H.
  repeat (destruct H as [<-|H]; [eexists; split; reflexivity|]).
  contradiction.
Qed.

(** A call that conforms to a declaration binds to the function
    registered under the name of the declaration. *)
Lemma declared_calls_bind_lemma (decl : function_declaration) (kwargs : dict) :
  In decl tools_schema ->
  conforms decl kwargs = true ->
  exists (f : tool_function) (values : list pyval),
    registry_find available_tools_python_functions (decl_name decl) = Some f
    /\ unexpected_keyword (parameters f) kwargs = None
    /\ bind_parameters (decl_name decl) (parameters f) kwargs = inr values.
Proof.
  intros Hin Hc. destruct (schema_matches_registry decl Hin) as (f & Hf & Hcompat).
  unfold conforms in Hc. apply andb_prop in Hc as [Hkeys Hreq].
  pose proof (compatible_no_unexpected_keyword _ _ _ Hcompat Hkeys) as Hu.
  unfold compatible in Hcompat. apply andb_prop in Hcompat as [_ Hparams].
  destruct (compatible_binds decl (decl_name decl) kwargs _ Hreq _ Hparams)
    as (values & Hb & _).
  now exists f, values.
Qed.

(** X20.  The declarations sent to the model and the functions of the
    registry go together: a call that names a declared tool, gives no
    argument the declaration does not declare and gives every argument
    the declaration requires, finds its function in the registry and
    binds to the parameters of the function, so that the body of the
    function is what runs; no [TypeError] comes of the call itself. *)
Theorem declared_calls_bind (decl : function_declaration) (kwargs : dict) :
  In decl tools_schema ->
  conforms decl kwargs = true ->
  exists (f : tool_function) (values : list pyval),
    registry_find available_tools_python_functions (decl_name decl) = Some f
    /\ unexpected_keyword (parameters f) kwargs = None
    /\ bind_parameters (decl_name decl) (parameters f) kwargs = inr values
    /\ call_with_kwargs (decl_name decl) f kwargs = body f values.
Proof.
  intros Hin Hc.
  destruct (declared_calls_bind_lemma decl kwargs Hin Hc)
    as (f & values & Hf & Hu & Hb).
  exists f, values. split; [exact Hf|]. split; [exact Hu|].
  split; [exact Hb|]. now apply call_with_kwargs_bound.
Qed.

(** An instance of X20: the start tool with its command alone. *)
Lemma start_with_command_binds :
  In (nth 1 tools_schema (FunctionDeclaration "" "" [] [])) tools_schema
  /\ decl_name (nth 1 tools_schema (FunctionDeclaration "" "" [] []))
     = "start_angular_serve_and_get_initial_output"
  /\ exists (f : tool_function) (values : list pyval),
       registry_find available_tools_python_functions
         "start_angular_serve_and_get_initial_output" = Some f
       /\ unexpected_keyword (parameters f) [("command", VStr "ng serve")] = None
       /\ bind_parameters "start_angular_serve_and_get_initial_output"
            (parameters f) [("command", VStr "ng serve")]
          = inr values
       /\ call_with_kwargs "start_angular_serve_and_get_initial_output" f
            [("command", VStr "ng serve")]
          = body f values.
Proof.
  split; [cbn; tauto|]. split; [reflexivity|].
  apply (declared_calls_bind
           (nth 1 tools_schema (FunctionDeclaration "" "" [] []))
           [("command", VStr "ng serve")]);
    [cbn; tauto | reflexivity].
Defined.

Lemma conforms_typed_conforms (decl : function_declaration) (kwargs : dict) :
  conforms_typed decl kwargs = true -> conforms decl kwargs = true.
Proof.
  unfold conforms_typed, conforms. intro H. apply andb_prop in H as [Hk Hr].
  rewrite Hr, andb_true_r. rewrite forallb_forall in *.
  intros kv Hin. specialize (Hk kv Hin).
  now destruct (declared_property decl (fst kv)).
Qed.

(** An argument of a call that conforms with its types has the type
    declared for it. *)
Lemma conforms_typed_lookup (decl : function_declaration) (kwargs : dict)
  (k : string) (v : pyval) :
  conforms_typed decl kwargs = true ->
  dict_find kwargs k = Some v ->
  exists p : property,
    declared_property decl k = Some p
    /\ has_schema_type (property_type p) v = true.
Proof.
  unfold conforms_typed. intros H Hf. apply andb_prop in H as [Hk _].
  induction kwargs as [|[k0 v0] kwargs IH]; [discriminate Hf|].
  cbn [forallb fst snd] in Hk. apply andb_prop in Hk as [H0 Hrest].
  cbn [dict_find] in Hf. destruct (String.eqb_spec k k0) as [->|Hne].
  - injection Hf as <-.
    destruct (declared_property decl k0) as [p|]; [|discriminate H0].
    now exists p.
  - now apply IH.
Qed.

Lemma string_typed (v : pyval) : has_schema_type STRING v = true -> is_str v = true.
Proof. now destruct v. Qed.

Lemma conforming_call_within_guards (decl : function_declaration)
  (kwargs : dict) (w : world) :
  In decl tools_schema ->
  conforms_typed decl kwargs = true ->
  operator_answers (decl_name decl) kwargs w = true ->
  within_guards (decl_name decl) kwargs w = true.
Proof.
  intros Hin Htyped Hop.
  destruct (declared_calls_bind_lemma decl kwargs Hin
              (conforms_typed_conforms _ _ Htyped))
    as (f & values & Hf & Hu & Hb).
  assert (Hstr : forall k v,
             dict_find kwargs k = Some v ->
             (exists p, declared_property decl k = Some p
                        /\ property_type p = STRING) ->
             is_str v = true).
  { intros k v Hk (p & Hp & Ht).
    destruct (conforms_typed_lookup _ _ _ _ Htyped Hk) as (p' & Hp' & Hv).
    rewrite Hp in Hp'. injection Hp' as <-. rewrite Ht in Hv.
    now apply string_typed. }
  unfold within_guards. rewrite Hf, Hu, Hb.
  unfold tools_schema in Hin. cbn [In] in Hin.
  repeat (destruct Hin as [<-|Hin];
          [cbn [decl_name] in *; cbn in Hf; injection Hf as <-;
           cbn [bind_parameters parameters registered_execute_shell_command]
             in Hb;
           cbn [String.eqb Ascii.eqb Bool.eqb orb]|]);
    try contradiction.
  all: repeat match type of Hb with
              | context [dict_find ?kw ?k] =>
                  let E := fresh "E" in
                  let v := fresh "v" in
                  destruct (dict_find kw k) as [v|] eqn:E;
                  [pose proof (Hstr k v E) |]
              end;
    try discriminate Hb; injection Hb as <-; cbn [arg nth].
  all: repeat match goal with
              | H : (exists p, declared_property _ _ = Some p /\ _) -> _ |- _ =>
                  first [ specialize (H ltac:(eexists; split; reflexivity))
                        | clear H ]
              end.
  all: repeat match goal with
              | H : is_str ?v = true |- _ =>
                  destruct v; try discriminate H; clear H
              end.
  all: try reflexivity.
  - unfold operator_answers, asks_ng_new, dict_get in Hop.
    rewrite E, E0 in Hop.
    cbn [String.eqb Ascii.eqb Bool.eqb andb py_contains py_truthy] in Hop.
    rewrite negb_involutive in Hop. exact Hop.
  - unfold operator_answers, asks_ng_new, dict_get in Hop.
    rewrite E, E0 in Hop.
    cbn [String.eqb Ascii.eqb Bool.eqb andb py_contains py_truthy negb] in Hop.
    rewrite andb_true_r in Hop. exact Hop.
  - exact Hop.
Qed.

(** X21.  A call that conforms to its declaration with its types (the
    tool is declared, every argument is declared and has the declared
    type, every required argument is given) is executed to a result
    part, whatever the surroundings answer, as long as the operator is
    there to answer where the call asks: no such call abandons the
    turn. *)
Theorem declared_calls_are_answered (decl : function_declaration)
  (kwargs : dict) (d : dispatching) (w : world) :
  In decl tools_schema ->
  conforms_typed decl kwargs = true ->
  operator_answers (decl_name decl) kwargs w = true ->
  exists (d' : dispatching) (w' : world),
    dispatch (decl_name decl, kwargs) d w = Returns d' w'
    /\ exists result : pyval,
         tool_response_parts_for_api d'
         = (tool_response_parts_for_api d
              ++ [part_function_response (decl_name decl) result])%list.
Proof.
  intros Hin Htyped Hop.
  destruct (guarded_dispatch_returns _ _ d w
              (conforming_call_within_guards _ _ _ Hin Htyped Hop))
    as (d' & w' & Hd).
  exists d', w'. split; [exact Hd|].
  destruct (dispatch_returns _ _ _ _ _ _ Hd) as (result & _ & Hp & _).
  now exists result.
Qed.

(** An instance of X21: [write_file] with a path and a text. *)
Lemma declared_write_is_answered :
  In (nth 3 tools_schema (FunctionDeclaration "" "" [] [])) tools_schema
  /\ decl_name (nth 3 tools_schema (FunctionDeclaration "" "" [] []))
     = "write_file"
  /\ exists (d' : dispatching) (w' : world),
       dispatch ("write_file",
                 [("relative_filepath", VStr "notes.txt");
                  ("content", VStr "x")])
         (Dispatching [] no_recovery 0 true) example_world
       = Returns d' w'
       /\ exists result : pyval,
            tool_response_parts_for_api d'
            = ([] ++ [part_function_response "write_file" result])%list.
Proof.
  split; [cbn; tauto|]. split; [reflexivity|].
  apply (declared_calls_are_answered
           (nth 3 tools_schema (FunctionDeclaration "" "" [] []))
           [("relative_filepath", VStr "notes.txt"); ("content", VStr "x")]
           (Dispatching [] no_recovery 0 true) example_world);
    [cbn; tauto | reflexivity | reflexivity].
Defined.

(** ** The command line *)

#[export] Instance console_shrinks_relation : frame_relation console_shrinks.
Proof.
  constructor.
  - intro w. unfold console_shrinks. lia.
  - intros w1 w2 w3. unfold console_shrinks. lia.
Qed.

Ltac console_unread :=
  unfold console_shrinks;
  cbn [stdin set_trace set_fs set_run_script set_popen_script set_wait_script
         set_history set_chat_session set_CURRENT_PROJECT_PATH set_llm_script
         set_NG_SERVE_PROCESS];
  lia.

Ltac console := repeat keeps_step console_unread.

Lemma input_console (prompt : string) : preserves console_shrinks (input prompt).
Proof.
  intro w. unfold input, bind, emit, modify, get, ret, raise, console_shrinks.
  cbn [stdin set_trace].
  destruct (stdin w) as [|l rest] eqn:E; cbn; rewrite ?E; cbn; lia.
Qed.

Lemma ask_until_answered_console (prompt : string) (lines : list string) :
  forall w : world,
    length lines <= length (stdin w) ->
    console_shrinks w (world_of (ask_until_answered prompt lines w)).
Proof.
  unfold console_shrinks.
  induction lines as [|l rest IH]; intros w Hlen; cbn [ask_until_answered].
  - unfold bind, emit, modify, raise. cbn. lia.
  - unfold bind at 1. unfold emit at 1, modify at 1.
    unfold bind at 1. unfold modify at 1.
    cbn [length] in Hlen.
    destruct (strip (lower l) =? "yes"); [unfold ret; cbn; lia|].
    destruct (strip (lower l) =? "no"); [unfold ret; cbn; lia|].
    unfold bind at 1. unfold print, emit, modify.
    match goal with
    | |- context [ask_until_answered prompt rest ?w2] =>
        specialize (IH w2); cbn [stdin set_trace set_stdin] in IH
    end.
    specialize (IH (Nat.le_refl _)). lia.
Qed.

Lemma ask_console (prompt_message : pyval) :
  preserves console_shrinks (ask_user_confirmation prompt_message).
Proof.
  intro w. unfold ask_user_confirmation, bind, get.
  apply ask_until_answered_console. lia.
Qed.

Lemma execute_shell_command_console (command working_directory : pyval) :
  preserves console_shrinks (execute_shell_command command working_directory).
Proof.
  unfold execute_shell_command, py_in, py_split_method, subprocess_run.
  console.
Qed.

Lemma start_console (command working_directory duration : pyval) :
  preserves console_shrinks
    (start_angular_serve_and_get_initial_output command working_directory
       duration).
Proof.
  unfold start_angular_serve_and_get_initial_output, subprocess_Popen,
    monitoring_window.
  console.
Qed.

Lemma stop_console : preserves console_shrinks stop_angular_server.
Proof. unfold stop_angular_server, wait_for_exit. console. Qed.

Lemma read_file_console (relative_filepath : pyval) :
  preserves console_shrinks (read_file relative_filepath).
Proof. unfold read_file, py_path_join. console. Qed.

Lemma write_file_console (relative_filepath content : pyval) :
  preserves console_shrinks (write_file relative_filepath content).
Proof. unfold write_file, write_opened, py_path_join. console. Qed.

Lemma list_console (relative_path : pyval) :
  preserves console_shrinks (list_directory_contents relative_path).
Proof. unfold list_directory_contents, py_path_join. console. Qed.

Lemma delete_console (relative_path : pyval) :
  preserves console_shrinks (delete_file_or_directory relative_path).
Proof. unfold delete_file_or_directory, py_path_join. console. Qed.

Lemma registered_tool_console (name called_as : string) (f : tool_function)
  (kwargs : dict) :
  registry_find available_tools_python_functions name = Some f ->
  preserves console_shrinks (call_with_kwargs called_as f kwargs).
Proof.
  intro Hf. unfold call_with_kwargs.
  destruct (unexpected_keyword (parameters f) kwargs);
    [apply preserves_raise; exact _|].
  destruct (bind_parameters called_as (parameters f) kwargs) as [e|values];
    [apply preserves_raise; exact _|].
  unfold available_tools_python_functions in Hf. simpl in Hf.
  repeat match type of Hf with
         | (if ?b then _ else _) = _ =>
             destruct b; [injection Hf as <-; simpl|]
         end;
    try discriminate;
    auto using execute_shell_command_console, start_console, stop_console,
      read_file_console, write_file_console, list_console, delete_console,
      ask_console.
Qed.

Lemma initialize_session_console :
  preserves console_shrinks initialize_global_chat_session.
Proof. unfold initialize_global_chat_session. console. Qed.

Lemma adopt_new_project_console (project_name : string)
  (result actual_exec_dir : pyval) (d : dispatching) :
  preserves console_shrinks
    (adopt_new_project project_name result actual_exec_dir d).
Proof.
  unfold adopt_new_project, py_path_join_any.
  repeat first [ apply initialize_session_console
               | keeps_step console_unread ].
Qed.

Lemma dispatch_ng_new_console (n : string) (f : tool_function) (a : dict)
  (d : dispatching) :
  registry_find available_tools_python_functions n = Some f ->
  preserves console_shrinks (dispatch_ng_new f a d).
Proof.
  intro Hf. unfold dispatch_ng_new.
  assert (Hcall : forall kwargs,
             preserves console_shrinks
               (call_with_kwargs "execute_shell_command" f kwargs)).
  { intro kwargs. now apply (registered_tool_console n). }
  repeat first
    [ apply Hcall | apply input_console | apply adopt_new_project_console
    | keeps_step console_unread ].
Qed.

Lemma execute_call_console (n : string) (a : dict) (d : dispatching) :
  preserves console_shrinks (execute_call n a d).
Proof.
  unfold execute_call.
  destruct (registry_find available_tools_python_functions n) as [f|] eqn:Hf;
    [|console].
  apply preserves_bind; [exact _ | | intro is_new].
  - destruct (n =? "execute_shell_command"); unfold py_in; console.
  - destruct is_new.
    + now apply (dispatch_ng_new_console n).
    + apply preserves_bind; [exact _ | | intro; apply preserves_ret; exact _].
      now apply (registered_tool_console n).
Qed.

Lemma dispatch_console (c : string * dict) (d : dispatching) :
  preserves console_shrinks (dispatch c d).
Proof.
  unfold dispatch. destruct c as [n a].
  repeat first [ apply execute_call_console | keeps_step console_unread ].
Qed.

Lemma dispatch_all_console (calls : list (string * dict)) :
  forall d : dispatching, preserves console_shrinks (dispatch_all calls d).
Proof.
  induction calls as [|c calls IH]; intro d; cbn [dispatch_all].
  - apply preserves_ret; exact _.
  - apply preserves_bind; [exact _ | apply dispatch_console | exact IH].
Qed.

Lemma answer_calls_console (calls : list (string * dict)) (r : recovery) :
  preserves console_shrinks (answer_calls calls r).
Proof.
  unfold answer_calls, append_turn.
  repeat first [ apply dispatch_all_console | keeps_step console_unread ].
Qed.

Lemma send_message_console (message : list part) :
  preserves console_shrinks (send_message message).
Proof. unfold send_message. console. Qed.

Lemma send_tool_results_console (d : dispatching) :
  preserves console_shrinks (send_tool_results d).
Proof.
  unfold send_tool_results, append_turn.
  repeat first [ apply send_message_console | keeps_step console_unread ].
Qed.

Lemma tool_loop_console (fuel : nat) :
  forall r : recovery, preserves console_shrinks (tool_loop fuel r).
Proof.
  induction fuel as [|fuel IH]; intro r; cbn [tool_loop].
  - apply preserves_ret; exact _.
  - repeat first
      [ apply answer_calls_console | apply send_tool_results_console
      | apply IH | keeps_step console_unread ].
Qed.

Lemma process_user_command_console (user_input : string) :
  preserves console_shrinks (process_user_command user_input).
Proof.
  unfold process_user_command, open_turn, converse, top_level_handler,
    append_turn.
  repeat first
    [ apply initialize_session_console | apply send_message_console
    | apply tool_loop_console | keeps_step console_unread ].
Qed.

(** The command line does not run out of fuel that exceeds the lines
    left on the console. *)
Lemma command_loop_fuel (fuel : nat) :
  forall w w' : world,
    length (stdin w) < fuel ->
    command_loop fuel w <> Returns NoMoreFuel w'.
Proof.
  induction fuel as [|fuel IH]; intros w w' Hlen; [lia|].
  cbn [command_loop]. unfold bind at 1. unfold get at 1. cbv beta iota.
  unfold bind at 1. unfold input, bind, emit, modify, get.
  cbn [stdin set_trace].
  destruct (stdin w) as [|l rest] eqn:Es; [unfold raise; discriminate|].
  unfold ret at 1.
  destruct (lower l =? "exit"); [unfold ret; discriminate|].
  match goal with
  | |- context [set_stdin rest ?w0] => set (w1 := set_stdin rest w0)
  end.
  assert (Hw1 : length (stdin w1) < fuel) by (cbn in *; lia).
  destruct (strip l =? ""); [now apply IH|].
  pose proof (process_user_command_console l w1) as Hc.
  unfold console_shrinks in Hc.
  destruct (process_user_command l w1) as [e w2|x w2]; [|discriminate].
  cbn [world_of] in Hc. apply IH. lia.
Qed.

Lemma startup_keeps_server : preserves (keeps NG_SERVE_PROCESS) startup.
Proof.
  unfold startup, ask_initial_project_path, input,
    initialize_global_chat_session.
  keeps_field.
Qed.

(** What the [finally] of the script does to a server that is alive. *)
Lemma terminate_at_exit_sends (w : world) :
  NG_SERVE_PROCESS (world_of (terminate_at_exit w)) = NG_SERVE_PROCESS w
  /\ forall running_pid : Z,
       alive_pid (NG_SERVE_PROCESS w) = Some running_pid ->
       In (EvTerminate running_pid) (trace (world_of (terminate_at_exit w))).
Proof.
  unfold terminate_at_exit, bind, get.
  destruct (alive_pid (NG_SERVE_PROCESS w)) as [p|].
  - unfold wait_for_exit, print, emit, modify, bind, get, ret.
    cbn [wait_script set_trace].
    destruct (wait_script w) as [|[| |x] rest]; unfold raise;
      cbn [world_of NG_SERVE_PROCESS trace set_trace set_wait_script];
      (split; [reflexivity|]); intros q [= <-];
      rewrite ?in_app_iff; cbn [In]; tauto.
  - unfold print, emit, modify, ret. cbn. split; [reflexivity | discriminate].
Qed.

(** X22.  However a run of the script ends, by [exit] or by an
    exception such as the end of the console input, its command line has
    not gone on for ever, and a server that is still alive at that moment
    has been sent the signal to terminate. *)
Theorem script_ends_with_the_server_terminated (w : world) :
  (forall w' : world, script w <> Returns NoMoreFuel w')
  /\ forall running_pid : Z,
       alive_pid (NG_SERVE_PROCESS (world_of (script w))) = Some running_pid ->
       In (EvTerminate running_pid) (trace (world_of (script w))).
Proof.
  remember (script w) as o eqn:Ho.
  unfold script, bind, modify in Ho.
  set (w0 := globals_at_import w) in Ho.
  assert (Hnone : NG_SERVE_PROCESS w0 = None) by reflexivity.
  unfold main in Ho. unfold bind at 1 in Ho.
  pose proof (startup_keeps_server w0) as Hkeep. unfold keeps in Hkeep.
  destruct (startup w0) as [[] w1|x w1]; cbn [world_of] in Hkeep.
  2:{ subst o. split; [discriminate|]. cbn [world_of]. rewrite Hkeep, Hnone.
      discriminate. }
  unfold bind, get, try_finally in Ho.
  pose proof (command_loop_fuel (S (length (stdin w1))) w1) as Hfuel.
  destruct (command_loop (S (length (stdin w1))) w1) as [e w2|x w2];
    destruct (terminate_at_exit_sends w2) as [Hsame Hsent];
    destruct (terminate_at_exit w2) as [[] w3|y w3];
    subst o; cbn [world_of] in *;
    (split; [|intros p Hp; apply Hsent; now rewrite <- Hsame]);
    try discriminate.
  intros w' [= -> _]. apply (Hfuel w2); [lia | reflexivity].
Qed.

(** A run of the script in which the server is started and the operator
    leaves: the server is alive at the end and has been told to
    terminate. *)
Example the_server_is_terminated_at_exit :
  (exists w' : world, serving_session = Returns UserExit w')
  /\ alive_pid (NG_SERVE_PROCESS (world_of serving_session)) = Some 5151%Z
  /\ In (EvTerminate 5151) (trace (world_of serving_session)).
Proof.
  split; [eexists; reflexivity|]. split; [reflexivity|].
  vm_compute. tauto.
Qed.

(** ** The command line *)

Lemma exit_letters (c : ascii) :
  In (lower_char c) ["e"; "x"; "i"; "t"]%char ->
  In c ["e"; "x"; "i"; "t"; "E"; "X"; "I"; "T"]%char.
Proof.
  destruct c as [[] [] [] [] [] [] [] []]; vm_compute;
    intuition (discriminate || auto).
Qed.

(** A line that reads [exit] in lower case is not blank. *)
Lemma exit_is_not_blank (l : string) :
  lower l = "exit" -> is_blank l = false.
Proof.
  destruct l as [|c1 [|c2 [|c3 [|c4 [|c5 l]]]]]; try discriminate.
  cbn [lower]. intros [= H1 H2 H3 H4].
  assert (I1 : In (lower_char c1) ["e"; "x"; "i"; "t"]%char)
    by (rewrite H1; cbn; tauto).
  assert (I2 : In (lower_char c2) ["e"; "x"; "i"; "t"]%char)
    by (rewrite H2; cbn; tauto).
  assert (I3 : In (lower_char c3) ["e"; "x"; "i"; "t"]%char)
    by (rewrite H3; cbn; tauto).
  assert (I4 : In (lower_char c4) ["e"; "x"; "i"; "t"]%char)
    by (rewrite H4; cbn; tauto).
  apply exit_letters in I1, I2, I3, I4.
  cbn [In] in I1, I2, I3, I4.
  repeat match goal with
         | H : _ \/ _ |- _ => destruct H as [<-|H]
         | H : False |- _ => destruct H
         end; reflexivity.
Qed.

(** Blank lines and then [exit]: every line is read, and nothing happens
    but the prompts. *)
Lemma command_loop_idle (goodbye : string) (rest : list string) :
  lower goodbye = "exit" ->
  forall (blanks : list string) (fuel : nat) (w : world),
    forallb is_blank blanks = true ->
    stdin w = (blanks ++ goodbye :: rest)%list ->
    length blanks < fuel ->
    exists events : list event,
      command_loop fuel w
      = Returns UserExit (set_stdin rest (set_trace (trace w ++ events) w))
      /\ forallb is_console_event events = true.
Proof.
  intros Hbye blanks.
  induction blanks as [|l blanks IH]; intros fuel w Hblank Hin Hfuel;
    (destruct fuel as [|fuel]; [cbn in Hfuel; lia|]);
    destruct w as [cpp0 proc h cs root here lines0 rs ps ws ls tr];
    cbn [stdin] in Hin; subst lines0;
    cbn [command_loop]; unfold bind at 1; unfold get at 1; cbv beta iota;
    unfold bind at 1; unfold input, bind, emit, modify, get;
    cbn [stdin set_trace trace app]; unfold ret at 1.
  - rewrite Hbye. cbn [String.eqb Ascii.eqb Bool.eqb]. unfold ret.
    eexists. split; reflexivity.
  - cbn [forallb] in Hblank. apply andb_true_iff in Hblank as [Hl Hblank].
    destruct (lower l =? "exit") eqn:El.
    { apply String.eqb_eq, exit_is_not_blank in El. congruence. }
    unfold is_blank in Hl. rewrite Hl.
    match goal with
    | |- context [command_loop fuel ?w0] =>
        destruct (IH fuel w0 Hblank) as (events & -> & Hev)
    end.
    + reflexivity.
    + cbn [length] in Hfuel. lia.
    + eexists. split.
      * cbn [set_stdin set_trace trace]. rewrite <- app_assoc.
        reflexivity.
      * cbn [app forallb is_console_event]. exact Hev.
Qed.

(** The start of the script reads one line and starts the chat. *)
Lemma startup_reads_one_line (path : string) (lines : list string) (w : world) :
  stdin w = path :: lines ->
  exists (w' : world) (events : list event),
    startup w = Returns tt w'
    /\ stdin w' = lines
    /\ llm_script w' = llm_script w
    /\ fs w' = fs w
    /\ NG_SERVE_PROCESS w' = NG_SERVE_PROCESS w
    /\ trace w' = (trace w ++ events)%list
    /\ forallb is_console_event events = true.
Proof.
  intro Hin.
  unfold startup, ask_initial_project_path, initialize_global_chat_session,
    input, print, emit, bind, modify, get, ret.
  cbn [stdin set_trace]. rewrite Hin. cbv beta iota.
  destruct w as [cpp0 proc h cs root here lines0 rs ps ws ls tr].
  repeat (cbv beta iota;
          cbn [set_stdin set_trace trace fs cwd CURRENT_PROJECT_PATH
                 set_CURRENT_PROJECT_PATH set_chat_session set_history
                 conversation_history_for_this_run];
          match goal with
          | |- context [if ?c then _ else _] => destruct c
          end).
  all: eexists; eexists; (split; [reflexivity|]);
    cbn [set_stdin set_trace trace fs cwd CURRENT_PROJECT_PATH stdin
           llm_script NG_SERVE_PROCESS
           set_CURRENT_PROJECT_PATH set_chat_session set_history
           conversation_history_for_this_run];
    do 4 (split; [reflexivity|]);
    rewrite <- ?app_assoc; cbn [app]; (split; [reflexivity|reflexivity]).
Qed.

(** X23.  An operator who, after naming the project, only presses Enter
    and then types [exit] in any mix of upper and lower case ends the
    script normally: every line up to [exit] is read and none after it,
    nothing is sent to the model, no tool is requested, no command is run,
    and the files are as they were. *)
Theorem idle_session_sends_nothing (path goodbye : string)
  (blanks rest : list string) (w : world) :
  stdin w = (path :: blanks ++ goodbye :: rest)%list ->
  forallb is_blank blanks = true ->
  lower goodbye = "exit" ->
  exists (w' : world) (events : list event),
    script w = Returns UserExit w'
    /\ stdin w' = rest
    /\ llm_script w' = llm_script w
    /\ fs w' = fs w
    /\ trace w' = (trace w ++ events)%list
    /\ forallb is_console_event events = true.
Proof.
  intros Hin Hblank Hbye.
  unfold script, main. unfold bind at 1. unfold modify at 1.
  unfold bind at 1.
  destruct (startup_reads_one_line path (blanks ++ goodbye :: rest)
              (globals_at_import w))
    as (w1 & ev1 & -> & Hin1 & Hllm & Hfs & Hproc & Htr & Hev1).
  { destruct w; exact Hin. }
  unfold bind at 1. unfold get at 1. cbv beta iota. unfold try_finally.
  rewrite Hin1.
  destruct (command_loop_idle goodbye rest Hbye blanks
              (S (length (blanks ++ goodbye :: rest))) w1 Hblank Hin1)
    as (ev2 & -> & Hev2).
  { rewrite length_app. cbn [length]. lia. }
  unfold terminate_at_exit, bind, get, print, emit, modify, ret.
  cbn [NG_SERVE_PROCESS set_stdin set_trace]. 
  replace (NG_SERVE_PROCESS (set_stdin rest (set_trace (trace w1 ++ ev2) w1)))
    with (NG_SERVE_PROCESS w1) by (destruct w1; reflexivity).
  rewrite Hproc. 
  replace (NG_SERVE_PROCESS (globals_at_import w)) with (@None popen)
    by (destruct w; reflexivity).
  cbn [alive_pid]. cbv beta iota.
  do 2 eexists. split; [reflexivity|].
  destruct w1 as [cpp1 proc1 h1 cs1 root1 here1 lines1 rs1 ps1 ws1 ls1 tr1].
  destruct w as [cpp0 proc h cs root here lines0 rs ps ws ls tr].
  cbn in Hllm, Hfs, Htr |- *. subst.
  repeat (split; [reflexivity|]).
  split; [rewrite <- !app_assoc; reflexivity|].
  rewrite !forallb_app, Hev1, Hev2. reflexivity.
Qed.

(** An instance of X23: the project, two blank lines and [Exit]. *)
Lemma an_idle_session :
  (stdin idle_operator = ("/proj" :: [""; "   "] ++ "Exit" :: ["never read"])%list
   /\ forallb is_blank [""; "   "] = true
   /\ lower "Exit" = "exit")
  /\ exists (w' : world) (events : list event),
       script idle_operator = Returns UserExit w'
       /\ stdin w' = ["never read"]
       /\ llm_script w' = llm_script idle_operator
       /\ fs w' = fs idle_operator
       /\ trace w' = (trace idle_operator ++ events)%list
       /\ forallb is_console_event events = true.
Proof.
  split; [repeat split; reflexivity|].
  apply (idle_session_sends_nothing "/proj" "Exit" [""; "   "] ["never read"]
           idle_operator); reflexivity.
Defined.

Lemma tool_adopts_new_project (cmd dir name out err : string) (fs' : node)
  (rest : list run_outcome) (w : world) :
  contains "ng new" cmd = true ->
  ng_new_project_name (py_split_ws cmd) = Some name ->
  dir <> "" ->
  run_script w = RunCompleted out err 0 fs' :: rest ->
  os_path_isdir fs' (cwd w) (os_path_join dir name) = true ->
  exists (lines : list event) (result : dict),
    execute_shell_command (VStr cmd) (VStr dir) w
    = Returns (VDict result)
        (set_trace (trace w ++ lines)
           (set_CURRENT_PROJECT_PATH (Some (os_path_join dir name))
              (set_fs fs' (set_run_script rest w))))
    /\ dict_get result "exit_code" VNone = VInt 0
    /\ forall history : list turn, ~ In (EvStartChat history) lines.
Proof.
  intros Hnew Hname Hdir Hrun Hisdir.
  destruct w as [cpp0 proc h cs root here lines0 rs ps ws ls tr].
  cbn [run_script cwd] in Hrun, Hisdir. subst rs.
  apply String.eqb_neq in Hdir.
  unfold execute_shell_command, subprocess_run, try_except, py_in,
    py_split_method, print, emit, bind, modify, get, ret.
  cbn [py_contains]. rewrite Hnew. cbv beta iota.
  cbn [set_trace trace run_script set_run_script set_fs fs cwd py_truthy].
  rewrite Hdir. cbn [negb andb Z.eqb]. cbv beta iota.
  rewrite Hname.
  destruct (negb (err =? "")); cbv beta iota;
    cbn [set_trace trace run_script set_run_script set_fs fs cwd
           set_CURRENT_PROJECT_PATH];
    rewrite Hisdir; cbv beta iota;
    cbn [set_trace trace run_script set_run_script set_fs fs cwd
           set_CURRENT_PROJECT_PATH];
    rewrite <- ?app_assoc; cbn [app];
    do 2 eexists; (split; [reflexivity|]); (split; [reflexivity|]);
    intros history Hin; cbn [In] in Hin;
    repeat (destruct Hin as [Hin|Hin]; [discriminate Hin|]); exact Hin.
Qed.

(** X24.  [ng new] with a working directory, when the command succeeds
    and both the tool and the loop read the same project name from it: the
    new project becomes the project path, but it is the tool that adopts
    it, so the loop finds the path unchanged and the chat session is not
    started again.  The session and the transcript stay as they were, with
    the system prompt of the old project path. *)
Theorem ng_new_keeps_the_running_session
  (cmd dir name before after out err : string) (more : list string)
  (fs' : node) (rest : list run_outcome) (d : dispatching) (w : world) :
  contains "ng new" cmd = true ->
  py_split cmd "ng new" = (before :: after :: more)%list ->
  hd "" (py_split (strip after) " ") = name ->
  ng_new_project_name (py_split_ws cmd) = Some name ->
  dir <> "" ->
  run_script w = RunCompleted out err 0 fs' :: rest ->
  os_path_isdir fs' (cwd w) (os_path_join dir name) = true ->
  exists (executed : execution) (w' : world),
    execute_call "execute_shell_command"
      [("command", VStr cmd); ("working_directory", VStr dir)] d w
    = Returns executed w'
    /\ CURRENT_PROJECT_PATH w' = Some (os_path_join dir name)
    /\ chat_session w' = chat_session w
    /\ conversation_history_for_this_run w'
       = conversation_history_for_this_run w
    /\ call_in_transcript executed = turn_in_transcript d
    /\ forall history : list turn,
         In (EvStartChat history) (trace w') ->
         In (EvStartChat history) (trace w).
Proof.
  intros Hnew Hsplit Hloop Htool Hdir Hrun Hisdir.
  unfold execute_call.
  change (registry_find available_tools_python_functions
            "execute_shell_command")
    with (Some registered_execute_shell_command).
  cbv beta iota. cbn [String.eqb Ascii.eqb Bool.eqb].
  change (dict_get [("command", VStr cmd); ("working_directory", VStr dir)]
            "command" (VStr "")) with (VStr cmd).
  unfold py_in. cbn [py_contains]. rewrite Hnew.
  unfold bind at 1. unfold ret at 1. cbv beta iota.
  unfold dispatch_ng_new.
  change (dict_get [("command", VStr cmd); ("working_directory", VStr dir)]
            "command" VNone) with (VStr cmd).
  change (dict_get [("command", VStr cmd); ("working_directory", VStr dir)]
            "working_directory" VNone) with (VStr dir).
  unfold bind at 1. unfold ret at 1. cbv beta iota zeta.
  rewrite Hsplit. cbv beta iota. rewrite Hloop.
  cbn [py_truthy]. apply String.eqb_neq in Hdir. rewrite Hdir. cbn [negb].
  change (call_with_kwargs "execute_shell_command"
            registered_execute_shell_command
            [("command", VStr cmd); ("working_directory", VStr dir)])
    with (execute_shell_command (VStr cmd) (VStr dir)).
  unfold bind at 1. unfold bind at 1. unfold print at 1, emit, modify.
  cbv beta iota. unfold bind at 1.
  match goal with
  | |- context [execute_shell_command _ _ ?w0] =>
      destruct (tool_adopts_new_project cmd dir name out err fs' rest w0
                  Hnew Htool) as (lines & result & -> & Hcode & Hlines)
  end.
  { now apply String.eqb_neq. }
  { destruct w; exact Hrun. }
  { destruct w; exact Hisdir. }
  unfold ret at 1. cbv beta iota. cbn [fst snd].
  unfold adopt_new_project. cbn [result_get py_truthy]. rewrite Hcode, Hdir.
  cbn [py_eq Z.eqb negb andb]. rewrite andb_true_r.
  destruct w as [cpp0 proc h cs root here lines0 rs ps ws ls tr].
  cbn [cwd] in Hisdir.
  destruct (name =? ""); cbn [negb]; cbv beta iota.
  - unfold bind, ret. do 2 eexists. split; [reflexivity|].
    cbn [CURRENT_PROJECT_PATH chat_session conversation_history_for_this_run
           call_in_transcript trace set_trace set_CURRENT_PROJECT_PATH
           set_fs set_run_script].
    repeat (split; [reflexivity|]).
    intros history Hin. rewrite !in_app_iff in Hin. cbn [In] in Hin.
    destruct Hin as [[Hin|[Hin|[]]]|Hin];
      [exact Hin | discriminate Hin | now apply Hlines in Hin].
  - unfold py_path_join_any, print, emit, bind, modify, get, ret.
    cbn [fs cwd set_trace set_CURRENT_PROJECT_PATH set_fs set_run_script
           CURRENT_PROJECT_PATH trace].
    rewrite Hisdir. cbv beta iota.
    cbn [fs cwd set_trace set_CURRENT_PROJECT_PATH set_fs set_run_script
           CURRENT_PROJECT_PATH trace path_value py_eq].
    rewrite String.eqb_refl. cbn [negb]. cbv beta iota.
    do 2 eexists. split; [reflexivity|].
    cbn [CURRENT_PROJECT_PATH chat_session conversation_history_for_this_run
           call_in_transcript trace set_trace set_CURRENT_PROJECT_PATH
           set_fs set_run_script snd].
    repeat (split; [reflexivity|]).
    intros history Hin. rewrite !in_app_iff in Hin. cbn [In] in Hin.
    destruct Hin as [[[Hin|[Hin|[]]]|Hin]|[Hin|[]]];
      [exact Hin | discriminate Hin | now apply Hlines in Hin
      | discriminate Hin].
Qed.

(** An instance of X24: [ng new shop --routing] at the root, in a session
    on the project at [/proj]. *)
Lemma ng_new_shop_keeps_the_session :
  chat_session shop_world = Some []
  /\ CURRENT_PROJECT_PATH shop_world = Some "/proj"
  /\ exists (executed : execution) (w' : world),
       execute_call "execute_shell_command"
         [("command", VStr "ng new shop --routing");
          ("working_directory", VStr "/")]
         (Dispatching [] no_recovery 0 true) shop_world
       = Returns executed w'
       /\ CURRENT_PROJECT_PATH w' = Some (os_path_join "/" "shop")
       /\ chat_session w' = chat_session shop_world
       /\ conversation_history_for_this_run w'
          = conversation_history_for_this_run shop_world
       /\ call_in_transcript executed = true
       /\ forall history : list turn,
            In (EvStartChat history) (trace w') ->
            In (EvStartChat history) (trace shop_world).
Proof.
  split; [reflexivity|]. split; [reflexivity|].
  apply (ng_new_keeps_the_running_session
           "ng new shop --routing" "/" "shop" "" " shop --routing"
           "CREATE shop/angular.json" "" []
           (Dir [("proj", Dir [("a.txt", File (Some "hello"))]);
                 ("etc", Dir [("passwd", File (Some "root:x:0:0"))]);
                 ("shop", Dir [("angular.json", File (Some "{}"))])])
           [] (Dispatching [] no_recovery 0 true) shop_world);
    first [reflexivity | discriminate].
Defined.

(** ** What changes the files *)

Ltac keeps_files_view :=
  unfold keeps, files_view;
  cbn [fs trace set_trace set_fs set_stdin set_run_script set_wait_script
         set_NG_SERVE_PROCESS set_history set_chat_session
         set_CURRENT_PROJECT_PATH set_llm_script];
  rewrite ?filter_app; cbn [filter is_run_event]; rewrite ?app_nil_r;
  reflexivity.

Ltac keeps_files := repeat keeps_step keeps_files_view.

Lemma stop_keeps_files : preserves (keeps files_view) stop_angular_server.
Proof. unfold stop_angular_server, wait_for_exit. keeps_files. Qed.

Lemma read_file_keeps_files (relative_filepath : pyval) :
  preserves (keeps files_view) (read_file relative_filepath).
Proof. unfold read_file, py_path_join. keeps_files. Qed.

Lemma list_keeps_files (relative_path : pyval) :
  preserves (keeps files_view) (list_directory_contents relative_path).
Proof. unfold list_directory_contents, py_path_join. keeps_files. Qed.

Lemma ask_until_answered_keeps_files (prompt : string) (lines : list string) :
  preserves (keeps files_view) (ask_until_answered prompt lines).
Proof.
  induction lines as [|l rest IH]; simpl.
  - keeps_files.
  - repeat first [ exact IH | keeps_step keeps_files_view ].
Qed.

Lemma ask_keeps_files (prompt_message : pyval) :
  preserves (keeps files_view) (ask_user_confirmation prompt_message).
Proof.
  unfold ask_user_confirmation.
  repeat first [ apply ask_until_answered_keeps_files
               | keeps_step keeps_files_view ].
Qed.

Lemma reading_tool_keeps_files (name : string) (f : tool_function)
  (kwargs : dict) :
  registry_find available_tools_python_functions name = Some f ->
  (name =? "execute_shell_command") = false ->
  (name =? "start_angular_serve_and_get_initial_output") = false ->
  (name =? "write_file") = false ->
  (name =? "delete_file_or_directory") = false ->
  preserves (keeps files_view) (call_with_kwargs name f kwargs).
Proof.
  intros Hf Hshell Hstart Hwrite Hdelete. unfold call_with_kwargs.
  destruct (unexpected_keyword (parameters f) kwargs);
    [apply preserves_raise; exact _|].
  destruct (bind_parameters name (parameters f) kwargs) as [e|values];
    [apply preserves_raise; exact _|].
  unfold available_tools_python_functions in Hf. cbn [registry_find] in Hf.
  rewrite Hshell, Hstart, Hwrite, Hdelete in Hf.
  repeat match type of Hf with
         | (if ?b then _ else _) = _ =>
             destruct b; [injection Hf as <-; simpl|]
         end;
    try discriminate;
    auto using stop_keeps_files, read_file_keeps_files, list_keeps_files,
      ask_keeps_files.
Qed.

(** X25.  The tools that read do not write.  The execution of a
    requested call of [read_file], [list_directory_contents],
    [ask_user_confirmation] or [stop_angular_server], or of a tool that is
    not registered, whatever its arguments and its outcome, leaves every
    file and directory as it was and runs no command. *)
Theorem reading_tools_change_no_file (tool_name : string)
  (tool_args_dict : dict) (d : dispatching) (w : world) :
  tool_name <> "execute_shell_command" ->
  tool_name <> "start_angular_serve_and_get_initial_output" ->
  tool_name <> "write_file" ->
  tool_name <> "delete_file_or_directory" ->
  fs (world_of (execute_call tool_name tool_args_dict d w)) = fs w
  /\ filter is_run_event
       (trace (world_of (execute_call tool_name tool_args_dict d w)))
     = filter is_run_event (trace w).
Proof.
  intros Hshell Hstart Hwrite Hdelete.
  apply String.eqb_neq in Hshell, Hstart, Hwrite, Hdelete.
  assert (H : preserves (keeps files_view)
                (execute_call tool_name tool_args_dict d)).
  { unfold execute_call.
    destruct (registry_find available_tools_python_functions tool_name)
      as [f|] eqn:Hf; [|keeps_files].
    rewrite Hshell.
    apply preserves_bind_ret. cbv beta iota.
    apply preserves_bind; [exact _ | | intro; apply preserves_ret; exact _].
    now apply reading_tool_keeps_files.
  }
  specialize (H w). unfold keeps, files_view in H. now injection H.
Qed.

(** An instance of X25: a file is read in the project at [/proj]. *)
Lemma reading_leaves_the_files :
  fs (world_of (execute_call "read_file"
                  [("relative_filepath", VStr "a.txt")]
                  (Dispatching [] no_recovery 0 true) example_world))
  = example_fs.
Proof.
  refine (proj1 (reading_tools_change_no_file "read_file"
                   [("relative_filepath", VStr "a.txt")]
                   (Dispatching [] no_recovery 0 true) example_world
                   _ _ _ _));
    discriminate.
Defined.

(** ** Errors and a later success in the monitoring *)

Lemma drain_stderr_unfinished (queue : list string) :
  forall (st : string) (collected : list string),
    st <> "compiled_successfully" ->
    fst (drain_stderr queue st collected) <> "compiled_successfully".
Proof.
  induction queue as [|line queue IH]; intros st collected Hst;
    cbn [drain_stderr fst]; [exact Hst|].
  apply IH. destruct (contains "ERROR" line || contains "Error" line);
    [discriminate | exact Hst].
Qed.

(** Passes without exit and without success marker add their lines and
    leave a status that is not the one of a success. *)
Lemma monitor_while_compiling (q more : list snapshot) :
  forallb still_compiling q = true ->
  forall (st : string) (out err : list string),
    st <> "compiled_successfully" ->
    exists st' : string,
      st' <> "compiled_successfully"
      /\ monitor (q ++ more) (Monitoring st [] [] out err false)
         = monitor more
             (Monitoring st' [] []
                (out ++ queued_stdout q) (err ++ queued_stderr q) false).
Proof.
  induction q as [|s q IH]; intros H st out err Hst.
  - exists st. cbn. now rewrite !app_nil_r.
  - cbn [forallb] in H. apply andb_prop in H as [Hq Hw].
    unfold still_compiling in Hq. apply andb_prop in Hq as [Hex Hout].
    apply negb_true_iff in Hex.
    cbn [app monitor stdout_queue stderr_queue status collected_stdout
           collected_stderr].
    rewrite Hex. cbn [app].
    rewrite (drain_stdout_quiet _ _ _ Hout).
    pose proof (drain_stderr_unfinished
                  (_read_stream_to_queue_and_print (snap_stderr s) "stderr" [] false)
                  st err Hst) as Hst2.
    pose proof (drain_stderr_all
                  (_read_stream_to_queue_and_print (snap_stderr s) "stderr" [] false)
                  st err) as Herr.
    destruct (drain_stderr _ st err) as [status2 err2].
    cbn [fst snd] in Hst2, Herr. subst err2.
    apply String.eqb_neq in Hst2. rewrite Hst2.
    apply String.eqb_neq in Hst2.
    destruct (IH Hw status2
                (out ++ _read_stream_to_queue_and_print (snap_stdout s) "stdout" [] false)%list
                (err ++ _read_stream_to_queue_and_print (snap_stderr s) "stderr" [] false)%list
                Hst2) as (st' & Hst' & ->).
    exists st'. split; [exact Hst'|].
    unfold queued_stdout, queued_stderr. cbn [flat_map].
    now rewrite !app_assoc.
Qed.

(** X26.  An error marker on the standard error does not end the
    monitoring, and a later success makes the tool forget it.  When, after
    passes that found the process alive and no success marker, whatever
    the process wrote to its standard error in them, a pass finds the
    process alive, a success marker in a line of its standard output and
    no error marker in the lines of its standard error, the start tool
    reports [compiled_successfully], and the loop does not take the result
    for a failure. *)
Theorem later_success_forgets_the_errors (command : string)
  (working_directory duration : pyval) (w : world) (new_pid : Z)
  (window : list snapshot) (late_out late_err : list string)
  (rest : list popen_outcome) (before after : list snapshot) (s : snapshot) :
  (working_directory = VNone \/ exists dir, working_directory = VStr dir) ->
  working_directory_known working_directory w = true ->
  server_running w = false ->
  popen_script w = Spawned new_pid window late_out late_err :: rest ->
  passes_of_window duration window = Some (before ++ s :: after)%list ->
  forallb still_compiling before = true ->
  snap_exited s = false ->
  existsb has_success_marker
    (_read_stream_to_queue_and_print (snap_stdout s) "stdout" [] false) = true ->
  forallb (fun line => negb (has_error_marker line))
    (_read_stream_to_queue_and_print (snap_stderr s) "stderr" [] false) = true ->
  exists (result : pyval) (w' : world),
    start_angular_serve_and_get_initial_output (VStr command)
      working_directory duration w
    = Returns result w'
    /\ result_get result "status" VNone = VStr "compiled_successfully"
    /\ NG_SERVE_PROCESS w' = Some (Popen new_pid false)
    /\ forall args : dict,
         classify "start_angular_serve_and_get_initial_output" args result
         = (false, VNone).
Proof.
  intros Hwd Hk Hr Hp Hpass Hq Hs Hmark Herr.
  destruct (monitored_start command _ _ _ _ _ _ _ _ _ Hwd Hk Hr Hp Hpass)
    as (result & w' & lines & resolved & Hstart & Hstatus & _ & _ & _
        & Hproc & _).
  unfold monitoring_begins in *.
  destruct (monitor_while_compiling before (s :: after) Hq "compiling" [] [])
    as (st' & Hst' & Hmon); [discriminate|].
  rewrite Hmon in Hstatus, Hproc.
  cbn [monitor stdout_queue stderr_queue status collected_stdout
         collected_stderr app] in Hstatus, Hproc.
  rewrite Hs in Hstatus, Hproc.
  pose proof (drain_stdout_marker _ Hmark st' (queued_stdout before)) as Hd.
  revert Hstatus Hproc.
  destruct (drain_stdout _ st' (queued_stdout before))
    as [[out_q' status1] out].
  cbn [fst snd] in Hd. subst status1.
  rewrite (drain_stderr_quiet _ _ _ Herr).
  cbn [String.eqb Ascii.eqb Bool.eqb status polled_exit].
  intros Hstatus Hproc.
  exists result, w'. split; [exact Hstart|]. split; [exact Hstatus|].
  split; [exact Hproc|].
  intro args. unfold classify. rewrite Hstatus. reflexivity.
Qed.

(** An instance of X26: the first compilation reports an error on the
    standard error, the second succeeds. *)
Lemma rebuilt_start_is_compiled :
  (existsb has_error_marker
     (queued_stderr rebuilt_passes) = true
   /\ working_directory_known VNone rebuilt_world = true
   /\ server_running rebuilt_world = false)
  /\ exists (result : pyval) (w' : world),
       start_angular_serve_and_get_initial_output (VStr "ng serve") VNone
         (VInt 20) rebuilt_world
       = Returns result w'
       /\ result_get result "status" VNone = VStr "compiled_successfully"
       /\ NG_SERVE_PROCESS w' = Some (Popen 7171 false)
       /\ forall args : dict,
            classify "start_angular_serve_and_get_initial_output" args result
            = (false, VNone).
Proof.
  split; [repeat split; reflexivity|].
  apply (later_success_forgets_the_errors "ng serve" VNone (VInt 20)
           rebuilt_world 7171%Z rebuilt_passes [] [] []
           [Snapshot false
              ["- Generating browser application bundles (phase: setup)..."]
              ["Error: src/app/app.component.ts:7:3 - error TS2304: Cannot find name 'title'."]]
           [] (Snapshot false ["Compiled successfully."] []));
    solve [reflexivity | left; reflexivity].
Defined.
